(** * KiCAD command layer: placement, alignment, routing, BOM and dispatch

    A shallow embedding of the Python command handlers of the KiCAD
    interface ([python/kicad_interface.py], [python/commands/component.py],
    [python/commands/routing.py], [python/commands/export.py]) together with
    the properties of the written specification that concern them.

    Layout: Python values and exceptions, the [pcbnew] board kernel as the
    handlers use it, the handlers themselves, and then the theorems. *)

From Stdlib Require Import ZArith Floats.
From stdpp Require Import base option list strings pretty sorting.

Set Warnings "-inexact-float,-clear-no-such-hyp".
#[local] Open Scope string_scope.
#[local] Open Scope list_scope.
#[local] Open Scope Z_scope.

(** ** Python values *)

Module Py.

(** What a handler's [try] block produces: a value, or a raised exception
    carrying [str(e)]. *)
Inductive result (A : Type) : Type :=
| Return (a : A)
| Raise (e : string).
Arguments Return {A} a.
Arguments Raise {A} e.

Definition bind {A B} (m : result A) (k : A -> result B) : result B :=
  match m with
  | Return a => k a
  | Raise e => Raise e
  end.

(** A JSON number as [json.loads] delivers it: an [int] of arbitrary size or
    a binary64 [float]. *)
Inductive number : Type :=
| Int (z : Z)
| Float (f : float).

(** [float(z)] for an int: the nearest binary64, ties to even; an int beyond
    the binary64 range raises [OverflowError]. This is the conversion that
    an arithmetic operator applies to an int operand facing a float. *)
Definition float_of_int (z : Z) : result float :=
  match binary_normalize prec emax z 0 false with
  | S754_infinity _ => Raise "int too large to convert to float"
  | sf => Return (SF2Prim sf)
  end.

Definition to_float (n : number) : result float :=
  match n with
  | Int z => float_of_int z
  | Float f => Return f
  end.

(** [a * b], [a + b]: exact on two ints, binary64 as soon as one operand is
    a float. *)
Definition mul (a b : number) : result number :=
  match a, b with
  | Int x, Int y => Return (Int (x * y))
  | _, _ =>
      bind (to_float a) (fun x =>
      bind (to_float b) (fun y => Return (Float (x * y))))
  end.

Definition add (a b : number) : result number :=
  match a, b with
  | Int x, Int y => Return (Int (x + y))
  | _, _ =>
      bind (to_float a) (fun x =>
      bind (to_float b) (fun y => Return (Float (x + y))))
  end.

(** [a / b] on two ints: the quotient rounded once to the nearest binary64,
    ties to even, with the sign of a zero quotient taken from the operands.
    The quotient is computed with at least 55 significant bits and a sticky
    last bit, which rounds as the exact quotient does. *)
Definition int_truediv (a b : Z) : result float :=
  if b =? 0 then Raise "division by zero"
  else
    let negative := xorb (a <? 0) (b <? 0) in
    let s := Z.max 0 (55 + Z.log2_up (Z.abs b) - Z.log2 (Z.abs a)) in
    let n := Z.abs a * 2 ^ s in
    let q := n `div` Z.abs b in
    let sticky := if n `mod` Z.abs b =? 0 then 0 else 1 in
    let m := 2 * q + sticky in
    match binary_normalize prec emax (if negative then - m else m)
                           (- s - 1) negative with
    | S754_infinity _ =>
        Raise "integer division result too large for a float"
    | sf => Return (SF2Prim sf)
    end.

(** [a / b] in general: the division of binary64 once an operand is a
    float. *)
Definition truediv (a b : number) : result float :=
  match a, b with
  | Int x, Int y => int_truediv x y
  | _, _ =>
      bind (to_float a) (fun x =>
      bind (to_float b) (fun y =>
      if PrimFloat.eqb y 0 then Raise "float division by zero"
      else Return (x / y)%float))
  end.

(** [int(f)] on a float: truncation toward zero; infinities and NaN raise. *)
Definition trunc (f : float) : result Z :=
  match Prim2SF f with
  | S754_zero _ => Return 0
  | S754_finite s m e =>
      let mag := if 0 <=? e then Z.shiftl (Z.pos m) e
                 else Z.shiftr (Z.pos m) (- e) in
      Return (if s then - mag else mag)
  | S754_infinity _ => Raise "cannot convert float infinity to integer"
  | S754_nan => Raise "cannot convert float NaN to integer"
  end.

Definition int (n : number) : result Z :=
  match n with
  | Int z => Return z
  | Float f => trunc f
  end.

(** Truthiness, as [if x:] and [not x] test it. *)
Definition truthy_number (n : number) : bool :=
  match n with
  | Int z => negb (z =? 0)
  | Float f => negb (PrimFloat.eqb f 0)
  end.

Definition truthy_str (s : string) : bool :=
  negb (String.eqb s "").

(** [not params.get(k)] for an optional value with the given truthiness. *)
Definition truthy {A} (t : A -> bool) (o : option A) : bool :=
  match o with
  | Some a => t a
  | None => false
  end.

(** [params.get(k, d)] *)
Definition get {A} (o : option A) (d : A) : A := default d o.

(** [f"{n}"] for an int. *)
Definition str_int (n : Z) : string := pretty n.

End Py.

#[global] Instance result_ret : MRet Py.result := @Py.Return.
#[global] Instance result_bind : MBind Py.result :=
  fun A B k m => Py.bind m k.

(** ** The board kernel, as the handlers see it

    [pcbnew] is an external library. Only what the handlers call is modelled:
    a board is the ordered collection of its footprints, tracks, vias and
    nets, its layer table, its footprint library and its design settings.
    A handler holds a footprint or a track by reference; here a reference is
    the item's index in the board's list, which the handlers never keep
    across an insertion or removal. *)

Module pcbnew.

Record VECTOR2I : Type := { x : Z; y : Z }.

Record PAD : Type := { pad_name : string; pad_position : VECTOR2I }.

Record FOOTPRINT : Type := mkFOOTPRINT {
  GetReference : string;
  GetValue : string;
  GetFootprintName : string;
  GetPosition : VECTOR2I;
  GetOrientation : Py.number;
  GetLayer : Z;
  Pads : list PAD
}.

Definition SetReference (r : string) (m : FOOTPRINT) : FOOTPRINT :=
  mkFOOTPRINT r (GetValue m) (GetFootprintName m) (GetPosition m)
              (GetOrientation m) (GetLayer m) (Pads m).
Definition SetValue (v : string) (m : FOOTPRINT) : FOOTPRINT :=
  mkFOOTPRINT (GetReference m) v (GetFootprintName m) (GetPosition m)
              (GetOrientation m) (GetLayer m) (Pads m).
Definition SetFootprintName (n : string) (m : FOOTPRINT) : FOOTPRINT :=
  mkFOOTPRINT (GetReference m) (GetValue m) n (GetPosition m)
              (GetOrientation m) (GetLayer m) (Pads m).
Definition SetPosition (p : VECTOR2I) (m : FOOTPRINT) : FOOTPRINT :=
  mkFOOTPRINT (GetReference m) (GetValue m) (GetFootprintName m) p
              (GetOrientation m) (GetLayer m) (Pads m).
Definition SetOrientation (a : Py.number) (m : FOOTPRINT) : FOOTPRINT :=
  mkFOOTPRINT (GetReference m) (GetValue m) (GetFootprintName m)
              (GetPosition m) a (GetLayer m) (Pads m).
Definition SetLayer (l : Z) (m : FOOTPRINT) : FOOTPRINT :=
  mkFOOTPRINT (GetReference m) (GetValue m) (GetFootprintName m)
              (GetPosition m) (GetOrientation m) l (Pads m).
Definition AddPad (p : PAD) (m : FOOTPRINT) : FOOTPRINT :=
  mkFOOTPRINT (GetReference m) (GetValue m) (GetFootprintName m)
              (GetPosition m) (GetOrientation m) (GetLayer m) (Pads m ++ [p]).

(** [pcbnew.FOOTPRINT(board)]: an empty footprint. *)
Definition new_FOOTPRINT : FOOTPRINT :=
  mkFOOTPRINT "" "" "" {| x := 0; y := 0 |} (Py.Int 0) 0 [].

Definition FindPadByName (m : FOOTPRINT) (name : string) : option PAD :=
  List.find (fun p => String.eqb (pad_name p) name) (Pads m).

Record NETINFO_ITEM : Type := { GetNetname : string; GetNetCode : Z }.

Record PCB_TRACK : Type := mkTRACK {
  m_Uuid : string;
  GetStart : VECTOR2I;
  GetEnd : VECTOR2I;
  GetTrackLayer : Z;
  GetWidth : Z;
  GetNet : option NETINFO_ITEM
}.

Record PCB_VIA : Type := mkVIA {
  via_position : VECTOR2I;
  via_width : Z;
  via_drill : Z;
  via_layers : Z * Z;
  via_net : option NETINFO_ITEM
}.

Record BOX2I : Type :=
  { GetLeft : Z; GetTop : Z; GetRight : Z; GetBottom : Z }.

Record BOARD : Type := mkBOARD {
  GetFootprints : list FOOTPRINT;
  Tracks : list PCB_TRACK;
  Vias : list PCB_VIA;
  GetNetInfo : list NETINFO_ITEM;
  layer_table : list (string * Z);
  footprint_library : list (string * FOOTPRINT);
  GetCurrentTrackWidth : Z;
  GetCurrentViaSize : Z;
  GetCurrentViaDrill : Z;
  GetBoardEdgesBoundingBox : BOX2I;
  kiid_seed : nat
}.

Definition with_footprints (fps : list FOOTPRINT) (b : BOARD) : BOARD :=
  mkBOARD fps (Tracks b) (Vias b) (GetNetInfo b) (layer_table b)
          (footprint_library b) (GetCurrentTrackWidth b)
          (GetCurrentViaSize b) (GetCurrentViaDrill b)
          (GetBoardEdgesBoundingBox b) (kiid_seed b).

Definition with_tracks (ts : list PCB_TRACK) (seed : nat) (b : BOARD)
  : BOARD :=
  mkBOARD (GetFootprints b) ts (Vias b) (GetNetInfo b) (layer_table b)
          (footprint_library b) (GetCurrentTrackWidth b)
          (GetCurrentViaSize b) (GetCurrentViaDrill b)
          (GetBoardEdgesBoundingBox b) seed.

Definition with_vias (vs : list PCB_VIA) (b : BOARD) : BOARD :=
  mkBOARD (GetFootprints b) (Tracks b) vs (GetNetInfo b) (layer_table b)
          (footprint_library b) (GetCurrentTrackWidth b)
          (GetCurrentViaSize b) (GetCurrentViaDrill b)
          (GetBoardEdgesBoundingBox b) (kiid_seed b).

(** First entry of an association list with the given key. *)
Fixpoint assoc {A} (k : string) (l : list (string * A)) : option A :=
  match l with
  | [] => None
  | (k', a) :: l' => if String.eqb k' k then Some a else assoc k l'
  end.

(** [board.GetLayerID(name)]: the layer's id, negative when there is none. *)
Definition GetLayerID (b : BOARD) (name : string) : Z :=
  default (-1) (assoc name (layer_table b)).

(** [pcbnew.FootprintLoad(board.GetLibraryPath(), name)] *)
Definition FootprintLoad (b : BOARD) (name : string) : option FOOTPRINT :=
  assoc name (footprint_library b).

(** Index of the first element satisfying [p]. *)
Fixpoint find_index {A} (p : A -> bool) (l : list A) : option nat :=
  match l with
  | [] => None
  | a :: l' => if p a then Some 0%nat else S <$> find_index p l'
  end.

(** [board.FindFootprintByReference(ref)]: a reference to the first
    footprint carrying [ref], if any. *)
Definition FindFootprintByReference (b : BOARD) (ref : string)
  : option nat :=
  find_index (fun m => String.eqb (GetReference m) ref) (GetFootprints b).

(** [netinfo.FindNet(name)] *)
Definition FindNet (b : BOARD) (name : string) : option NETINFO_ITEM :=
  List.find (fun n => String.eqb (GetNetname n) name) (GetNetInfo b).

(** [board.Add(footprint)] *)
Definition AddFootprint (m : FOOTPRINT) (b : BOARD) : BOARD :=
  with_footprints (GetFootprints b ++ [m]) b.

(** The identifier the kernel gives the [n]-th item it creates. The real
    ones are random 128-bit ids; all that is kept is that ids created at
    different times differ. *)
Definition KIID (n : nat) : string := pretty n.

(** [t = pcbnew.PCB_TRACK(board); t.Set...; board.Add(t)] *)
Definition AddTrack (start end_ : VECTOR2I) (layer width : Z)
    (net : option NETINFO_ITEM) (b : BOARD) : BOARD :=
  with_tracks
    (Tracks b ++ [mkTRACK (KIID (kiid_seed b)) start end_ layer width net])
    (S (kiid_seed b)) b.

(** [board.Remove(track)] for the track held by reference [i]. *)
Definition RemoveTrack (i : nat) (b : BOARD) : BOARD :=
  with_tracks (delete i (Tracks b)) (kiid_seed b) b.

Definition AddVia (v : PCB_VIA) (b : BOARD) : BOARD :=
  with_vias (Vias b ++ [v]) b.

(** The footprint a reference points to. A reference obtained from
    [FindFootprintByReference] is always in range. *)
Definition deref (b : BOARD) (i : nat) : FOOTPRINT :=
  default new_FOOTPRINT (GetFootprints b !! i).

(** [board.GetLayerName(id)] *)
Definition GetLayerName (b : BOARD) (id : Z) : string :=
  default "" (fst <$> List.find (fun e => snd e =? id) (layer_table b)).

(** [module.SetPosition(p)] through a reference. *)
Definition SetPositionAt (i : nat) (p : VECTOR2I) (b : BOARD) : BOARD :=
  with_footprints (alter (SetPosition p) i (GetFootprints b)) b.

(** Any other setter of a footprint, [module.Set...(v)], through a
    reference. *)
Definition UpdateAt (f : FOOTPRINT -> FOOTPRINT) (i : nat) (b : BOARD)
  : BOARD :=
  with_footprints (alter f i (GetFootprints b)) b.

(** [board.Remove(module)] for the footprint held by reference [i]. *)
Definition RemoveFootprint (i : nat) (b : BOARD) : BOARD :=
  with_footprints (delete i (GetFootprints b)) b.

End pcbnew.

(** ** Requests and responses *)

(** A point as a request gives it: [{"x": .., "y": .., "unit": ..}]. *)
Record Point : Type := { px : Py.number; py : Py.number; unit : option string }.

(** What [_get_point] accepts: a literal point, or a pad of a component. *)
Inductive point_spec : Type :=
| Literal (p : Point)
| PadOf (componentRef pad : string).

(** The [params] object of a request, one optional entry per key the modelled
    handlers read ([None]: the key is absent, so [params.get] gives [None]). *)
Record Params : Type := mkParams {
  componentId : option string;
  position : option Point;
  reference : option string;
  value : option string;
  footprint : option string;
  rotation : option Py.number;
  layer : option string;
  pattern : option string;
  count : option Z;
  referencePrefix : option string;
  startPosition : option Point;
  rows : option Z;
  columns : option Z;
  spacingX : option Py.number;
  spacingY : option Py.number;
  references : option (list string);
  alignment : option string;
  distribution : option string;
  spacing : option Py.number;
  edge : option string;
  newReference : option string;
  traceUuid : option string;
  startPos : option point_spec;
  endPos : option point_spec;
  netPos : option string;
  netNeg : option string;
  width : option Py.number;
  gap : option Py.number;
  size : option Py.number;
  drill : option Py.number;
  net : option string;
  from_layer : option string;
  to_layer : option string;
  schematicPath : option string;
  startPoint : option (list Py.number);
  endPoint : option (list Py.number);
  center : option Point;
  radius : option Py.number;
  angleStart : option Py.number;
  angleStep : option Py.number;
  rotationOffset : option Py.number
}.

(** The empty request [{}]. *)
Definition no_params : Params :=
  mkParams None None None None None None None None None None None None None
           None None None None None None None None None None None None None
           None None None None None None None None None None None None None
           None None.

(** A placed component, as [place_component] reports it. *)
Record component_info : Type := {
  info_reference : string;
  info_value : string;
  info_position : Point;
  info_rotation : Py.number;
  info_layer : string
}.

(** One row of a bill of materials. *)
Record bom_row : Type := {
  row_value : string;
  row_footprint : string;
  row_quantity : Z;
  row_references : list string
}.

(** The fields of a response besides [success], [message], [errorDetails]. *)
Inductive payload : Type :=
| Nothing
| Component (c : component_info)
| Components (cs : list component_info)
| Aligned (cs : list (string * (float * float) * float))
| DiffPair (posNet negNet layer_ : string) (width_ : float) (gap_ : Py.number)
           (length_ : float)
| Via (position_ : Point) (size_ drill_ : float).

Record Response : Type := mkResponse {
  success : bool;
  message : option string;
  errorDetails : option string;
  data : payload
}.

Definition failure (msg details : string) : Response :=
  mkResponse false (Some msg) (Some details) Nothing.

Definition ok (msg : string) (d : payload) : Response :=
  mkResponse true (Some msg) None d.

(** The first statement of every board-backed handler. *)
Definition no_board : Response :=
  failure "No board is loaded" "Load or create a board first".

(** The conversion factor every handler writes out:
    [1000000 if unit == "mm" else 25400000]. *)
Definition scale_of (unit : string) : Z :=
  if String.eqb unit "mm" then 1000000 else 25400000.

(** [position["unit"]] *)
Definition getitem_unit (p : Point) : Py.result string :=
  match unit p with
  | Some u => Py.Return u
  | None => Py.Raise "'unit'"
  end.

(** [int(value * scale)] *)
Definition to_nm (value : Py.number) (scale : Z) : Py.result Z :=
  v ← Py.mul value (Py.Int scale);
  Py.int v.

(** The lines [scale = ...; x_nm = int(position["x"] * scale);
    y_nm = int(position["y"] * scale)] with [position["unit"]] required. *)
Definition position_to_nm (p : Point) : Py.result pcbnew.VECTOR2I :=
  u ← getitem_unit p;
  x_nm ← to_nm (px p) (scale_of u);
  y_nm ← to_nm (py p) (scale_of u);
  Py.Return {| pcbnew.x := x_nm; pcbnew.y := y_nm |}.

(** A handler starts with [if not self.board: return {...}] and runs the rest
    against the loaded board, which it may mutate. *)
Definition guarded (body : pcbnew.BOARD -> Params -> Response * pcbnew.BOARD)
    (self_board : option pcbnew.BOARD) (params : Params)
  : Response * option pcbnew.BOARD :=
  match self_board with
  | None => (no_board, None)
  | Some b => let '(r, b') := body b params in (r, Some b')
  end.

(** A [try] block runs against the board and ends by returning a value or by
    raising; either way it leaves a board behind, which holds the mutations
    made up to that point. [x ←[b] m; rest] is a statement of the block that
    evaluates [m] while the board is [b]: the rest of the block goes on with
    the value, and a raise ends the block there. *)
Definition bind_on {A R} (b : pcbnew.BOARD) (m : Py.result A)
    (rest : A -> Py.result R * pcbnew.BOARD) : Py.result R * pcbnew.BOARD :=
  match m with
  | Py.Return a => rest a
  | Py.Raise e => (Py.Raise e, b)
  end.

Notation "x ←[ b ] m ; rest" := (bind_on b m (fun x => rest))
  (at level 20, m at level 100, rest at level 200, only parsing).
Notation "' x ←[ b ] m ; rest" := (bind_on b m (fun x => rest))
  (at level 20, x pattern, m at level 100, rest at level 200, only parsing).

(** [try: ... except Exception as e: return {"success": False, "message": msg,
    "errorDetails": str(e)}] *)
Definition try_except (msg : string)
    (block : Py.result Response * pcbnew.BOARD) : Response * pcbnew.BOARD :=
  match block with
  | (Py.Return r, b) => (r, b)
  | (Py.Raise e, b) => (failure msg e, b)
  end.

(** The response of a handler whose success carries a dictionary of a shape
    [A] of its own: [{"success": False, "message": .., "errorDetails": ..}]
    or [{"success": True, "message": .., ...}]. *)
Inductive Reply (A : Type) : Type :=
| Refused (message_ errorDetails_ : string)
| Accepted (message_ : string) (data_ : A).
Arguments Refused {A} message_ errorDetails_.
Arguments Accepted {A} message_ data_.

Definition accepted {A} (r : Reply A) : bool :=
  match r with
  | Accepted _ _ => true
  | Refused _ _ => false
  end.

(** [try_except] for such a handler. *)
Definition try_reply {A} (msg : string)
    (block : Py.result (Reply A) * pcbnew.BOARD) : Reply A * pcbnew.BOARD :=
  match block with
  | (Py.Return r, b) => (r, b)
  | (Py.Raise e, b) => (Refused msg e, b)
  end.

(** What Python computes with the C library, whose results depend on the
    platform in the last bit: [math.cos], [math.sin], which raise on an
    argument outside their domain, and the power [x ** y] of two floats,
    which raises when it overflows. ([math.sqrt] is the correctly rounded
    square root of IEEE 754 and needs no library.) *)
Record Libm : Type := {
  cos : float -> Py.result float;
  sin : float -> Py.result float;
  pow : float -> float -> Py.result float
}.

(** ** [commands/component.py] *)

Module ComponentCommands.
Import pcbnew.

(** The request [_place_grid_array] and [_place_circular_array] build for
    each cell. *)
Definition cell_request (component_id : string) (position_ : Point)
    (reference_ : string) (value_ : option string) (rotation_ : Py.number)
    (layer_ : string) : Params :=
  mkParams (Some component_id) (Some position_) (Some reference_) value_
           None (Some rotation_) (Some layer_)
           None None None None None None None None None None None None None
           None None None None None None None None None None None None None
           None None None None None None None None.

(** [if s: module.Set...(s)] for an optional string of the request. *)
Definition set_if (set : string -> FOOTPRINT -> FOOTPRINT)
    (s : option string) (module : FOOTPRINT) : FOOTPRINT :=
  match s with
  | Some s => if Py.truthy_str s then set s module else module
  | None => module
  end.

Definition place_component (b : BOARD) (params : Params)
  : Response * BOARD :=
  try_except "Failed to place component" (
    let rotation_ := Py.get (rotation params) (Py.Int 0) in
    let layer_ := Py.get (layer params) "F.Cu" in
    match componentId params, position params with
    | Some component_id, Some position_ =>
        if negb (Py.truthy_str component_id) then
          (Py.Return (failure "Missing parameters"
                        "componentId and position are required"), b)
        else
          match FootprintLoad b component_id with
          | None =>
              (Py.Return (failure "Component not found"
                            ("Could not find component: " +:+ component_id)),
               b)
          | Some module =>
              p ←[b] position_to_nm position_;
              let module := SetPosition p module in
              let module := set_if SetReference (reference params) module in
              let module := set_if SetValue (value params) module in
              let module :=
                set_if SetFootprintName (footprint params) module in
              orientation ←[b] Py.mul rotation_ (Py.Int 10);
              let module := SetOrientation orientation module in
              let layer_id := GetLayerID b layer_ in
              let module :=
                if 0 <=? layer_id then SetLayer layer_id module
                else module in
              (Py.Return
                 (ok ("Placed component: " +:+ component_id)
                     (Component
                        {| info_reference := GetReference module;
                           info_value := GetValue module;
                           info_position := position_;
                           info_rotation := rotation_;
                           info_layer := layer_ |})),
               AddFootprint module b)
          end
    | _, _ =>
        (Py.Return (failure "Missing parameters"
                      "componentId and position are required"), b)
    end).

(** [if result["success"]: placed.append(result["component"])] *)
Definition append_if_placed (placed : list component_info) (r : Response)
  : list component_info :=
  if success r then
    match data r with
    | Component c => placed ++ [c]
    | _ => placed
    end
  else placed.

(** The body of the inner loop of [_place_grid_array] for one cell. The
    state of the loops is the list [placed] and the board, or the exception
    that ended them. *)
Definition grid_cell (component_id : string) (start_position : Point)
    (columns_ : Z) (spacing_x spacing_y : Py.number) (unit_ : string)
    (reference_prefix : string) (value_ : option string)
    (rotation_ : Py.number) (layer_ : string) (row col : Z)
    (st : Py.result (list component_info) * BOARD)
  : Py.result (list component_info) * BOARD :=
  match st with
  | (Py.Raise e, b) => (Py.Raise e, b)
  | (Py.Return placed, b) =>
      dx ←[b] Py.mul (Py.Int col) spacing_x;
      x ←[b] Py.add (px start_position) dx;
      dy ←[b] Py.mul (Py.Int row) spacing_y;
      y ←[b] Py.add (py start_position) dy;
      let index := row * columns_ + col + 1 in
      let component_reference := reference_prefix +:+ Py.str_int index in
      let '(result, b') :=
        place_component b
          (cell_request component_id {| px := x; py := y; unit := Some unit_ |}
                        component_reference value_ rotation_ layer_) in
      (Py.Return (append_if_placed placed result), b')
  end.

Definition _place_grid_array (b : BOARD) (component_id : string)
    (start_position : Point) (rows_ columns_ : Z)
    (spacing_x spacing_y : Py.number) (reference_prefix : string)
    (value_ : option string) (rotation_ : Py.number) (layer_ : string)
  : Py.result (list component_info) * BOARD :=
  let unit_ := Py.get (unit start_position) "mm" in
  let scale := scale_of unit_ in
  spacing_x_nm ←[b] to_nm spacing_x scale;
  spacing_y_nm ←[b] to_nm spacing_y scale;
  foldl
    (fun st row =>
       foldl
         (fun st col =>
            grid_cell component_id start_position columns_ spacing_x
                      spacing_y unit_ reference_prefix value_ rotation_
                      layer_ row col st)
         st (seqZ 0 columns_))
    (Py.Return [], b) (seqZ 0 rows_).

(** [math.radians(a)] *)
Definition radians (a : Py.number) : Py.result float :=
  f ← Py.to_float a;
  Py.Return (f * (3.141592653589793 / 180))%float.

(** The body of the loop of [_place_circular_array] for one component. *)
Definition circular_cell (M : Libm) (component_id : string) (center_ : Point)
    (radius_ angle_start angle_step : Py.number) (unit_ : string)
    (reference_prefix : string) (value_ : option string)
    (rotation_offset : Py.number) (layer_ : string) (i : Z)
    (st : Py.result (list component_info) * BOARD)
  : Py.result (list component_info) * BOARD :=
  match st with
  | (Py.Raise e, b) => (Py.Raise e, b)
  | (Py.Return placed, b) =>
      da ←[b] Py.mul (Py.Int i) angle_step;
      angle ←[b] Py.add angle_start da;
      angle_rad ←[b] radians angle;
      c ←[b] cos M angle_rad;
      rc ←[b] Py.mul radius_ (Py.Float c);
      x ←[b] Py.add (px center_) rc;
      s ←[b] sin M angle_rad;
      rs ←[b] Py.mul radius_ (Py.Float s);
      y ←[b] Py.add (py center_) rs;
      let component_reference := reference_prefix +:+ Py.str_int (i + 1) in
      component_rotation ←[b] Py.add angle rotation_offset;
      let '(result, b') :=
        place_component b
          (cell_request component_id {| px := x; py := y; unit := Some unit_ |}
                        component_reference value_ component_rotation layer_)
      in
      (Py.Return (append_if_placed placed result), b')
  end.

Definition _place_circular_array (M : Libm) (b : BOARD)
    (component_id : string) (center_ : Point) (radius_ : Py.number)
    (count_ : Z) (angle_start angle_step : Py.number)
    (reference_prefix : string) (value_ : option string)
    (rotation_offset : Py.number) (layer_ : string)
  : Py.result (list component_info) * BOARD :=
  let unit_ := Py.get (unit center_) "mm" in
  foldl
    (fun st i =>
       circular_cell M component_id center_ radius_ angle_start angle_step
                     unit_ reference_prefix value_ rotation_offset layer_ i
                     st)
    (Py.Return [], b) (seqZ 0 count_).

Definition place_component_array (M : Libm) (b : BOARD) (params : Params)
  : Response * BOARD :=
  try_except "Failed to place component array" (
    let pattern_ := Py.get (pattern params) "grid" in
    let reference_prefix := Py.get (referencePrefix params) "U" in
    let value_ := value params in
    let placed_in (count_ : Z) (st : Py.result (list component_info) * BOARD)
      : Py.result Response * BOARD :=
      placed_components ←[st.2] st.1;
      (Py.Return
         (ok ("Placed " +:+ Py.str_int count_ +:+ " components in " +:+
              pattern_ +:+ " pattern") (Components placed_components)),
       st.2) in
    if negb (Py.truthy Py.truthy_str (componentId params))
       || negb (Py.truthy (fun c => negb (c =? 0)) (count params)) then
      (Py.Return (failure "Missing parameters"
                    "componentId and count are required"), b)
    else
      let component_id := Py.get (componentId params) "" in
      let count_ := Py.get (count params) 0 in
      if String.eqb pattern_ "grid" then
        let rotation_ := Py.get (rotation params) (Py.Int 0) in
        let layer_ := Py.get (layer params) "F.Cu" in
        match startPosition params, rows params, columns params,
              spacingX params, spacingY params with
        | Some start_position, Some rows_, Some columns_,
          Some spacing_x, Some spacing_y =>
            if (rows_ =? 0) || (columns_ =? 0)
               || negb (Py.truthy_number spacing_x)
               || negb (Py.truthy_number spacing_y) then
              (Py.Return (failure "Missing grid parameters"
                 "For grid pattern, startPosition, rows, columns, spacingX, and spacingY are required"), b)
            else if negb (rows_ * columns_ =? count_) then
              (Py.Return (failure "Invalid grid parameters"
                            "rows * columns must equal count"), b)
            else
              placed_in count_
                (_place_grid_array b component_id start_position rows_
                   columns_ spacing_x spacing_y reference_prefix value_
                   rotation_ layer_)
        | _, _, _, _, _ =>
            (Py.Return (failure "Missing grid parameters"
               "For grid pattern, startPosition, rows, columns, spacingX, and spacingY are required"), b)
        end
      else if String.eqb pattern_ "circular" then
        let angle_start := Py.get (angleStart params) (Py.Int 0) in
        let rotation_offset := Py.get (rotationOffset params) (Py.Int 0) in
        let layer_ := Py.get (layer params) "F.Cu" in
        match center params, radius params, angleStep params with
        | Some center_, Some radius_, Some angle_step =>
            if negb (Py.truthy_number radius_)
               || negb (Py.truthy_number angle_step) then
              (Py.Return (failure "Missing circular parameters"
                 "For circular pattern, center, radius, and angleStep are required"), b)
            else
              placed_in count_
                (_place_circular_array M b component_id center_ radius_
                   count_ angle_start angle_step reference_prefix value_
                   rotation_offset layer_)
        | _, _, _ =>
            (Py.Return (failure "Missing circular parameters"
               "For circular pattern, center, radius, and angleStep are required"), b)
        end
      else
        (Py.Return (failure "Invalid pattern"
                      "Pattern must be 'grid' or 'circular'"), b)).

(** [list.sort(key=...)]: the stable sort by ascending key. *)
Fixpoint insert_by {A} (key : A -> Z) (a : A) (l : list A) : list A :=
  match l with
  | [] => [a]
  | c :: l' => if key a <=? key c then a :: c :: l'
               else c :: insert_by key a l'
  end.

Definition sort_by {A} (key : A -> Z) (l : list A) : list A :=
  foldr (insert_by key) [] l.

(** [sum(...)] over ints. *)
Definition sum (l : list Z) : Z := foldl Z.add 0 l.

Definition pos_x (b : BOARD) (m : nat) : Z := x (GetPosition (deref b m)).
Definition pos_y (b : BOARD) (m : nat) : Z := y (GetPosition (deref b m)).

(** [for i in range(lo, hi): body(i, components[i])] on the board. *)
Definition for_range (lo hi : nat) (components : list nat)
    (body : nat -> nat -> BOARD -> BOARD) (b : BOARD) : BOARD :=
  foldl
    (fun b i =>
       match components !! i with
       | Some m => body i m b
       | None => b
       end)
    b (seq lo (hi - lo)).

(** The two alignment helpers sort the caller's list in place and move the
    components; they give back the list as they leave it and the board. *)
Definition _align_components_horizontally (components : list nat)
    (distribution_ : string) (spacing_ : option Py.number) (b : BOARD)
  : Py.result Datatypes.unit * (list nat * BOARD) :=
  match components with
  | [] => (Py.Return tt, (components, b))
  | _ :: _ =>
      let y_sum := sum ((pos_y b) <$> components) in
      let y_avg := y_sum `div` Z.of_nat (length components) in
      let components := sort_by (pos_x b) components in
      let b :=
        foldl (fun b m => SetPositionAt m {| x := pos_x b m; y := y_avg |} b)
              b components in
      if String.eqb distribution_ "equal"
         && (1 <? length components)%nat then
        let x_min := pos_x b (default 0%nat (head components)) in
        let x_max := pos_x b (default 0%nat (last components)) in
        let total_space := x_max - x_min in
        let spacing_nm :=
          total_space `div` (Z.of_nat (length components) - 1) in
        (Py.Return (),
         (components,
          for_range 1 (length components - 1) components
            (fun i m b =>
               let new_x := x_min + Z.of_nat i * spacing_nm in
               SetPositionAt m {| x := new_x; y := pos_y b m |} b)
            b))
      else
        match String.eqb distribution_ "spacing", spacing_ with
        | true, Some spacing_ =>
            match to_nm spacing_ 1000000 with
            | Py.Raise e => (Py.Raise e, (components, b))
            | Py.Return spacing_nm =>
                let x_current := pos_x b (default 0%nat (head components)) in
                (Py.Return (),
                 (components,
                  for_range 1 (length components) components
                    (fun i m b =>
                       SetPositionAt m
                         {| x := x_current + Z.of_nat i * spacing_nm;
                            y := pos_y b m |} b)
                    b))
            end
        | _, _ => (Py.Return tt, (components, b))
        end
  end.

Definition _align_components_vertically (components : list nat)
    (distribution_ : string) (spacing_ : option Py.number) (b : BOARD)
  : Py.result Datatypes.unit * (list nat * BOARD) :=
  match components with
  | [] => (Py.Return tt, (components, b))
  | _ :: _ =>
      let x_sum := sum ((pos_x b) <$> components) in
      let x_avg := x_sum `div` Z.of_nat (length components) in
      let components := sort_by (pos_y b) components in
      let b :=
        foldl (fun b m => SetPositionAt m {| x := x_avg; y := pos_y b m |} b)
              b components in
      if String.eqb distribution_ "equal"
         && (1 <? length components)%nat then
        let y_min := pos_y b (default 0%nat (head components)) in
        let y_max := pos_y b (default 0%nat (last components)) in
        let total_space := y_max - y_min in
        let spacing_nm :=
          total_space `div` (Z.of_nat (length components) - 1) in
        (Py.Return (),
         (components,
          for_range 1 (length components - 1) components
            (fun i m b =>
               let new_y := y_min + Z.of_nat i * spacing_nm in
               SetPositionAt m {| x := pos_x b m; y := new_y |} b)
            b))
      else
        match String.eqb distribution_ "spacing", spacing_ with
        | true, Some spacing_ =>
            match to_nm spacing_ 1000000 with
            | Py.Raise e => (Py.Raise e, (components, b))
            | Py.Return spacing_nm =>
                let y_current := pos_y b (default 0%nat (head components)) in
                (Py.Return (),
                 (components,
                  for_range 1 (length components) components
                    (fun i m b =>
                       SetPositionAt m
                         {| x := pos_x b m;
                            y := y_current + Z.of_nat i * spacing_nm |} b)
                    b))
            end
        | _, _ => (Py.Return tt, (components, b))
        end
  end.

(** Each case of [_align_components_to_edge] moves one coordinate of every
    component to a board edge, 2 mm inside it. *)
Definition _align_components_to_edge (components : list nat)
    (edge_ : string) (b : BOARD) : BOARD :=
  let board_box := GetBoardEdgesBoundingBox b in
  let each (f : BOARD -> nat -> VECTOR2I) :=
    foldl (fun b m => SetPositionAt m (f b m) b) b components in
  if String.eqb edge_ "left" then
    each (fun b m => {| x := GetLeft board_box + 2000000; y := pos_y b m |})
  else if String.eqb edge_ "right" then
    each (fun b m => {| x := GetRight board_box - 2000000; y := pos_y b m |})
  else if String.eqb edge_ "top" then
    each (fun b m => {| x := pos_x b m; y := GetTop board_box + 2000000 |})
  else if String.eqb edge_ "bottom" then
    each (fun b m => {| x := pos_x b m; y := GetBottom board_box - 2000000 |})
  else b.

(** The loop that resolves the references: the components found, or the
    first reference that names none. *)
Fixpoint resolve (b : BOARD) (refs : list string) : string + list nat :=
  match refs with
  | [] => inr []
  | ref :: refs' =>
      match FindFootprintByReference b ref with
      | None => inl ref
      | Some m =>
          match resolve b refs' with
          | inl r => inl r
          | inr ms => inr (m :: ms)
          end
      end
  end.

(** The entry of one component in the response of [align_components]:
    reference, position in mm, rotation in degrees. *)
Definition aligned_component (b : BOARD) (m : nat)
  : Py.result (string * (float * float) * float) :=
  x_mm ← Py.int_truediv (pos_x b m) 1000000;
  y_mm ← Py.int_truediv (pos_y b m) 1000000;
  rotation_ ← Py.truediv (GetOrientation (deref b m)) (Py.Int 10);
  Py.Return (GetReference (deref b m), (x_mm, y_mm), rotation_).

Definition align_components (b : BOARD) (params : Params)
  : Response * BOARD :=
  try_except "Failed to align components" (
    let references_ := Py.get (references params) [] in
    let alignment_ := Py.get (alignment params) "horizontal" in
    let distribution_ := Py.get (distribution params) "none" in
    let spacing_ := spacing params in
    let aligned (components : list nat) (b : BOARD) :=
      aligned_components ←[b] mapM (aligned_component b) components;
      (Py.Return
         (ok ("Aligned " +:+ pretty (length components) +:+ " components")
             (Aligned aligned_components)), b) in
    if (length references_ <? 2)%nat then
      (Py.Return (failure "Missing references"
                    "At least two component references are required"), b)
    else
      match resolve b references_ with
      | inl ref =>
          (Py.Return (failure "Component not found"
                        ("Could not find component: " +:+ ref)), b)
      | inr components =>
          if String.eqb alignment_ "horizontal" then
            match _align_components_horizontally components distribution_
                    spacing_ b with
            | (Py.Raise e, (_, b')) => (Py.Raise e, b')
            | (Py.Return _, (components, b')) => aligned components b'
            end
          else if String.eqb alignment_ "vertical" then
            match _align_components_vertically components distribution_
                    spacing_ b with
            | (Py.Raise e, (_, b')) => (Py.Raise e, b')
            | (Py.Return _, (components, b')) => aligned components b'
            end
          else if String.eqb alignment_ "edge" then
            match edge params with
            | Some edge_ =>
                if Py.truthy_str edge_ then
                  aligned components
                          (_align_components_to_edge components edge_ b)
                else
                  (Py.Return (failure "Missing edge parameter"
                     "Edge parameter is required for edge alignment"), b)
            | None =>
                (Py.Return (failure "Missing edge parameter"
                   "Edge parameter is required for edge alignment"), b)
            end
          else
            (Py.Return (failure "Invalid alignment option"
               "Alignment must be 'horizontal', 'vertical', or 'edge'"), b)
      end).

Definition duplicate_component (b : BOARD) (params : Params)
  : Response * BOARD :=
  try_except "Failed to duplicate component" (
    match reference params, newReference params with
    | Some reference_, Some new_reference =>
        if negb (Py.truthy_str reference_)
           || negb (Py.truthy_str new_reference) then
          (Py.Return (failure "Missing parameters"
                        "reference and newReference are required"), b)
        else
          match FindFootprintByReference b reference_ with
          | None =>
              (Py.Return (failure "Component not found"
                            ("Could not find component: " +:+ reference_)),
               b)
          | Some source =>
              if bool_decide
                   (is_Some (FindFootprintByReference b new_reference)) then
                (Py.Return
                   (failure "Reference already exists"
                      ("A component with reference " +:+ new_reference +:+
                       " already exists")), b)
              else
                let source := deref b source in
                let new_module :=
                  SetFootprintName (GetFootprintName source) new_FOOTPRINT in
                let new_module := SetValue (GetValue source) new_module in
                let new_module := SetReference new_reference new_module in
                let new_module := SetLayer (GetLayer source) new_module in
                let new_module :=
                  foldl (fun m pad => AddPad pad m) new_module (Pads source)
                in
                p ←[b] match position params with
                       | Some position_ =>
                           let scale :=
                             scale_of (Py.get (unit position_) "mm") in
                           x_nm ← to_nm (px position_) scale;
                           y_nm ← to_nm (py position_) scale;
                           Py.Return {| x := x_nm; y := y_nm |}
                       | None =>
                           let source_pos := GetPosition source in
                           Py.Return {| x := x source_pos + 5000000;
                                        y := y source_pos |}
                       end;
                let new_module := SetPosition p new_module in
                orientation ←[b] match rotation params with
                                 | Some rotation_ =>
                                     Py.mul rotation_ (Py.Int 10)
                                 | None => Py.Return (GetOrientation source)
                                 end;
                let new_module := SetOrientation orientation new_module in
                let b := AddFootprint new_module b in
                x_mm ←[b] Py.int_truediv (x p) 1000000;
                y_mm ←[b] Py.int_truediv (y p) 1000000;
                rotation_ ←[b] Py.truediv (GetOrientation new_module) (Py.Int 10);
                (Py.Return
                   (ok ("Duplicated component " +:+ reference_ +:+ " to " +:+
                        new_reference)
                       (Component
                          {| info_reference := new_reference;
                             info_value := GetValue new_module;
                             info_position :=
                               {| px := Py.Float x_mm; py := Py.Float y_mm;
                                  unit := Some "mm" |};
                             info_rotation := Py.Float rotation_;
                             info_layer :=
                               GetLayerName b (GetLayer new_module) |})),
                 b)
          end
    | _, _ =>
        (Py.Return (failure "Missing parameters"
                      "reference and newReference are required"), b)
    end).

(** [a or b] on an optional string [a]. *)
Definition or_else (a : option string) (b : string) : string :=
  if Py.truthy Py.truthy_str a then Py.get a "" else b.

(** The entry [component] of the response of [move_component]. *)
Record moved_component : Type := {
  moved_reference : string;
  moved_position : Point;
  moved_rotation : Py.number
}.

Definition move_component (b : BOARD) (params : Params)
  : Reply moved_component * BOARD :=
  try_reply "Failed to move component" (
    match reference params, position params with
    | Some reference_, Some position_ =>
        if negb (Py.truthy_str reference_) then
          (Py.Return (Refused "Missing parameters"
                        "reference and position are required"), b)
        else
          match FindFootprintByReference b reference_ with
          | None =>
              (Py.Return (Refused "Component not found"
                            ("Could not find component: " +:+ reference_)),
               b)
          | Some module =>
              p ←[b] position_to_nm position_;
              let b := SetPositionAt module p b in
              match rotation params with
              | Some rotation_ =>
                  orientation ←[b] Py.mul rotation_ (Py.Int 10);
                  let b := UpdateAt (SetOrientation orientation) module b in
                  (Py.Return
                     (Accepted ("Moved component: " +:+ reference_)
                        {| moved_reference := reference_;
                           moved_position := position_;
                           moved_rotation := rotation_ |}), b)
              | None =>
                  rotation_ ←[b]
                    Py.truediv (GetOrientation (deref b module)) (Py.Int 10);
                  (Py.Return
                     (Accepted ("Moved component: " +:+ reference_)
                        {| moved_reference := reference_;
                           moved_position := position_;
                           moved_rotation := Py.Float rotation_ |}), b)
              end
          end
    | _, _ =>
        (Py.Return (Refused "Missing parameters"
                      "reference and position are required"), b)
    end).

(** The request key [angle], which [Params] does not have, is given
    beside it. *)
Definition rotate_component (b : BOARD) (params : Params)
    (angle : option Py.number) : Reply (string * Py.number) * BOARD :=
  try_reply "Failed to rotate component" (
    match reference params, angle with
    | Some reference_, Some angle_ =>
        if negb (Py.truthy_str reference_) then
          (Py.Return (Refused "Missing parameters"
                        "reference and angle are required"), b)
        else
          match FindFootprintByReference b reference_ with
          | None =>
              (Py.Return (Refused "Component not found"
                            ("Could not find component: " +:+ reference_)),
               b)
          | Some module =>
              orientation ←[b] Py.mul angle_ (Py.Int 10);
              (Py.Return
                 (Accepted ("Rotated component: " +:+ reference_)
                           (reference_, angle_)),
               UpdateAt (SetOrientation orientation) module b)
          end
    | _, _ =>
        (Py.Return (Refused "Missing parameters"
                      "reference and angle are required"), b)
    end).

Definition delete_component (b : BOARD) (params : Params)
  : Reply Datatypes.unit * BOARD :=
  try_reply "Failed to delete component" (
    match reference params with
    | Some reference_ =>
        if negb (Py.truthy_str reference_) then
          (Py.Return (Refused "Missing reference"
                        "reference parameter is required"), b)
        else
          match FindFootprintByReference b reference_ with
          | None =>
              (Py.Return (Refused "Component not found"
                            ("Could not find component: " +:+ reference_)),
               b)
          | Some module =>
              (Py.Return
                 (Accepted ("Deleted component: " +:+ reference_) tt),
               RemoveFootprint module b)
          end
    | None =>
        (Py.Return (Refused "Missing reference"
                      "reference parameter is required"), b)
    end).

(** The entry [component] of the response of [edit_component]. *)
Record edited_component : Type := {
  edited_reference : string;
  edited_value : string;
  edited_footprint : string
}.

Definition edit_component (b : BOARD) (params : Params)
  : Reply edited_component * BOARD :=
  try_reply "Failed to edit component" (
    match reference params with
    | Some reference_ =>
        if negb (Py.truthy_str reference_) then
          (Py.Return (Refused "Missing reference"
                        "reference parameter is required"), b)
        else
          match FindFootprintByReference b reference_ with
          | None =>
              (Py.Return (Refused "Component not found"
                            ("Could not find component: " +:+ reference_)),
               b)
          | Some module =>
              let b :=
                UpdateAt (set_if SetReference (newReference params))
                         module b in
              let b := UpdateAt (set_if SetValue (value params)) module b in
              let b :=
                UpdateAt (set_if SetFootprintName (footprint params))
                         module b in
              (Py.Return
                 (Accepted ("Updated component: " +:+ reference_)
                    {| edited_reference :=
                         or_else (newReference params) reference_;
                       edited_value :=
                         or_else (value params) (GetValue (deref b module));
                       edited_footprint :=
                         or_else (footprint params)
                                 (GetFootprintName (deref b module)) |}),
               b)
          end
    | None =>
        (Py.Return (Refused "Missing reference"
                      "reference parameter is required"), b)
    end).

End ComponentCommands.

(** ** [commands/routing.py] *)

Module RoutingCommands.
Import pcbnew.

Definition _get_point (b : BOARD) (spec : point_spec)
  : Py.result VECTOR2I :=
  match spec with
  | Literal p =>
      let scale := scale_of (Py.get (unit p) "mm") in
      x_nm ← to_nm (px p) scale;
      y_nm ← to_nm (py p) scale;
      Py.Return {| x := x_nm; y := y_nm |}
  | PadOf componentRef pad =>
      match FindFootprintByReference b componentRef with
      | Some module =>
          match FindPadByName (deref b module) pad with
          | Some pad => Py.Return (pad_position pad)
          | None => Py.Raise "Invalid point specification"
          end
      | None => Py.Raise "Invalid point specification"
      end
  end.

(** [(dx * dx + dy * dy) ** 0.5]: the integer sum is converted to a float
    and raised to the power 0.5. *)
Definition _point_distance (M : Libm) (p1 p2 : VECTOR2I) : Py.result float :=
  let dx := x p1 - x p2 in
  let dy := y p1 - y p2 in
  square ← Py.float_of_int (dx * dx + dy * dy);
  pow M square 0.5.

Definition _point_to_track_distance (M : Libm) (point : VECTOR2I)
    (track : PCB_TRACK) : Py.result float :=
  let start := GetStart track in
  let end_ := GetEnd track in
  let v := {| x := x end_ - x start; y := y end_ - y start |} in
  let w := {| x := x point - x start; y := y point - y start |} in
  let c1 := x v * x v + y v * y v in
  if c1 =? 0 then _point_distance M point start
  else
    dot ← Py.float_of_int (x w * x v + y w * y v);
    c1_ ← Py.float_of_int c1;
    let c2 := (dot / c1_)%float in
    if (c2 <? 0)%float then _point_distance M point start
    else if (1 <? c2)%float then _point_distance M point end_
    else
      vx ← Py.float_of_int (x v);
      sx ← Py.float_of_int (x start);
      proj_x ← Py.trunc (sx + c2 * vx)%float;
      vy ← Py.float_of_int (y v);
      sy ← Py.float_of_int (y start);
      proj_y ← Py.trunc (sy + c2 * vy)%float;
      _point_distance M point {| x := proj_x; y := proj_y |}.

(** The loop of [delete_trace] that keeps the first track at the least
    distance seen so far, starting from [float('inf')]. *)
Definition closest (M : Libm) (point : VECTOR2I) (tracks : list PCB_TRACK)
  : Py.result (option nat * float) :=
  foldl
    (fun (st : Py.result (option nat * float)) (it : nat * PCB_TRACK) =>
       '(closest_track, min_distance) ← st;
       dist ← _point_to_track_distance M point it.2;
       if (dist <? min_distance)%float then Py.Return (Some it.1, dist)
       else Py.Return (closest_track, min_distance))
    (Py.Return (None, infinity)) (imap pair tracks).

Definition delete_trace (M : Libm) (b : BOARD) (params : Params)
  : Response * BOARD :=
  try_except "Failed to delete trace" (
    let trace_uuid := traceUuid params in
    let position_ := position params in
    if negb (Py.truthy Py.truthy_str trace_uuid)
       && negb (bool_decide (is_Some position_)) then
      (Py.Return (failure "Missing parameters"
                    "Either traceUuid or position must be provided"), b)
    else if Py.truthy Py.truthy_str trace_uuid then
      let trace_uuid := Py.get trace_uuid "" in
      match find_index (fun item => String.eqb (m_Uuid item) trace_uuid)
                       (Tracks b) with
      | None =>
          (Py.Return (failure "Track not found"
                        ("Could not find track with UUID: " +:+ trace_uuid)),
           b)
      | Some track =>
          (Py.Return (ok ("Deleted track: " +:+ trace_uuid) Nothing),
           RemoveTrack track b)
      end
    else
      match position_ with
      | Some position_ =>
          point ←[b] position_to_nm position_;
          '(closest_track, min_distance) ←[b] closest M point (Tracks b);
          match closest_track with
          | Some track =>
              if (min_distance <? 1000000)%float then
                (Py.Return (ok "Deleted track at specified position" Nothing),
                 RemoveTrack track b)
              else
                (Py.Return (failure "No track found"
                              "No track found near specified position"), b)
          | None =>
              (Py.Return (failure "No track found"
                            "No track found near specified position"), b)
          end
      | None =>
          (Py.Return (failure "Missing parameters"
                        "Either traceUuid or position must be provided"), b)
      end).

Definition route_differential_pair (b : BOARD) (params : Params)
  : Response * BOARD :=
  try_except "Failed to route differential pair" (
    let layer_ := Py.get (layer params) "F.Cu" in
    match startPos params, endPos params, netPos params, netNeg params with
    | Some start_pos, Some end_pos, Some net_pos, Some net_neg =>
        if negb (Py.truthy_str net_pos) || negb (Py.truthy_str net_neg) then
          (Py.Return (failure "Missing parameters"
                        "startPos, endPos, netPos, and netNeg are required"),
           b)
        else
          let layer_id := GetLayerID b layer_ in
          if layer_id <? 0 then
            (Py.Return (failure "Invalid layer"
                          ("Layer '" +:+ layer_ +:+ "' does not exist")), b)
          else
            match FindNet b net_pos, FindNet b net_neg with
            | Some net_pos_obj, Some net_neg_obj =>
                start_point ←[b] _get_point b start_pos;
                end_point ←[b] _get_point b end_pos;
                let dx := x end_point - x start_point in
                let dy := y end_point - y start_point in
                square ←[b] Py.float_of_int (dx * dx + dy * dy);
                let length_ := PrimFloat.sqrt square in
                if (length_ <=? 0)%float then
                  (Py.Return (failure "Invalid points"
                                "Start and end points must be different"), b)
                else
                  dx_ ←[b] Py.float_of_int dx;
                  let dx := (dx_ / length_)%float in
                  dy_ ←[b] Py.float_of_int dy;
                  let dy := (dy_ / length_)%float in
                  let px := (- dy)%float in
                  let py := dx in
                  let gap_ := Py.get (gap params) (Py.Float 0.2) in
                  gap_nm ←[b] to_nm gap_ 1000000;
                  gap_nm_ ←[b] Py.float_of_int gap_nm;
                  offset_x ←[b] Py.trunc (px * gap_nm_ / 2)%float;
                  offset_y ←[b] Py.trunc (py * gap_nm_ / 2)%float;
                  let pos_start := {| x := x start_point + offset_x;
                                      y := y start_point + offset_y |} in
                  let pos_end := {| x := x end_point + offset_x;
                                    y := y end_point + offset_y |} in
                  let neg_start := {| x := x start_point - offset_x;
                                      y := y start_point - offset_y |} in
                  let neg_end := {| x := x end_point - offset_x;
                                    y := y end_point - offset_y |} in
                  trace_width ←[b]
                    (if Py.truthy Py.truthy_number (width params) then
                       to_nm (Py.get (width params) (Py.Int 0)) 1000000
                     else Py.Return (GetCurrentTrackWidth b));
                  let b :=
                    AddTrack neg_start neg_end layer_id trace_width
                             (Some net_neg_obj)
                      (AddTrack pos_start pos_end layer_id trace_width
                                (Some net_pos_obj) b) in
                  width_mm ←[b] Py.int_truediv trace_width 1000000;
                  (Py.Return
                     (ok "Added differential pair traces"
                         (DiffPair net_pos net_neg layer_ width_mm gap_
                                   (length_ / 1000000))),
                   b)
            | _, _ =>
                (Py.Return
                   (failure "Nets not found"
                      "One or both nets specified for the differential pair do not exist"),
                 b)
            end
    | _, _, _, _ =>
        (Py.Return (failure "Missing parameters"
                      "startPos, endPos, netPos, and netNeg are required"), b)
    end).

Definition add_via (b : BOARD) (params : Params) : Response * BOARD :=
  try_except "Failed to add via" (
    let from_layer_ := Py.get (from_layer params) "F.Cu" in
    let to_layer_ := Py.get (to_layer params) "B.Cu" in
    match position params with
    | None =>
        (Py.Return (failure "Missing position"
                      "position parameter is required"), b)
    | Some position_ =>
        p ←[b] position_to_nm position_;
        via_size ←[b]
          (if Py.truthy Py.truthy_number (size params) then
             to_nm (Py.get (size params) (Py.Int 0)) 1000000
           else Py.Return (GetCurrentViaSize b));
        via_drill_ ←[b]
          (if Py.truthy Py.truthy_number (drill params) then
             to_nm (Py.get (drill params) (Py.Int 0)) 1000000
           else Py.Return (GetCurrentViaDrill b));
        let from_id := GetLayerID b from_layer_ in
        let to_id := GetLayerID b to_layer_ in
        if (from_id <? 0) || (to_id <? 0) then
          (Py.Return (failure "Invalid layer"
                        "Specified layers do not exist"), b)
        else
          let net_obj :=
            match net params with
            | Some n => if Py.truthy_str n then FindNet b n else None
            | None => None
            end in
          let b :=
            AddVia (mkVIA p via_size via_drill_ (from_id, to_id) net_obj) b in
          size_mm ←[b] Py.int_truediv via_size 1000000;
          drill_mm ←[b] Py.int_truediv via_drill_ 1000000;
          (Py.Return (ok "Added via" (Via position_ size_mm drill_mm)), b)
    end).

(** The request [route_trace] makes of [add_via]:
    [{"position": .., "net": net}]. *)
Definition via_at (position_ : Point) (net_ : option string) : Params :=
  mkParams None (Some position_) None None None None None None None None
           None None None None None None None None None None None None None
           None None None None None None None net_ None None None None None
           None None None None None.

(** The entry [trace] of the response of [route_trace]: start and end in
    mm, layer, width in mm, net. *)
Record routed_trace : Type := {
  trace_start : float * float;
  trace_end : float * float;
  trace_layer : string;
  trace_width : float;
  trace_net : option string
}.

(** The request keys [start], [end] and [via], which [Params] does not
    have, are given beside it, [via] as the truth value of the entry. *)
Definition route_trace (b : BOARD) (params : Params)
    (start end_ : option point_spec) (via : bool)
  : Reply routed_trace * BOARD :=
  try_reply "Failed to route trace" (
    let layer_ := Py.get (layer params) "F.Cu" in
    match start, end_ with
    | Some start, Some end_ =>
        let layer_id := GetLayerID b layer_ in
        if layer_id <? 0 then
          (Py.Return (Refused "Invalid layer"
                        ("Layer '" +:+ layer_ +:+ "' does not exist")), b)
        else
          start_point ←[b] _get_point b start;
          end_point ←[b] _get_point b end_;
          track_width ←[b]
            (if Py.truthy Py.truthy_number (width params) then
               to_nm (Py.get (width params) (Py.Int 0)) 1000000
             else Py.Return (GetCurrentTrackWidth b));
          let net_obj :=
            match net params with
            | Some n => if Py.truthy_str n then FindNet b n else None
            | None => None
            end in
          let b :=
            AddTrack start_point end_point layer_id track_width net_obj b in
          let response (b : BOARD) :=
            start_x ←[b] Py.int_truediv (x start_point) 1000000;
            start_y ←[b] Py.int_truediv (y start_point) 1000000;
            end_x ←[b] Py.int_truediv (x end_point) 1000000;
            end_y ←[b] Py.int_truediv (y end_point) 1000000;
            width_mm ←[b] Py.int_truediv track_width 1000000;
            (Py.Return
               (Accepted "Added trace"
                  {| trace_start := (start_x, start_y);
                     trace_end := (end_x, end_y);
                     trace_layer := layer_;
                     trace_width := width_mm;
                     trace_net := net params |}), b) in
          if via && Py.truthy Py.truthy_str (net params) then
            via_x ←[b] Py.int_truediv (x end_point) 1000000;
            via_y ←[b] Py.int_truediv (y end_point) 1000000;
            response
              (add_via b
                 (via_at {| px := Py.Float via_x; py := Py.Float via_y;
                            unit := Some "mm" |} (net params))).2
          else response b
    | _, _ =>
        (Py.Return (Refused "Missing parameters"
                      "start and end points are required"), b)
    end).

End RoutingCommands.

(** ** [commands/export.py]: the grouping of the bill of materials *)

Module ExportCommands.
Import pcbnew.

(** One collected component: [{"reference", "value", "footprint", "layer"}]. *)
Record bom_component : Type := {
  bom_reference : string;
  bom_value : string;
  bom_footprint : string;
  bom_layer : string
}.

(** The loop of [export_bom] over [self.board.GetFootprints()], without the
    extra attributes a request may ask for. *)
Definition collect (b : BOARD) : list bom_component :=
  (fun module =>
     {| bom_reference := GetReference module;
        bom_value := GetValue module;
        bom_footprint := GetFootprintName module;
        bom_layer := GetLayerName b (GetLayer module) |})
    <$> GetFootprints b.

(** [key = f"{comp['value']}_{comp['footprint']}"] *)
Definition key_of (comp : bom_component) : string :=
  bom_value comp +:+ "_" +:+ bom_footprint comp.

(** The dictionary [grouped], in insertion order. [add_to] is the body of
    the loop for one component: a new entry for a new key, else the
    entry's quantity and references grow. *)
Fixpoint add_to (grouped : list (string * bom_row)) (key : string)
    (comp : bom_component) : list (string * bom_row) :=
  match grouped with
  | [] =>
      [(key, {| row_value := bom_value comp;
                row_footprint := bom_footprint comp;
                row_quantity := 1;
                row_references := [bom_reference comp] |})]
  | (k, g) :: rest =>
      if String.eqb k key then
        (k, {| row_value := row_value g;
               row_footprint := row_footprint g;
               row_quantity := row_quantity g + 1;
               row_references := row_references g ++ [bom_reference comp] |})
          :: rest
      else (k, g) :: add_to rest key comp
  end.

(** The branch [if group_by_value:] of [export_bom]:
    [list(grouped.values())] after the loop. *)
Definition group (components : list bom_component) : list bom_row :=
  snd <$> foldl (fun grouped comp => add_to grouped (key_of comp) comp)
                [] components.

(** The dictionary [grouped] itself when the loop ends. *)
Definition grouped (components : list bom_component)
  : list (string * bom_row) :=
  foldl (fun grouped comp => add_to grouped (key_of comp) comp) [] components.

(** *** [export_bom] as a whole *)

(** The request of [export_bom]; its keys are not among those of [Params].
    [groupByValue] stands for the truth value of the entry. *)
Record BomParams : Type := {
  outputPath : option string;
  format : option string;
  groupByValue : option bool;
  includeAttributes : option (list string)
}.

(** An entry of the list [components]: a component with the extra
    attributes the request asked for, or a row after grouping. *)
Inductive bom_entry : Type :=
| Part (comp : bom_component) (attrs : list (string * string))
| Row (row : bom_row).

Definition part_of (e : bom_entry) : option bom_component :=
  match e with
  | Part comp _ => Some comp
  | Row _ => None
  end.

(** What [export_bom] asks of the operating system and of the kernel
    outside the board model; each operation answers or raises, and nothing
    is assumed of any of them: [os.path.abspath(os.path.expanduser(p))],
    [os.path.dirname], [os.makedirs], the loop over [include_attributes]
    for one footprint, [open(path, 'w')], and what each writer does with
    the entries once it has them. *)
Record BomEnvironment : Type := {
  abspath : string -> string;
  dirname : string -> string;
  makedirs : string -> Py.result Datatypes.unit;
  attributes : FOOTPRINT -> list string -> Py.result (list (string * string));
  open_w : string -> Py.result Datatypes.unit;
  write_csv : string -> list bom_entry -> Py.result Datatypes.unit;
  write_xml : string -> list bom_entry -> Py.result Datatypes.unit;
  write_html : string -> list bom_entry -> Py.result Datatypes.unit;
  write_json : string -> list bom_entry -> Py.result Datatypes.unit
}.

(** [components[0]] *)
Definition first_entry (components : list bom_entry) : Py.result bom_entry :=
  match components with
  | first :: _ => Py.Return first
  | [] => Py.Raise "list index out of range"
  end.

(** The file is opened before the field names are taken from the first
    entry. *)
Definition _export_bom_csv (env : BomEnvironment) (path : string)
    (components : list bom_entry) : Py.result Datatypes.unit :=
  'tt ← open_w env path;
  _ ← first_entry components;
  write_csv env path components.

Definition _export_bom_xml (env : BomEnvironment) (path : string)
    (components : list bom_entry) : Py.result Datatypes.unit :=
  write_xml env path components.

(** The headers are taken from the first entry before the file is
    opened. *)
Definition _export_bom_html (env : BomEnvironment) (path : string)
    (components : list bom_entry) : Py.result Datatypes.unit :=
  _ ← first_entry components;
  'tt ← open_w env path;
  write_html env path components.

Definition _export_bom_json (env : BomEnvironment) (path : string)
    (components : list bom_entry) : Py.result Datatypes.unit :=
  'tt ← open_w env path;
  write_json env path components.

(** The entry [file] of the response: path, format, component count. *)
Record exported_file : Type := {
  file_path : string;
  file_format : string;
  componentCount : Z
}.

Definition export_bom (env : BomEnvironment) (b : BOARD) (params : BomParams)
  : Reply exported_file :=
  let block : Py.result (Reply exported_file) :=
    let format_ := Py.get (format params) "CSV" in
    let group_by_value := Py.get (groupByValue params) true in
    let include_attributes := Py.get (includeAttributes params) [] in
    if negb (Py.truthy Py.truthy_str (outputPath params)) then
      Py.Return (Refused "Missing output path"
                         "outputPath parameter is required")
    else
      let output_path := abspath env (Py.get (outputPath params) "") in
      'tt ← makedirs env (dirname env output_path);
      components ←
        mapM (fun module =>
                attrs ← attributes env module include_attributes;
                Py.Return
                  (Part {| bom_reference := GetReference module;
                           bom_value := GetValue module;
                           bom_footprint := GetFootprintName module;
                           bom_layer := GetLayerName b (GetLayer module) |}
                        attrs))
             (GetFootprints b);
      let components :=
        if group_by_value then
          Row <$> group (omap part_of components)
        else components in
      let exported :=
        Py.Return
          (Accepted ("Exported BOM to " +:+ format_)
             {| file_path := output_path;
                file_format := format_;
                componentCount := Z.of_nat (length components) |}) in
      if String.eqb format_ "CSV" then
        'tt ← _export_bom_csv env output_path components; exported
      else if String.eqb format_ "XML" then
        'tt ← _export_bom_xml env output_path components; exported
      else if String.eqb format_ "HTML" then
        'tt ← _export_bom_html env output_path components; exported
      else if String.eqb format_ "JSON" then
        'tt ← _export_bom_json env output_path components; exported
      else
        Py.Return (Refused "Unsupported format"
                           ("Format " +:+ format_ +:+ " is not supported"))
  in
  match block with
  | Py.Return r => r
  | Py.Raise e => Refused "Failed to export BOM" e
  end.

End ExportCommands.

(** ** [kicad_interface.py]: the command router *)

(** What lies outside the modelled handlers: the C library, the rest of the
    board-backed handlers once a board is loaded, the project handlers
    (which work on files and the kernel's own board), and the schematic
    library. Every property below holds whatever these do. *)
Record Kernel : Type := {
  libm : Libm;
  run : string -> pcbnew.BOARD -> Params -> Response * pcbnew.BOARD;
  project : string -> Params -> Response;
  GetBoard : string -> Params -> option pcbnew.BOARD;
  schematic : string -> Params -> Response;
  load_schematic : string -> Py.result bool;
  add_wire : string -> list Py.number -> list Py.number -> Py.result bool;
  save_schematic : string -> Py.result Datatypes.unit
}.

Module KiCADInterface.

(** The board reference: [self.board], which [_update_command_handlers]
    copies into every command object, so that between two requests they
    all hold the same one. [None] is the state with no board loaded. *)
Definition state : Type := option pcbnew.BOARD.

Definition handler : Type := state -> Params -> Response * state.

(** A handler that does not read the board reference. *)
Definition boardless (f : Params -> Response) : handler :=
  fun self params => (f params, self).

Definition says (ok_ : bool) (msg : option string) : Response :=
  mkResponse ok_ msg None Nothing.

(** [load_schematic K path] tells whether [SchematicManager.load_schematic]
    gave a schematic, [add_wire K path start end] whether
    [ConnectionManager.add_wire] gave a wire; each may raise instead. *)
Definition _handle_add_schematic_wire (K : Kernel) (params : Params)
  : Response :=
  let block : Py.result Response :=
    match schematicPath params with
    | Some schematic_path =>
        if negb (Py.truthy_str schematic_path) then
          Py.Return (says false (Some "Schematic path is required"))
        else
          match startPoint params, endPoint params with
          | Some (_ :: _ as start_point), Some (_ :: _ as end_point) =>
              schematic_ ← load_schematic K schematic_path;
              if negb schematic_ then
                Py.Return (says false (Some "Failed to load schematic"))
              else
                wire ← add_wire K schematic_path start_point end_point;
                if (wire : bool) then
                  'tt ← save_schematic K schematic_path;
                  Py.Return (says true None)
                else Py.Return (says false (Some "Failed to add wire"))
          | _, _ =>
              Py.Return (says false (Some "Start and end points are required"))
          end
    | None => Py.Return (says false (Some "Schematic path is required"))
    end in
  match block with
  | Py.Return r => r
  | Py.Raise e => says false (Some e)
  end.

(** Modelled from the spec: the handlers [add_layer], [set_active_layer],
    [get_layer_list], [add_board_outline], [add_mounting_hole] and
    [add_text] of [BoardCommands], whose source file is not part of the
    repository snapshot. The specification has every operation other than
    create, open and list-libraries require a loaded board and fail with
    "no board loaded" otherwise; they are given the same first guard as
    the board handlers that are present ([set_board_size],
    [get_board_info], [get_board_2d_view]). *)
Definition board_command (K : Kernel) (name : string) : handler :=
  guarded (run K name).

Definition command_routes (K : Kernel) : list (string * handler) :=
  [ (* Project commands *)
    ("create_project", boardless (project K "create_project"));
    ("open_project", boardless (project K "open_project"));
    ("save_project", guarded (run K "save_project"));
    ("get_project_info", guarded (run K "get_project_info"));
    (* Board commands *)
    ("set_board_size", guarded (run K "set_board_size"));
    ("add_layer", board_command K "add_layer");
    ("set_active_layer", board_command K "set_active_layer");
    ("get_board_info", guarded (run K "get_board_info"));
    ("get_layer_list", board_command K "get_layer_list");
    ("get_board_2d_view", guarded (run K "get_board_2d_view"));
    ("add_board_outline", board_command K "add_board_outline");
    ("add_mounting_hole", board_command K "add_mounting_hole");
    ("add_text", board_command K "add_text");
    (* Component commands *)
    ("place_component", guarded ComponentCommands.place_component);
    ("move_component", guarded (run K "move_component"));
    ("rotate_component", guarded (run K "rotate_component"));
    ("delete_component", guarded (run K "delete_component"));
    ("edit_component", guarded (run K "edit_component"));
    ("get_component_properties", guarded (run K "get_component_properties"));
    ("get_component_list", guarded (run K "get_component_list"));
    ("place_component_array",
      guarded (ComponentCommands.place_component_array (libm K)));
    ("align_components", guarded ComponentCommands.align_components);
    ("duplicate_component", guarded ComponentCommands.duplicate_component);
    (* Routing commands *)
    ("add_net", guarded (run K "add_net"));
    ("route_trace", guarded (run K "route_trace"));
    ("add_via", guarded RoutingCommands.add_via);
    ("delete_trace", guarded (RoutingCommands.delete_trace (libm K)));
    ("get_nets_list", guarded (run K "get_nets_list"));
    ("create_netclass", guarded (run K "create_netclass"));
    ("add_copper_pour", guarded (run K "add_copper_pour"));
    ("route_differential_pair",
      guarded RoutingCommands.route_differential_pair);
    (* Design rule commands *)
    ("set_design_rules", guarded (run K "set_design_rules"));
    ("get_design_rules", guarded (run K "get_design_rules"));
    ("run_drc", guarded (run K "run_drc"));
    ("get_drc_violations", guarded (run K "get_drc_violations"));
    (* Export commands *)
    ("export_gerber", guarded (run K "export_gerber"));
    ("export_pdf", guarded (run K "export_pdf"));
    ("export_svg", guarded (run K "export_svg"));
    ("export_3d", guarded (run K "export_3d"));
    ("export_bom", guarded (run K "export_bom"));
    (* Schematic commands *)
    ("create_schematic", boardless (schematic K "create_schematic"));
    ("load_schematic", boardless (schematic K "load_schematic"));
    ("add_schematic_component",
      boardless (schematic K "add_schematic_component"));
    ("add_schematic_wire", boardless (_handle_add_schematic_wire K));
    ("list_schematic_libraries",
      boardless (schematic K "list_schematic_libraries"));
    ("export_schematic_pdf", boardless (schematic K "export_schematic_pdf"))
  ].

Definition handle_command (K : Kernel) (self : state) (command : string)
    (params : Params) : Response * state :=
  match pcbnew.assoc command (command_routes K) with
  | Some handler_ =>
      let '(result, self) := handler_ self params in
      if success result
         && (String.eqb command "create_project"
             || String.eqb command "open_project") then
        (result, GetBoard K command params)
      else (result, self)
  | None =>
      (failure ("Unknown command: " +:+ command)
               "The specified command is not supported", self)
  end.

End KiCADInterface.

(** ** Vocabulary of the properties *)

(** Two boards with the same footprint library and layer table: what
    [place_component] reads of the board. *)
Definition same_env (b b' : pcbnew.BOARD) : Prop :=
  pcbnew.footprint_library b = pcbnew.footprint_library b'
  ∧ pcbnew.layer_table b = pcbnew.layer_table b'.

(** The position and the reference of the grid cell at ([row], [col]), and
    the request [_place_grid_array] issues for it once the position is
    computed. *)
Definition grid_position (start_position : Point)
    (spacing_x spacing_y : Py.number) (row col : Z) : Py.result Point :=
  dx ← Py.mul (Py.Int col) spacing_x;
  x ← Py.add (px start_position) dx;
  dy ← Py.mul (Py.Int row) spacing_y;
  y ← Py.add (py start_position) dy;
  Py.Return {| px := x; py := y;
               unit := Some (Py.get (unit start_position) "mm") |}.

Definition grid_reference (reference_prefix : string) (columns_ row col : Z)
  : string :=
  reference_prefix +:+ Py.str_int (row * columns_ + col + 1).

Definition grid_request (component_id : string) (columns_ : Z)
    (reference_prefix : string) (value_ : option string)
    (rotation_ : Py.number) (layer_ : string) (row col : Z)
    (position_ : Point) : Params :=
  ComponentCommands.cell_request component_id position_
    (grid_reference reference_prefix columns_ row col)
    value_ rotation_ layer_.

(** The cell at ([row], [col]) can be placed on [b]: its position is
    computed and [place_component] accepts its request. *)
Definition cell_placed (b : pcbnew.BOARD) (component_id : string)
    (start_position : Point) (columns_ : Z) (spacing_x spacing_y : Py.number)
    (reference_prefix : string) (value_ : option string)
    (rotation_ : Py.number) (layer_ : string) (row col : Z) : bool :=
  match grid_position start_position spacing_x spacing_y row col with
  | Py.Return position_ =>
      success
        (ComponentCommands.place_component b
           (grid_request component_id columns_ reference_prefix value_
                         rotation_ layer_ row col position_)).1
  | Py.Raise _ => false
  end.

(** A [place_component_array] request for a grid. *)
Definition grid_array_request (component_id : string)
    (start_position : Point) (rows_ columns_ count_ : Z)
    (spacing_x spacing_y : Py.number) (reference_prefix : string) : Params :=
  mkParams (Some component_id) None None None None None None (Some "grid")
           (Some count_) (Some reference_prefix) (Some start_position)
           (Some rows_) (Some columns_) (Some spacing_x) (Some spacing_y)
           None None None None None None None None None None None None None
           None None None None None None None None None None None None None.

(** Row-major enumeration of the cells of the two nested loops. *)
Definition grid_cells (rows_ columns_ : Z) : list (Z * Z) :=
  row ← seqZ 0 rows_; pair row <$> seqZ 0 columns_.

(** What a placed cell looks like in the result list and on the board. *)
Definition cell_info (start_position : Point) (columns_ : Z)
    (spacing_x spacing_y : Py.number) (reference_prefix : string)
    (c : Z * Z) (info : component_info) : Prop :=
  grid_position start_position spacing_x spacing_y c.1 c.2
    = Py.Return (info_position info)
  ∧ info_reference info = grid_reference reference_prefix columns_ c.1 c.2.

Definition cell_footprint (start_position : Point) (columns_ : Z)
    (spacing_x spacing_y : Py.number) (reference_prefix : string)
    (c : Z * Z) (module : pcbnew.FOOTPRINT) : Prop :=
  pcbnew.GetReference module
    = grid_reference reference_prefix columns_ c.1 c.2
  ∧ (grid_position start_position spacing_x spacing_y c.1 c.2
       ≫= position_to_nm)
    = Py.Return (pcbnew.GetPosition module).

(** What the loops of the array placements keep true, [k] cells into the
    loop on the board [b0]: the board is [b0] with footprints appended, at
    most [k] of them, and as many as components were collected. *)
Definition array_state (b0 : pcbnew.BOARD) (k : nat)
    (st : Py.result (list component_info) * pcbnew.BOARD) : Prop :=
  ∃ added,
    st.2 = pcbnew.with_footprints (pcbnew.GetFootprints b0 ++ added) b0
    ∧ (length added ≤ k)%nat
    ∧ ∀ placed, st.1 = Py.Return placed → length placed = length added.

(** A board with two copper layers, two nets and the given footprint
    library, and a resistor footprint to put in it. *)
Definition R_0603 : pcbnew.FOOTPRINT :=
  pcbnew.mkFOOTPRINT "REF**" "R" "R_0603" {| pcbnew.x := 0; pcbnew.y := 0 |}
                     (Py.Int 0) 0 [].

Definition empty_board (library : list (string * pcbnew.FOOTPRINT))
  : pcbnew.BOARD :=
  pcbnew.mkBOARD [] [] []
    [ {| pcbnew.GetNetname := "D+"; pcbnew.GetNetCode := 1 |};
      {| pcbnew.GetNetname := "D-"; pcbnew.GetNetCode := 2 |} ]
    [("F.Cu", 0); ("B.Cu", 31)] library 250000 800000 400000
    {| pcbnew.GetLeft := 0; pcbnew.GetTop := 0;
       pcbnew.GetRight := 100000000; pcbnew.GetBottom := 80000000 |} 0.

Definition mm (x y : Py.number) : Point :=
  {| px := x; py := y; unit := Some "mm" |}.

(** A C library for the examples: its power with exponent 0.5 is the
    correctly rounded square root, which is what every C library returns on
    the perfect squares of the examples; nothing else of it is called. *)
Definition libm_sqrt : Libm :=
  {| cos := λ _, Py.Raise "math domain error";
     sin := λ _, Py.Raise "math domain error";
     pow := λ x y, if (y =? 0.5)%float then Py.Return (PrimFloat.sqrt x)
                   else Py.Raise "math domain error" |}.

(** The grid of the examples: 2 rows of 3 resistors from (10, 2.5) mm at a
    pitch of 1.5 mm by 2 mm, on a board whose library has the footprint. *)
Definition resistor_board : pcbnew.BOARD := empty_board [("R_0603", R_0603)].

Definition resistor_grid : Params :=
  grid_array_request "R_0603" (mm (Py.Int 10) (Py.Float 2.5)) 2 3 6
                     (Py.Float 1.5) (Py.Int 2) "R".

(** *** Circular arrays *)

(** The angle of the item [i] of a circular array, its position on the
    circle for that angle, and the request [_place_circular_array] issues
    for it once angle, position and rotation are computed. *)
Definition circular_angle (angle_start angle_step : Py.number) (i : Z)
  : Py.result Py.number :=
  da ← Py.mul (Py.Int i) angle_step;
  Py.add angle_start da.

Definition circular_position (M : Libm) (center_ : Point)
    (radius_ angle : Py.number) : Py.result Point :=
  angle_rad ← ComponentCommands.radians angle;
  c ← cos M angle_rad;
  rc ← Py.mul radius_ (Py.Float c);
  x ← Py.add (px center_) rc;
  s ← sin M angle_rad;
  rs ← Py.mul radius_ (Py.Float s);
  y ← Py.add (py center_) rs;
  Py.Return {| px := x; py := y;
               unit := Some (Py.get (unit center_) "mm") |}.

Definition circular_request (component_id reference_prefix : string)
    (value_ : option string) (layer_ : string) (i : Z) (position_ : Point)
    (component_rotation : Py.number) : Params :=
  ComponentCommands.cell_request component_id position_
    (reference_prefix +:+ Py.str_int (i + 1)) value_ component_rotation
    layer_.

(** The item [i] can be placed on [b]: its angle, position and rotation are
    computed and [place_component] accepts its request. *)
Definition item_placed (M : Libm) (b : pcbnew.BOARD) (component_id : string)
    (center_ : Point) (radius_ angle_start angle_step : Py.number)
    (reference_prefix : string) (value_ : option string)
    (rotation_offset : Py.number) (layer_ : string) (i : Z) : bool :=
  match circular_angle angle_start angle_step i with
  | Py.Return angle =>
      match circular_position M center_ radius_ angle,
            Py.add angle rotation_offset with
      | Py.Return position_, Py.Return component_rotation =>
          success
            (ComponentCommands.place_component b
               (circular_request component_id reference_prefix value_ layer_
                                 i position_ component_rotation)).1
      | _, _ => false
      end
  | Py.Raise _ => false
  end.

(** What a placed item looks like in the result list and on the board. *)
Definition item_info (M : Libm) (center_ : Point)
    (radius_ angle_start angle_step rotation_offset : Py.number)
    (reference_prefix : string) (i : Z) (info : component_info) : Prop :=
  info_reference info = reference_prefix +:+ Py.str_int (i + 1)
  ∧ ∃ angle,
      circular_angle angle_start angle_step i = Py.Return angle
      ∧ circular_position M center_ radius_ angle
        = Py.Return (info_position info)
      ∧ Py.add angle rotation_offset = Py.Return (info_rotation info).

Definition item_footprint (reference_prefix : string) (i : Z)
    (info : component_info) (module : pcbnew.FOOTPRINT) : Prop :=
  pcbnew.GetReference module = reference_prefix +:+ Py.str_int (i + 1)
  ∧ position_to_nm (info_position info)
    = Py.Return (pcbnew.GetPosition module)
  ∧ Py.mul (info_rotation info) (Py.Int 10)
    = Py.Return (pcbnew.GetOrientation module).

(** A [place_component_array] request for a circle. *)
Definition circular_array_request (component_id : string) (center_ : Point)
    (radius_ : Py.number) (count_ : Z) (angle_step : Py.number)
    (reference_prefix : string) : Params :=
  mkParams (Some component_id) None None None None None None
           (Some "circular") (Some count_) (Some reference_prefix) None None
           None None None None None None None None None None None None None
           None None None None None None None None None None None
           (Some center_) (Some radius_) None (Some angle_step) None.

(** The C library at the quarter turns: the cosine and sine of
    [math.radians(a)] for [a] = 0, 90, 180 and 270 degrees, as the common C
    libraries return them. *)
Definition libm_quarter_turns : Libm :=
  {| cos := λ x, if (x =? 0)%float then Py.Return 1%float
                 else if (x =? 1.5707963267948966)%float
                 then Py.Return 6.123233995736766e-17%float
                 else if (x =? 3.141592653589793)%float
                 then Py.Return (-1)%float
                 else if (x =? 4.71238898038469)%float
                 then Py.Return (-1.8369701987210297e-16)%float
                 else Py.Raise "not modelled";
     sin := λ x, if (x =? 0)%float then Py.Return 0%float
                 else if (x =? 1.5707963267948966)%float
                 then Py.Return 1%float
                 else if (x =? 3.141592653589793)%float
                 then Py.Return 1.2246467991473532e-16%float
                 else if (x =? 4.71238898038469)%float
                 then Py.Return (-1)%float
                 else Py.Raise "not modelled";
     pow := λ _ _, Py.Raise "not modelled" |}.

(** *** Alignment *)

Section AlignmentVocabulary.
Import pcbnew ComponentCommands.

(** The loop [for module in components: module.SetPosition(pos.x, v)] and
    its mirror image. *)
Definition set_all_y (v : Z) (components : list nat) (b : BOARD) : BOARD :=
  foldl (λ b m, SetPositionAt m {| x := pos_x b m; y := v |} b) b components.

Definition set_all_x (v : Z) (components : list nat) (b : BOARD) : BOARD :=
  foldl (λ b m, SetPositionAt m {| x := v; y := pos_y b m |} b) b components.

(** The two distribution loops, which write one coordinate of the
    components at the positions [lo .. hi - 1] of the list. *)
Definition spread_x (f : nat → Z) (lo hi : nat) (components : list nat)
    (b : BOARD) : BOARD :=
  for_range lo hi components
    (λ i m b, SetPositionAt m {| x := f i; y := pos_y b m |} b) b.

Definition spread_y (f : nat → Z) (lo hi : nat) (components : list nat)
    (b : BOARD) : BOARD :=
  for_range lo hi components
    (λ i m b, SetPositionAt m {| x := pos_x b m; y := f i |} b) b.

(** [y_sum // len(components)]: the floor of the mean. *)
Definition y_avg (b : BOARD) (components : list nat) : Z :=
  sum (pos_y b <$> components) `div` Z.of_nat (length components).

Definition x_avg (b : BOARD) (components : list nat) : Z :=
  sum (pos_x b <$> components) `div` Z.of_nat (length components).

(** [x_min + i * spacing_nm] with [spacing_nm = (x_max - x_min) // (n - 1)]. *)
Definition equal_step (lo hi : Z) (n : nat) (i : nat) : Z :=
  lo + Z.of_nat i * ((hi - lo) `div` (Z.of_nat n - 1)).

(** An alignment request. *)
Definition align_request (references_ : list string)
    (alignment_ distribution_ : string) : Params :=
  mkParams None None None None None None None None None None None None None
           None None (Some references_) (Some alignment_)
           (Some distribution_) None None None None None None None None
           None None None None None None None None None None None None None
           None None.

(** A board holding footprints at the given positions, referenced
    [U1], [U2], ... *)
Definition board_with (positions : list (Z * Z)) : BOARD :=
  with_footprints
    (imap (λ i p,
             mkFOOTPRINT ("U" +:+ pretty (S i)) "R" "R_0603"
                         {| x := p.1; y := p.2 |} (Py.Int 0) 0 [])
          positions)
    (empty_board []).

(** Three parts [U1], [U2], [U3], out of order along X. *)
Definition three_parts_board : BOARD :=
  board_with [(9000000, 1000000); (0, 2000000); (5000000, 4000000)].

End AlignmentVocabulary.

(** An alignment request that also gives a spacing or an edge. *)
Definition align_request_with (references_ : list string)
    (alignment_ distribution_ : string) (spacing_ : option Py.number)
    (edge_ : option string) : Params :=
  mkParams None None None None None None None None None None None None None
           None None (Some references_) (Some alignment_)
           (Some distribution_) spacing_ edge_ None None None None None None
           None None None None None None None None None None None None None
           None None.

(** [b'] is [b] with some of the footprints at the indices [ms] moved:
    nothing but the list of footprints differs, each footprint of [b'] is
    the footprint of [b] at the same index up to its position, and the
    footprints at the other indices are the same. *)
Definition moved_only (ms : list nat) (b b' : pcbnew.BOARD) : Prop :=
  b' = pcbnew.with_footprints (pcbnew.GetFootprints b') b
  ∧ Forall2 (λ fp fp', fp' = pcbnew.SetPosition (pcbnew.GetPosition fp') fp)
            (pcbnew.GetFootprints b) (pcbnew.GetFootprints b')
  ∧ ∀ m, m ∉ ms → pcbnew.GetFootprints b' !! m = pcbnew.GetFootprints b !! m.

(** The components an alignment request selects: the ones its references
    resolve to, if all of them do. *)
Definition selected (b : pcbnew.BOARD) (params : Params) : list nat :=
  match ComponentCommands.resolve b (Py.get (references params) []) with
  | inr components => components
  | inl _ => []
  end.

(** *** Routing *)

(** The scan of [delete_trace] over the distances of the tracks: the first
    index at the least distance seen, starting from [float('inf')]. *)
Definition nearest (ds : list float) : option nat * float :=
  foldl (λ (st : option nat * float) (it : nat * float),
           if (it.2 <? st.2)%float then (Some it.1, it.2) else st)
        (None, infinity) (imap pair ds).

(** A [delete_trace] request. *)
Definition delete_request (trace_uuid : option string)
    (position_ : option Point) : Params :=
  mkParams None position_ None None None None None None None None None None
           None None None None None None None None None trace_uuid None None
           None None None None None None None None None None None None None
           None None None None.

(** A [route_differential_pair] request. *)
Definition pair_request (start_pos end_pos : point_spec)
    (net_pos net_neg : string) (layer_ : option string)
    (width_ gap_ : option Py.number) : Params :=
  mkParams None None None None None None layer_ None None None None None None
           None None None None None None None None None (Some start_pos)
           (Some end_pos) (Some net_pos) (Some net_neg) width_ gap_ None None
           None None None None None None None None None None None.

(** The board with one track from (0, 0) to (10, 0) mm. *)
Definition one_track_board : pcbnew.BOARD :=
  pcbnew.AddTrack {| pcbnew.x := 0; pcbnew.y := 0 |}
                  {| pcbnew.x := 10000000; pcbnew.y := 0 |} 0 250000 None
                  (empty_board []).

(** The square of the distance of two points, an exact integer, and the
    point-to-point distance: its square root, taken as the power 0.5 of the
    C library after the conversion of the integer to a float. *)
Definition squared_distance (p q : pcbnew.VECTOR2I) : Z :=
  (pcbnew.x p - pcbnew.x q) ^ 2 + (pcbnew.y p - pcbnew.y q) ^ 2.

Definition point_to_point_distance (M : Libm) (p q : pcbnew.VECTOR2I)
  : Py.result float :=
  square ← Py.float_of_int (squared_distance p q);
  pow M square 0.5.

(** The projection parameter of [_point_to_track_distance],
    [((point - start) . (end - start)) / |end - start|^2], and the projection
    of the point on the track for a parameter [c2] in [0, 1], each
    coordinate truncated to an integer by [int()]. *)
Definition projection_parameter (point : pcbnew.VECTOR2I)
    (track : pcbnew.PCB_TRACK) : Py.result float :=
  let start := pcbnew.GetStart track in
  let end_ := pcbnew.GetEnd track in
  let vx := pcbnew.x end_ - pcbnew.x start in
  let vy := pcbnew.y end_ - pcbnew.y start in
  let wx := pcbnew.x point - pcbnew.x start in
  let wy := pcbnew.y point - pcbnew.y start in
  dot ← Py.float_of_int (wx * vx + wy * vy);
  c1 ← Py.float_of_int (vx * vx + vy * vy);
  Py.Return (dot / c1)%float.

Definition projection (track : pcbnew.PCB_TRACK) (c2 : float)
  : Py.result pcbnew.VECTOR2I :=
  let start := pcbnew.GetStart track in
  let end_ := pcbnew.GetEnd track in
  vx ← Py.float_of_int (pcbnew.x end_ - pcbnew.x start);
  sx ← Py.float_of_int (pcbnew.x start);
  proj_x ← Py.trunc (sx + c2 * vx)%float;
  vy ← Py.float_of_int (pcbnew.y end_ - pcbnew.y start);
  sy ← Py.float_of_int (pcbnew.y start);
  proj_y ← Py.trunc (sy + c2 * vy)%float;
  Py.Return {| pcbnew.x := proj_x; pcbnew.y := proj_y |}.

(** The same request without its [position] entry. *)
Definition without_position (p : Params) : Params :=
  mkParams (componentId p) None (reference p) (value p) (footprint p)
           (rotation p) (layer p) (pattern p) (count p) (referencePrefix p)
           (startPosition p) (rows p) (columns p) (spacingX p) (spacingY p)
           (references p) (alignment p) (distribution p) (spacing p) (edge p)
           (newReference p) (traceUuid p) (startPos p) (endPos p) (netPos p)
           (netNeg p) (width p) (gap p) (size p) (drill p) (net p)
           (from_layer p) (to_layer p) (schematicPath p) (startPoint p)
           (endPoint p)
           (center p) (radius p) (angleStart p) (angleStep p)
           (rotationOffset p).

(** [math.sqrt(dx * dx + dy * dy)] for the direction from [start] to [end]. *)
Definition pair_length (start_point end_point : pcbnew.VECTOR2I)
  : Py.result float :=
  let dx := pcbnew.x end_point - pcbnew.x start_point in
  let dy := pcbnew.y end_point - pcbnew.y start_point in
  square ← Py.float_of_int (dx * dx + dy * dy);
  Py.Return (PrimFloat.sqrt square).

(** The half-gap offset [o = p * gap_nm / 2] with [p = (-d.y, d.x)] and [d]
    the direction divided by its length, each component truncated to an
    integer by [int()]. *)
Definition pair_offset_x (start_point end_point : pcbnew.VECTOR2I)
    (gap_nm : Z) : Py.result Z :=
  length_ ← pair_length start_point end_point;
  dy ← Py.float_of_int (pcbnew.y end_point - pcbnew.y start_point);
  gap_nm_ ← Py.float_of_int gap_nm;
  Py.trunc (- (dy / length_) * gap_nm_ / 2)%float.

Definition pair_offset_y (start_point end_point : pcbnew.VECTOR2I)
    (gap_nm : Z) : Py.result Z :=
  length_ ← pair_length start_point end_point;
  dx ← Py.float_of_int (pcbnew.x end_point - pcbnew.x start_point);
  gap_nm_ ← Py.float_of_int gap_nm;
  Py.trunc (dx / length_ * gap_nm_ / 2)%float.

(** The width of the two rails: the request's, in internal units, or the
    board's current track width. *)
Definition pair_width (b : pcbnew.BOARD) (params : Params) : Py.result Z :=
  if Py.truthy Py.truthy_number (width params) then
    to_nm (Py.get (width params) (Py.Int 0)) 1000000
  else Py.Return (pcbnew.GetCurrentTrackWidth b).

Definition shift (p : pcbnew.VECTOR2I) (ox oy : Z) : pcbnew.VECTOR2I :=
  {| pcbnew.x := pcbnew.x p + ox; pcbnew.y := pcbnew.y p + oy |}.

(** The request of the specification's example: from (0, 0) to (10, 0) mm
    with a gap of 0.2 mm, on the default layer with the default width. *)
Definition example_pair_request : Params :=
  pair_request (Literal (mm (Py.Int 0) (Py.Int 0)))
               (Literal (mm (Py.Int 10) (Py.Int 0))) "D+" "D-" None None
               (Some (Py.Float 0.2)).

Definition net_D_pos : pcbnew.NETINFO_ITEM :=
  {| pcbnew.GetNetname := "D+"; pcbnew.GetNetCode := 1 |}.
Definition net_D_neg : pcbnew.NETINFO_ITEM :=
  {| pcbnew.GetNetname := "D-"; pcbnew.GetNetCode := 2 |}.

(** The board after the two rails are added at the offset ([ox], [oy]). *)
Definition with_pair (b : pcbnew.BOARD) (layer_id trace_width : Z)
    (net_pos_obj net_neg_obj : pcbnew.NETINFO_ITEM)
    (start_point end_point : pcbnew.VECTOR2I) (ox oy : Z) : pcbnew.BOARD :=
  pcbnew.with_tracks
    (pcbnew.Tracks b
     ++ [ pcbnew.mkTRACK (pcbnew.KIID (pcbnew.kiid_seed b))
            (shift start_point ox oy) (shift end_point ox oy)
            layer_id trace_width (Some net_pos_obj);
          pcbnew.mkTRACK (pcbnew.KIID (S (pcbnew.kiid_seed b)))
            (shift start_point (- ox) (- oy)) (shift end_point (- ox) (- oy))
            layer_id trace_width (Some net_neg_obj) ])
    (S (S (pcbnew.kiid_seed b))) b.

(** What the differential-pair handler does once the request is complete,
    the layer and the nets exist and the end points are resolved. *)
Definition pair_outcome (b : pcbnew.BOARD) (params : Params)
    (net_pos net_neg : string)
    (net_pos_obj net_neg_obj : pcbnew.NETINFO_ITEM)
    (start_point end_point : pcbnew.VECTOR2I) : Prop :=
  (start_point = end_point →
   RoutingCommands.route_differential_pair b params
   = (failure "Invalid points" "Start and end points must be different", b))
  ∧ (∀ length_,
       pair_length start_point end_point = Py.Return length_ →
       (length_ <=? 0)%float = true →
       RoutingCommands.route_differential_pair b params
       = (failure "Invalid points" "Start and end points must be different",
          b))
  ∧ (∀ length_ gap_nm offset_x offset_y trace_width,
       pair_length start_point end_point = Py.Return length_ →
       (length_ <=? 0)%float = false →
       to_nm (Py.get (gap params) (Py.Float 0.2)) 1000000
       = Py.Return gap_nm →
       pair_offset_x start_point end_point gap_nm = Py.Return offset_x →
       pair_offset_y start_point end_point gap_nm = Py.Return offset_y →
       pair_width b params = Py.Return trace_width →
       (RoutingCommands.route_differential_pair b params).2
       = with_pair b (pcbnew.GetLayerID b (Py.get (layer params) "F.Cu"))
                   trace_width net_pos_obj net_neg_obj start_point end_point
                   offset_x offset_y
       ∧ ∀ width_mm,
           Py.int_truediv trace_width 1000000 = Py.Return width_mm →
           (RoutingCommands.route_differential_pair b params).1
           = ok "Added differential pair traces"
                (DiffPair net_pos net_neg (Py.get (layer params) "F.Cu")
                   width_mm (Py.get (gap params) (Py.Float 0.2))
                   (length_ / 1000000))).

(** A size, a drill or a width of a new item: the request's, in internal
    units, when one is given and is not zero, and else the board's current
    one ([int(size * 1000000) if size else ...GetCurrentViaSize()]). *)
Definition requested_or_current (requested : option Py.number) (current : Z)
  : Py.result Z :=
  if Py.truthy Py.truthy_number requested then
    to_nm (Py.get requested (Py.Int 0)) 1000000
  else Py.Return current.

(** The net a new via or track is put on: the board's net of the requested
    name, if a name is given and the board has such a net. *)
Definition via_net_of (b : pcbnew.BOARD) (net_ : option string)
  : option pcbnew.NETINFO_ITEM :=
  match net_ with
  | Some n => if Py.truthy_str n then pcbnew.FindNet b n else None
  | None => None
  end.

(** A [route_trace] request, without its keys [start], [end] and [via]. *)
Definition trace_request (layer_ : option string) (width_ : option Py.number)
    (net_ : option string) : Params :=
  mkParams None None None None None None layer_ None None None None None None
           None None None None None None None None None None None None None
           width_ None None None net_ None None None None None None None None
           None None.

(** A board whose only copper layer is F.Cu, with the net D+. *)
Definition front_only_board : pcbnew.BOARD :=
  pcbnew.mkBOARD [] [] []
    [ {| pcbnew.GetNetname := "D+"; pcbnew.GetNetCode := 1 |} ]
    [("F.Cu", 0)] [] 250000 800000 400000
    {| pcbnew.GetLeft := 0; pcbnew.GetTop := 0;
       pcbnew.GetRight := 100000000; pcbnew.GetBottom := 80000000 |} 0.

(** *** Duplicate references, the bill of materials and the router *)

(** A [duplicate_component] request. *)
Definition duplicate_request (reference_ new_reference : string) : Params :=
  mkParams None None (Some reference_) None None None None None None None
           None None None None None None None None None None
           (Some new_reference) None None None None None None None None None
           None None None None None None None None None None None.

(** The references on a board, in the board's order. *)
Definition board_references (b : pcbnew.BOARD) : list string :=
  pcbnew.GetReference <$> pcbnew.GetFootprints b.

(** The request to place a resistor called [R1] at ([x], 0) mm, and the
    board with the footprint library after one such request. *)
Definition place_R1 (x : Z) : Params :=
  ComponentCommands.cell_request "R_0603" (mm (Py.Int x) (Py.Int 0)) "R1"
                                 None (Py.Int 0) "F.Cu".

Definition one_resistor_board : pcbnew.BOARD :=
  (ComponentCommands.place_component resistor_board (place_R1 0)).2.

(** A request that gives a reference and nothing else. *)
Definition reference_request (reference_ : string) : Params :=
  mkParams None None (Some reference_) None None None None None None None
           None None None None None None None None None None None None None
           None None None None None None None None None None None None None
           None None None None None.

(** The commands whose handler starts with the no-board guard. *)
Definition board_backed_commands : list string :=
  [ "save_project"; "get_project_info";
    "set_board_size"; "add_layer"; "set_active_layer"; "get_board_info";
    "get_layer_list"; "get_board_2d_view"; "add_board_outline";
    "add_mounting_hole"; "add_text";
    "place_component"; "move_component"; "rotate_component";
    "delete_component"; "edit_component"; "get_component_properties";
    "get_component_list"; "place_component_array"; "align_components";
    "duplicate_component";
    "add_net"; "route_trace"; "add_via"; "delete_trace"; "get_nets_list";
    "create_netclass"; "add_copper_pour"; "route_differential_pair";
    "set_design_rules"; "get_design_rules"; "run_drc"; "get_drc_violations";
    "export_gerber"; "export_pdf"; "export_svg"; "export_3d"; "export_bom" ].

(** The schematic commands, which work on schematic files. *)
Definition schematic_commands : list string :=
  [ "create_schematic"; "load_schematic"; "add_schematic_component";
    "add_schematic_wire"; "list_schematic_libraries";
    "export_schematic_pdf" ].

(** The components of a list that have the grouping key [k], in the order
    of the list, and the row that stands for a non-empty list of them. *)
Definition members (k : string)
    (components : list ExportCommands.bom_component)
  : list ExportCommands.bom_component :=
  filter (λ comp, ExportCommands.key_of comp = k) components.

Definition row_of (ms : list ExportCommands.bom_component)
  : option bom_row :=
  match ms with
  | [] => None
  | first :: _ =>
      Some {| row_value := ExportCommands.bom_value first;
              row_footprint := ExportCommands.bom_footprint first;
              row_quantity := Z.of_nat (length ms);
              row_references := ExportCommands.bom_reference <$> ms |}
  end.

(** A component of the bill of materials on layer F.Cu. *)
Definition bom_part (reference_ value_ footprint_ : string)
  : ExportCommands.bom_component :=
  {| ExportCommands.bom_reference := reference_;
     ExportCommands.bom_value := value_;
     ExportCommands.bom_footprint := footprint_;
     ExportCommands.bom_layer := "F.Cu" |}.

(** * Properties *)

(** ** Decimal strings *)

Lemma pretty_N_go_nonempty (n : N) (s : string) :
  s ≠ "" → pretty_N_go n s ≠ "".
Proof.
  revert s. induction (N.lt_wf_0 n) as [n _ IH]; intros s Hs.
  destruct (decide (n = 0%N)) as [->|Hn].
  - by rewrite pretty_N_go_0.
  - rewrite pretty_N_go_step by lia. apply IH; [|done].
    apply N.div_lt; lia.
Qed.

Lemma str_int_nonempty (z : Z) : Py.str_int z ≠ "".
Proof.
  unfold Py.str_int, pretty, pretty_Z.
  assert (∀ p : positive, pretty p ≠ "") as Hpos.
  { intros p. unfold pretty, pretty_positive, pretty, pretty_N.
    case_decide; [done|].
    rewrite pretty_N_go_step by lia. by apply pretty_N_go_nonempty. }
  destruct z; [done|apply Hpos|done].
Qed.

Lemma append_nonempty (s t : string) : t ≠ "" → s +:+ t ≠ "".
Proof. destruct s; [done|]. by intros _. Qed.

Lemma truthy_str_true (s : string) : s ≠ "" → Py.truthy_str s = true.
Proof.
  intros Hs. unfold Py.truthy_str.
  destruct (String.eqb_spec s "") as [->|]; done.
Qed.

Lemma truthy_str_inv (s : string) : Py.truthy_str s = true → s ≠ "".
Proof.
  unfold Py.truthy_str. destruct (String.eqb_spec s "") as [->|]; done.
Qed.

(** ** Placement *)

Section Placement.
Import pcbnew ComponentCommands.

Lemma same_env_refl b : same_env b b.
Proof. done. Qed.

Lemma same_env_add b b' m : same_env b b' → same_env b (AddFootprint m b').
Proof. by intros [??]. Qed.

Lemma GetPosition_set_if set s m :
  (∀ s m, GetPosition (set s m) = GetPosition m) →
  GetPosition (set_if set s m) = GetPosition m.
Proof. intros H. unfold set_if. by repeat case_match. Qed.

Lemma GetReference_set_if set s m :
  (∀ s m, GetReference (set s m) = GetReference m) →
  GetReference (set_if set s m) = GetReference m.
Proof. intros H. unfold set_if. by repeat case_match. Qed.

Lemma GetReference_set_if_SetReference r m :
  r ≠ "" → GetReference (set_if SetReference (Some r) m) = r.
Proof. intros Hr. simpl. by rewrite truthy_str_true. Qed.

Lemma GetPosition_if_SetLayer (c : bool) l m :
  GetPosition (if c then SetLayer l m else m) = GetPosition m.
Proof. by destruct c. Qed.

Lemma GetReference_if_SetLayer (c : bool) l m :
  GetReference (if c then SetLayer l m else m) = GetReference m.
Proof. by destruct c. Qed.

(** A successful placement of a request on a board of the same
    environment: the response is the same and one footprint is added. *)
Lemma place_component_success b0 b req :
  same_env b0 b →
  success (place_component b0 req).1 = true →
  ∃ info module position_,
    place_component b req
      = (ok ("Placed component: " +:+ Py.get (componentId req) "")
            (Component info), AddFootprint module b)
    ∧ position req = Some position_
    ∧ info_position info = position_
    ∧ position_to_nm position_ = Py.Return (GetPosition module)
    ∧ info_reference info = GetReference module
    ∧ (∀ r, reference req = Some r → r ≠ "" → GetReference module = r).
Proof.
  intros [Hlib Hlay]. unfold place_component, FootprintLoad, GetLayerID.
  rewrite <-Hlib, <-Hlay.
  destruct (componentId req) as [cid|], (position req) as [pos|];
    simpl; try done.
  destruct (Py.truthy_str cid); simpl; [|done].
  destruct (assoc cid (footprint_library b0)) as [module|]; simpl; [|done].
  destruct (position_to_nm pos) as [p|e] eqn:Hp; simpl; [|done].
  destruct (Py.mul _ _) as [orientation|e]; simpl; [|done].
  intros _. eexists _, _, pos. split; [reflexivity|].
  split_and!; [done|done| |done|].
  - rewrite GetPosition_if_SetLayer. simpl.
    by rewrite !GetPosition_set_if.
  - intros r -> Hr. rewrite GetReference_if_SetLayer. simpl.
    rewrite !GetReference_set_if by done.
    by apply GetReference_set_if_SetReference.
Qed.

(** *** The grid *)

Lemma foldl_nested {S A B} (g : A → B → S → S) (st : S) (l : list A)
    (k : list B) :
  foldl (λ st a, foldl (λ st c, g a c st) st k) st l
  = foldl (λ st c, g c.1 c.2 st) st (a ← l; pair a <$> k).
Proof.
  revert st. induction l as [|a l IH]; intros st; [done|].
  assert (∀ st', foldl (λ st c, g a c st) st' k
                 = foldl (λ st c, g c.1 c.2 st) st' (pair a <$> k)) as Hk.
  { clear IH. induction k as [|c k IHk]; intros st'; [done|]. apply IHk. }
  simpl. by rewrite foldl_app, IH, Hk.
Qed.

Lemma with_footprints_add m l b :
  AddFootprint m (with_footprints l b) = with_footprints (l ++ [m]) b.
Proof. done. Qed.

Lemma same_env_with_footprints b0 b l :
  same_env b0 b → same_env b0 (with_footprints l b).
Proof. by intros [??]. Qed.

Lemma grid_cells_index (R : nat) (C : Z) :
  0 ≤ C →
  (λ c : Z * Z, c.1 * C + c.2 + 1) <$> grid_cells (Z.of_nat R) C
  = seqZ 1 (Z.of_nat R * C).
Proof.
  intros HC. unfold grid_cells. induction R as [|R IH].
  { by rewrite Z.mul_0_l. }
  rewrite seqZ_S, bind_app, fmap_app, IH. simpl. rewrite app_nil_r.
  replace (Z.of_nat (S R) * C) with (Z.of_nat R * C + C) by lia.
  rewrite seqZ_app by lia. f_equal.
  rewrite <-list_fmap_compose.
  replace (1 + Z.of_nat R * C) with (1 + Z.of_nat R * C + 0) by lia.
  rewrite <-(fmap_add_seqZ (1 + Z.of_nat R * C) 0 C).
  apply list_fmap_ext. intros _ col _. simpl. lia.
Qed.

Lemma grid_cells_range (rows_ columns_ : Z) :
  Forall (λ c : Z * Z, 0 ≤ c.1 < rows_ ∧ 0 ≤ c.2 < columns_)
         (grid_cells rows_ columns_).
Proof.
  apply Forall_forall. intros [row col]. unfold grid_cells.
  rewrite list_elem_of_bind. intros (r & Hc & Hr).
  apply list_elem_of_fmap in Hc as (c & [= -> ->] & Hc).
  apply elem_of_seqZ in Hr, Hc. simpl. lia.
Qed.

Lemma grid_cells_lookup (rows_ columns_ row col : Z) :
  0 ≤ row < rows_ → 0 ≤ col < columns_ →
  grid_cells rows_ columns_ !! Z.to_nat (row * columns_ + col)
  = Some (row, col).
Proof.
  intros Hrow Hcol.
  pose proof (grid_cells_index (Z.to_nat rows_) columns_ ltac:(lia)) as Hi.
  rewrite Z2Nat.id in Hi by lia.
  assert (seqZ 1 (rows_ * columns_) !! Z.to_nat (row * columns_ + col)
          = Some (row * columns_ + col + 1)) as Hk.
  { rewrite lookup_seqZ_lt by nia. f_equal. nia. }
  rewrite <-Hi, list_lookup_fmap in Hk.
  destruct (grid_cells rows_ columns_ !! _) as [[r c]|] eqn:Hc; [|done].
  pose proof (Forall_lookup_1 _ _ _ _ (grid_cells_range rows_ columns_) Hc)
    as [Hr1 Hc1].
  simpl in *. injection Hk as Hk. f_equal.
  assert (r = row) as -> by nia. f_equal. lia.
Qed.

Section Grid.
Context (b0 : BOARD) (component_id : string) (start_position : Point)
        (columns_ : Z) (spacing_x spacing_y : Py.number)
        (reference_prefix : string) (value_ : option string)
        (rotation_ : Py.number) (layer_ : string).

Let request :=
  grid_request component_id columns_ reference_prefix value_ rotation_ layer_.
Let cell :=
  grid_cell component_id start_position columns_ spacing_x spacing_y
            (Py.get (unit start_position) "mm") reference_prefix value_
            rotation_ layer_.

Lemma grid_cell_request row col placed b position_ :
  grid_position start_position spacing_x spacing_y row col
  = Py.Return position_ →
  cell row col (Py.Return placed, b)
  = (Py.Return
       (append_if_placed placed
          (place_component b (request row col position_)).1),
     (place_component b (request row col position_)).2).
Proof.
  unfold grid_position, cell, grid_cell, request, grid_request,
    grid_reference, mbind, result_bind.
  destruct (Py.mul (Py.Int col) spacing_x) as [dx|];
    cbn [Py.bind bind_on]; [|done].
  destruct (Py.add (px start_position) dx) as [x|];
    cbn [Py.bind bind_on]; [|done].
  destruct (Py.mul (Py.Int row) spacing_y) as [dy|];
    cbn [Py.bind bind_on]; [|done].
  destruct (Py.add (py start_position) dy) as [y|];
    cbn [Py.bind bind_on]; [|done].
  intros [= <-]. by destruct (place_component _ _).
Qed.

Lemma grid_cells_placed (cs : list (Z * Z)) :
  Forall (λ c, cell_placed b0 component_id start_position columns_ spacing_x
                 spacing_y reference_prefix value_ rotation_ layer_ c.1 c.2
               = true) cs →
  ∀ placed fps,
  ∃ infos modules,
    foldl (λ st c, cell c.1 c.2 st)
          (Py.Return placed, with_footprints fps b0) cs
    = (Py.Return (placed ++ infos), with_footprints (fps ++ modules) b0)
    ∧ Forall2 (cell_info start_position columns_ spacing_x spacing_y reference_prefix) cs infos
    ∧ Forall2 (cell_footprint start_position columns_ spacing_x spacing_y reference_prefix) cs modules.
Proof.
  induction 1 as [|[row col] cs Hc _ IH]; intros placed fps.
  { exists [], []. by rewrite !app_nil_r. }
  unfold cell_placed in Hc. cbn [fst snd] in Hc.
  destruct (grid_position start_position spacing_x spacing_y row col)
    as [position_|] eqn:Hposition; [|done].
  destruct (place_component_success b0 (with_footprints fps b0) _
              (same_env_with_footprints _ _ fps (same_env_refl b0)) Hc)
    as (info & module & pos & Hplace & Hpos & Hinfo & Hnm & Href & Hr).
  simpl in Hpos. injection Hpos as <-.
  specialize (Hr _ eq_refl (append_nonempty _ _ (str_int_nonempty _))).
  destruct (IH (placed ++ [info]) (fps ++ [module]))
    as (infos & modules & Hfold & Hinfos & Hmodules).
  exists (info :: infos), (module :: modules).
  split_and!.
  - cbn [foldl fst snd]. rewrite (grid_cell_request _ _ _ _ _ Hposition).
    unfold request. rewrite Hplace.
    cbn [fst snd]. unfold append_if_placed. cbn [success ok data].
    rewrite with_footprints_add, Hfold, <-!(assoc_L (++)). done.
  - constructor; [|done]. split; cbn [fst snd]; [by rewrite Hinfo|].
    by rewrite Href.
  - constructor; [|done]. split; cbn [fst snd]; [done|].
    by rewrite Hposition.
Qed.
End Grid.

Lemma with_footprints_id b : with_footprints (GetFootprints b) b = b.
Proof. by destruct b. Qed.

Lemma grid_reference_inj reference_prefix :
  Inj (=) (=) (λ i : Z, reference_prefix +:+ Py.str_int i).
Proof.
  intros i j Hij. apply (inj (String.append reference_prefix)) in Hij.
  by apply (inj pretty) in Hij.
Qed.

(** The two loops of [_place_grid_array] when every cell can be placed. *)
Lemma place_grid_array_placed b component_id start_position rows_ columns_
    spacing_x spacing_y reference_prefix value_ rotation_ layer_ :
  (∃ nm, to_nm spacing_x (scale_of (Py.get (unit start_position) "mm"))
         = Py.Return nm) →
  (∃ nm, to_nm spacing_y (scale_of (Py.get (unit start_position) "mm"))
         = Py.Return nm) →
  (∀ row col, 0 ≤ row < rows_ → 0 ≤ col < columns_ →
     cell_placed b component_id start_position columns_ spacing_x spacing_y
                 reference_prefix value_ rotation_ layer_ row col = true) →
  ∃ placed added,
    _place_grid_array b component_id start_position rows_ columns_ spacing_x
      spacing_y reference_prefix value_ rotation_ layer_
    = (Py.Return placed, with_footprints (GetFootprints b ++ added) b)
    ∧ Forall2 (cell_info start_position columns_ spacing_x spacing_y
                         reference_prefix)
              (grid_cells rows_ columns_) placed
    ∧ Forall2 (cell_footprint start_position columns_ spacing_x spacing_y
                              reference_prefix)
              (grid_cells rows_ columns_) added.
Proof.
  intros [sxn Hsx] [syn Hsy] Hok.
  destruct (grid_cells_placed b component_id start_position columns_
              spacing_x spacing_y reference_prefix value_ rotation_ layer_
              (grid_cells rows_ columns_)) with (placed := @nil component_info)
              (fps := GetFootprints b)
    as (placed & added & Hfold & Hinfos & Hmods).
  { eapply Forall_impl; [apply grid_cells_range|].
    intros [row col] [??]. by apply Hok. }
  rewrite with_footprints_id in Hfold.
  exists placed, added. split_and!; [|done..].
  unfold _place_grid_array. rewrite Hsx, Hsy. cbn [bind_on].
  rewrite (foldl_nested
    (grid_cell component_id start_position columns_ spacing_x spacing_y
       (Py.get (unit start_position) "mm") reference_prefix value_ rotation_
       layer_)).
  exact Hfold.
Qed.

End Placement.

(** C1, as stated, fails: with [rows * columns = count = 1] and a component
    id the footprint library does not know, the one cell's placement fails,
    is dropped silently, and no reference at all is produced (the claim
    promises exactly [R1]); the handler reports success all the same. *)
Lemma grid_unknown_footprint_places_nothing :
  (λ M, ComponentCommands.place_component_array M (empty_board [])
          (grid_array_request "R_0603" (mm (Py.Int 0) (Py.Int 0)) 1 1 1
                              (Py.Int 1) (Py.Int 1) "R"))
  = (λ _, (ok "Placed 1 components in grid pattern" (Components []),
           empty_board [])).
Proof. reflexivity. Qed.


(** C1 (amended): a grid request that [place_component_array] accepts
    (component id and count given, positive [rows] and [columns] with
    [rows * columns = count], non-zero spacings that convert to internal
    units) and all of whose cells can be placed (in particular the footprint
    library knows the component id) succeeds and lists the cells in
    row-major order; the cell at ([row], [col]) is reported at
    [(startX + col * spacingX, startY + row * spacingY)] in the start
    position's unit and carries the reference [prefix ++ str (row * columns +
    col + 1)]; the references are exactly [prefix1 .. prefixN] for [N =
    count], pairwise distinct; and the board gains one footprint per cell,
    with that reference, at that position converted to internal units. *)
Theorem grid_placement (M : Libm) (b : pcbnew.BOARD) (params : Params)
    (component_id : string) (start_position : Point)
    (rows_ columns_ count_ : Z) (spacing_x spacing_y : Py.number) :
  componentId params = Some component_id → component_id ≠ "" →
  Py.get (pattern params) "grid" = "grid" →
  count params = Some count_ →
  startPosition params = Some start_position →
  rows params = Some rows_ → columns params = Some columns_ →
  spacingX params = Some spacing_x → spacingY params = Some spacing_y →
  0 < rows_ → 0 < columns_ → rows_ * columns_ = count_ →
  Py.truthy_number spacing_x = true → Py.truthy_number spacing_y = true →
  (∃ nm, to_nm spacing_x (scale_of (Py.get (unit start_position) "mm"))
         = Py.Return nm) →
  (∃ nm, to_nm spacing_y (scale_of (Py.get (unit start_position) "mm"))
         = Py.Return nm) →
  (∀ row col, 0 ≤ row < rows_ → 0 ≤ col < columns_ →
     cell_placed b component_id start_position columns_ spacing_x spacing_y
                 (Py.get (referencePrefix params) "U") (value params)
                 (Py.get (rotation params) (Py.Int 0))
                 (Py.get (layer params) "F.Cu") row col = true) →
  ∃ placed added,
    ComponentCommands.place_component_array M b params
    = (ok ("Placed " +:+ Py.str_int count_ +:+ " components in grid pattern")
          (Components placed),
       pcbnew.with_footprints (pcbnew.GetFootprints b ++ added) b)
    ∧ info_reference <$> placed
      = (λ i, Py.get (referencePrefix params) "U" +:+ Py.str_int i)
          <$> seqZ 1 count_
    ∧ NoDup (info_reference <$> placed)
    ∧ pcbnew.GetReference <$> added = info_reference <$> placed
    ∧ ∀ row col, 0 ≤ row < rows_ → 0 ≤ col < columns_ →
        ∃ info module,
          placed !! Z.to_nat (row * columns_ + col) = Some info
          ∧ added !! Z.to_nat (row * columns_ + col) = Some module
          ∧ grid_position start_position spacing_x spacing_y row col
            = Py.Return (info_position info)
          ∧ info_reference info
            = Py.get (referencePrefix params) "U"
              +:+ Py.str_int (row * columns_ + col + 1)
          ∧ pcbnew.GetReference module = info_reference info
          ∧ (grid_position start_position spacing_x spacing_y row col
               ≫= position_to_nm)
            = Py.Return (pcbnew.GetPosition module).
Proof.
  intros Hid Hidne Hpattern Hcount Hstart Hrows Hcols Hsx Hsy Hrpos Hcpos
    <- Htx Hty Hnx Hny Hok.
  destruct (place_grid_array_placed b component_id start_position rows_
              columns_ spacing_x spacing_y
              (Py.get (referencePrefix params) "U") (value params)
              (Py.get (rotation params) (Py.Int 0))
              (Py.get (layer params) "F.Cu") Hnx Hny Hok)
    as (placed & added & Hgrid & Hinfos & Hmods).
  assert (info_reference <$> placed
          = (λ i, Py.get (referencePrefix params) "U" +:+ Py.str_int i)
              <$> seqZ 1 (rows_ * columns_)) as Hrefs.
  { pose proof (grid_cells_index (Z.to_nat rows_) columns_ ltac:(lia)) as Hi.
    rewrite Z2Nat.id in Hi by lia. rewrite <-Hi, <-list_fmap_compose.
    symmetry. apply list_eq_Forall2, Forall2_fmap.
    eapply Forall2_impl; [exact Hinfos|]. by intros c info [_ ->]. }
  exists placed, added. split_and!.
  - unfold ComponentCommands.place_component_array.
    rewrite Hid, Hcount, Hpattern, Hstart, Hrows, Hcols, Hsx, Hsy.
    cbn [Py.truthy Py.get default from_option id].
    rewrite (truthy_str_true _ Hidne), Htx, Hty.
    replace (rows_ * columns_ =? 0) with false by (symmetry; apply Z.eqb_neq; nia).
    replace (rows_ =? 0) with false by (symmetry; apply Z.eqb_neq; lia).
    replace (columns_ =? 0) with false by (symmetry; apply Z.eqb_neq; lia).
    rewrite Z.eqb_refl. cbn [negb orb String.eqb Ascii.eqb Bool.eqb].
    rewrite Hgrid. reflexivity.
  - done.
  - rewrite Hrefs. apply (NoDup_fmap_2 _), NoDup_seqZ.
  - apply list_eq_Forall2, Forall2_fmap.
    assert (Forall2 (λ m info, ∃ c, cell_info start_position columns_
              spacing_x spacing_y (Py.get (referencePrefix params) "U") c info
              ∧ cell_footprint start_position columns_ spacing_x spacing_y
                  (Py.get (referencePrefix params) "U") c m) added placed)
      as H.
    { clear -Hinfos Hmods. revert added Hmods.
      induction Hinfos; intros added; inversion 1; simplify_eq;
        constructor; eauto. }
    eapply Forall2_impl; [exact H|].
    intros m info (c & [_ ->] & [-> _]). done.
  - intros row col Hrow Hcol.
    pose proof (grid_cells_lookup rows_ columns_ row col Hrow Hcol) as Hc.
    destruct (Forall2_lookup_l _ _ _ _ _ Hinfos Hc) as (info & Hi & ? & ?).
    destruct (Forall2_lookup_l _ _ _ _ _ Hmods Hc) as (m & Hm & ? & ?).
    exists info, m. simpl in *. split_and!; try done. congruence.
Qed.

(** The 2-by-3 grid of resistors: six components [R1] .. [R6], row by
    row. *)
Lemma grid_placement_witness :
  ∃ placed added,
    ComponentCommands.place_component_array libm_sqrt resistor_board
      resistor_grid
    = (ok "Placed 6 components in grid pattern" (Components placed),
       pcbnew.with_footprints added resistor_board)
    ∧ info_reference <$> placed = ["R1"; "R2"; "R3"; "R4"; "R5"; "R6"]
    ∧ pcbnew.GetReference <$> added = ["R1"; "R2"; "R3"; "R4"; "R5"; "R6"].
Proof.
  destruct (grid_placement libm_sqrt resistor_board resistor_grid "R_0603"
              (mm (Py.Int 10) (Py.Float 2.5)) 2 3 6 (Py.Float 1.5)
              (Py.Int 2))
    as (placed & added & Hcall & Hplaced & _ & Hadded & _).
  - reflexivity.
  - discriminate.
  - reflexivity.
  - reflexivity.
  - reflexivity.
  - reflexivity.
  - reflexivity.
  - reflexivity.
  - reflexivity.
  - lia.
  - lia.
  - reflexivity.
  - reflexivity.
  - reflexivity.
  - eexists. vm_compute. reflexivity.
  - eexists. vm_compute. reflexivity.
  - intros row col Hrow Hcol.
    assert (row = 0 ∨ row = 1) as [-> | ->] by lia;
      (assert (col = 0 ∨ col = 1 ∨ col = 2) as [-> | [-> | ->]] by lia);
      reflexivity.
  - exists placed, added. split_and!.
    + exact Hcall.
    + exact Hplaced.
    + rewrite Hadded. exact Hplaced.
Defined.


(** ** Alignment *)

Section Alignment.
Import pcbnew ComponentCommands.

Lemma deref_SetPositionAt b m p m' :
  deref (SetPositionAt m p b) m'
  = if decide (m = m' ∧ (m < length (GetFootprints b))%nat)
    then SetPosition p (deref b m) else deref b m'.
Proof.
  unfold deref, SetPositionAt. simpl.
  destruct (decide (m = m')) as [->|Hne].
  - rewrite list_lookup_alter_eq.
    destruct (GetFootprints b !! m') as [fp|] eqn:Hfp; simpl.
    + apply lookup_lt_Some in Hfp. by rewrite decide_True.
    + apply lookup_ge_None in Hfp. rewrite decide_False by lia. done.
  - rewrite list_lookup_alter_ne by done. rewrite decide_False by tauto.
    done.
Qed.

Lemma length_SetPositionAt b m p :
  length (GetFootprints (SetPositionAt m p b)) = length (GetFootprints b).
Proof. unfold SetPositionAt. simpl. by rewrite length_alter. Qed.

Lemma pos_x_SetPositionAt b m p m' :
  pos_x (SetPositionAt m p b) m'
  = if decide (m = m' ∧ (m < length (GetFootprints b))%nat)
    then x p else pos_x b m'.
Proof. unfold pos_x. rewrite deref_SetPositionAt. by case_decide. Qed.

Lemma pos_y_SetPositionAt b m p m' :
  pos_y (SetPositionAt m p b) m'
  = if decide (m = m' ∧ (m < length (GetFootprints b))%nat)
    then y p else pos_y b m'.
Proof. unfold pos_y. rewrite deref_SetPositionAt. by case_decide. Qed.

(** Moving a component along one axis leaves every component's other
    coordinate where it was. *)
Lemma pos_x_set_y b m v m' :
  pos_x (SetPositionAt m {| x := pos_x b m; y := v |} b) m' = pos_x b m'.
Proof. rewrite pos_x_SetPositionAt. case_decide as H; [|done]. by destruct H as [-> _]. Qed.

Lemma pos_y_set_x b m v m' :
  pos_y (SetPositionAt m {| x := v; y := pos_y b m |} b) m' = pos_y b m'.
Proof. rewrite pos_y_SetPositionAt. case_decide as H; [|done]. by destruct H as [-> _]. Qed.

Lemma length_set_all_y v l b :
  length (GetFootprints (set_all_y v l b)) = length (GetFootprints b).
Proof.
  revert b. induction l as [|m l IH]; intros b; [done|].
  unfold set_all_y in *. simpl. by rewrite IH, length_SetPositionAt.
Qed.

Lemma pos_x_set_all_y v l b m : pos_x (set_all_y v l b) m = pos_x b m.
Proof.
  revert b. induction l as [|m0 l IH]; intros b; [done|].
  unfold set_all_y in *. simpl. by rewrite IH, pos_x_set_y.
Qed.

Lemma pos_y_set_all_y v l b m :
  pos_y (set_all_y v l b) m
  = if decide (m ∈ l ∧ (m < length (GetFootprints b))%nat) then v
    else pos_y b m.
Proof.
  revert b. induction l as [|m0 l IH]; intros b.
  { rewrite decide_False; [done|]. intros [H _]. inversion H. }
  unfold set_all_y in *. simpl. rewrite IH, length_SetPositionAt.
  rewrite pos_y_SetPositionAt. simpl.
  repeat case_decide; try done;
    repeat match goal with H : context [_ ∈ _ :: _] |- _ =>
      rewrite elem_of_cons in H end; naive_solver.
Qed.

Lemma length_set_all_x v l b :
  length (GetFootprints (set_all_x v l b)) = length (GetFootprints b).
Proof.
  revert b. induction l as [|m l IH]; intros b; [done|].
  unfold set_all_x in *. simpl. by rewrite IH, length_SetPositionAt.
Qed.

Lemma pos_y_set_all_x v l b m : pos_y (set_all_x v l b) m = pos_y b m.
Proof.
  revert b. induction l as [|m0 l IH]; intros b; [done|].
  unfold set_all_x in *. simpl. by rewrite IH, pos_y_set_x.
Qed.

Lemma pos_x_set_all_x v l b m :
  pos_x (set_all_x v l b) m
  = if decide (m ∈ l ∧ (m < length (GetFootprints b))%nat) then v
    else pos_x b m.
Proof.
  revert b. induction l as [|m0 l IH]; intros b.
  { rewrite decide_False; [done|]. intros [H _]. inversion H. }
  unfold set_all_x in *. simpl. rewrite IH, length_SetPositionAt.
  rewrite pos_x_SetPositionAt. simpl.
  repeat case_decide; try done;
    repeat match goal with H : context [_ ∈ _ :: _] |- _ =>
      rewrite elem_of_cons in H end; naive_solver.
Qed.

Lemma for_range_ind (P : BOARD → Prop) lo hi components body b :
  P b →
  (∀ i m b, P b → components !! i = Some m → P (body i m b)) →
  P (for_range lo hi components body b).
Proof.
  intros Hb Hstep. unfold for_range.
  generalize (seq lo (hi - lo)). intros l. revert b Hb.
  induction l as [|i l IH]; intros b Hb; [done|].
  simpl. apply IH. destruct (components !! i) eqn:?; eauto.
Qed.

Lemma pos_y_spread_x f lo hi components b m :
  pos_y (spread_x f lo hi components b) m = pos_y b m.
Proof.
  apply (for_range_ind (λ b', pos_y b' m = pos_y b m)); [done|].
  intros i m0 b' Hb' _. by rewrite pos_y_set_x.
Qed.

Lemma pos_x_spread_y f lo hi components b m :
  pos_x (spread_y f lo hi components b) m = pos_x b m.
Proof.
  apply (for_range_ind (λ b', pos_x b' m = pos_x b m)); [done|].
  intros i m0 b' Hb' _. by rewrite pos_x_set_y.
Qed.

(** The shape of the two helpers: every component is first moved to the
    average of the other axis, in sorted order, and then one of the
    distribution loops may run. *)
Lemma align_horizontally_eq components distribution_ spacing_ b :
  components ≠ [] →
  _align_components_horizontally components distribution_ spacing_ b
  = let sorted := sort_by (pos_x b) components in
    let b1 := set_all_y (y_avg b components) sorted b in
    let first := default 0%nat (head sorted) in
    if String.eqb distribution_ "equal" && (1 <? length sorted)%nat then
      (Py.Return tt,
       (sorted,
        spread_x (equal_step (pos_x b1 first)
                             (pos_x b1 (default 0%nat (last sorted)))
                             (length sorted))
                 1 (length sorted - 1) sorted b1))
    else
      match String.eqb distribution_ "spacing", spacing_ with
      | true, Some spacing_ =>
          match to_nm spacing_ 1000000 with
          | Py.Raise e => (Py.Raise e, (sorted, b1))
          | Py.Return spacing_nm =>
              (Py.Return tt,
               (sorted,
                spread_x (λ i, pos_x b1 first + Z.of_nat i * spacing_nm)
                         1 (length sorted) sorted b1))
          end
      | _, _ => (Py.Return tt, (sorted, b1))
      end.
Proof. by destruct components. Qed.

Lemma align_vertically_eq components distribution_ spacing_ b :
  components ≠ [] →
  _align_components_vertically components distribution_ spacing_ b
  = let sorted := sort_by (pos_y b) components in
    let b1 := set_all_x (x_avg b components) sorted b in
    let first := default 0%nat (head sorted) in
    if String.eqb distribution_ "equal" && (1 <? length sorted)%nat then
      (Py.Return tt,
       (sorted,
        spread_y (equal_step (pos_y b1 first)
                             (pos_y b1 (default 0%nat (last sorted)))
                             (length sorted))
                 1 (length sorted - 1) sorted b1))
    else
      match String.eqb distribution_ "spacing", spacing_ with
      | true, Some spacing_ =>
          match to_nm spacing_ 1000000 with
          | Py.Raise e => (Py.Raise e, (sorted, b1))
          | Py.Return spacing_nm =>
              (Py.Return tt,
               (sorted,
                spread_y (λ i, pos_y b1 first + Z.of_nat i * spacing_nm)
                         1 (length sorted) sorted b1))
          end
      | _, _ => (Py.Return tt, (sorted, b1))
      end.
Proof. by destruct components. Qed.

(** *** The stable sort *)

Lemma insert_by_perm {A} (key : A → Z) a l : insert_by key a l ≡ₚ a :: l.
Proof.
  induction l as [|c l IH]; [done|]. simpl.
  case_match; [done|]. by rewrite IH, Permutation_swap.
Qed.

Lemma sort_by_perm {A} (key : A → Z) l : sort_by key l ≡ₚ l.
Proof.
  induction l as [|a l IH]; [done|]. simpl.
  by rewrite insert_by_perm, IH.
Qed.

Lemma insert_by_sorted {A} (key : A → Z) a l :
  StronglySorted (λ a c, key a ≤ key c) l →
  StronglySorted (λ a c, key a ≤ key c) (insert_by key a l).
Proof.
  induction 1 as [|c l Hl IH Hc]; simpl.
  { repeat constructor. }
  destruct (Z.leb_spec (key a) (key c)).
  - constructor; [by constructor|].
    constructor; [done|]. eapply Forall_impl; [exact Hc|].
    simpl. intros. lia.
  - constructor; [done|]. rewrite insert_by_perm.
    constructor; [lia|done].
Qed.

Lemma sort_by_sorted {A} (key : A → Z) l :
  StronglySorted (λ a c, key a ≤ key c) (sort_by key l).
Proof.
  induction l as [|a l IH]; simpl; [constructor|].
  by apply insert_by_sorted.
Qed.

Lemma sorted_lookup_le {A} (key : A → Z) l i j a c :
  StronglySorted (λ a c, key a ≤ key c) l →
  l !! i = Some a → l !! j = Some c → (i ≤ j)%nat → key a ≤ key c.
Proof.
  intros Hl. revert i j. induction Hl as [|d l Hl IH Hd]; intros i j; [done|].
  destruct i as [|i], j as [|j]; simpl; intros Hi Hj Hij; simplify_eq.
  - lia.
  - eapply Forall_lookup_1 in Hd; [|done]. done.
  - lia.
  - eapply IH; [done..|lia].
Qed.

(** *** The distribution loop on distinct components *)

Lemma length_spread_x f lo hi l b :
  length (GetFootprints (spread_x f lo hi l b)) = length (GetFootprints b).
Proof.
  apply (for_range_ind
           (λ b', length (GetFootprints b') = length (GetFootprints b)));
    [done|].
  intros i m b' Hb' _. by rewrite length_SetPositionAt.
Qed.

Lemma pos_x_spread_x f lo hi l b i m :
  NoDup l → l !! i = Some m → (m < length (GetFootprints b))%nat →
  pos_x (spread_x f lo hi l b) m
  = if decide (lo ≤ i < hi)%nat then f i else pos_x b m.
Proof.
  intros Hnd Hi Hm. unfold spread_x, for_range.
  assert (∀ is_ b, NoDup is_ →
            (m < length (GetFootprints b))%nat →
            pos_x (foldl (λ b i, match l !! i with
                                 | Some m =>
                                     SetPositionAt m
                                       {| x := f i; y := pos_y b m |} b
                                 | None => b
                                 end) b is_) m
            = if decide (i ∈ is_) then f i else pos_x b m) as Hgen.
  { clear Hm b. intros is_. induction is_ as [|j is_ IH]; intros b Hnd' Hm.
    { rewrite decide_False; [done|]. inversion 1. }
    apply NoDup_cons in Hnd' as [Hj Hnd']. simpl.
    destruct (l !! j) as [mj|] eqn:Hlj.
    - rewrite IH by (by rewrite ?length_SetPositionAt).
      rewrite pos_x_SetPositionAt. simpl.
      destruct (decide (j = i)) as [->|Hji].
      + simplify_eq. rewrite decide_False by done.
        rewrite decide_True by done. rewrite decide_True; [done|].
        apply elem_of_cons; by left.
      + assert (mj ≠ m) by (intros ->; apply Hji; by eapply (NoDup_lookup l)).
        rewrite (decide_False (P := mj = m ∧ _)) by tauto.
        repeat case_decide; try done;
          repeat match goal with H : context [_ ∈ _ :: _] |- _ =>
            rewrite elem_of_cons in H end; naive_solver.
    - rewrite IH by done.
      assert (j ≠ i) by congruence.
      repeat case_decide; try done;
        repeat match goal with H : context [_ ∈ _ :: _] |- _ =>
          rewrite elem_of_cons in H end; naive_solver. }
  rewrite Hgen by (done || apply NoDup_seq).
  repeat case_decide; try done;
    repeat match goal with H : context [_ ∈ seq _ _] |- _ =>
      rewrite elem_of_seq in H end; lia.
Qed.

(** *** Resolving references *)

Lemma find_index_Some {A} (p : A → bool) l i :
  find_index p l = Some i → ∃ a, l !! i = Some a ∧ p a = true.
Proof.
  revert i. induction l as [|a l IH]; intros i; [done|]. simpl.
  destruct (p a) eqn:Hp.
  - intros [= <-]. by exists a.
  - destruct (find_index p l) as [j|]; [|done]. intros [= <-].
    by apply IH.
Qed.

Lemma resolve_inr b refs components :
  resolve b refs = inr components →
  Forall2 (λ ref m, ∃ fp, GetFootprints b !! m = Some fp
                          ∧ GetReference fp = ref) refs components.
Proof.
  revert components. induction refs as [|ref refs IH]; intros components.
  { intros [= <-]. constructor. }
  simpl. destruct (FindFootprintByReference b ref) as [m|] eqn:Hm; [|done].
  destruct (resolve b refs) as [?|ms]; [done|]. intros [= <-].
  constructor; [|by apply IH].
  apply find_index_Some in Hm as (fp & Hfp & Href).
  exists fp. split; [done|]. by apply String.eqb_eq.
Qed.

Lemma resolve_valid b refs components :
  resolve b refs = inr components →
  length components = length refs
  ∧ Forall (λ m, (m < length (GetFootprints b))%nat) components
  ∧ (NoDup refs → NoDup components).
Proof.
  intros H%resolve_inr. split_and!.
  - symmetry. by eapply Forall2_length.
  - eapply Forall2_Forall_r; [exact H|]. apply Forall_true.
    intros ref m (fp & Hfp & _). by eapply lookup_lt_Some.
  - intros Hnd. apply (NoDup_fmap_1 (λ m, GetReference (deref b m))).
    replace ((λ m, GetReference (deref b m)) <$> components) with refs;
      [done|].
    apply list_eq_Forall2, Forall2_fmap_r.
    eapply Forall2_impl; [exact H|].
    intros ref m (fp & Hfp & <-). unfold deref. simpl. by rewrite Hfp.
Qed.

Lemma try_except_board msg block : (try_except msg block).2 = block.2.
Proof. by destruct block as [[?|?] ?]. Qed.

Lemma bind_on_board {A R} b (m : Py.result A) (f : A → Py.result R) :
  (x ←[b] m; (f x, b)).2 = b.
Proof. by destruct m. Qed.

(** The board [align_components] leaves behind for the two axis
    alignments. *)
Lemma align_components_horizontal_board b params :
  Py.get (alignment params) "horizontal" = "horizontal" →
  (align_components b params).2
  = if (length (Py.get (references params) []) <? 2)%nat then b
    else match resolve b (Py.get (references params) []) with
         | inl _ => b
         | inr components =>
             (_align_components_horizontally components
                (Py.get (distribution params) "none") (spacing params)
                b).2.2
         end.
Proof.
  intros Ha. unfold align_components. rewrite try_except_board, Ha.
  destruct (length _ <? 2)%nat; [done|].
  destruct (resolve b _) as [ref|components]; [done|].
  cbn [String.eqb Ascii.eqb Bool.eqb].
  destruct (_align_components_horizontally _ _ _ _) as [[?|?] [??]];
    [apply bind_on_board|done].
Qed.

Lemma align_components_vertical_board b params :
  Py.get (alignment params) "horizontal" = "vertical" →
  (align_components b params).2
  = if (length (Py.get (references params) []) <? 2)%nat then b
    else match resolve b (Py.get (references params) []) with
         | inl _ => b
         | inr components =>
             (_align_components_vertically components
                (Py.get (distribution params) "none") (spacing params)
                b).2.2
         end.
Proof.
  intros Ha. unfold align_components. rewrite try_except_board, Ha.
  destruct (length _ <? 2)%nat; [done|].
  destruct (resolve b _) as [ref|components]; [done|].
  cbn [String.eqb Ascii.eqb Bool.eqb].
  destruct (_align_components_vertically _ _ _ _) as [[?|?] [??]];
    [apply bind_on_board|done].
Qed.

Lemma align_horizontally_none_pos_x components spacing_ b m :
  pos_x (_align_components_horizontally components "none" spacing_ b).2.2 m
  = pos_x b m.
Proof.
  destruct (decide (components = [])) as [->|Hne]; [done|].
  rewrite align_horizontally_eq by done. cbn -[sort_by set_all_y].
  apply pos_x_set_all_y.
Qed.

Lemma align_vertically_none_pos_y components spacing_ b m :
  pos_y (_align_components_vertically components "none" spacing_ b).2.2 m
  = pos_y b m.
Proof.
  destruct (decide (components = [])) as [->|Hne]; [done|].
  rewrite align_vertically_eq by done. cbn -[sort_by set_all_x].
  apply pos_y_set_all_x.
Qed.

Lemma align_horizontally_pos_y components distribution_ spacing_ b m :
  Forall (λ m, (m < length (GetFootprints b))%nat) components →
  m ∈ components →
  pos_y (_align_components_horizontally components distribution_ spacing_
           b).2.2 m
  = y_avg b components.
Proof.
  intros Hvalid Hm.
  assert (components ≠ []) as Hne by (by intros ->; inversion Hm).
  assert (pos_y (set_all_y (y_avg b components)
                   (sort_by (pos_x b) components) b) m
          = y_avg b components) as H1.
  { rewrite pos_y_set_all_y, decide_True; [done|]. split.
    - by rewrite sort_by_perm.
    - by eapply Forall_forall in Hvalid. }
  rewrite align_horizontally_eq by done. cbv zeta.
  repeat case_match; cbn [fst snd]; by rewrite ?pos_y_spread_x.
Qed.

Lemma align_horizontally_equal components spacing_ b :
  Forall (λ m, (m < length (GetFootprints b))%nat) components →
  NoDup components → (2 ≤ length components)%nat →
  ∃ sorted first final,
    sorted ≡ₚ components
    ∧ StronglySorted (λ m m', pos_x b m ≤ pos_x b m') sorted
    ∧ sorted !! 0%nat = Some first
    ∧ sorted !! (length sorted - 1)%nat = Some final
    ∧ ∀ i m, sorted !! i = Some m →
        pos_x (_align_components_horizontally components "equal" spacing_
                 b).2.2 m
        = if decide (i = length sorted - 1)%nat then pos_x b final
          else equal_step (pos_x b first) (pos_x b final) (length sorted) i.
Proof.
  intros Hvalid Hnd Hlen.
  assert (components ≠ []) as Hne by (intros ->; simpl in Hlen; lia).
  set (sorted := sort_by (pos_x b) components).
  assert (length sorted = length components) as Hls
    by (by unfold sorted; rewrite sort_by_perm).
  destruct (sorted !! 0%nat) as [first|] eqn:Hfirst;
    [|apply lookup_ge_None in Hfirst; lia].
  destruct (sorted !! (length sorted - 1)%nat) as [final|] eqn:Hfinal;
    [|apply lookup_ge_None in Hfinal; lia].
  exists sorted, first, final. split_and!; [apply sort_by_perm
    |apply sort_by_sorted|done|done|].
  intros i m Hi. rewrite align_horizontally_eq by done. cbv zeta.
  fold sorted. cbn [String.eqb Ascii.eqb Bool.eqb andb].
  replace (1 <? length sorted)%nat with true
    by (symmetry; apply Nat.ltb_lt; lia).
  cbn [fst snd]. rewrite head_lookup, last_lookup, Hfirst.
  replace (pred (length sorted)) with (length sorted - 1)%nat by lia.
  rewrite Hfinal. cbn [default from_option id].
  rewrite !pos_x_set_all_y.
  rewrite (pos_x_spread_x _ _ _ _ _ i).
  - rewrite pos_x_set_all_y.
    pose proof (lookup_lt_Some _ _ _ Hi).
    repeat case_decide; try done; try lia.
    + congruence.
    + unfold equal_step. assert (i = 0%nat) as -> by lia.
      simplify_eq. lia.
  - unfold sorted. by rewrite sort_by_perm.
  - done.
  - rewrite length_set_all_y.
    eapply Forall_forall in Hvalid; [done|].
    rewrite <-(sort_by_perm (pos_x b)). by eapply list_elem_of_lookup_2.
Qed.

End Alignment.

(** C10: an alignment request with [distribution = none] leaves the X
    coordinate of every component of the board (the selected ones included)
    unchanged when [alignment = horizontal], and the Y coordinate of every
    component unchanged when [alignment = vertical]; absent keys take their
    defaults, [horizontal] and [none]. *)
Theorem align_none_keeps_other_axis (b : pcbnew.BOARD) (params : Params) :
  Py.get (distribution params) "none" = "none" →
  (Py.get (alignment params) "horizontal" = "horizontal" →
   ∀ m, ComponentCommands.pos_x
          (ComponentCommands.align_components b params).2 m
        = ComponentCommands.pos_x b m)
  ∧ (Py.get (alignment params) "horizontal" = "vertical" →
     ∀ m, ComponentCommands.pos_y
            (ComponentCommands.align_components b params).2 m
          = ComponentCommands.pos_y b m).
Proof.
  intros Hd. split; intros Ha m.
  - rewrite align_components_horizontal_board, Hd by done.
    repeat case_match; try done. apply align_horizontally_none_pos_x.
  - rewrite align_components_vertical_board, Hd by done.
    repeat case_match; try done. apply align_vertically_none_pos_y.
Qed.

(** Three parts aligned horizontally without distribution keep their X
    coordinates 9, 0 and 5 mm. *)
Lemma align_none_keeps_other_axis_witness :
  ComponentCommands.pos_x
    (ComponentCommands.align_components three_parts_board
       (align_request ["U1"; "U2"; "U3"] "horizontal" "none")).2
    <$> [0%nat; 1%nat; 2%nat]
  = [9000000; 0; 5000000].
Proof.
  pose proof (align_none_keeps_other_axis three_parts_board
                (align_request ["U1"; "U2"; "U3"] "horizontal" "none")
                eq_refl) as [Hx _].
  cbn [fmap list_fmap]. by rewrite !(Hx eq_refl).
Defined.

(** C4, as stated, fails on four components at X = 0, 1, 2 and 10 mm whose
    Y coordinates sum to -1000001 internal units. Every Y becomes -250001,
    the floor of the mean, where the mean truncated toward zero is -250000;
    and the X coordinates become 0, 3333333, 6666666 and 10000000, whose
    last gap is one unit wider than the others. *)
Lemma horizontal_alignment_floor_and_remainder :
  pcbnew.GetPosition
    <$> pcbnew.GetFootprints
          (ComponentCommands.align_components
             (board_with [(0, -1000001); (1000000, 0); (2000000, 0);
                          (10000000, 0)])
             (align_request ["U1"; "U2"; "U3"; "U4"] "horizontal" "equal")).2
  = [ {| pcbnew.x := 0; pcbnew.y := -250001 |};
      {| pcbnew.x := 3333333; pcbnew.y := -250001 |};
      {| pcbnew.x := 6666666; pcbnew.y := -250001 |};
      {| pcbnew.x := 10000000; pcbnew.y := -250001 |} ]
  ∧ (-1000001 + 0 + 0 + 0) `quot` 4 = -250000
  ∧ 6666666 - 3333333 ≠ 10000000 - 6666666.
Proof. split_and!; [reflexivity|reflexivity|lia]. Qed.

(** C4 (amended): a horizontal alignment of [n >= 2] resolved components
    sets the Y coordinate of every selected component to the floor of the
    mean of their original Y coordinates (Python's [//], which is the
    truncated mean only when the sum is not negative). With [distribution =
    equal] and pairwise distinct references, the components sorted by
    ascending original X are placed as follows: the one at sorted position
    [i < n - 1] at [x_min + i * ((x_max - x_min) // (n - 1))], the last one
    left at [x_max], where [x_min] and [x_max] are the least and the
    greatest original X of the selection. The X values therefore form an
    arithmetic progression from [x_min] to [x_max] when [n - 1] divides
    [x_max - x_min]; otherwise the last gap is longer by the remainder. *)
Theorem horizontal_alignment (b : pcbnew.BOARD) (params : Params)
    (components : list nat) :
  Py.get (alignment params) "horizontal" = "horizontal" →
  (2 ≤ length (Py.get (references params) []))%nat →
  ComponentCommands.resolve b (Py.get (references params) [])
  = inr components →
  (∀ m, m ∈ components →
     ComponentCommands.pos_y
       (ComponentCommands.align_components b params).2 m
     = y_avg b components)
  ∧ (Py.get (distribution params) "none" = "equal" →
     NoDup (Py.get (references params) []) →
     ∃ sorted x_min x_max,
       sorted ≡ₚ components
       ∧ StronglySorted
           (λ m m', ComponentCommands.pos_x b m ≤ ComponentCommands.pos_x b m')
           sorted
       ∧ (∀ m, m ∈ components → x_min ≤ ComponentCommands.pos_x b m ≤ x_max)
       ∧ (∃ m, m ∈ components ∧ ComponentCommands.pos_x b m = x_min)
       ∧ (∃ m, m ∈ components ∧ ComponentCommands.pos_x b m = x_max)
       ∧ (∀ i m, sorted !! i = Some m →
            ComponentCommands.pos_x
              (ComponentCommands.align_components b params).2 m
            = if decide (i = length sorted - 1)%nat then x_max
              else equal_step x_min x_max (length sorted) i)
       ∧ ((x_max - x_min) `mod` (Z.of_nat (length sorted) - 1) = 0 →
          ∀ i m, sorted !! i = Some m →
            ComponentCommands.pos_x
              (ComponentCommands.align_components b params).2 m
            = equal_step x_min x_max (length sorted) i)).
Proof.
  intros Ha Hlen Hres.
  destruct (resolve_valid _ _ _ Hres) as (Hl & Hvalid & Hnd).
  rewrite align_components_horizontal_board, Hres by done.
  replace (_ <? 2)%nat with false by (symmetry; apply Nat.ltb_ge; lia).
  split.
  { intros m Hm. by apply align_horizontally_pos_y. }
  intros -> Hrefs.
  destruct (align_horizontally_equal components (spacing params) b Hvalid
              (Hnd Hrefs) ltac:(lia))
    as (sorted & first & final & Hperm & Hsorted & Hfirst & Hfinal & Hpos).
  assert (length sorted = length components) as Hls by (by rewrite Hperm).
  exists sorted, (ComponentCommands.pos_x b first),
    (ComponentCommands.pos_x b final).
  split_and!; try done.
  - intros m Hm. rewrite <-Hperm in Hm.
    apply list_elem_of_lookup in Hm as [i Hi].
    pose proof (lookup_lt_Some _ _ _ Hi). split.
    + eapply (sorted_lookup_le _ sorted 0%nat i); [done..|lia].
    + eapply (sorted_lookup_le _ sorted i (length sorted - 1)%nat);
        [done..|lia].
  - exists first. split; [|done]. rewrite <-Hperm.
    by eapply list_elem_of_lookup_2.
  - exists final. split; [|done]. rewrite <-Hperm.
    by eapply list_elem_of_lookup_2.
  - intros Hdiv i m Hi. rewrite (Hpos i m Hi).
    case_decide as Hlast; [|done]. subst i. unfold equal_step.
    apply Z.mod_divide in Hdiv; [|lia]. destruct Hdiv as [q Hq].
    rewrite Hq, Z.div_mul by lia. rewrite Nat2Z.inj_sub by lia. lia.
Qed.

(** Three parts at X = 9, 0 and 5 mm, distributed equally: all at the mean
    Y, and in sorted order [U2], [U3], [U1] at 0, 4.5 and 9 mm. *)
Lemma horizontal_alignment_witness :
  Forall (λ m, ComponentCommands.pos_y
                 (ComponentCommands.align_components three_parts_board
                    (align_request ["U1"; "U2"; "U3"] "horizontal" "equal")).2
                 m
               = 2333333)
         [0%nat; 1%nat; 2%nat]
  ∧ ∃ sorted x_min x_max,
      sorted ≡ₚ [0%nat; 1%nat; 2%nat]
      ∧ ∀ i m, sorted !! i = Some m →
          ComponentCommands.pos_x
            (ComponentCommands.align_components three_parts_board
               (align_request ["U1"; "U2"; "U3"] "horizontal" "equal")).2 m
          = if decide (i = length sorted - 1)%nat then x_max
            else equal_step x_min x_max (length sorted) i.
Proof.
  destruct (horizontal_alignment three_parts_board
              (align_request ["U1"; "U2"; "U3"] "horizontal" "equal")
              [0%nat; 1%nat; 2%nat]) as [Hy Hx].
  - reflexivity.
  - simpl. lia.
  - reflexivity.
  - split.
    + apply Forall_forall. intros m Hm. by rewrite (Hy m Hm).
    + destruct (Hx eq_refl) as (sorted & x_min & x_max & Hperm & _ & _ & _
                                & _ & Hpos & _).
      { apply (bool_decide_unpack _). by vm_compute. }
      by exists sorted, x_min, x_max.
Defined.


(** ** Order on binary64 values

    The comparisons the handlers make on distances, from the specification
    of the primitive [<?]. *)

Ltac cmp_cases :=
  repeat match goal with
    | |- context [Z.compare ?a ?b] => destruct (Z.compare_spec a b)
    | H : context [Z.compare ?a ?b] |- _ => destruct (Z.compare_spec a b)
    | |- context [Pos.compare ?a ?b] => destruct (Pos.compare_spec a b)
    | H : context [Pos.compare ?a ?b] |- _ => destruct (Pos.compare_spec a b)
    end;
  simpl in *; try done; try lia.

Lemma SFltb_trans_ge (a m d : spec_float) :
  SFltb a m = false → SFltb d m = true → SFltb a d = false.
Proof.
  unfold SFltb, SFcompare.
  destruct a as [[]|[]| |[] ma ea], m as [[]|[]| |[] mm em],
    d as [[]|[]| |[] md ed]; simpl; try done;
    change (Pos.compare_cont Eq ?a ?b) with (Pos.compare a b);
    intros; cmp_cases.
Qed.

Lemma SFltb_trans_le (a m u t : spec_float) :
  SFltb a m = false → SFltb m u = true → SFltb m t = false →
  SFltb a t = false.
Proof.
  unfold SFltb, SFcompare.
  destruct a as [[]|[]| |[] ma ea], m as [[]|[]| |[] mm em],
    t as [[]|[]| |[] mt et]; simpl; try done;
    destruct u as [[]|[]| |[] mu eu]; simpl; try done;
    change (Pos.compare_cont Eq ?a ?b) with (Pos.compare a b);
    intros; cmp_cases.
Qed.

Lemma SFltb_not_below_infinity (a t : spec_float) :
  SFltb a (S754_infinity false) = false → SFltb a t = false.
Proof.
  unfold SFltb, SFcompare.
  by destruct a as [[]|[]| |[] ma ea], t as [[]|[]| |[] mt et].
Qed.

Lemma ltb_trans_ge (a m d : float) :
  (a <? m)%float = false → (d <? m)%float = true → (a <? d)%float = false.
Proof. rewrite !ltb_spec. apply SFltb_trans_ge. Qed.

Lemma ltb_trans_le (a m u t : float) :
  (a <? m)%float = false → (m <? u)%float = true → (m <? t)%float = false →
  (a <? t)%float = false.
Proof. rewrite !ltb_spec. apply SFltb_trans_le. Qed.

Lemma ltb_not_below_infinity (a t : float) :
  (a <? infinity)%float = false → (a <? t)%float = false.
Proof. rewrite !ltb_spec. apply SFltb_not_below_infinity. Qed.

Lemma SFltb_below_earlier (d m a : spec_float) :
  SFltb d m = true → SFltb a m = false → SFeqb a a = true →
  SFltb d a = true.
Proof.
  unfold SFltb, SFeqb, SFcompare.
  destruct d as [[]|[]| |[] md ed], m as [[]|[]| |[] mm em],
    a as [[]|[]| |[] ma ea]; simpl; try done;
    change (Pos.compare_cont Eq ?a ?b) with (Pos.compare a b);
    intros; cmp_cases.
Qed.

Lemma ltb_below_earlier (d m a : float) :
  (d <? m)%float = true → (a <? m)%float = false → (a =? a)%float = true →
  (d <? a)%float = true.
Proof.
  rewrite !ltb_spec, FloatAxioms.eqb_spec. apply SFltb_below_earlier.
Qed.

Lemma SFltb_irrefl (a : spec_float) : SFltb a a = false.
Proof.
  unfold SFltb, SFcompare.
  destruct a as [[]|[]| |[] ma ea]; simpl; try done;
    change (Pos.compare_cont Eq ?a ?b) with (Pos.compare a b);
    rewrite Z.compare_refl, Pos.compare_refl; done.
Qed.

Lemma ltb_irrefl (a : float) : (a <? a)%float = false.
Proof. rewrite ltb_spec. apply SFltb_irrefl. Qed.

(** ** Deleting a trace *)

Section DeleteTrace.
Import pcbnew RoutingCommands.
Context (M : Libm).

(** When every distance is computed, the loop is the scan of the list of
    distances. *)
Lemma closest_nearest point tracks ds :
  Forall2 (λ track d, _point_to_track_distance M point track = Py.Return d)
          tracks ds →
  closest M point tracks = Py.Return (nearest ds).
Proof.
  unfold closest, nearest.
  change (@pair nat PCB_TRACK) with (λ i : nat, @pair nat PCB_TRACK (id i)).
  change (@pair nat float) with (λ i : nat, @pair nat float (id i)).
  generalize (@id nat) as g. generalize (@None nat, infinity) as st.
  intros st g H. revert st g.
  induction H as [|track d tracks ds Hd _ IH]; intros st g; [done|].
  cbn [imap foldl]. rewrite <-(IH _ (g ∘ S)). f_equal.
  destruct st as [ct md]. cbn. rewrite Hd. cbn.
  by destruct (d <? md)%float.
Qed.

Lemma nearest_snoc ds d :
  nearest (ds ++ [d])
  = if (d <? (nearest ds).2)%float then (Some (length ds), d)
    else nearest ds.
Proof.
  unfold nearest. rewrite imap_app, foldl_app. cbn.
  by rewrite Nat.add_0_r.
Qed.

(** The scan ends on a least distance, if any distance is finite. *)
Lemma nearest_spec ds :
  ((nearest ds).1 = None ∧ (nearest ds).2 = infinity
   ∧ ∀ j d, ds !! j = Some d → (d <? infinity)%float = false)
  ∨ (∃ i, (nearest ds).1 = Some i
          ∧ ds !! i = Some (nearest ds).2
          ∧ (∃ u, ((nearest ds).2 <? u)%float = true)
          ∧ ∀ j d, ds !! j = Some d → (d <? (nearest ds).2)%float = false).
Proof.
  induction ds as [|d ds IH] using rev_ind.
  { left. split_and!; done. }
  rewrite nearest_snoc.
  destruct (d <? (nearest ds).2)%float eqn:Hd.
  - right. exists (length ds). cbn [fst snd]. split_and!.
    + done.
    + by rewrite lookup_app_r, Nat.sub_diag.
    + by eexists.
    + intros j d' Hj.
      apply lookup_app_Some in Hj as [Hj|[_ Hj]].
      * destruct IH as [(_ & Hinf & Hall)|(i & _ & _ & _ & Hall)].
        -- eauto using ltb_not_below_infinity.
        -- eauto using ltb_trans_ge.
      * apply list_lookup_singleton_Some in Hj as [_ <-].
        apply ltb_irrefl.
  - destruct IH as [(Hn & Hinf & Hall)|(i & Hi & Hmd & Hu & Hall)].
    + left. split_and!; [done..|]. intros j d' Hj.
      apply lookup_app_Some in Hj as [Hj|[_ Hj]]; [eauto|].
      apply list_lookup_singleton_Some in Hj as [_ <-]. congruence.
    + right. exists i. split_and!; [done| |done|].
      * by apply lookup_app_l_Some.
      * intros j d' Hj.
        apply lookup_app_Some in Hj as [Hj|[_ Hj]]; [eauto|].
        by apply list_lookup_singleton_Some in Hj as [_ <-].
Qed.

(** A raise ends the loop. *)
Lemma closest_loop_raise (f : nat → nat) point e
    (tracks : list PCB_TRACK) :
  foldl
    (λ (st : Py.result (option nat * float)) (it : nat * PCB_TRACK),
       '(closest_track, min_distance) ← st;
       dist ← _point_to_track_distance M point it.2;
       if (dist <? min_distance)%float then Py.Return (Some it.1, dist)
       else Py.Return (closest_track, min_distance))
    (Py.Raise e) (imap (λ i, pair (f i)) tracks)
  = Py.Raise e.
Proof.
  revert f. induction tracks as [|track tracks IH]; intros f; [done|].
  cbn [imap foldl]. apply (IH (f ∘ S)).
Qed.

(** Either every distance is computed, or the loop ends on the first raise. *)
Lemma closest_cases point tracks :
  (∃ ds, Forall2 (λ track d,
                    _point_to_track_distance M point track = Py.Return d)
                 tracks ds)
  ∨ (∃ track e, track ∈ tracks
                ∧ _point_to_track_distance M point track = Py.Raise e
                ∧ closest M point tracks = Py.Raise e).
Proof.
  unfold closest.
  change (@pair nat PCB_TRACK) with (λ i : nat, @pair nat PCB_TRACK (id i)).
  generalize (@id nat) as g. generalize (@None nat, infinity) as st.
  induction tracks as [|track tracks IH]; intros st g.
  { left. exists []. constructor. }
  destruct (_point_to_track_distance M point track) as [d|e] eqn:Hd.
  - cbn [imap foldl fst snd]. destruct st as [ct md]. cbn. rewrite Hd. cbn.
    destruct (IH (if (d <? md)%float then (Some (g 0%nat), d) else (ct, md))
                 (g ∘ S)) as [[ds Hds]|(track' & e & Hin & He & Hraise)].
    + left. exists (d :: ds). by constructor.
    + right. exists track', e. split_and!; [by right|done|].
      rewrite <-Hraise. by destruct (d <? md)%float.
  - right. exists track, e. split_and!; [by left|done|].
    cbn [imap foldl fst snd]. destruct st as [ct md]. cbn. rewrite Hd. cbn.
    apply (closest_loop_raise (g ∘ S)).
Qed.

(** The scan keeps the first of the least distances: every earlier distance
    that is a number is strictly greater. *)
Lemma nearest_first ds i :
  (nearest ds).1 = Some i →
  ∀ j d', (j < i)%nat → ds !! j = Some d' → (d' =? d')%float = true →
          ((nearest ds).2 <? d')%float = true.
Proof.
  revert i. induction ds as [|d ds IH] using rev_ind; intros i; [done|].
  rewrite nearest_snoc.
  destruct (d <? (nearest ds).2)%float eqn:Hd; cbn [fst snd].
  - intros [= <-] j d' Hj Hd' Hnum.
    rewrite lookup_app_l in Hd' by done.
    destruct (nearest_spec ds) as [(_ & Hinf & Hall)|(i & _ & _ & _ & Hall)].
    + rewrite Hinf in Hd. eauto using ltb_below_earlier.
    + eauto using ltb_below_earlier.
  - intros Hi j d' Hj Hd' Hnum.
    destruct (nearest_spec ds) as [(Hn & _)|(i' & Hi' & Hmd & _)];
      [congruence|].
    assert (i' = i) as -> by congruence.
    pose proof (lookup_lt_Some _ _ _ Hmd).
    rewrite lookup_app_l in Hd' by lia. eauto.
Qed.

Lemma delete_by_position_general b params position_ point ds :
  Py.truthy Py.truthy_str (traceUuid params) = false →
  position params = Some position_ →
  position_to_nm position_ = Py.Return point →
  Forall2 (λ track d, _point_to_track_distance M point track = Py.Return d)
          (Tracks b) ds →
  (∃ i d, ds !! i = Some d
          ∧ (d <? 1000000)%float = true
          ∧ (∀ j d', ds !! j = Some d' → (d' <? d)%float = false)
          ∧ (∀ j d', (j < i)%nat → ds !! j = Some d' →
                     (d' =? d')%float = true → (d <? d')%float = true)
          ∧ delete_trace M b params
            = (ok "Deleted track at specified position" Nothing,
               RemoveTrack i b))
  ∨ ((∀ j d', ds !! j = Some d' → (d' <? 1000000)%float = false)
     ∧ delete_trace M b params
       = (failure "No track found"
                  "No track found near specified position", b)).
Proof.
  intros Hid Hpos Hpoint Hds. unfold delete_trace.
  rewrite Hid, Hpos, Hpoint. cbn [negb andb bool_decide decide_rel].
  rewrite bool_decide_eq_true_2 by (by eexists). cbn [negb andb bind_on].
  rewrite (closest_nearest _ _ _ Hds). cbn [bind_on].
  pose proof (nearest_first ds) as Hfirst.
  destruct (nearest_spec ds) as [(Hn & Hinf & Hall)|(i & Hi & Hmd & Hu & Hall)];
    destruct (nearest ds) as [ct md]; cbn [fst snd] in *; subst.
  - right. split; [|done]. eauto using ltb_not_below_infinity.
  - destruct (md <? 1000000)%float eqn:Hlt; cbn [try_except].
    + left. exists i, md. split_and!; [done..| |done]. by apply Hfirst.
    + right. destruct Hu as [u Hu]. split; [|done].
      eauto using ltb_trans_le.
Qed.

(** A request by position whose position does not convert, or one of whose
    distances is not computed, ends in the handler's [except]. *)
Lemma delete_by_position_raise b params position_ e :
  Py.truthy Py.truthy_str (traceUuid params) = false →
  position params = Some position_ →
  position_to_nm position_ = Py.Raise e
  ∨ (∃ point, position_to_nm position_ = Py.Return point
              ∧ closest M point (Tracks b) = Py.Raise e) →
  delete_trace M b params = (failure "Failed to delete trace" e, b).
Proof.
  intros Hid Hpos Hraise. unfold delete_trace.
  rewrite Hid, Hpos. cbn [negb andb bool_decide decide_rel].
  rewrite bool_decide_eq_true_2 by (by eexists). cbn [negb andb bind_on].
  destruct Hraise as [-> | (point & -> & Hraise)]; [done|].
  cbn [bind_on]. by rewrite Hraise.
Qed.

(** The point-to-point distance is the power 0.5 of the squared distance. *)
Lemma point_distance_spec p q :
  _point_distance M p q = point_to_point_distance M p q.
Proof.
  unfold _point_distance, point_to_point_distance, squared_distance.
  by rewrite !Z.pow_2_r.
Qed.

(** The distance of a point to a track, by the position of the projection
    parameter. *)
Lemma point_to_track_distance_cases point track :
  (GetStart track = GetEnd track →
   _point_to_track_distance M point track
   = _point_distance M point (GetStart track))
  ∧ ((x (GetEnd track) - x (GetStart track))
     * (x (GetEnd track) - x (GetStart track))
     + (y (GetEnd track) - y (GetStart track))
       * (y (GetEnd track) - y (GetStart track)) ≠ 0 →
     _point_to_track_distance M point track
     = (c2 ← projection_parameter point track;
        if (c2 <? 0)%float then _point_distance M point (GetStart track)
        else if (1 <? c2)%float then _point_distance M point (GetEnd track)
        else proj ← projection track c2; _point_distance M point proj)).
Proof.
  split.
  - intros Hse. unfold _point_to_track_distance.
    rewrite <-Hse, !Z.sub_diag. done.
  - intros Hc1. unfold _point_to_track_distance, projection_parameter,
      projection.
    cbn [x y]. rewrite (proj2 (Z.eqb_neq _ _) Hc1).
    unfold mbind, result_bind.
    destruct (Py.float_of_int (_ + _)) as [dot|]; cbn [Py.bind]; [|done].
    destruct (Py.float_of_int (_ + _)) as [c1|]; cbn [Py.bind]; [|done].
    destruct (_ <? 0)%float; [done|]. destruct (1 <? _)%float; [done|].
    repeat (match goal with
            | |- context [Py.bind ?m _] =>
                destruct m; cbn [Py.bind]; [|done]
            end).
    done.
Qed.

End DeleteTrace.

(** C3, as stated, fails: a request by position is not always served by
    the nearest track or by "No track found". A position without a unit
    ends in the handler's [except]: the request fails with "Failed to delete
    trace" and the missing key as detail. *)
Lemma delete_by_position_without_unit :
  (λ M, RoutingCommands.delete_trace M one_track_board
          (delete_request None
             (Some {| px := Py.Int 5; py := Py.Float 0.0005;
                      unit := None |})))
  = (λ _, (failure "Failed to delete trace" "'unit'", one_track_board)).
Proof. reflexivity. Qed.

(** C3 (amended): a request by position (no trace id) has one of three
    outcomes. If the position converts to internal units and the distance
    of every track is computed, it removes exactly one track, the first of
    those at the least distance, when that distance is strictly below
    1 mm = 1,000,000 internal units, and otherwise fails with
    "No track found" and leaves the board as it was. If the position does
    not convert or the distance of some track is not computed, it fails
    with "Failed to delete trace" and the error, and leaves the board as it
    was.
    The distance of a track is the distance to its start for a zero-length
    track or a projection parameter below 0, to its end for a parameter
    above 1, and otherwise to the projection of the point on the segment
    (in integer coordinates); the distance of two points is the power 0.5
    of the sum of the squares of the coordinate differences.
    On the track from (0, 0) to (10, 0) mm, the position (5, 0.0005) mm
    deletes the track and (5, 5) mm finds none; past the end of the track,
    on its line, (10.5, 0) mm deletes the track and (11.5, 0) mm finds
    none, the C library's power being exact on the squares concerned. *)
Theorem delete_by_position (M : Libm) :
  (∀ b params position_,
     Py.truthy Py.truthy_str (traceUuid params) = false →
     position params = Some position_ →
     (∃ point ds i d,
        position_to_nm position_ = Py.Return point
        ∧ Forall2 (λ track d,
                     RoutingCommands._point_to_track_distance M point track
                     = Py.Return d)
                  (pcbnew.Tracks b) ds
        ∧ ds !! i = Some d
        ∧ (d <? 1000000)%float = true
        ∧ (∀ j d', ds !! j = Some d' → (d' <? d)%float = false)
        ∧ (∀ j d', (j < i)%nat → ds !! j = Some d' →
                   (d' =? d')%float = true → (d <? d')%float = true)
        ∧ RoutingCommands.delete_trace M b params
          = (ok "Deleted track at specified position" Nothing,
             pcbnew.RemoveTrack i b)
        ∧ pcbnew.Tracks (pcbnew.RemoveTrack i b)
          = delete i (pcbnew.Tracks b))
     ∨ (∃ point ds,
          position_to_nm position_ = Py.Return point
          ∧ Forall2 (λ track d,
                       RoutingCommands._point_to_track_distance M point track
                       = Py.Return d)
                    (pcbnew.Tracks b) ds
          ∧ (∀ j d', ds !! j = Some d' → (d' <? 1000000)%float = false)
          ∧ RoutingCommands.delete_trace M b params
            = (failure "No track found"
                       "No track found near specified position", b))
     ∨ (∃ e,
          (position_to_nm position_ = Py.Raise e
           ∨ ∃ point track,
               position_to_nm position_ = Py.Return point
               ∧ track ∈ pcbnew.Tracks b
               ∧ RoutingCommands._point_to_track_distance M point track
                 = Py.Raise e)
          ∧ RoutingCommands.delete_trace M b params
            = (failure "Failed to delete trace" e, b)))
  ∧ (∀ point track,
       (pcbnew.GetStart track = pcbnew.GetEnd track →
        RoutingCommands._point_to_track_distance M point track
        = RoutingCommands._point_distance M point (pcbnew.GetStart track))
       ∧ ((pcbnew.x (pcbnew.GetEnd track) - pcbnew.x (pcbnew.GetStart track))
          * (pcbnew.x (pcbnew.GetEnd track) - pcbnew.x (pcbnew.GetStart track))
          + (pcbnew.y (pcbnew.GetEnd track) - pcbnew.y (pcbnew.GetStart track))
            * (pcbnew.y (pcbnew.GetEnd track)
               - pcbnew.y (pcbnew.GetStart track)) ≠ 0 →
          RoutingCommands._point_to_track_distance M point track
          = (c2 ← projection_parameter point track;
             if (c2 <? 0)%float then
               RoutingCommands._point_distance M point (pcbnew.GetStart track)
             else if (1 <? c2)%float then
               RoutingCommands._point_distance M point (pcbnew.GetEnd track)
             else
               proj ← projection track c2;
               RoutingCommands._point_distance M point proj)))
  ∧ (∀ p q,
       RoutingCommands._point_distance M p q = point_to_point_distance M p q)
  ∧ (pow M 250000 0.5 = Py.Return 500%float →
     RoutingCommands.delete_trace M one_track_board
       (delete_request None (Some (mm (Py.Int 5) (Py.Float 0.0005))))
     = (ok "Deleted track at specified position" Nothing,
        pcbnew.RemoveTrack 0 one_track_board))
  ∧ (pow M 25000000000000 0.5 = Py.Return 5000000%float →
     RoutingCommands.delete_trace M one_track_board
       (delete_request None (Some (mm (Py.Int 5) (Py.Int 5))))
     = (failure "No track found" "No track found near specified position",
        one_track_board))
  ∧ (pow M 250000000000 0.5 = Py.Return 500000%float →
     RoutingCommands.delete_trace M one_track_board
       (delete_request None (Some (mm (Py.Float 10.5) (Py.Int 0))))
     = (ok "Deleted track at specified position" Nothing,
        pcbnew.RemoveTrack 0 one_track_board))
  ∧ (pow M 2250000000000 0.5 = Py.Return 1500000%float →
     RoutingCommands.delete_trace M one_track_board
       (delete_request None (Some (mm (Py.Float 11.5) (Py.Int 0))))
     = (failure "No track found" "No track found near specified position",
        one_track_board)).
Proof.
  split_and!.
  - intros b params position_ Hid Hpos.
    destruct (position_to_nm position_) as [point|e] eqn:Hpoint.
    2: { right. right. exists e. split; [by left|].
         apply (delete_by_position_raise M b params position_ e Hid Hpos).
         by left. }
    destruct (closest_cases M point (pcbnew.Tracks b))
      as [[ds Hds]|(track & e & Hin & He & Hraise)].
    + destruct (delete_by_position_general M b params position_ point ds)
        as [(i & d & ? & ? & ? & ? & ?)|[? ?]]; [done..| |].
      * left. exists point, ds, i, d. by split_and!.
      * right. left. exists point, ds. by split_and!.
    + right. right. exists e. split; [right; by exists point, track|].
      apply (delete_by_position_raise M b params position_ e Hid Hpos).
      right. by exists point.
  - apply point_to_track_distance_cases.
  - apply point_distance_spec.
  - intros Hpow.
    destruct (delete_by_position_general M one_track_board
                (delete_request None (Some (mm (Py.Int 5) (Py.Float 0.0005))))
                (mm (Py.Int 5) (Py.Float 0.0005))
                {| pcbnew.x := 5000000; pcbnew.y := 500 |} [500%float])
      as [(i & d & Hi & _ & _ & _ & ->)|[Hfar _]]; [done..| | |].
    + repeat constructor. exact Hpow.
    + by destruct i as [|[|i]].
    + by specialize (Hfar 0%nat _ eq_refl).
  - intros Hpow.
    destruct (delete_by_position_general M one_track_board
                (delete_request None (Some (mm (Py.Int 5) (Py.Int 5))))
                (mm (Py.Int 5) (Py.Int 5))
                {| pcbnew.x := 5000000; pcbnew.y := 5000000 |}
                [5000000%float])
      as [(i & d & Hi & Hnear & _)|[_ ->]]; [done..| | |done].
    + repeat constructor. exact Hpow.
    + destruct i as [|[|i]]; [|done..]. by injection Hi as <-.
  - intros Hpow.
    destruct (delete_by_position_general M one_track_board
                (delete_request None (Some (mm (Py.Float 10.5) (Py.Int 0))))
                (mm (Py.Float 10.5) (Py.Int 0))
                {| pcbnew.x := 10500000; pcbnew.y := 0 |} [500000%float])
      as [(i & d & Hi & _ & _ & _ & ->)|[Hfar _]]; [done..| | |].
    + repeat constructor. exact Hpow.
    + by destruct i as [|[|i]].
    + by specialize (Hfar 0%nat _ eq_refl).
  - intros Hpow.
    destruct (delete_by_position_general M one_track_board
                (delete_request None (Some (mm (Py.Float 11.5) (Py.Int 0))))
                (mm (Py.Float 11.5) (Py.Int 0))
                {| pcbnew.x := 11500000; pcbnew.y := 0 |}
                [1500000%float])
      as [(i & d & Hi & Hnear & _)|[_ ->]]; [done..| | |done].
    + repeat constructor. exact Hpow.
    + destruct i as [|[|i]]; [|done..]. by injection Hi as <-.
Qed.

(** The four positions of the examples, with a C library whose power is the
    correctly rounded square root. *)
Lemma delete_by_position_witness :
  RoutingCommands.delete_trace libm_sqrt one_track_board
    (delete_request None (Some (mm (Py.Int 5) (Py.Float 0.0005))))
  = (ok "Deleted track at specified position" Nothing,
     pcbnew.RemoveTrack 0 one_track_board)
  ∧ RoutingCommands.delete_trace libm_sqrt one_track_board
      (delete_request None (Some (mm (Py.Int 5) (Py.Int 5))))
    = (failure "No track found" "No track found near specified position",
       one_track_board)
  ∧ RoutingCommands.delete_trace libm_sqrt one_track_board
      (delete_request None (Some (mm (Py.Float 10.5) (Py.Int 0))))
    = (ok "Deleted track at specified position" Nothing,
       pcbnew.RemoveTrack 0 one_track_board)
  ∧ RoutingCommands.delete_trace libm_sqrt one_track_board
      (delete_request None (Some (mm (Py.Float 11.5) (Py.Int 0))))
    = (failure "No track found" "No track found near specified position",
       one_track_board).
Proof.
  destruct (delete_by_position libm_sqrt)
    as (_ & _ & _ & Hnear & Hfar & Hend_near & Hend_far).
  split_and!.
  - apply Hnear. reflexivity.
  - apply Hfar. reflexivity.
  - apply Hend_near. reflexivity.
  - apply Hend_far. reflexivity.
Defined.

(** C5, as stated, fails: a request that supplies both selectors is not
    rejected; the track named by the id is deleted. *)
Lemma delete_trace_both_selectors :
  (λ M, RoutingCommands.delete_trace M one_track_board
          (delete_request (Some "0") (Some (mm (Py.Int 5) (Py.Int 5)))))
  = (λ _, (ok "Deleted track: 0" Nothing,
           pcbnew.RemoveTrack 0 one_track_board)).
Proof. reflexivity. Qed.

(** C5 (amended): [delete_trace] fails with "Missing parameters" exactly
    when neither selector is supplied (an empty id counts as none), and then
    removes no track; when an id is supplied the request is served by id,
    whether or not a position comes with it. *)
Theorem delete_trace_selectors (M : Libm) (b : pcbnew.BOARD)
    (params : Params) :
  (Py.truthy Py.truthy_str (traceUuid params) = false
   ∧ position params = None
   ↔ message (RoutingCommands.delete_trace M b params).1
     = Some "Missing parameters")
  ∧ (message (RoutingCommands.delete_trace M b params).1
     = Some "Missing parameters" →
     RoutingCommands.delete_trace M b params
     = (failure "Missing parameters"
                "Either traceUuid or position must be provided", b))
  ∧ (Py.truthy Py.truthy_str (traceUuid params) = true →
     RoutingCommands.delete_trace M b params
     = RoutingCommands.delete_trace M b (without_position params)).
Proof.
  assert (∀ block : Py.result Response * pcbnew.BOARD,
            (∀ r, block.1 = Py.Return r →
                  message r ≠ Some "Missing parameters") →
            message (try_except "Failed to delete trace" block).1
            ≠ Some "Missing parameters") as Htry.
  { intros [[r|e] b'] Hr; cbn; [by apply Hr|done]. }
  unfold RoutingCommands.delete_trace.
  destruct (Py.truthy Py.truthy_str (traceUuid params)) eqn:Hid;
    cbn [negb andb].
  - split_and!.
    + split; [by intros [??]|]. intros Hm. exfalso. revert Hm. apply Htry.
      intros r. destruct (pcbnew.find_index _ _); by intros [= <-].
    + intros Hm. exfalso. revert Hm. apply Htry.
      intros r. destruct (pcbnew.find_index _ _); by intros [= <-].
    + intros _. cbn [traceUuid without_position]. rewrite Hid. reflexivity.
  - destruct (position params) as [position_|] eqn:Hpos.
    + rewrite bool_decide_eq_true_2 by (by eexists). cbn [negb].
      assert (∀ r,
                (point ←[b] position_to_nm position_;
                 '(closest_track, min_distance)
                   ←[b] RoutingCommands.closest M point (pcbnew.Tracks b);
                 match closest_track with
                 | Some track =>
                     if (min_distance <? 1000000)%float then
                       (Py.Return
                          (ok "Deleted track at specified position" Nothing),
                        pcbnew.RemoveTrack track b)
                     else
                       (Py.Return
                          (failure "No track found"
                             "No track found near specified position"), b)
                 | None =>
                     (Py.Return
                        (failure "No track found"
                           "No track found near specified position"), b)
                 end).1 = Py.Return r →
                message r ≠ Some "Missing parameters") as Hne.
      { intros r. destruct (position_to_nm position_) as [point|e];
          cbn [bind_on fst]; [|done].
        destruct (RoutingCommands.closest _ _ _) as [[[track|] md]|e];
          cbn [bind_on fst]; [| |done].
        - destruct (md <? _)%float; by intros [= <-].
        - by intros [= <-]. }
      split_and!; [|intros Hm; exfalso; revert Hm; by apply Htry|done].
      split; [by intros [??]|].
      intros Hm; exfalso; revert Hm; by apply Htry.
    + rewrite bool_decide_eq_false_2 by (by intros [??]). cbn.
      by split_and!.
Qed.


(** ** Differential pairs *)

(** C2, as stated, fails: with distinct end points and both nets on the
    board, a request that names a layer the board does not have is refused
    and no track is created. *)
Lemma differential_pair_unknown_layer :
  RoutingCommands.route_differential_pair (empty_board [])
    (pair_request (Literal (mm (Py.Int 0) (Py.Int 0)))
                  (Literal (mm (Py.Int 10) (Py.Int 0))) "D+" "D-"
                  (Some "In1.Cu") None (Some (Py.Float 0.2)))
  = (failure "Invalid layer" "Layer 'In1.Cu' does not exist",
     empty_board []).
Proof. reflexivity. Qed.

Lemma AddTrack_pair b layer_id trace_width net_pos_obj net_neg_obj
    start_point end_point ox oy :
  pcbnew.AddTrack
    {| pcbnew.x := pcbnew.x start_point - ox;
       pcbnew.y := pcbnew.y start_point - oy |}
    {| pcbnew.x := pcbnew.x end_point - ox;
       pcbnew.y := pcbnew.y end_point - oy |}
    layer_id trace_width (Some net_neg_obj)
    (pcbnew.AddTrack
       {| pcbnew.x := pcbnew.x start_point + ox;
          pcbnew.y := pcbnew.y start_point + oy |}
       {| pcbnew.x := pcbnew.x end_point + ox;
          pcbnew.y := pcbnew.y end_point + oy |}
       layer_id trace_width (Some net_pos_obj) b)
  = with_pair b layer_id trace_width net_pos_obj net_neg_obj start_point
              end_point ox oy.
Proof.
  unfold pcbnew.AddTrack, pcbnew.with_tracks, with_pair, shift. cbn.
  rewrite <-(assoc_L (++)). cbn. by rewrite !Z.add_opp_r.
Qed.

Lemma differential_pair_general (b : pcbnew.BOARD) (params : Params)
    (start_pos end_pos : point_spec) (net_pos net_neg : string)
    (net_pos_obj net_neg_obj : pcbnew.NETINFO_ITEM)
    (start_point end_point : pcbnew.VECTOR2I) :
  startPos params = Some start_pos → endPos params = Some end_pos →
  netPos params = Some net_pos → netNeg params = Some net_neg →
  net_pos ≠ "" → net_neg ≠ "" →
  0 ≤ pcbnew.GetLayerID b (Py.get (layer params) "F.Cu") →
  pcbnew.FindNet b net_pos = Some net_pos_obj →
  pcbnew.FindNet b net_neg = Some net_neg_obj →
  RoutingCommands._get_point b start_pos = Py.Return start_point →
  RoutingCommands._get_point b end_pos = Py.Return end_point →
  pair_outcome b params net_pos net_neg net_pos_obj net_neg_obj start_point
               end_point.
Proof.
  intros Hs He Hp Hn Hpne Hnne Hlayer Hfp Hfn Hsp Hep.
  assert (∀ length_,
            pair_length start_point end_point = Py.Return length_ →
            (length_ <=? 0)%float = true →
            RoutingCommands.route_differential_pair b params
            = (failure "Invalid points"
                       "Start and end points must be different", b))
    as Hzero.
  { intros length_ Hlen Hle.
    unfold RoutingCommands.route_differential_pair.
    rewrite Hs, He, Hp, Hn, (truthy_str_true _ Hpne), (truthy_str_true _ Hnne).
    cbn [negb orb].
    replace (_ <? 0) with false by (symmetry; apply Z.ltb_ge; lia).
    rewrite Hfp, Hfn, Hsp. cbn [bind_on]. rewrite Hep. cbn [bind_on].
    unfold pair_length, mbind, result_bind in Hlen.
    destruct (Py.float_of_int _) as [square|]; cbn [Py.bind bind_on] in *;
      [|done].
    injection Hlen as ->. by rewrite Hle. }
  unfold pair_outcome. split_and!.
  - intros ->. apply (Hzero 0%float); [|done].
    unfold pair_length. by rewrite !Z.sub_diag.
  - exact Hzero.
  - intros length_ gap_nm offset_x offset_y trace_width Hlen Hpos Hg Hx Hy Hw.
    unfold RoutingCommands.route_differential_pair.
    rewrite Hs, He, Hp, Hn, (truthy_str_true _ Hpne), (truthy_str_true _ Hnne).
    cbn [negb orb].
    replace (_ <? 0) with false by (symmetry; apply Z.ltb_ge; lia).
    rewrite Hfp, Hfn, Hsp. cbn [bind_on]. rewrite Hep. cbn [bind_on].
    unfold pair_offset_x, pair_offset_y, pair_length, pair_width, mbind,
      result_bind in Hlen, Hx, Hy, Hw.
    destruct (Py.float_of_int (_ + _)) as [square|];
      cbn [Py.bind bind_on] in *; [|done].
    injection Hlen as <-. rewrite Hpos.
    destruct (Py.float_of_int (pcbnew.x end_point - pcbnew.x start_point))
      as [dx|]; cbn [Py.bind bind_on] in *; [|done].
    destruct (Py.float_of_int (pcbnew.y end_point - pcbnew.y start_point))
      as [dy|]; cbn [Py.bind bind_on] in *; [|done].
    rewrite Hg. cbn [bind_on].
    destruct (Py.float_of_int gap_nm) as [gap_nm_|];
      cbn [Py.bind bind_on] in *; [|done].
    cbv zeta. rewrite Hx. cbn [bind_on]. rewrite Hy. cbn [bind_on].
    rewrite Hw. cbn [bind_on]. rewrite AddTrack_pair.
    split.
    + by destruct (Py.int_truediv trace_width 1000000).
    + intros width_mm ->. reflexivity.
Qed.

(** C2 (amended): for a differential-pair request that is complete, names
    two nets of the board and a layer of the board (the default is F.Cu),
    and whose end points resolve to the internal points [start] and [end]:
    if [start = end] the request fails with "Invalid points" and adds no
    track (this is the case where the computed length is not positive);
    otherwise, when the gap, the offsets and the width convert to integers,
    it adds exactly two tracks, the positive rail from [start + o] to
    [end + o] on [netPos] and the negative rail from [start - o] to
    [end - o] on [netNeg], both on the layer and with the same width, where
    [o] is [p * gap / 2] truncated to internal units, [p = (-d.y, d.x)] and
    [d] the direction divided by its length. For start (0, 0) mm, end
    (10, 0) mm and gap 0.2 mm the positive rail lies at y = +0.1 mm, the
    negative rail at y = -0.1 mm, and both are 10 mm long and equally wide. *)
Theorem differential_pair :
  (∀ b params start_pos end_pos net_pos net_neg net_pos_obj net_neg_obj
     start_point end_point,
     startPos params = Some start_pos → endPos params = Some end_pos →
     netPos params = Some net_pos → netNeg params = Some net_neg →
     net_pos ≠ "" → net_neg ≠ "" →
     0 ≤ pcbnew.GetLayerID b (Py.get (layer params) "F.Cu") →
     pcbnew.FindNet b net_pos = Some net_pos_obj →
     pcbnew.FindNet b net_neg = Some net_neg_obj →
     RoutingCommands._get_point b start_pos = Py.Return start_point →
     RoutingCommands._get_point b end_pos = Py.Return end_point →
     pair_outcome b params net_pos net_neg net_pos_obj net_neg_obj
                  start_point end_point)
  ∧ pcbnew.Tracks
      (RoutingCommands.route_differential_pair (empty_board [])
         example_pair_request).2
    = [ pcbnew.mkTRACK "0" {| pcbnew.x := 0; pcbnew.y := 100000 |}
                       {| pcbnew.x := 10000000; pcbnew.y := 100000 |}
                       0 250000 (Some net_D_pos);
        pcbnew.mkTRACK "1" {| pcbnew.x := 0; pcbnew.y := -100000 |}
                       {| pcbnew.x := 10000000; pcbnew.y := -100000 |}
                       0 250000 (Some net_D_neg) ]
  ∧ Forall (λ t, pair_length (pcbnew.GetStart t) (pcbnew.GetEnd t)
                 = Py.Return 10000000%float)
      (pcbnew.Tracks
         (RoutingCommands.route_differential_pair (empty_board [])
            example_pair_request).2).
Proof.
  split_and!.
  - intros. by eapply differential_pair_general.
  - reflexivity.
  - by repeat constructor.
Qed.

Lemma differential_pair_witness :
  pair_outcome (empty_board []) example_pair_request "D+" "D-" net_D_pos
    net_D_neg {| pcbnew.x := 0; pcbnew.y := 0 |}
    {| pcbnew.x := 10000000; pcbnew.y := 0 |}.
Proof.
  apply (proj1 differential_pair (empty_board []) example_pair_request
           (Literal (mm (Py.Int 0) (Py.Int 0)))
           (Literal (mm (Py.Int 10) (Py.Int 0))) "D+" "D-").
  - reflexivity.
  - reflexivity.
  - reflexivity.
  - reflexivity.
  - discriminate.
  - discriminate.
  - vm_compute. discriminate.
  - reflexivity.
  - reflexivity.
  - reflexivity.
  - reflexivity.
Defined.

(** ** Unit conversion *)

(** C8, as stated, fails: a unit string that is neither of the two
    recognized units is not rejected; the point is converted with the inch
    factor. *)
Lemma unknown_unit_is_converted_as_inch :
  RoutingCommands._get_point (empty_board [])
    (Literal {| px := Py.Int 1; py := Py.Int 2; unit := Some "cm" |})
  = Py.Return {| pcbnew.x := 25400000; pcbnew.y := 50800000 |}.
Proof. reflexivity. Qed.

(** C8 (amended): unit conversion maps a value in millimeters to
    [int(value * 1000000)] internal units and a value in any other unit,
    "inch" or an unrecognized string alike, to [int(value * 25400000)];
    [int] truncates toward zero and is exact on an integer value, so an
    integer [a] becomes [a * 1000000], respectively [a * 25400000]. No unit
    string makes the conversion fail. [_get_point] reads an absent unit as
    millimeters; the handlers that index [position["unit"]], such as
    [add_via], convert a position that has a unit exactly as [_get_point]
    does. *)
Theorem unit_conversion (b : pcbnew.BOARD) (x y : Py.number) :
  (∀ u, RoutingCommands._get_point b
          (Literal {| px := x; py := y; unit := u |})
        = (x_nm ← to_nm x (scale_of (Py.get u "mm"));
           y_nm ← to_nm y (scale_of (Py.get u "mm"));
           Py.Return {| pcbnew.x := x_nm; pcbnew.y := y_nm |}))
  ∧ scale_of "mm" = 1000000
  ∧ scale_of "inch" = 25400000
  ∧ (∀ u, u ≠ "mm" → scale_of u = 25400000)
  ∧ (∀ a c : Z, ∀ u,
       RoutingCommands._get_point b
         (Literal {| px := Py.Int a; py := Py.Int c; unit := Some u |})
       = Py.Return {| pcbnew.x := a * scale_of u;
                      pcbnew.y := c * scale_of u |})
  ∧ (∀ f, to_nm (Py.Float f) (scale_of "mm") = Py.trunc (f * 1000000)%float)
  ∧ (∀ f u, u ≠ "mm" →
       to_nm (Py.Float f) (scale_of u) = Py.trunc (f * 25400000)%float)
  ∧ (∀ u, position_to_nm {| px := x; py := y; unit := Some u |}
          = RoutingCommands._get_point b
              (Literal {| px := x; py := y; unit := Some u |})).
Proof.
  assert (∀ u, u ≠ "mm" → scale_of u = 25400000) as Hinch.
  { intros u Hu. unfold scale_of. by destruct (String.eqb_spec u "mm"). }
  split_and!; try done.
  intros f u Hu. by rewrite Hinch.
Qed.


(** ** Unique references *)

(** C6 fails on the code: [place_component] makes no duplicate check, so
    placing the same reference twice succeeds and leaves two components
    named [R1] on the board, where [duplicate_component] refuses a new
    reference that is in use. *)
Theorem place_component_accepts_a_used_reference :
  success
    (ComponentCommands.place_component
       (ComponentCommands.place_component (empty_board [("R_0603", R_0603)])
          (ComponentCommands.cell_request "R_0603" (mm (Py.Int 0) (Py.Int 0))
             "R1" None (Py.Int 0) "F.Cu")).2
       (ComponentCommands.cell_request "R_0603" (mm (Py.Int 5) (Py.Int 0))
          "R1" None (Py.Int 0) "F.Cu")).1
  = true
  ∧ board_references
      (ComponentCommands.place_component
         (ComponentCommands.place_component (empty_board [("R_0603", R_0603)])
            (ComponentCommands.cell_request "R_0603" (mm (Py.Int 0) (Py.Int 0))
               "R1" None (Py.Int 0) "F.Cu")).2
         (ComponentCommands.cell_request "R_0603" (mm (Py.Int 5) (Py.Int 0))
            "R1" None (Py.Int 0) "F.Cu")).2
    = ["R1"; "R1"]
  ∧ ComponentCommands.duplicate_component
      (ComponentCommands.place_component (empty_board [("R_0603", R_0603)])
         (ComponentCommands.cell_request "R_0603" (mm (Py.Int 0) (Py.Int 0))
            "R1" None (Py.Int 0) "F.Cu")).2
      (duplicate_request "R1" "R1")
    = (failure "Reference already exists"
               "A component with reference R1 already exists",
       (ComponentCommands.place_component (empty_board [("R_0603", R_0603)])
          (ComponentCommands.cell_request "R_0603" (mm (Py.Int 0) (Py.Int 0))
             "R1" None (Py.Int 0) "F.Cu")).2).
Proof. split_and!; reflexivity. Qed.

Section Duplicate.
Import pcbnew ComponentCommands.

Lemma find_index_None {A} (p : A → bool) l :
  find_index p l = None → Forall (λ a, p a = false) l.
Proof.
  induction l as [|a l IH]; [constructor|]. simpl.
  destruct (p a) eqn:Hp; [done|].
  destruct (find_index p l); [done|]. intros _. constructor; auto.
Qed.

Lemma FindFootprintByReference_None b ref :
  FindFootprintByReference b ref = None → ref ∉ board_references b.
Proof.
  intros H%find_index_None. unfold board_references.
  intros (m & -> & Hm)%list_elem_of_fmap.
  eapply Forall_forall in H; [|done]. simpl in H.
  by rewrite String.eqb_refl in H.
Qed.

Lemma GetReference_add_pads pads m :
  GetReference (foldl (λ m pad, AddPad pad m) m pads) = GetReference m.
Proof.
  revert m. induction pads as [|pad pads IH]; intros m; [done|].
  simpl. by rewrite IH.
Qed.

(** X1: [duplicate_component] keeps the references of the board pairwise
    distinct, whatever the request and whether or not it succeeds: it adds
    at most one component, under a reference that no component carries. *)
Theorem duplicate_component_keeps_references_distinct b params :
  NoDup (board_references b) →
  NoDup (board_references (duplicate_component b params).2).
Proof.
  intros Hnd. unfold duplicate_component.
  destruct (reference params) as [reference_|]; [|done].
  destruct (newReference params) as [new_reference|]; [|done].
  destruct (_ || _); [done|].
  destruct (FindFootprintByReference b reference_) as [source|]; [|done].
  destruct (FindFootprintByReference b new_reference) as [m|] eqn:Hnew.
  { by rewrite bool_decide_eq_true_2 by (by eexists). }
  rewrite bool_decide_eq_false_2 by (by intros [??]).
  rewrite try_except_board.
  match goal with
  | |- context [bind_on b ?m _] => destruct m as [p|e]; [|done]
  end.
  cbn [bind_on].
  match goal with
  | |- context [bind_on b ?m _] => destruct m as [orientation|e]; [|done]
  end.
  cbn [bind_on].
  match goal with
  | |- NoDup (board_references ?block.2) =>
      assert (block.2
              = AddFootprint
                  (SetOrientation orientation
                     (SetPosition p
                        (foldl (λ m pad, AddPad pad m)
                           (SetLayer (GetLayer (deref b source))
                              (SetReference new_reference
                                 (SetValue (GetValue (deref b source))
                                    (SetFootprintName
                                       (GetFootprintName (deref b source))
                                       new_FOOTPRINT))))
                           (Pads (deref b source))))) b) as ->
  end.
  { repeat (match goal with
            | |- context [bind_on _ ?m _] => destruct m; cbn [bind_on]
            end); done. }
  unfold board_references, AddFootprint. cbn [GetFootprints with_footprints].
  rewrite fmap_app. apply NoDup_app. split_and!; [done| |].
  - intros ref Href [->|[]%elem_of_nil]%elem_of_cons.
    apply FindFootprintByReference_None in Hnew. apply Hnew.
    match type of Href with
    | ?r ∈ _ => replace r with new_reference in Href; [done|]
    end.
    cbn. by rewrite GetReference_add_pads.
  - apply NoDup_singleton.
Qed.
End Duplicate.

(** Duplicating [R1] as [R2] leaves two components, [R1] and [R2]. *)
Lemma duplicate_component_keeps_references_distinct_witness :
  NoDup (board_references
           (ComponentCommands.duplicate_component one_resistor_board
              (duplicate_request "R1" "R2")).2)
  ∧ board_references
      (ComponentCommands.duplicate_component one_resistor_board
         (duplicate_request "R1" "R2")).2
    = ["R1"; "R2"].
Proof.
  split; [|reflexivity].
  apply (duplicate_component_keeps_references_distinct one_resistor_board
           (duplicate_request "R1" "R2")).
  apply (bool_decide_unpack _). by vm_compute.
Defined.

(** ** Bill of materials *)

(** C9 fails on the code: the grouping key is the string
    [value ++ "_" ++ footprint], and two components that differ in both
    value and footprint can have the same key. A part of value "10k" on
    footprint "R_0603" and a part of value "10k_R" on footprint "0603" end
    up in one group of quantity 2, labelled with the first part's value and
    footprint. Two components that do agree on value and footprint are
    grouped as the claim says. *)
Theorem bom_group_merges_distinct_pairs :
  ExportCommands.group
    [ bom_part "R1" "10k" "R_0603"; bom_part "C1" "10k_R" "0603" ]
  = [ {| row_value := "10k"; row_footprint := "R_0603"; row_quantity := 2;
         row_references := ["R1"; "C1"] |} ]
  ∧ ∀ c1 c2,
      ExportCommands.bom_value c1 = ExportCommands.bom_value c2 →
      ExportCommands.bom_footprint c1 = ExportCommands.bom_footprint c2 →
      ExportCommands.group [c1; c2]
      = [ {| row_value := ExportCommands.bom_value c1;
             row_footprint := ExportCommands.bom_footprint c1;
             row_quantity := 2;
             row_references := [ ExportCommands.bom_reference c1;
                                 ExportCommands.bom_reference c2 ] |} ].
Proof.
  split; [reflexivity|]. intros c1 c2 Hv Hf.
  unfold ExportCommands.group. cbn [foldl ExportCommands.add_to].
  replace (ExportCommands.key_of c2) with (ExportCommands.key_of c1)
    by (unfold ExportCommands.key_of; by rewrite Hv, Hf).
  by rewrite String.eqb_refl.
Qed.

(** ** The command router *)

(** C7, as stated, fails: with no board loaded, [add_schematic_wire] (which
    is none of create, open and list-libraries) does not answer "No board is
    loaded"; it goes on to validate its own parameters, whatever the
    kernel. *)
Lemma add_schematic_wire_without_board :
  (λ K, KiCADInterface.handle_command K None "add_schematic_wire" no_params)
  = (λ _, (KiCADInterface.says false (Some "Schematic path is required"),
           None)).
Proof. reflexivity. Qed.

Section Router.
Import KiCADInterface.

Lemma assoc_elem_of {A} k (l : list (string * A)) a :
  pcbnew.assoc k l = Some a → (k, a) ∈ l.
Proof.
  induction l as [|[k' a'] l IH]; [done|]. simpl.
  destruct (String.eqb_spec k' k) as [->|].
  - intros [= ->]. by left.
  - intros H. right. by apply IH.
Qed.

(** No handler gives the router a board when it had none. *)
Lemma handler_keeps_no_board K command handler_ params :
  pcbnew.assoc command (command_routes K) = Some handler_ →
  (handler_ None params).2 = None.
Proof.
  intros H%assoc_elem_of. unfold command_routes in H.
  repeat (apply elem_of_cons in H as [[= _ ->]|H]; [reflexivity|]).
  by apply elem_of_nil in H.
Qed.
End Router.

(** C7 (amended): while no board is loaded, every board-backed command
    (save_project, get_project_info and the board, component, routing,
    design-rule and export commands) answers "No board is loaded" and leaves
    the state as it was; the schematic commands do not read the board
    reference and leave it as it was, and so does a command the router does
    not know, which fails as unknown; the reference changes only through a
    successful create_project or open_project. *)
Theorem no_board_loaded (K : Kernel) (params : Params) :
  (∀ command, command ∈ board_backed_commands →
     KiCADInterface.handle_command K None command params = (no_board, None))
  ∧ (∀ command, command ∈ schematic_commands →
       (KiCADInterface.handle_command K None command params).2 = None)
  ∧ (∀ command, pcbnew.assoc command (KiCADInterface.command_routes K) = None →
       KiCADInterface.handle_command K None command params
       = (failure ("Unknown command: " +:+ command)
                  "The specified command is not supported", None))
  ∧ (∀ command,
       (KiCADInterface.handle_command K None command params).2 ≠ None →
       (command = "create_project" ∨ command = "open_project")
       ∧ success (KiCADInterface.handle_command K None command params).1
         = true).
Proof.
  split_and!.
  - intros command H. unfold board_backed_commands in H.
    repeat (apply elem_of_cons in H as [->|H]; [reflexivity|]).
    by apply elem_of_nil in H.
  - intros command H. unfold schematic_commands in H.
    repeat (apply elem_of_cons in H as [->|H];
            [unfold KiCADInterface.handle_command; cbn;
             by destruct (success _)|]).
    by apply elem_of_nil in H.
  - intros command H. unfold KiCADInterface.handle_command. by rewrite H.
  - intros command. unfold KiCADInterface.handle_command.
    destruct (pcbnew.assoc command _) as [handler_|] eqn:Hh; [|done].
    pose proof (handler_keeps_no_board K command handler_ params Hh) as Hs.
    destruct (handler_ None params) as [result self]. simpl in Hs. subst.
    destruct (success result) eqn:Hsucc; cbn [andb]; [|done].
    destruct (String.eqb_spec command "create_project") as [->|];
      [intros _; split; [by left|done]|].
    destruct (String.eqb_spec command "open_project") as [->|];
      [intros _; split; [by right|done]|].
    done.
Qed.


(** ** Further properties of the handlers *)

(** *** Placing one component *)

(** X2: [place_component] either leaves the board exactly as it was, which
    it does whenever it reports a failure, or appends exactly one footprint
    to it. The new footprint is the library's footprint for the component
    id, moved to the requested position in internal units; it carries the
    requested reference when one is given and is not empty, and otherwise
    the library's; and it is put on the requested layer only when the board
    has that layer: an unknown layer name is not an error, the footprint
    keeps the library's layer, and the response still names the requested
    one. *)
Theorem place_component_effect (b : pcbnew.BOARD) (params : Params) :
  (success (ComponentCommands.place_component b params).1 = false →
   (ComponentCommands.place_component b params).2 = b)
  ∧ (success (ComponentCommands.place_component b params).1 = true →
     ∃ component_id position_ template module info,
       componentId params = Some component_id
       ∧ position params = Some position_
       ∧ pcbnew.FootprintLoad b component_id = Some template
       ∧ ComponentCommands.place_component b params
         = (ok ("Placed component: " +:+ component_id) (Component info),
            pcbnew.AddFootprint module b)
       ∧ position_to_nm position_ = Py.Return (pcbnew.GetPosition module)
       ∧ pcbnew.GetReference module
         = (if Py.truthy Py.truthy_str (reference params)
            then Py.get (reference params) ""
            else pcbnew.GetReference template)
       ∧ pcbnew.GetLayer module
         = (if 0 <=? pcbnew.GetLayerID b (Py.get (layer params) "F.Cu")
            then pcbnew.GetLayerID b (Py.get (layer params) "F.Cu")
            else pcbnew.GetLayer template)
       ∧ pcbnew.Pads module = pcbnew.Pads template
       ∧ info_reference info = pcbnew.GetReference module
       ∧ info_position info = position_
       ∧ info_layer info = Py.get (layer params) "F.Cu").
Proof.
  unfold ComponentCommands.place_component, pcbnew.FootprintLoad.
  destruct (componentId params) as [cid|], (position params) as [pos|];
    cbn [try_except fst snd success failure]; try done.
  destruct (Py.truthy_str cid); cbn [negb try_except fst snd success failure];
    [|done].
  destruct (pcbnew.assoc cid (pcbnew.footprint_library b)) as [template|]
    eqn:Hload; cbn [try_except fst snd success failure]; [|done].
  destruct (position_to_nm pos) as [p|e] eqn:Hp;
    cbn [bind_on try_except fst snd success failure]; [|done].
  destruct (Py.mul _ _) as [orientation|e];
    cbn [bind_on try_except fst snd success failure ok]; [|done].
  split; [done|]. intros _.
  eexists cid, pos, template, _, _.
  split_and!; try first [reflexivity | exact Hload].
  - rewrite GetPosition_if_SetLayer. simpl.
    by rewrite !GetPosition_set_if, Hp.
  - rewrite GetReference_if_SetLayer. simpl.
    rewrite !GetReference_set_if by done.
    destruct (reference params) as [r|]; simpl; [|done].
    by destruct (Py.truthy_str r).
  - destruct (0 <=? _); cbn; [done|].
    unfold ComponentCommands.set_if. by repeat case_match.
  - destruct (0 <=? _); cbn; unfold ComponentCommands.set_if;
      by repeat case_match.
Qed.

(** *** Arrays of components *)

Section Arrays.
Import pcbnew ComponentCommands.

Lemma place_component_appends b0 fps params placed :
  ∃ added,
    (place_component (with_footprints fps b0) params).2
    = with_footprints (fps ++ added) b0
    ∧ (length added ≤ 1)%nat
    ∧ length (append_if_placed placed
                (place_component (with_footprints fps b0) params).1)
      = (length placed + length added)%nat.
Proof.
  assert (∀ r : Response,
            success r = false →
            ∃ added, with_footprints fps b0 = with_footprints (fps ++ added) b0
              ∧ (length added ≤ 1)%nat
              ∧ length (append_if_placed placed r)
                = (length placed + length added)%nat) as Hfail.
  { intros r Hr. exists []. rewrite app_nil_r. unfold append_if_placed.
    rewrite Hr. simpl. split_and!; [done|lia|lia]. }
  unfold place_component.
  destruct (componentId params) as [cid|], (position params) as [pos|];
    cbn [try_except fst snd]; try by apply Hfail.
  destruct (Py.truthy_str cid); cbn [negb try_except fst snd];
    [|by apply Hfail].
  destruct (FootprintLoad _ cid) as [template|]; cbn [try_except fst snd];
    [|by apply Hfail].
  destruct (position_to_nm pos) as [p|e]; cbn [bind_on try_except fst snd];
    [|by apply Hfail].
  destruct (Py.mul _ _) as [orientation|e];
    cbn [bind_on try_except fst snd]; [|by apply Hfail].
  eexists [_]. split_and!; [reflexivity|done|].
  unfold append_if_placed. cbn [success ok data]. by rewrite length_app.
Qed.

Lemma array_state_step b0 k st params :
  array_state b0 k st →
  ∀ placed, st.1 = Py.Return placed →
  array_state b0 (S k)
    (Py.Return (append_if_placed placed (place_component st.2 params).1),
     (place_component st.2 params).2).
Proof.
  intros (added & Hb & Hk & Hlen) placed Hplaced. rewrite Hb.
  destruct (place_component_appends b0 (GetFootprints b0 ++ added) params
              placed) as (more & -> & Hmore & Happ).
  exists (added ++ more). cbn [fst snd]. rewrite (assoc_L (++)).
  split_and!; [done|rewrite length_app; lia|].
  intros ? [= <-]. rewrite Happ, length_app, (Hlen _ Hplaced). done.
Qed.

Lemma array_state_mono b0 k k' st :
  array_state b0 k st → (k ≤ k')%nat → array_state b0 k' st.
Proof.
  intros (added & Hb & Hk & Hlen) Hkk. exists added.
  split_and!; [done|lia|done].
Qed.

Lemma array_state_raise b0 k placed e b :
  array_state b0 k (Py.Return placed, b) →
  array_state b0 k (Py.Raise e, b).
Proof.
  intros (added & Hb & Hk & _). exists added. by split_and!.
Qed.

Lemma grid_cell_state b0 k component_id start_position columns_ spacing_x
    spacing_y unit_ reference_prefix value_ rotation_ layer_ row col st :
  array_state b0 k st →
  array_state b0 (S k)
    (grid_cell component_id start_position columns_ spacing_x spacing_y unit_
               reference_prefix value_ rotation_ layer_ row col st).
Proof.
  intros Hst. unfold grid_cell. destruct st as [[placed|e] b];
    [|by eapply array_state_mono; [|apply Nat.le_succ_diag_r]].
  repeat (match goal with
          | |- context [bind_on b ?m _] =>
              destruct m; cbn [bind_on];
              [|eapply array_state_mono;
                 [by eapply array_state_raise|lia]]
          end).
  match goal with
  | |- context [place_component b ?req] =>
      pose proof (array_state_step b0 k _ req Hst placed eq_refl) as Hstep
  end.
  cbn [fst snd] in Hstep. by destruct (place_component _ _).
Qed.

Lemma circular_cell_state M b0 k component_id center_ radius_ angle_start
    angle_step unit_ reference_prefix value_ rotation_offset layer_ i st :
  array_state b0 k st →
  array_state b0 (S k)
    (circular_cell M component_id center_ radius_ angle_start angle_step
                   unit_ reference_prefix value_ rotation_offset layer_ i st).
Proof.
  intros Hst. unfold circular_cell. destruct st as [[placed|e] b];
    [|by eapply array_state_mono; [|apply Nat.le_succ_diag_r]].
  repeat (match goal with
          | |- context [bind_on b ?m _] =>
              destruct m; cbn [bind_on];
              [|eapply array_state_mono;
                 [by eapply array_state_raise|lia]]
          end).
  match goal with
  | |- context [place_component b ?req] =>
      pose proof (array_state_step b0 k _ req Hst placed eq_refl) as Hstep
  end.
  cbn [fst snd] in Hstep. by destruct (place_component _ _).
Qed.

Lemma array_state_foldl {A} b0 (f : A → _ → _) (l : list A) k st :
  (∀ k a st, array_state b0 k st → array_state b0 (S k) (f a st)) →
  array_state b0 k st →
  array_state b0 (k + length l) (foldl (λ st a, f a st) st l).
Proof.
  intros Hf. revert k st. induction l as [|a l IH]; intros k st Hst.
  { by rewrite Nat.add_0_r. }
  cbn [foldl length]. rewrite <-Nat.add_succ_comm.
  apply IH. apply Hf. exact Hst.
Qed.

Lemma array_state_start b0 : array_state b0 0 (Py.Return [], b0).
Proof.
  exists []. rewrite app_nil_r, with_footprints_id.
  split_and!; [done|done|by intros ? [= <-]].
Qed.

Lemma length_grid_cells rows_ columns_ :
  length (grid_cells rows_ columns_)
  = (Z.to_nat rows_ * Z.to_nat columns_)%nat.
Proof.
  unfold grid_cells.
  assert (∀ l : list Z,
            length (row ← l; pair row <$> seqZ 0 columns_)
            = (length l * Z.to_nat columns_)%nat) as H.
  { induction l as [|r l IH]; [done|].
    by rewrite bind_cons, length_app, IH, length_fmap, length_seqZ. }
  by rewrite H, length_seqZ.
Qed.

Lemma array_state_response b0 k msg text
    (st : Py.result (list component_info) * BOARD) :
  array_state b0 k st →
  ∃ added,
    (try_except msg
       (placed_components ←[st.2] st.1;
        (Py.Return (ok text (Components placed_components)), st.2))).2
    = with_footprints (GetFootprints b0 ++ added) b0
    ∧ (length added ≤ k)%nat
    ∧ ∀ placed,
        data (try_except msg
                (placed_components ←[st.2] st.1;
                 (Py.Return (ok text (Components placed_components)),
                  st.2))).1
        = Components placed →
        length placed = length added.
Proof.
  intros (added & Hb & Hk & Hlen). exists added.
  destruct st as [[placed|e] b]; cbn in *.
  - split_and!; [done..|]. intros ? [= <-]. by apply Hlen.
  - by split_and!.
Qed.

End Arrays.

(** X3: whatever the request, [place_component_array] only appends to the
    board: the footprints that were there stay as they are and in place,
    and at most [count] new ones follow them. When it answers with a list
    of components, the list has exactly one entry per footprint it added,
    so a cell or item whose placement failed is missing from both. *)
Theorem place_component_array_appends (M : Libm) (b : pcbnew.BOARD)
    (params : Params) :
  ∃ added,
    (ComponentCommands.place_component_array M b params).2
    = pcbnew.with_footprints (pcbnew.GetFootprints b ++ added) b
    ∧ (length added ≤ Z.to_nat (Py.get (count params) 0%Z))%nat
    ∧ ∀ placed,
        data (ComponentCommands.place_component_array M b params).1
        = Components placed →
        length placed = length added.
Proof.
  assert (∀ r : Response,
            data r = Nothing →
            ∃ added,
              b = pcbnew.with_footprints (pcbnew.GetFootprints b ++ added) b
              ∧ (length added ≤ Z.to_nat (Py.get (count params) 0%Z))%nat
              ∧ ∀ placed, data r = Components placed →
                          length placed = length added) as Hfail.
  { intros r Hr. exists []. rewrite app_nil_r, with_footprints_id, Hr.
    split_and!; [done|simpl; lia|done]. }
  unfold ComponentCommands.place_component_array.
  destruct (negb _ || negb _); cbn [try_except fst snd]; [by apply Hfail|].
  destruct (String.eqb _ "grid").
  - destruct (startPosition params) as [start_position|],
      (rows params) as [rows_|], (columns params) as [columns_|],
      (spacingX params) as [spacing_x|], (spacingY params) as [spacing_y|];
      cbn [try_except fst snd]; try by apply Hfail.
    destruct (_ || _); cbn [try_except fst snd]; [by apply Hfail|].
    destruct (Z.eqb_spec (rows_ * columns_) (Py.get (count params) 0))
      as [Hcount|]; cbn [negb try_except fst snd]; [|by apply Hfail].
    cbv zeta.
    match goal with
    | |- context [ComponentCommands._place_grid_array ?b ?a1 ?a2 ?a3 ?a4 ?a5
                    ?a6 ?a7 ?a8 ?a9 ?a10] =>
        assert (array_state b (Z.to_nat (Py.get (count params) 0))
                  (ComponentCommands._place_grid_array b a1 a2 a3 a4 a5 a6
                     a7 a8 a9 a10)) as Hst
    end.
    { unfold ComponentCommands._place_grid_array.
      repeat (match goal with
              | |- context [bind_on b ?m _] =>
                  destruct m; cbn [bind_on];
                  [|eapply array_state_mono;
                     [eapply array_state_raise; apply array_state_start
                     |lia]]
              end).
      rewrite (foldl_nested
        (ComponentCommands.grid_cell _ start_position columns_ spacing_x
           spacing_y (Py.get (unit start_position) "mm") _ _ _ _)).
      eapply array_state_mono.
      - apply (array_state_foldl b
                 (λ c, ComponentCommands.grid_cell _ start_position columns_
                         spacing_x spacing_y
                         (Py.get (unit start_position) "mm") _ _ _ _ c.1 c.2)).
        + intros k c st. apply grid_cell_state.
        + apply array_state_start.
      - pose proof (length_grid_cells rows_ columns_) as Hcells.
        unfold grid_cells in Hcells. rewrite Hcells, <-Hcount.
        destruct (Z.le_gt_cases 0 rows_), (Z.le_gt_cases 0 columns_);
          [rewrite Z2Nat.inj_mul by lia|..]; lia. }
    apply (array_state_response _ _ _ _ _ Hst).
  - destruct (String.eqb _ "circular"); cbn [try_except fst snd];
      [|by apply Hfail].
    destruct (center params) as [center_|], (radius params) as [radius_|],
      (angleStep params) as [angle_step|];
      cbn [try_except fst snd]; try by apply Hfail.
    destruct (_ || _); cbn [try_except fst snd]; [by apply Hfail|].
    cbv zeta.
    match goal with
    | |- context [ComponentCommands._place_circular_array ?M ?b ?a1 ?a2 ?a3
                    ?a4 ?a5 ?a6 ?a7 ?a8 ?a9 ?a10] =>
        assert (array_state b (Z.to_nat (Py.get (count params) 0))
                  (ComponentCommands._place_circular_array M b a1 a2 a3 a4
                     a5 a6 a7 a8 a9 a10)) as Hst
    end.
    { unfold ComponentCommands._place_circular_array.
      eapply array_state_mono.
      - apply (array_state_foldl b
                 (ComponentCommands.circular_cell M _ center_ radius_ _
                    angle_step (Py.get (unit center_) "mm") _ _ _ _)).
        + intros k i st. apply circular_cell_state.
        + apply array_state_start.
      - rewrite length_seqZ. lia. }
    apply (array_state_response _ _ _ _ _ Hst).
Qed.

(** *** Duplicating a component *)

Section Duplicating.
Import pcbnew ComponentCommands.

Lemma Pads_add_pads pads m :
  Pads (foldl (λ m pad, AddPad pad m) m pads) = Pads m ++ pads.
Proof.
  revert m. induction pads as [|pad pads IH]; intros m; simpl.
  - by rewrite app_nil_r.
  - rewrite IH. simpl. by rewrite <-(assoc_L (++)).
Qed.

Lemma getters_add_pads pads m :
  GetValue (foldl (λ m pad, AddPad pad m) m pads) = GetValue m
  ∧ GetFootprintName (foldl (λ m pad, AddPad pad m) m pads)
    = GetFootprintName m
  ∧ GetLayer (foldl (λ m pad, AddPad pad m) m pads) = GetLayer m.
Proof.
  revert m. induction pads as [|pad pads IH]; intros m; simpl; [done|].
  destruct (IH (AddPad pad m)) as (-> & -> & ->). done.
Qed.

End Duplicating.

(** X4: [duplicate_component] refuses, without touching the board, a source
    reference that no component carries ("Component not found") and a new
    reference that is already in use ("Reference already exists"). For a
    source on the board and a fresh new reference, with no position and
    no rotation in the request, it appends exactly one footprint: a copy of
    the first component carrying the source reference, with its value,
    footprint name, layer, pads and orientation, under the new reference,
    5 mm (5,000,000 internal units) further along X and at the same Y. *)
Theorem duplicate_component_copies (b : pcbnew.BOARD) (params : Params)
    (reference_ new_reference : string) :
  reference params = Some reference_ → reference_ ≠ "" →
  newReference params = Some new_reference → new_reference ≠ "" →
  (pcbnew.FindFootprintByReference b reference_ = None →
   ComponentCommands.duplicate_component b params
   = (failure "Component not found"
              ("Could not find component: " +:+ reference_), b))
  ∧ (∀ source other,
       pcbnew.FindFootprintByReference b reference_ = Some source →
       pcbnew.FindFootprintByReference b new_reference = Some other →
       ComponentCommands.duplicate_component b params
       = (failure "Reference already exists"
                  ("A component with reference " +:+ new_reference +:+
                   " already exists"), b))
  ∧ (∀ source,
       pcbnew.FindFootprintByReference b reference_ = Some source →
       pcbnew.FindFootprintByReference b new_reference = None →
       position params = None → rotation params = None →
       ∃ copy,
         (ComponentCommands.duplicate_component b params).2
         = pcbnew.AddFootprint copy b
         ∧ pcbnew.GetReference copy = new_reference
         ∧ pcbnew.GetValue copy = pcbnew.GetValue (pcbnew.deref b source)
         ∧ pcbnew.GetFootprintName copy
           = pcbnew.GetFootprintName (pcbnew.deref b source)
         ∧ pcbnew.GetLayer copy = pcbnew.GetLayer (pcbnew.deref b source)
         ∧ pcbnew.Pads copy = pcbnew.Pads (pcbnew.deref b source)
         ∧ pcbnew.GetOrientation copy
           = pcbnew.GetOrientation (pcbnew.deref b source)
         ∧ pcbnew.GetPosition copy
           = {| pcbnew.x :=
                  pcbnew.x (pcbnew.GetPosition (pcbnew.deref b source))
                  + 5000000;
                pcbnew.y :=
                  pcbnew.y (pcbnew.GetPosition (pcbnew.deref b source)) |}).
Proof.
  intros Hr Hrne Hn Hnne. unfold ComponentCommands.duplicate_component.
  rewrite Hr, Hn, (truthy_str_true _ Hrne), (truthy_str_true _ Hnne).
  cbn [negb orb]. split_and!.
  - by intros ->.
  - intros source other -> ->.
    by rewrite bool_decide_eq_true_2 by (by eexists).
  - intros source -> -> -> ->.
    rewrite bool_decide_eq_false_2 by (by intros [??]).
    cbn [bind_on]. eexists. split.
    + rewrite try_except_board.
      repeat (match goal with
              | |- context [bind_on _ ?m _] => destruct m; cbn [bind_on]
              end); reflexivity.
    + cbn. rewrite GetReference_add_pads, Pads_add_pads.
      destruct (getters_add_pads
                  (pcbnew.Pads (pcbnew.deref b source))
                  (pcbnew.SetLayer (pcbnew.GetLayer (pcbnew.deref b source))
                     (pcbnew.SetReference new_reference
                        (pcbnew.SetValue
                           (pcbnew.GetValue (pcbnew.deref b source))
                           (pcbnew.SetFootprintName
                              (pcbnew.GetFootprintName
                                 (pcbnew.deref b source))
                              pcbnew.new_FOOTPRINT)))))
        as (-> & -> & ->).
      by split_and!.
Qed.

(** [R1] duplicated as [R2]: the copy lies 5 mm to the right. *)
Lemma duplicate_component_copies_witness :
  ∃ copy,
    (ComponentCommands.duplicate_component one_resistor_board
       (duplicate_request "R1" "R2")).2
    = pcbnew.AddFootprint copy one_resistor_board
    ∧ pcbnew.GetReference copy = "R2"
    ∧ pcbnew.GetPosition copy = {| pcbnew.x := 5000000; pcbnew.y := 0 |}.
Proof.
  destruct (duplicate_component_copies one_resistor_board
              (duplicate_request "R1" "R2") "R1" "R2")
    as (_ & _ & Hcopy); [reflexivity|discriminate|reflexivity|discriminate|].
  destruct (Hcopy 0%nat) as (copy & Hb & Href & _ & _ & _ & _ & _ & Hpos);
    [reflexivity..|].
  exists copy. by split_and!.
Defined.

(** *** Grouping the bill of materials *)

Section Grouping.
Import ExportCommands.

Lemma assoc_None {A} k (l : list (string * A)) :
  pcbnew.assoc k l = None ↔ k ∉ l.*1.
Proof.
  induction l as [|[k' a] l IH]; simpl.
  - split; [intros _; by apply not_elem_of_nil|done].
  - destruct (String.eqb_spec k' k) as [->|Hne].
    + split; [done|]. intros []. by left.
    + rewrite IH. split.
      * intros Hk Hin. apply elem_of_cons in Hin as [?|?]; [by subst|done].
      * intros Hk ?. apply Hk. by right.
Qed.

Lemma assoc_Some_NoDup {A} k (a : A) (l : list (string * A)) :
  NoDup l.*1 → (k, a) ∈ l ↔ pcbnew.assoc k l = Some a.
Proof.
  induction l as [|[k' a'] l IH]; simpl; intros Hnd.
  - split; [by intros ?%elem_of_nil|done].
  - apply NoDup_cons in Hnd as [Hk' Hnd]. rewrite elem_of_cons.
    destruct (String.eqb_spec k' k) as [->|Hne].
    + split.
      * intros [[= ->]|Hin]; [done|].
        destruct Hk'. apply list_elem_of_fmap. by exists (k, a).
      * intros [= ->]. by left.
    + rewrite <-IH by done. naive_solver.
Qed.

Lemma add_to_keys g k comp :
  (add_to g k comp).*1 = if decide (k ∈ g.*1) then g.*1 else g.*1 ++ [k].
Proof.
  induction g as [|[k0 r0] g IH].
  - destruct (decide (k ∈ ([] : list (string * bom_row)).*1)) as [H|_];
      [by apply elem_of_nil in H|reflexivity].
  - cbn [add_to]. destruct (String.eqb_spec k0 k) as [->|Hne].
    + destruct (decide (k ∈ ((k, r0) :: g).*1)) as [_|H]; [reflexivity|].
      destruct H. by left.
    + rewrite fmap_cons, IH. cbn [fst].
      destruct (decide (k ∈ g.*1)) as [Hin|Hnin],
        (decide (k ∈ ((k0, r0) :: g).*1)) as [Hin'|Hnin']; try done.
      * destruct Hnin'. by right.
      * rewrite fmap_cons in Hin'. apply elem_of_cons in Hin' as [?|?];
          [by subst|done].
Qed.

Lemma assoc_add_to g k comp k' :
  pcbnew.assoc k' (add_to g k comp)
  = if decide (k' = k) then
      Some match pcbnew.assoc k g with
           | Some row =>
               {| row_value := row_value row;
                  row_footprint := row_footprint row;
                  row_quantity := row_quantity row + 1;
                  row_references :=
                    row_references row ++ [bom_reference comp] |}
           | None =>
               {| row_value := bom_value comp;
                  row_footprint := bom_footprint comp;
                  row_quantity := 1;
                  row_references := [bom_reference comp] |}
           end
    else pcbnew.assoc k' g.
Proof.
  induction g as [|[k0 r0] g IH]; cbn [add_to pcbnew.assoc].
  - destruct (decide (k' = k)) as [->|Hk].
    + by rewrite String.eqb_refl.
    + destruct (String.eqb_spec k k'); [by subst|done].
  - destruct (String.eqb_spec k0 k) as [->|Hne]; cbn [pcbnew.assoc].
    + destruct (decide (k' = k)) as [->|Hk].
      * by rewrite String.eqb_refl.
      * destruct (String.eqb_spec k k'); [by subst|done].
    + rewrite IH. destruct (decide (k' = k)) as [->|Hk].
      * destruct (String.eqb_spec k0 k); [by subst|done].
      * done.
Qed.

Lemma grouped_snoc components comp :
  grouped (components ++ [comp])
  = add_to (grouped components) (key_of comp) comp.
Proof. unfold grouped. by rewrite foldl_app. Qed.

Lemma members_snoc k components comp :
  members k (components ++ [comp])
  = members k components ++ (if decide (key_of comp = k) then [comp] else []).
Proof.
  unfold members. rewrite filter_app. f_equal.
Qed.

Lemma row_of_snoc ms comp :
  row_of (ms ++ [comp])
  = Some match row_of ms with
         | Some row =>
             {| row_value := row_value row;
                row_footprint := row_footprint row;
                row_quantity := row_quantity row + 1;
                row_references := row_references row ++ [bom_reference comp] |}
         | None =>
             {| row_value := bom_value comp;
                row_footprint := bom_footprint comp;
                row_quantity := 1;
                row_references := [bom_reference comp] |}
         end.
Proof.
  destruct ms as [|first ms]; [done|]. simpl. f_equal. f_equal.
  - rewrite length_app. simpl. lia.
  - by rewrite fmap_app.
Qed.

Lemma grouped_spec components :
  NoDup (grouped components).*1
  ∧ ∀ k, pcbnew.assoc k (grouped components)
         = row_of (members k components).
Proof.
  induction components as [|comp components [IHnd IH]] using rev_ind.
  { split; [constructor|done]. }
  rewrite grouped_snoc. split.
  - rewrite add_to_keys. case_decide; [done|].
    apply NoDup_app. split_and!; [done| |apply NoDup_singleton].
    intros k Hk ->%list_elem_of_singleton. done.
  - intros k. rewrite assoc_add_to, members_snoc.
    destruct (decide (k = key_of comp)) as [->|Hne].
    + rewrite decide_True by done. by rewrite row_of_snoc, IH.
    + rewrite decide_False by done. by rewrite app_nil_r.
Qed.

End Grouping.

(** X5: for every list of components, the grouped bill of materials has
    exactly one row per grouping key, the string [value_footprint], that
    occurs in the list: the row of a key counts the components with that key
    (its quantity), lists their references in the order of the list, and
    shows the value and the footprint of the first of them. Two components
    are therefore counted in the same row exactly when their keys are the
    same string. *)
Theorem bom_groups_by_key
    (components : list ExportCommands.bom_component) :
  NoDup (ExportCommands.grouped components).*1
  ∧ ExportCommands.group components
    = (ExportCommands.grouped components).*2
  ∧ (∀ k, pcbnew.assoc k (ExportCommands.grouped components)
          = row_of (members k components))
  ∧ (∀ k, k ∈ (ExportCommands.grouped components).*1
          ↔ ∃ comp, comp ∈ components ∧ ExportCommands.key_of comp = k)
  ∧ (∀ row, row ∈ ExportCommands.group components
            ↔ ∃ k, row_of (members k components) = Some row).
Proof.
  destruct (grouped_spec components) as [Hnd Hassoc].
  split_and!; [done|done|done| |].
  - intros k. destruct (decide (k ∈ (ExportCommands.grouped components).*1))
      as [Hin|Hnin].
    + split; [intros _|done].
      destruct (pcbnew.assoc k (ExportCommands.grouped components))
        as [row|] eqn:Hrow; [|by apply assoc_None in Hrow].
      rewrite Hassoc in Hrow. unfold members in Hrow.
      destruct (filter _ components) as [|comp ms] eqn:Hms; [done|].
      assert (comp ∈ filter (λ comp, ExportCommands.key_of comp = k)
                             components) as Hc
        by (rewrite Hms; by left).
      apply list_elem_of_filter in Hc as [??]. by exists comp.
    + split; [done|]. intros (comp & Hc & Hk). exfalso.
      apply assoc_None in Hnin. rewrite Hassoc in Hnin.
      unfold members in Hnin.
      assert (comp ∈ filter (λ comp, ExportCommands.key_of comp = k)
                             components) as Hin
        by (by apply list_elem_of_filter).
      destruct (filter _ components); [by apply elem_of_nil in Hin|done].
  - intros row. unfold ExportCommands.group.
    change (foldl _ [] components) with (ExportCommands.grouped components).
    rewrite list_elem_of_fmap. split.
    + intros ([k row'] & -> & Hin). exists k.
      apply assoc_Some_NoDup in Hin; [|done]. by rewrite <-Hassoc.
    + intros (k & Hk). exists (k, row). split; [done|].
      apply assoc_Some_NoDup; [done|]. by rewrite Hassoc.
Qed.


(** ** Further properties of the routing commands *)

(** *** Adding a via *)

(** X6: [add_via] changes nothing of the board but its list of vias, to
    which it adds at most one via, at its end. It adds none when one of the
    two layers (default F.Cu and B.Cu) is not a layer of the board, and the
    request then fails. When the request succeeds the new via lies at the
    requested position converted to internal units, spans the two layers,
    is on the requested net if the board has a net of that name and on no
    net otherwise, and has the requested size and drill, where a size or a
    drill that is absent or zero stands for the board's current via size or
    drill. *)
Theorem add_via_effect (b : pcbnew.BOARD) (params : Params) :
  ((RoutingCommands.add_via b params).2 = b
   ∨ ∃ via, (RoutingCommands.add_via b params).2 = pcbnew.AddVia via b)
  ∧ (pcbnew.GetLayerID b (Py.get (from_layer params) "F.Cu") < 0
     ∨ pcbnew.GetLayerID b (Py.get (to_layer params) "B.Cu") < 0 →
     success (RoutingCommands.add_via b params).1 = false
     ∧ (RoutingCommands.add_via b params).2 = b)
  ∧ (success (RoutingCommands.add_via b params).1 = true →
     ∃ position_ via size_mm drill_mm,
       position params = Some position_
       ∧ RoutingCommands.add_via b params
         = (ok "Added via" (Via position_ size_mm drill_mm),
            pcbnew.AddVia via b)
       ∧ position_to_nm position_ = Py.Return (pcbnew.via_position via)
       ∧ requested_or_current (size params) (pcbnew.GetCurrentViaSize b)
         = Py.Return (pcbnew.via_width via)
       ∧ requested_or_current (drill params) (pcbnew.GetCurrentViaDrill b)
         = Py.Return (pcbnew.via_drill via)
       ∧ pcbnew.via_layers via
         = (pcbnew.GetLayerID b (Py.get (from_layer params) "F.Cu"),
            pcbnew.GetLayerID b (Py.get (to_layer params) "B.Cu"))
       ∧ pcbnew.via_net via = via_net_of b (net params)
       ∧ Py.int_truediv (pcbnew.via_width via) 1000000 = Py.Return size_mm
       ∧ Py.int_truediv (pcbnew.via_drill via) 1000000
         = Py.Return drill_mm).
Proof.
  unfold RoutingCommands.add_via, requested_or_current, via_net_of.
  destruct (position params) as [position_|];
    cbn [try_except fst snd success failure]; [|by split_and!; [left|..]].
  destruct (position_to_nm position_) as [p|e] eqn:Hp;
    cbn [bind_on try_except fst snd success failure];
    [|by split_and!; [left|..]].
  destruct (if Py.truthy Py.truthy_number (size params) then _ else _)
    as [via_size|e] eqn:Hsize;
    cbn [bind_on try_except fst snd success failure];
    [|by split_and!; [left|..]].
  destruct (if Py.truthy Py.truthy_number (drill params) then _ else _)
    as [via_drill_|e] eqn:Hdrill;
    cbn [bind_on try_except fst snd success failure];
    [|by split_and!; [left|..]].
  destruct (Z.ltb_spec (pcbnew.GetLayerID b (Py.get (from_layer params) "F.Cu"))
                       0) as [Hfrom|Hfrom];
    cbn [orb try_except fst snd success failure];
    [by split_and!; [left|..]|].
  destruct (Z.ltb_spec (pcbnew.GetLayerID b (Py.get (to_layer params) "B.Cu"))
                       0) as [Hto|Hto];
    cbn [orb try_except fst snd success failure];
    [by split_and!; [left|..]|].
  destruct (Py.int_truediv via_size 1000000) as [size_mm|e] eqn:Hsmm;
    cbn [bind_on try_except fst snd success failure].
  2: { split_and!; [right; by eexists|lia|done]. }
  destruct (Py.int_truediv via_drill_ 1000000) as [drill_mm|e] eqn:Hdmm;
    cbn [bind_on try_except fst snd success failure ok].
  2: { split_and!; [right; by eexists|lia|done]. }
  split_and!; [right; by eexists|lia|]. intros _.
  eexists position_, _, size_mm, drill_mm. split_and!; try reflexivity; done.
Qed.

(** *** Deleting a trace *)

Section DeletingTracks.
Import pcbnew RoutingCommands.

Lemma find_index_first {A} (p : A → bool) l i :
  find_index p l = Some i →
  ∀ j a, (j < i)%nat → l !! j = Some a → p a = false.
Proof.
  revert i. induction l as [|a0 l IH]; intros i; [done|]. simpl.
  destruct (p a0) eqn:Hp.
  - intros [= <-] j a Hj. lia.
  - destruct (find_index p l) as [i'|]; [|done]. intros [= <-] j a Hj.
    destruct j as [|j]; simpl.
    + by intros [= <-].
    + apply (IH i'); [done|lia].
Qed.

Lemma find_index_is_first {A} (p : A → bool) l i a :
  l !! i = Some a → p a = true →
  (∀ j a', (j < i)%nat → l !! j = Some a' → p a' = false) →
  find_index p l = Some i.
Proof.
  revert i. induction l as [|a0 l IH]; intros i; [done|].
  destruct i as [|i]; simpl.
  - intros [= ->] -> _. done.
  - intros Hi Ha Hbefore. rewrite (Hbefore 0%nat a0) by (done || lia).
    rewrite (IH i); [done..|].
    intros j a' Hj Hj'. apply (Hbefore (S j)); [lia|done].
Qed.

(** The loop of [delete_trace] over the tracks only ever holds a track of
    the board. *)
Lemma closest_index (M : Libm) point tracks i d :
  closest M point tracks = Py.Return (Some i, d) → (i < length tracks)%nat.
Proof.
  unfold closest.
  assert (∀ (g : nat → nat) st r,
            foldl
              (λ (st : Py.result (option nat * float)) (it : nat * PCB_TRACK),
                 '(closest_track, min_distance) ← st;
                 dist ← _point_to_track_distance M point it.2;
                 if (dist <? min_distance)%float
                 then Py.Return (Some it.1, dist)
                 else Py.Return (closest_track, min_distance))
              st (imap (λ i, pair (g i)) tracks) = Py.Return r →
            ∃ st', st = Py.Return st'
                   ∧ (r.1 = st'.1
                      ∨ ∃ j, (j < length tracks)%nat ∧ r.1 = Some (g j)))
    as Hgen.
  { induction tracks as [|track tracks IH]; intros g st r.
    { simpl. intros ->. eauto. }
    cbn [imap foldl]. intros H.
    apply (IH (g ∘ S)) in H as (st1 & Hst1 & Hr).
    destruct st as [[ct md]|e]; [|done]. exists (ct, md). split; [done|].
    cbn in Hst1. unfold mbind, result_bind in Hst1. cbn in Hst1.
    destruct (_point_to_track_distance M point track) as [dist|e];
      cbn in Hst1; [|done].
    destruct Hr as [Hr|(j & Hj & Hr)].
    - destruct (dist <? md)%float; injection Hst1 as <-; cbn in Hr.
      + right. exists 0%nat. split; [simpl; lia|done].
      + by left.
    - right. exists (S j). split; [simpl; lia|done]. }
  intros H. apply (Hgen id) in H as (st' & [= <-] & [H|(j & Hj & [= ->])]);
    done.
Qed.

End DeletingTracks.

(** X7: [delete_trace] removes exactly one track of the board when it
    succeeds and none when it fails, and leaves the other tracks in their
    order and the footprints and the vias as they are. With a non-empty trace id it removes the first track carrying that
    id, and fails with "Track not found" when no track carries it. *)
Theorem delete_trace_removes_one (M : Libm) (b : pcbnew.BOARD)
    (params : Params) :
  (success (RoutingCommands.delete_trace M b params).1 = false →
   (RoutingCommands.delete_trace M b params).2 = b)
  ∧ (success (RoutingCommands.delete_trace M b params).1 = true →
     ∃ i track,
       pcbnew.Tracks b !! i = Some track
       ∧ (RoutingCommands.delete_trace M b params).2 = pcbnew.RemoveTrack i b
       ∧ pcbnew.Tracks (RoutingCommands.delete_trace M b params).2
         = delete i (pcbnew.Tracks b)
       ∧ pcbnew.GetFootprints (RoutingCommands.delete_trace M b params).2
         = pcbnew.GetFootprints b
       ∧ pcbnew.Vias (RoutingCommands.delete_trace M b params).2
         = pcbnew.Vias b)
  ∧ (∀ uuid, traceUuid params = Some uuid → uuid ≠ "" →
       ((∀ track, track ∈ pcbnew.Tracks b → pcbnew.m_Uuid track ≠ uuid) →
        RoutingCommands.delete_trace M b params
        = (failure "Track not found"
                   ("Could not find track with UUID: " +:+ uuid), b))
       ∧ (∀ i track,
            pcbnew.Tracks b !! i = Some track → pcbnew.m_Uuid track = uuid →
            (∀ j other, (j < i)%nat → pcbnew.Tracks b !! j = Some other →
                        pcbnew.m_Uuid other ≠ uuid) →
            RoutingCommands.delete_trace M b params
            = (ok ("Deleted track: " +:+ uuid) Nothing,
               pcbnew.RemoveTrack i b))).
Proof.
  split_and!.
  - unfold RoutingCommands.delete_trace.
    destruct (Py.truthy Py.truthy_str (traceUuid params)); cbn [negb andb].
    + destruct (pcbnew.find_index _ _); by cbn.
    + destruct (position params) as [position_|]; [|done].
      rewrite bool_decide_eq_true_2 by (by eexists). cbn [negb].
      destruct (position_to_nm position_) as [point|e]; cbn [bind_on];
        [|done].
      destruct (RoutingCommands.closest M point (pcbnew.Tracks b))
        as [[[track|] d]|e]; cbn [bind_on]; try done.
      by destruct (d <? 1000000)%float.
  - assert (success (RoutingCommands.delete_trace M b params).1 = true →
            ∃ i track,
              pcbnew.Tracks b !! i = Some track
              ∧ (RoutingCommands.delete_trace M b params).2
                = pcbnew.RemoveTrack i b) as Hcore; last first.
    { intros Hs. destruct (Hcore Hs) as (i & track & Hi & Hb).
      exists i, track. by rewrite Hb. }
    unfold RoutingCommands.delete_trace.
    destruct (Py.truthy Py.truthy_str (traceUuid params)); cbn [negb andb].
    + destruct (pcbnew.find_index _ _) as [i|] eqn:Hi; cbn; [|done].
      intros _. apply find_index_Some in Hi as (track & Hi & _).
      by exists i, track.
    + destruct (position params) as [position_|]; [|done].
      rewrite bool_decide_eq_true_2 by (by eexists). cbn [negb].
      destruct (position_to_nm position_) as [point|e]; cbn [bind_on];
        [|done].
      destruct (RoutingCommands.closest M point (pcbnew.Tracks b))
        as [[[i|] d]|e] eqn:Hc; cbn [bind_on]; try done.
      destruct (d <? 1000000)%float; [|done]. cbn. intros _.
      apply closest_index in Hc.
      destruct (pcbnew.Tracks b !! i) as [track|] eqn:Hi;
        [|apply lookup_ge_None in Hi; lia].
      by exists i, track.
  - intros uuid Hid Hne. unfold RoutingCommands.delete_trace.
    rewrite Hid. cbn [Py.truthy Py.get default from_option id].
    rewrite (truthy_str_true _ Hne). cbn [negb andb]. split.
    + intros Hnone.
      destruct (pcbnew.find_index _ _) as [i|] eqn:Hi; [|done].
      apply find_index_Some in Hi as (track & Hi & Heq).
      apply String.eqb_eq in Heq. destruct (Hnone track); [|done].
      by eapply list_elem_of_lookup_2.
    + intros i track Hi Heq Hfirst.
      rewrite (find_index_is_first _ _ i track); [done|done| |].
      * by apply String.eqb_eq.
      * intros j other Hj Hother. apply String.eqb_neq. by eapply Hfirst.
Qed.

(** *** Both rails or none *)

(** X8: whatever the request, [route_differential_pair] either leaves the
    board exactly as it was or appends the two rails together, never one
    without the other: the rails are the two tracks of a pair on a layer of
    the board, of one width (the requested one or the board's current track
    width), on the two nets of the request, which the board has, and
    shifted from the line between the two resolved end points by opposite
    offsets. A successful request is always of the second kind. *)
Theorem differential_pair_adds_both_or_none (b : pcbnew.BOARD)
    (params : Params) :
  ((RoutingCommands.route_differential_pair b params).2 = b
   ∨ ∃ start_pos end_pos net_pos net_neg net_pos_obj net_neg_obj
       start_point end_point trace_width offset_x offset_y,
       startPos params = Some start_pos ∧ endPos params = Some end_pos
       ∧ netPos params = Some net_pos ∧ netNeg params = Some net_neg
       ∧ pcbnew.FindNet b net_pos = Some net_pos_obj
       ∧ pcbnew.FindNet b net_neg = Some net_neg_obj
       ∧ RoutingCommands._get_point b start_pos = Py.Return start_point
       ∧ RoutingCommands._get_point b end_pos = Py.Return end_point
       ∧ pair_width b params = Py.Return trace_width
       ∧ 0 ≤ pcbnew.GetLayerID b (Py.get (layer params) "F.Cu")
       ∧ (RoutingCommands.route_differential_pair b params).2
         = with_pair b (pcbnew.GetLayerID b (Py.get (layer params) "F.Cu"))
                     trace_width net_pos_obj net_neg_obj start_point
                     end_point offset_x offset_y)
  ∧ (success (RoutingCommands.route_differential_pair b params).1 = true →
     length (pcbnew.Tracks (RoutingCommands.route_differential_pair b params).2)
     = S (S (length (pcbnew.Tracks b)))).
Proof.
  unfold RoutingCommands.route_differential_pair, pair_width.
  destruct (startPos params) as [start_pos|]; [|by split; [left|]].
  destruct (endPos params) as [end_pos|]; [|by split; [left|]].
  destruct (netPos params) as [net_pos|]; [|by split; [left|]].
  destruct (netNeg params) as [net_neg|]; [|by split; [left|]].
  destruct (negb (Py.truthy_str net_pos) || negb (Py.truthy_str net_neg));
    [by split; [left|]|].
  destruct (Z.ltb_spec (pcbnew.GetLayerID b (Py.get (layer params) "F.Cu")) 0)
    as [Hlayer|Hlayer]; [by split; [left|]|].
  destruct (pcbnew.FindNet b net_pos) as [net_pos_obj|] eqn:Hfp;
    [|by split; [left|]].
  destruct (pcbnew.FindNet b net_neg) as [net_neg_obj|] eqn:Hfn;
    [|by split; [left|]].
  destruct (RoutingCommands._get_point b start_pos) as [start_point|e]
    eqn:Hsp; cbn [bind_on]; [|by split; [left|]].
  destruct (RoutingCommands._get_point b end_pos) as [end_point|e]
    eqn:Hep; cbn [bind_on]; [|by split; [left|]].
  destruct (Py.float_of_int _) as [square|e]; cbn [bind_on];
    [|by split; [left|]].
  destruct (PrimFloat.sqrt square <=? 0)%float; [by split; [left|]|].
  destruct (Py.float_of_int (pcbnew.x end_point - pcbnew.x start_point))
    as [dx|e]; cbn [bind_on]; [|by split; [left|]].
  destruct (Py.float_of_int (pcbnew.y end_point - pcbnew.y start_point))
    as [dy|e]; cbn [bind_on]; [|by split; [left|]].
  destruct (to_nm _ 1000000) as [gap_nm|e]; cbn [bind_on];
    [|by split; [left|]].
  destruct (Py.float_of_int gap_nm) as [gap_nm_|e]; cbn [bind_on];
    [|by split; [left|]].
  destruct (Py.trunc _) as [offset_x|e]; cbn [bind_on]; [|by split; [left|]].
  destruct (Py.trunc _) as [offset_y|e]; cbn [bind_on]; [|by split; [left|]].
  destruct (if Py.truthy Py.truthy_number (width params) then _ else _)
    as [trace_width|e] eqn:Hw; cbn [bind_on]; [|by split; [left|]].
  rewrite AddTrack_pair, try_except_board, bind_on_board.
  split.
  - right.
    by exists start_pos, end_pos, net_pos, net_neg, net_pos_obj, net_neg_obj,
      start_point, end_point, trace_width, offset_x, offset_y.
  - intros _. unfold with_pair. cbn. rewrite length_app. simpl. lia.
Qed.


(** ** Further properties of the alignment *)

Section MoreAlignment.
Import pcbnew ComponentCommands.

(** The response is built after the components are moved, so building it
    does not change the board. *)
Lemma align_components_edge_board b params edge_ :
  Py.get (alignment params) "horizontal" = "edge" →
  edge params = Some edge_ → edge_ ≠ "" →
  (align_components b params).2
  = if (length (Py.get (references params) []) <? 2)%nat then b
    else match resolve b (Py.get (references params) []) with
         | inl _ => b
         | inr components => _align_components_to_edge components edge_ b
         end.
Proof.
  intros Ha He Hne. unfold align_components.
  rewrite try_except_board, Ha, He, (truthy_str_true _ Hne).
  destruct (length _ <? 2)%nat; [done|].
  destruct (resolve b _) as [ref|components]; [done|].
  cbn [String.eqb Ascii.eqb Bool.eqb]. apply bind_on_board.
Qed.

Lemma align_to_edge_eq components edge_ b :
  _align_components_to_edge components edge_ b
  = if String.eqb edge_ "left" then
      set_all_x (GetLeft (GetBoardEdgesBoundingBox b) + 2000000) components b
    else if String.eqb edge_ "right" then
      set_all_x (GetRight (GetBoardEdgesBoundingBox b) - 2000000) components b
    else if String.eqb edge_ "top" then
      set_all_y (GetTop (GetBoardEdgesBoundingBox b) + 2000000) components b
    else if String.eqb edge_ "bottom" then
      set_all_y (GetBottom (GetBoardEdgesBoundingBox b) - 2000000)
                components b
    else b.
Proof. reflexivity. Qed.

(** The spacing distribution on distinct components: the component at the
    sorted position [i] ends at the first one's coordinate plus [i] times
    the spacing. *)
Lemma align_horizontally_spacing components spacing_ spacing_nm b :
  Forall (λ m, (m < length (GetFootprints b))%nat) components →
  NoDup components → components ≠ [] →
  to_nm spacing_ 1000000 = Py.Return spacing_nm →
  ∃ sorted first,
    sorted ≡ₚ components
    ∧ StronglySorted (λ m m', pos_x b m ≤ pos_x b m') sorted
    ∧ sorted !! 0%nat = Some first
    ∧ ∀ i m, sorted !! i = Some m →
        pos_x (_align_components_horizontally components "spacing"
                 (Some spacing_) b).2.2 m
        = pos_x b first + Z.of_nat i * spacing_nm.
Proof.
  intros Hvalid Hnd Hne Hto.
  set (sorted := sort_by (pos_x b) components).
  assert (length sorted = length components) as Hls
    by (by unfold sorted; rewrite sort_by_perm).
  assert (0 < length components)%nat as Hlen
    by (destruct components; [done|simpl; lia]).
  destruct (sorted !! 0%nat) as [first|] eqn:Hfirst;
    [|apply lookup_ge_None in Hfirst; lia].
  exists sorted, first. split_and!; [apply sort_by_perm
    |apply sort_by_sorted|done|].
  intros i m Hi. rewrite align_horizontally_eq by done. cbv zeta.
  fold sorted. cbn [String.eqb Ascii.eqb Bool.eqb andb].
  rewrite Hto. cbn [fst snd]. rewrite head_lookup, Hfirst.
  cbn [default from_option id].
  rewrite (pos_x_spread_x _ _ _ _ _ i).
  - rewrite !pos_x_set_all_y.
    pose proof (lookup_lt_Some _ _ _ Hi).
    case_decide; [done|].
    assert (i = 0%nat) as -> by lia. simplify_eq. lia.
  - unfold sorted. by rewrite sort_by_perm.
  - done.
  - rewrite length_set_all_y.
    eapply Forall_forall in Hvalid; [done|].
    rewrite <-(sort_by_perm (pos_x b)). by eapply list_elem_of_lookup_2.
Qed.

(** A spacing that does not convert to internal units ends the request
    after the components are aligned and before any is distributed. *)
Lemma align_horizontally_spacing_raise components spacing_ e b m :
  components ≠ [] →
  to_nm spacing_ 1000000 = Py.Raise e →
  (_align_components_horizontally components "spacing" (Some spacing_) b).1
  = Py.Raise e
  ∧ pos_x (_align_components_horizontally components "spacing"
             (Some spacing_) b).2.2 m
    = pos_x b m.
Proof.
  intros Hne Hto. rewrite align_horizontally_eq by done. cbv zeta.
  cbn [String.eqb Ascii.eqb Bool.eqb andb]. rewrite Hto. cbn [fst snd].
  by rewrite pos_x_set_all_y.
Qed.

(** The mirror images for the vertical alignment. *)
Lemma pos_y_spread_y f lo hi l b i m :
  NoDup l → l !! i = Some m → (m < length (GetFootprints b))%nat →
  pos_y (spread_y f lo hi l b) m
  = if decide (lo ≤ i < hi)%nat then f i else pos_y b m.
Proof.
  intros Hnd Hi Hm. unfold spread_y, for_range.
  assert (∀ is_ b, NoDup is_ →
            (m < length (GetFootprints b))%nat →
            pos_y (foldl (λ b i, match l !! i with
                                 | Some m =>
                                     SetPositionAt m
                                       {| x := pos_x b m; y := f i |} b
                                 | None => b
                                 end) b is_) m
            = if decide (i ∈ is_) then f i else pos_y b m) as Hgen.
  { clear Hm b. intros is_. induction is_ as [|j is_ IH]; intros b Hnd' Hm.
    { rewrite decide_False; [done|]. inversion 1. }
    apply NoDup_cons in Hnd' as [Hj Hnd']. simpl.
    destruct (l !! j) as [mj|] eqn:Hlj.
    - rewrite IH by (by rewrite ?length_SetPositionAt).
      rewrite pos_y_SetPositionAt. simpl.
      destruct (decide (j = i)) as [->|Hji].
      + simplify_eq. rewrite decide_False by done.
        rewrite decide_True by done. rewrite decide_True; [done|].
        apply elem_of_cons; by left.
      + assert (mj ≠ m) by (intros ->; apply Hji; by eapply (NoDup_lookup l)).
        rewrite (decide_False (P := mj = m ∧ _)) by tauto.
        repeat case_decide; try done;
          repeat match goal with H : context [_ ∈ _ :: _] |- _ =>
            rewrite elem_of_cons in H end; naive_solver.
    - rewrite IH by done.
      assert (j ≠ i) by congruence.
      repeat case_decide; try done;
        repeat match goal with H : context [_ ∈ _ :: _] |- _ =>
          rewrite elem_of_cons in H end; naive_solver. }
  rewrite Hgen by (done || apply NoDup_seq).
  repeat case_decide; try done;
    repeat match goal with H : context [_ ∈ seq _ _] |- _ =>
      rewrite elem_of_seq in H end; lia.
Qed.

Lemma align_vertically_pos_x components distribution_ spacing_ b m :
  Forall (λ m, (m < length (GetFootprints b))%nat) components →
  m ∈ components →
  pos_x (_align_components_vertically components distribution_ spacing_
           b).2.2 m
  = x_avg b components.
Proof.
  intros Hvalid Hm.
  assert (components ≠ []) as Hne by (by intros ->; inversion Hm).
  assert (pos_x (set_all_x (x_avg b components)
                   (sort_by (pos_y b) components) b) m
          = x_avg b components) as H1.
  { rewrite pos_x_set_all_x, decide_True; [done|]. split.
    - by rewrite sort_by_perm.
    - by eapply Forall_forall in Hvalid. }
  rewrite align_vertically_eq by done. cbv zeta.
  repeat case_match; cbn [fst snd]; by rewrite ?pos_x_spread_y.
Qed.

Lemma align_vertically_equal components spacing_ b :
  Forall (λ m, (m < length (GetFootprints b))%nat) components →
  NoDup components → (2 ≤ length components)%nat →
  ∃ sorted first final,
    sorted ≡ₚ components
    ∧ StronglySorted (λ m m', pos_y b m ≤ pos_y b m') sorted
    ∧ sorted !! 0%nat = Some first
    ∧ sorted !! (length sorted - 1)%nat = Some final
    ∧ ∀ i m, sorted !! i = Some m →
        pos_y (_align_components_vertically components "equal" spacing_
                 b).2.2 m
        = if decide (i = length sorted - 1)%nat then pos_y b final
          else equal_step (pos_y b first) (pos_y b final) (length sorted) i.
Proof.
  intros Hvalid Hnd Hlen.
  assert (components ≠ []) as Hne by (intros ->; simpl in Hlen; lia).
  set (sorted := sort_by (pos_y b) components).
  assert (length sorted = length components) as Hls
    by (by unfold sorted; rewrite sort_by_perm).
  destruct (sorted !! 0%nat) as [first|] eqn:Hfirst;
    [|apply lookup_ge_None in Hfirst; lia].
  destruct (sorted !! (length sorted - 1)%nat) as [final|] eqn:Hfinal;
    [|apply lookup_ge_None in Hfinal; lia].
  exists sorted, first, final. split_and!; [apply sort_by_perm
    |apply sort_by_sorted|done|done|].
  intros i m Hi. rewrite align_vertically_eq by done. cbv zeta.
  fold sorted. cbn [String.eqb Ascii.eqb Bool.eqb andb].
  replace (1 <? length sorted)%nat with true
    by (symmetry; apply Nat.ltb_lt; lia).
  cbn [fst snd]. rewrite head_lookup, last_lookup, Hfirst.
  replace (pred (length sorted)) with (length sorted - 1)%nat by lia.
  rewrite Hfinal. cbn [default from_option id].
  rewrite !pos_y_set_all_x.
  rewrite (pos_y_spread_y _ _ _ _ _ i).
  - rewrite pos_y_set_all_x.
    pose proof (lookup_lt_Some _ _ _ Hi).
    repeat case_decide; try done; try lia.
    + congruence.
    + unfold equal_step. assert (i = 0%nat) as -> by lia.
      simplify_eq. lia.
  - unfold sorted. by rewrite sort_by_perm.
  - done.
  - rewrite length_set_all_x.
    eapply Forall_forall in Hvalid; [done|].
    rewrite <-(sort_by_perm (pos_y b)). by eapply list_elem_of_lookup_2.
Qed.

Lemma align_vertically_spacing components spacing_ spacing_nm b :
  Forall (λ m, (m < length (GetFootprints b))%nat) components →
  NoDup components → components ≠ [] →
  to_nm spacing_ 1000000 = Py.Return spacing_nm →
  ∃ sorted first,
    sorted ≡ₚ components
    ∧ StronglySorted (λ m m', pos_y b m ≤ pos_y b m') sorted
    ∧ sorted !! 0%nat = Some first
    ∧ ∀ i m, sorted !! i = Some m →
        pos_y (_align_components_vertically components "spacing"
                 (Some spacing_) b).2.2 m
        = pos_y b first + Z.of_nat i * spacing_nm.
Proof.
  intros Hvalid Hnd Hne Hto.
  set (sorted := sort_by (pos_y b) components).
  assert (length sorted = length components) as Hls
    by (by unfold sorted; rewrite sort_by_perm).
  assert (0 < length components)%nat as Hlen
    by (destruct components; [done|simpl; lia]).
  destruct (sorted !! 0%nat) as [first|] eqn:Hfirst;
    [|apply lookup_ge_None in Hfirst; lia].
  exists sorted, first. split_and!; [apply sort_by_perm
    |apply sort_by_sorted|done|].
  intros i m Hi. rewrite align_vertically_eq by done. cbv zeta.
  fold sorted. cbn [String.eqb Ascii.eqb Bool.eqb andb].
  rewrite Hto. cbn [fst snd]. rewrite head_lookup, Hfirst.
  cbn [default from_option id].
  rewrite (pos_y_spread_y _ _ _ _ _ i).
  - rewrite !pos_y_set_all_x.
    pose proof (lookup_lt_Some _ _ _ Hi).
    case_decide; [done|].
    assert (i = 0%nat) as -> by lia. simplify_eq. lia.
  - unfold sorted. by rewrite sort_by_perm.
  - done.
  - rewrite length_set_all_x.
    eapply Forall_forall in Hvalid; [done|].
    rewrite <-(sort_by_perm (pos_y b)). by eapply list_elem_of_lookup_2.
Qed.

Lemma align_vertically_spacing_raise components spacing_ e b m :
  components ≠ [] →
  to_nm spacing_ 1000000 = Py.Raise e →
  (_align_components_vertically components "spacing" (Some spacing_) b).1
  = Py.Raise e
  ∧ pos_y (_align_components_vertically components "spacing"
             (Some spacing_) b).2.2 m
    = pos_y b m.
Proof.
  intros Hne Hto. rewrite align_vertically_eq by done. cbv zeta.
  cbn [String.eqb Ascii.eqb Bool.eqb andb]. rewrite Hto. cbn [fst snd].
  by rewrite pos_y_set_all_x.
Qed.

Lemma align_components_failed b params components e :
  (2 ≤ length (Py.get (references params) []))%nat →
  resolve b (Py.get (references params) []) = inr components →
  (Py.get (alignment params) "horizontal" = "horizontal"
   ∧ (_align_components_horizontally components
        (Py.get (distribution params) "none") (spacing params) b).1
     = Py.Raise e)
  ∨ (Py.get (alignment params) "horizontal" = "vertical"
     ∧ (_align_components_vertically components
          (Py.get (distribution params) "none") (spacing params) b).1
       = Py.Raise e) →
  (align_components b params).1 = failure "Failed to align components" e.
Proof.
  intros Hlen Hres Hraise. unfold align_components.
  replace (_ <? 2)%nat with false by (symmetry; apply Nat.ltb_ge; lia).
  rewrite Hres.
  destruct Hraise as [[-> Hr]|[-> Hr]]; cbn [String.eqb Ascii.eqb Bool.eqb].
  - destruct (_align_components_horizontally _ _ _ _) as [[?|?] [??]];
      cbn in Hr; [done|]. by injection Hr as ->.
  - destruct (_align_components_vertically _ _ _ _) as [[?|?] [??]];
      cbn in Hr; [done|]. by injection Hr as ->.
Qed.

End MoreAlignment.

(** X9: an edge alignment of two or more components of the board moves each
    selected component to 2 mm (2,000,000 internal units) inside the named
    edge of the board's bounding box: X becomes left + 2 mm or right - 2 mm
    for the edges left and right, Y becomes top + 2 mm or bottom - 2 mm for
    top and bottom. The other coordinate of the selected components and
    both coordinates of all other components stay as they were. Any other
    edge name moves nothing. *)
Theorem edge_alignment (b : pcbnew.BOARD) (params : Params)
    (components : list nat) (edge_ : string) :
  Py.get (alignment params) "horizontal" = "edge" →
  (2 ≤ length (Py.get (references params) []))%nat →
  ComponentCommands.resolve b (Py.get (references params) [])
  = inr components →
  edge params = Some edge_ →
  (∀ v, edge_ = "left"
          ∧ v = pcbnew.GetLeft (pcbnew.GetBoardEdgesBoundingBox b) + 2000000
        ∨ edge_ = "right"
          ∧ v = pcbnew.GetRight (pcbnew.GetBoardEdgesBoundingBox b) - 2000000 →
     ∀ m, ComponentCommands.pos_x
            (ComponentCommands.align_components b params).2 m
          = (if decide (m ∈ components) then v
             else ComponentCommands.pos_x b m)
          ∧ ComponentCommands.pos_y
              (ComponentCommands.align_components b params).2 m
            = ComponentCommands.pos_y b m)
  ∧ (∀ v, edge_ = "top"
            ∧ v = pcbnew.GetTop (pcbnew.GetBoardEdgesBoundingBox b) + 2000000
          ∨ edge_ = "bottom"
            ∧ v = pcbnew.GetBottom (pcbnew.GetBoardEdgesBoundingBox b)
                  - 2000000 →
       ∀ m, ComponentCommands.pos_y
              (ComponentCommands.align_components b params).2 m
            = (if decide (m ∈ components) then v
               else ComponentCommands.pos_y b m)
            ∧ ComponentCommands.pos_x
                (ComponentCommands.align_components b params).2 m
              = ComponentCommands.pos_x b m)
  ∧ (edge_ ∉ ["left"; "right"; "top"; "bottom"] →
     (ComponentCommands.align_components b params).2 = b).
Proof.
  intros Ha Hlen Hres He.
  destruct (resolve_valid _ _ _ Hres) as (_ & Hvalid & _).
  assert (∀ m, m ∈ components ∧ (m < length (pcbnew.GetFootprints b))%nat
               ↔ m ∈ components) as Hin.
  { intros m. split; [by intros [? _]|]. intros Hm. split; [done|].
    by eapply Forall_forall in Hvalid. }
  destruct (decide (edge_ = "")) as [->|Hne].
  { assert ((ComponentCommands.align_components b params).2 = b) as ->.
    { unfold ComponentCommands.align_components.
      rewrite try_except_board, Ha, He, Hres.
      by destruct (length _ <? 2)%nat. }
    split_and!; [intros v [[? _]|[? _]]; done..|done]. }
  rewrite (align_components_edge_board _ _ edge_), Hres, align_to_edge_eq
    by done.
  replace (_ <? 2)%nat with false by (symmetry; apply Nat.ltb_ge; lia).
  split_and!.
  - intros v [[-> ->]|[-> ->]] m; cbn [String.eqb Ascii.eqb Bool.eqb];
      rewrite pos_x_set_all_x, pos_y_set_all_x;
      (split; [|done]); apply decide_ext, Hin.
  - intros v [[-> ->]|[-> ->]] m; cbn [String.eqb Ascii.eqb Bool.eqb];
      rewrite pos_y_set_all_y, pos_x_set_all_y;
      (split; [|done]); apply decide_ext, Hin.
  - intros Hother.
    destruct (String.eqb_spec edge_ "left") as [->|_];
      [destruct Hother; apply (bool_decide_unpack _); by vm_compute|].
    destruct (String.eqb_spec edge_ "right") as [->|_];
      [destruct Hother; apply (bool_decide_unpack _); by vm_compute|].
    destruct (String.eqb_spec edge_ "top") as [->|_];
      [destruct Hother; apply (bool_decide_unpack _); by vm_compute|].
    destruct (String.eqb_spec edge_ "bottom") as [->|_];
      [destruct Hother; apply (bool_decide_unpack _); by vm_compute|].
    done.
Qed.

(** [U1] and [U3] of three parts moved to the left edge of a board whose
    bounding box starts at X = 0: they end at X = 2 mm, [U2] stays. *)
Lemma edge_alignment_witness :
  ComponentCommands.pos_x
    (ComponentCommands.align_components three_parts_board
       (align_request_with ["U1"; "U3"] "edge" "none" None (Some "left"))).2
    <$> [0%nat; 1%nat; 2%nat]
  = [2000000; 0; 2000000].
Proof.
  destruct (edge_alignment three_parts_board
              (align_request_with ["U1"; "U3"] "edge" "none" None
                                  (Some "left"))
              [0%nat; 2%nat] "left" eq_refl (le_n 2) eq_refl eq_refl)
    as (Hx & _ & _).
  specialize (Hx 2000000 (or_introl (conj eq_refl eq_refl))).
  cbn [fmap list_fmap].
  rewrite (proj1 (Hx 0%nat)), (proj1 (Hx 1%nat)), (proj1 (Hx 2%nat)).
  reflexivity.
Defined.

(** X10: a vertical alignment of [n >= 2] resolved components sets the X
    coordinate of every selected component to the floor of the mean of their
    original X coordinates. With [distribution = equal] and pairwise
    distinct references, the components sorted by ascending original Y are
    placed as follows: the one at sorted position [i < n - 1] at
    [y_min + i * ((y_max - y_min) // (n - 1))], the last one left at
    [y_max], where [y_min] and [y_max] are the least and the greatest
    original Y of the selection; the Y values form an arithmetic progression
    when [n - 1] divides [y_max - y_min]. *)
Theorem vertical_alignment (b : pcbnew.BOARD) (params : Params)
    (components : list nat) :
  Py.get (alignment params) "horizontal" = "vertical" →
  (2 ≤ length (Py.get (references params) []))%nat →
  ComponentCommands.resolve b (Py.get (references params) [])
  = inr components →
  (∀ m, m ∈ components →
     ComponentCommands.pos_x
       (ComponentCommands.align_components b params).2 m
     = x_avg b components)
  ∧ (Py.get (distribution params) "none" = "equal" →
     NoDup (Py.get (references params) []) →
     ∃ sorted y_min y_max,
       sorted ≡ₚ components
       ∧ StronglySorted
           (λ m m', ComponentCommands.pos_y b m ≤ ComponentCommands.pos_y b m')
           sorted
       ∧ (∀ m, m ∈ components → y_min ≤ ComponentCommands.pos_y b m ≤ y_max)
       ∧ (∃ m, m ∈ components ∧ ComponentCommands.pos_y b m = y_min)
       ∧ (∃ m, m ∈ components ∧ ComponentCommands.pos_y b m = y_max)
       ∧ (∀ i m, sorted !! i = Some m →
            ComponentCommands.pos_y
              (ComponentCommands.align_components b params).2 m
            = if decide (i = length sorted - 1)%nat then y_max
              else equal_step y_min y_max (length sorted) i)
       ∧ ((y_max - y_min) `mod` (Z.of_nat (length sorted) - 1) = 0 →
          ∀ i m, sorted !! i = Some m →
            ComponentCommands.pos_y
              (ComponentCommands.align_components b params).2 m
            = equal_step y_min y_max (length sorted) i)).
Proof.
  intros Ha Hlen Hres.
  destruct (resolve_valid _ _ _ Hres) as (Hl & Hvalid & Hnd).
  rewrite align_components_vertical_board, Hres by done.
  replace (_ <? 2)%nat with false by (symmetry; apply Nat.ltb_ge; lia).
  split.
  { intros m Hm. by apply align_vertically_pos_x. }
  intros -> Hrefs.
  destruct (align_vertically_equal components (spacing params) b Hvalid
              (Hnd Hrefs) ltac:(lia))
    as (sorted & first & final & Hperm & Hsorted & Hfirst & Hfinal & Hpos).
  assert (length sorted = length components) as Hls by (by rewrite Hperm).
  exists sorted, (ComponentCommands.pos_y b first),
    (ComponentCommands.pos_y b final).
  split_and!; try done.
  - intros m Hm. rewrite <-Hperm in Hm.
    apply list_elem_of_lookup in Hm as [i Hi].
    pose proof (lookup_lt_Some _ _ _ Hi). split.
    + eapply (sorted_lookup_le _ sorted 0%nat i); [done..|lia].
    + eapply (sorted_lookup_le _ sorted i (length sorted - 1)%nat);
        [done..|lia].
  - exists first. split; [|done]. rewrite <-Hperm.
    by eapply list_elem_of_lookup_2.
  - exists final. split; [|done]. rewrite <-Hperm.
    by eapply list_elem_of_lookup_2.
  - intros Hdiv i m Hi. rewrite (Hpos i m Hi).
    case_decide as Hlast; [|done]. subst i. unfold equal_step.
    apply Z.mod_divide in Hdiv; [|lia]. destruct Hdiv as [q Hq].
    rewrite Hq, Z.div_mul by lia. rewrite Nat2Z.inj_sub by lia. lia.
Qed.

(** Three parts at Y = 1, 2 and 4 mm, distributed equally: all at the mean
    X, and in sorted order [U1], [U2], [U3] at 1, 2.5 and 4 mm. *)
Lemma vertical_alignment_witness :
  Forall (λ m, ComponentCommands.pos_x
                 (ComponentCommands.align_components three_parts_board
                    (align_request ["U1"; "U2"; "U3"] "vertical" "equal")).2
                 m
               = 4666666)
         [0%nat; 1%nat; 2%nat]
  ∧ ∃ sorted y_min y_max,
      sorted ≡ₚ [0%nat; 1%nat; 2%nat]
      ∧ ∀ i m, sorted !! i = Some m →
          ComponentCommands.pos_y
            (ComponentCommands.align_components three_parts_board
               (align_request ["U1"; "U2"; "U3"] "vertical" "equal")).2 m
          = if decide (i = length sorted - 1)%nat then y_max
            else equal_step y_min y_max (length sorted) i.
Proof.
  destruct (vertical_alignment three_parts_board
              (align_request ["U1"; "U2"; "U3"] "vertical" "equal")
              [0%nat; 1%nat; 2%nat]) as [Hy Hx].
  - reflexivity.
  - simpl. lia.
  - reflexivity.
  - split.
    + apply Forall_forall. intros m Hm. by rewrite (Hy m Hm).
    + destruct (Hx eq_refl) as (sorted & y_min & y_max & Hperm & _ & _ & _
                                & _ & Hpos & _).
      { apply (bool_decide_unpack _). by vm_compute. }
      by exists sorted, y_min, y_max.
Defined.

(** X11: with [distribution = spacing] and a spacing in the request, an
    alignment of [n >= 2] resolved components with pairwise distinct
    references puts the components, sorted by ascending original X for a
    horizontal alignment (Y for a vertical one), at the first one's
    original coordinate plus [i] times the spacing in internal units, [i]
    being the sorted position, and all of them at the mean of the other
    coordinate; the spacing may be zero or negative. A spacing that does
    not convert to internal units makes the request fail after the
    components have been aligned: they are left at the mean, undistributed. *)
Theorem spacing_distribution (b : pcbnew.BOARD) (params : Params)
    (components : list nat) (spacing_ : Py.number) :
  (2 ≤ length (Py.get (references params) []))%nat →
  NoDup (Py.get (references params) []) →
  ComponentCommands.resolve b (Py.get (references params) [])
  = inr components →
  Py.get (distribution params) "none" = "spacing" →
  spacing params = Some spacing_ →
  (∀ spacing_nm,
     to_nm spacing_ 1000000 = Py.Return spacing_nm →
     (Py.get (alignment params) "horizontal" = "horizontal" →
      ∃ sorted first,
        sorted ≡ₚ components
        ∧ StronglySorted
            (λ m m', ComponentCommands.pos_x b m ≤ ComponentCommands.pos_x b m')
            sorted
        ∧ sorted !! 0%nat = Some first
        ∧ ∀ i m, sorted !! i = Some m →
            ComponentCommands.pos_x
              (ComponentCommands.align_components b params).2 m
            = ComponentCommands.pos_x b first + Z.of_nat i * spacing_nm
            ∧ ComponentCommands.pos_y
                (ComponentCommands.align_components b params).2 m
              = y_avg b components)
     ∧ (Py.get (alignment params) "horizontal" = "vertical" →
        ∃ sorted first,
          sorted ≡ₚ components
          ∧ StronglySorted
              (λ m m',
                 ComponentCommands.pos_y b m ≤ ComponentCommands.pos_y b m')
              sorted
          ∧ sorted !! 0%nat = Some first
          ∧ ∀ i m, sorted !! i = Some m →
              ComponentCommands.pos_y
                (ComponentCommands.align_components b params).2 m
              = ComponentCommands.pos_y b first + Z.of_nat i * spacing_nm
              ∧ ComponentCommands.pos_x
                  (ComponentCommands.align_components b params).2 m
                = x_avg b components))
  ∧ (∀ e,
       to_nm spacing_ 1000000 = Py.Raise e →
       (Py.get (alignment params) "horizontal" = "horizontal" →
        (ComponentCommands.align_components b params).1
        = failure "Failed to align components" e
        ∧ ∀ m, m ∈ components →
            ComponentCommands.pos_x
              (ComponentCommands.align_components b params).2 m
            = ComponentCommands.pos_x b m
            ∧ ComponentCommands.pos_y
                (ComponentCommands.align_components b params).2 m
              = y_avg b components)
       ∧ (Py.get (alignment params) "horizontal" = "vertical" →
          (ComponentCommands.align_components b params).1
          = failure "Failed to align components" e
          ∧ ∀ m, m ∈ components →
              ComponentCommands.pos_y
                (ComponentCommands.align_components b params).2 m
              = ComponentCommands.pos_y b m
              ∧ ComponentCommands.pos_x
                  (ComponentCommands.align_components b params).2 m
                = x_avg b components)).
Proof.
  intros Hlen Hrefs Hres Hd Hs.
  destruct (resolve_valid _ _ _ Hres) as (Hl & Hvalid & Hnd).
  assert (components ≠ []) as Hne by (intros ->; simpl in Hl; lia).
  split.
  - intros spacing_nm Hto. split; intros Ha.
    + destruct (align_horizontally_spacing components spacing_ spacing_nm b
                  Hvalid (Hnd Hrefs) Hne Hto)
        as (sorted & first & Hperm & Hsorted & Hfirst & Hpos).
      exists sorted, first. split_and!; [done..|]. intros i m Hi.
      rewrite align_components_horizontal_board, Hres, Hd, Hs by done.
      replace (_ <? 2)%nat with false by (symmetry; apply Nat.ltb_ge; lia).
      split; [by apply Hpos|]. apply align_horizontally_pos_y; [done|].
      rewrite <-Hperm. by eapply list_elem_of_lookup_2.
    + destruct (align_vertically_spacing components spacing_ spacing_nm b
                  Hvalid (Hnd Hrefs) Hne Hto)
        as (sorted & first & Hperm & Hsorted & Hfirst & Hpos).
      exists sorted, first. split_and!; [done..|]. intros i m Hi.
      rewrite align_components_vertical_board, Hres, Hd, Hs by done.
      replace (_ <? 2)%nat with false by (symmetry; apply Nat.ltb_ge; lia).
      split; [by apply Hpos|]. apply align_vertically_pos_x; [done|].
      rewrite <-Hperm. by eapply list_elem_of_lookup_2.
  - intros e Hto. split; intros Ha.
    + split.
      * apply (align_components_failed _ _ components); [done..|].
        left. split; [done|]. rewrite Hd, Hs.
        by eapply (align_horizontally_spacing_raise _ _ _ _ 0%nat).
      * intros m Hm.
        rewrite align_components_horizontal_board, Hres, Hd, Hs by done.
        replace (_ <? 2)%nat with false by (symmetry; apply Nat.ltb_ge; lia).
        split; [by eapply align_horizontally_spacing_raise|].
        by apply align_horizontally_pos_y.
    + split.
      * apply (align_components_failed _ _ components); [done..|].
        right. split; [done|]. rewrite Hd, Hs.
        by eapply (align_vertically_spacing_raise _ _ _ _ 0%nat).
      * intros m Hm.
        rewrite align_components_vertical_board, Hres, Hd, Hs by done.
        replace (_ <? 2)%nat with false by (symmetry; apply Nat.ltb_ge; lia).
        split; [by eapply align_vertically_spacing_raise|].
        by apply align_vertically_pos_x.
Qed.

(** Three parts at X = 9, 0 and 5 mm spaced by 2 mm: in sorted order [U2],
    [U3], [U1] at 0, 2 and 4 mm, all at the mean Y. *)
Lemma spacing_distribution_witness :
  ∃ sorted first,
    sorted ≡ₚ [0%nat; 1%nat; 2%nat]
    ∧ sorted !! 0%nat = Some first
    ∧ ∀ i m, sorted !! i = Some m →
        ComponentCommands.pos_x
          (ComponentCommands.align_components three_parts_board
             (align_request_with ["U1"; "U2"; "U3"] "horizontal" "spacing"
                                 (Some (Py.Int 2)) None)).2 m
        = ComponentCommands.pos_x three_parts_board first
          + Z.of_nat i * 2000000
        ∧ ComponentCommands.pos_y
            (ComponentCommands.align_components three_parts_board
               (align_request_with ["U1"; "U2"; "U3"] "horizontal" "spacing"
                                   (Some (Py.Int 2)) None)).2 m
          = 2333333.
Proof.
  destruct (spacing_distribution three_parts_board
              (align_request_with ["U1"; "U2"; "U3"] "horizontal" "spacing"
                                  (Some (Py.Int 2)) None)
              [0%nat; 1%nat; 2%nat] (Py.Int 2)) as [Hok _].
  - simpl. lia.
  - apply (bool_decide_unpack _). by vm_compute.
  - reflexivity.
  - reflexivity.
  - reflexivity.
  - destruct (Hok 2000000 eq_refl) as [Hh _].
    destruct (Hh eq_refl) as (sorted & first & Hperm & _ & Hfirst & Hpos).
    by exists sorted, first.
Defined.

(** *** What an alignment leaves alone *)

Section AlignmentFrame.
Import pcbnew ComponentCommands.

Lemma moved_only_refl ms b : moved_only ms b b.
Proof.
  split_and!; [by destruct b| |done].
  apply Forall2_same_length_lookup_2; [done|].
  intros i fp fp' H1 H2. simplify_eq. by destruct fp.
Qed.

Lemma moved_only_SetPositionAt ms b b1 m p :
  moved_only ms b b1 → m ∈ ms → moved_only ms b (SetPositionAt m p b1).
Proof.
  intros (Hb & Hfps & Hother) Hm. split_and!.
  - unfold SetPositionAt. rewrite Hb. by destruct b.
  - unfold SetPositionAt. cbn [GetFootprints with_footprints].
    apply Forall2_same_length_lookup_2.
    { rewrite length_alter. by eapply Forall2_length. }
    intros i fp fp' H1 H2.
    destruct (decide (m = i)) as [->|Hne].
    + rewrite list_lookup_alter_eq in H2.
      destruct (GetFootprints b1 !! i) as [fp1|] eqn:H3; [|done].
      cbn in H2. simplify_eq.
      rewrite (Forall2_lookup_lr _ _ _ _ _ _ Hfps H1 H3). reflexivity.
    + rewrite list_lookup_alter_ne in H2 by done.
      exact (Forall2_lookup_lr _ _ _ _ _ _ Hfps H1 H2).
  - intros m' Hm'. unfold SetPositionAt. cbn [GetFootprints with_footprints].
    rewrite list_lookup_alter_ne by (by intros ->). by apply Hother.
Qed.

Lemma moved_only_foldl ms b (f : BOARD → nat → VECTOR2I) l b1 :
  moved_only ms b b1 → l ⊆ ms →
  moved_only ms b (foldl (λ b m, SetPositionAt m (f b m) b) b1 l).
Proof.
  revert b1. induction l as [|m l IH]; intros b1 Hb Hl; [done|].
  simpl. apply IH.
  - apply moved_only_SetPositionAt; [done|]. apply Hl. by left.
  - intros m' Hm'. apply Hl. by right.
Qed.

Lemma moved_only_for_range ms b (f : nat → BOARD → nat → VECTOR2I) lo hi
    components b1 :
  moved_only ms b b1 → components ⊆ ms →
  moved_only ms b
    (for_range lo hi components (λ i m b, SetPositionAt m (f i b m) b) b1).
Proof.
  intros Hb Hl. apply (for_range_ind (moved_only ms b)); [done|].
  intros i m b' Hb' Hi. apply moved_only_SetPositionAt; [done|].
  apply Hl. by eapply list_elem_of_lookup_2.
Qed.

Lemma sort_by_subseteq (key : nat → Z) l : sort_by key l ⊆ l.
Proof. intros m. by rewrite sort_by_perm. Qed.

Lemma moved_only_horizontally components distribution_ spacing_ b :
  moved_only components b
    (_align_components_horizontally components distribution_ spacing_ b).2.2.
Proof.
  destruct (decide (components = [])) as [->|Hne]; [apply moved_only_refl|].
  rewrite align_horizontally_eq by done. cbv zeta.
  assert (moved_only components b
            (set_all_y (y_avg b components) (sort_by (pos_x b) components) b))
    as H1.
  { apply (moved_only_foldl _ _ (λ b m, {| x := pos_x b m; y := _ |}));
      [apply moved_only_refl|apply sort_by_subseteq]. }
  repeat case_match; cbn [fst snd]; try done.
  - apply (moved_only_for_range _ _ (λ i b m, {| x := _; y := pos_y b m |}));
      [done|apply sort_by_subseteq].
  - apply (moved_only_for_range _ _ (λ i b m, {| x := _; y := pos_y b m |}));
      [done|apply sort_by_subseteq].
Qed.

Lemma moved_only_vertically components distribution_ spacing_ b :
  moved_only components b
    (_align_components_vertically components distribution_ spacing_ b).2.2.
Proof.
  destruct (decide (components = [])) as [->|Hne]; [apply moved_only_refl|].
  rewrite align_vertically_eq by done. cbv zeta.
  assert (moved_only components b
            (set_all_x (x_avg b components) (sort_by (pos_y b) components) b))
    as H1.
  { apply (moved_only_foldl _ _ (λ b m, {| x := _; y := pos_y b m |}));
      [apply moved_only_refl|apply sort_by_subseteq]. }
  repeat case_match; cbn [fst snd]; try done.
  - apply (moved_only_for_range _ _ (λ i b m, {| x := pos_x b m; y := _ |}));
      [done|apply sort_by_subseteq].
  - apply (moved_only_for_range _ _ (λ i b m, {| x := pos_x b m; y := _ |}));
      [done|apply sort_by_subseteq].
Qed.

Lemma moved_only_to_edge components edge_ b :
  moved_only components b (_align_components_to_edge components edge_ b).
Proof.
  rewrite align_to_edge_eq.
  repeat case_match; try apply moved_only_refl.
  - apply (moved_only_foldl _ _ (λ b m, {| x := _; y := pos_y b m |}));
      [apply moved_only_refl|done].
  - apply (moved_only_foldl _ _ (λ b m, {| x := _; y := pos_y b m |}));
      [apply moved_only_refl|done].
  - apply (moved_only_foldl _ _ (λ b m, {| x := pos_x b m; y := _ |}));
      [apply moved_only_refl|done].
  - apply (moved_only_foldl _ _ (λ b m, {| x := pos_x b m; y := _ |}));
      [apply moved_only_refl|done].
Qed.

End AlignmentFrame.

(** X12: whatever the request and whether or not it succeeds,
    [align_components] does nothing to the board but move components that
    the request selects: the board keeps its tracks, vias, nets and
    settings and the number and order of its footprints; every footprint
    keeps its reference, value, footprint name, orientation, layer and pads;
    and a footprint that none of the references resolves to stays where it
    is. When one of the references names no component, nothing moves. *)
Theorem align_components_only_moves (b : pcbnew.BOARD) (params : Params) :
  moved_only (selected b params)
             b (ComponentCommands.align_components b params).2.
Proof.
  unfold selected, ComponentCommands.align_components.
  rewrite try_except_board.
  destruct (length _ <? 2)%nat; [apply moved_only_refl|].
  destruct (ComponentCommands.resolve b _) as [ref|components];
    [apply moved_only_refl|].
  destruct (String.eqb _ "horizontal").
  { pose proof (moved_only_horizontally components
                  (Py.get (distribution params) "none") (spacing params) b)
      as H.
    destruct (ComponentCommands._align_components_horizontally _ _ _ _)
      as [[?|?] [??]]; [by rewrite bind_on_board|done]. }
  destruct (String.eqb _ "vertical").
  { pose proof (moved_only_vertically components
                  (Py.get (distribution params) "none") (spacing params) b)
      as H.
    destruct (ComponentCommands._align_components_vertically _ _ _ _)
      as [[?|?] [??]]; [by rewrite bind_on_board|done]. }
  destruct (String.eqb _ "edge"); [|apply moved_only_refl].
  destruct (edge params) as [edge_|]; [|apply moved_only_refl].
  destruct (Py.truthy_str edge_); [|apply moved_only_refl].
  rewrite bind_on_board. apply moved_only_to_edge.
Qed.

(** *** What an alignment checks first *)

Section AlignmentValidation.
Import pcbnew ComponentCommands.

Lemma FindFootprintByReference_Some b ref :
  ref ∈ board_references b → is_Some (FindFootprintByReference b ref).
Proof.
  unfold board_references, FindFootprintByReference.
  induction (GetFootprints b) as [|fp fps IH]; simpl.
  { by intros ?%elem_of_nil. }
  intros Hin. destruct (String.eqb_spec (GetReference fp) ref) as [|Hne];
    [by eexists|].
  apply elem_of_cons in Hin as [->|Hin]; [done|].
  destruct (IH Hin) as [i ->]. by eexists.
Qed.

Lemma resolve_all b refs :
  (∀ ref, ref ∈ refs → ref ∈ board_references b) →
  ∃ components, resolve b refs = inr components.
Proof.
  induction refs as [|ref refs IH]; intros Hall; [by eexists|].
  simpl. destruct (FindFootprintByReference_Some b ref) as [m ->].
  { apply Hall. by left. }
  destruct IH as [ms ->]; [|by eexists].
  intros r Hr. apply Hall. by right.
Qed.

Lemma resolve_first_missing b refs i ref :
  refs !! i = Some ref → ref ∉ board_references b →
  (∀ j r, (j < i)%nat → refs !! j = Some r → r ∈ board_references b) →
  resolve b refs = inl ref.
Proof.
  revert i. induction refs as [|r0 refs IH]; intros i; [done|].
  destruct i as [|i]; simpl.
  - intros [= ->] Hnot _.
    destruct (FindFootprintByReference b ref) as [m|] eqn:Hm; [|done].
    destruct Hnot. apply find_index_Some in Hm as (fp & Hfp & Href).
    apply String.eqb_eq in Href as <-.
    apply list_elem_of_fmap. exists fp. split; [done|].
    by eapply list_elem_of_lookup_2.
  - intros Hi Hnot Hbefore.
    destruct (FindFootprintByReference_Some b r0) as [m ->].
    { apply (Hbefore 0%nat); [lia|done]. }
    rewrite (IH i); [done..|].
    intros j r Hj Hr. apply (Hbefore (S j)); [lia|done].
Qed.

End AlignmentValidation.

(** X13: [align_components] checks the whole request before it moves
    anything, in this order, and a request it refuses leaves the board as it
    was: fewer than two references fail with "Missing references"; else the
    first reference of the list that no component carries fails the request
    with "Component not found", even when the references before it are
    valid; else an alignment other than horizontal, vertical and edge fails
    with "Invalid alignment option", and an edge alignment without an edge
    (or with an empty one) with "Missing edge parameter". *)
Theorem align_components_validation (b : pcbnew.BOARD) (params : Params) :
  ((length (Py.get (references params) []) < 2)%nat →
   ComponentCommands.align_components b params
   = (failure "Missing references"
              "At least two component references are required", b))
  ∧ ((2 ≤ length (Py.get (references params) []))%nat →
     ∀ i ref,
       Py.get (references params) [] !! i = Some ref →
       ref ∉ board_references b →
       (∀ j r, (j < i)%nat → Py.get (references params) [] !! j = Some r →
               r ∈ board_references b) →
       ComponentCommands.align_components b params
       = (failure "Component not found"
                  ("Could not find component: " +:+ ref), b))
  ∧ ((2 ≤ length (Py.get (references params) []))%nat →
     (∀ ref, ref ∈ Py.get (references params) [] →
             ref ∈ board_references b) →
     (Py.get (alignment params) "horizontal"
      ∉ ["horizontal"; "vertical"; "edge"] →
      ComponentCommands.align_components b params
      = (failure "Invalid alignment option"
                 "Alignment must be 'horizontal', 'vertical', or 'edge'", b))
     ∧ (Py.get (alignment params) "horizontal" = "edge" →
        Py.truthy Py.truthy_str (edge params) = false →
        ComponentCommands.align_components b params
        = (failure "Missing edge parameter"
                   "Edge parameter is required for edge alignment", b))).
Proof.
  unfold ComponentCommands.align_components. split_and!.
  - intros Hlen.
    by replace (_ <? 2)%nat with true by (symmetry; apply Nat.ltb_lt; lia).
  - intros Hlen i ref Hi Hnot Hbefore.
    replace (_ <? 2)%nat with false by (symmetry; apply Nat.ltb_ge; lia).
    by rewrite (resolve_first_missing _ _ i ref).
  - intros Hlen Hall.
    replace (_ <? 2)%nat with false by (symmetry; apply Nat.ltb_ge; lia).
    destruct (resolve_all b _ Hall) as [components ->]. split.
    + intros Hother.
      destruct (String.eqb_spec (Py.get (alignment params) "horizontal")
                                "horizontal") as [Heq|_];
        [destruct Hother; rewrite Heq; apply (bool_decide_unpack _);
         by vm_compute|].
      destruct (String.eqb_spec (Py.get (alignment params) "horizontal")
                                "vertical") as [Heq|_];
        [destruct Hother; rewrite Heq; apply (bool_decide_unpack _);
         by vm_compute|].
      destruct (String.eqb_spec (Py.get (alignment params) "horizontal")
                                "edge") as [Heq|_];
        [destruct Hother; rewrite Heq; apply (bool_decide_unpack _);
         by vm_compute|].
      done.
    + intros -> He. cbn [String.eqb Ascii.eqb Bool.eqb].
      destruct (edge params) as [edge_|]; [|done].
      cbn in He. by rewrite He.
Qed.


(** ** The router with a board loaded *)

Section LoadedRouter.
Import KiCADInterface.

Lemma guarded_loaded body b params :
  is_Some (guarded body (Some b) params).2.
Proof. unfold guarded. destruct (body b params). by eexists. Qed.

(** No handler takes the board away from the router. *)
Lemma handler_keeps_board K command handler_ b params :
  pcbnew.assoc command (command_routes K) = Some handler_ →
  is_Some (handler_ (Some b) params).2.
Proof.
  intros H%assoc_elem_of. unfold command_routes in H.
  repeat (apply elem_of_cons in H as [[= _ ->]|H];
          [first [apply guarded_loaded | by eexists]|]).
  by apply elem_of_nil in H.
Qed.

End LoadedRouter.

(** X14: once a board is loaded the router keeps one loaded: the only
    requests after which none is loaded are a successful create_project or
    open_project for which the kernel gives no board. A schematic command
    and a command the router does not know leave the loaded board as it is,
    the latter failing as unknown; and a failed create_project or
    open_project keeps the current board. The component and routing
    commands run on the loaded board, and the board they leave, changed or
    not, is the one loaded afterwards, whether they succeed or fail. *)
Theorem loaded_board_session (K : Kernel) (b : pcbnew.BOARD)
    (params : Params) :
  (∀ command,
     (KiCADInterface.handle_command K (Some b) command params).2 = None →
     (command = "create_project" ∨ command = "open_project")
     ∧ success (KiCADInterface.handle_command K (Some b) command params).1
       = true
     ∧ GetBoard K command params = None)
  ∧ (∀ command, command ∈ schematic_commands →
       (KiCADInterface.handle_command K (Some b) command params).2 = Some b)
  ∧ (∀ command,
       pcbnew.assoc command (KiCADInterface.command_routes K) = None →
       KiCADInterface.handle_command K (Some b) command params
       = (failure ("Unknown command: " +:+ command)
                  "The specified command is not supported", Some b))
  ∧ (∀ command,
       command = "create_project" ∨ command = "open_project" →
       success (KiCADInterface.handle_command K (Some b) command params).1
       = false →
       (KiCADInterface.handle_command K (Some b) command params).2 = Some b)
  ∧ (∀ command body,
       (command, body)
       ∈ [ ("place_component", ComponentCommands.place_component);
           ("place_component_array",
            ComponentCommands.place_component_array (libm K));
           ("align_components", ComponentCommands.align_components);
           ("duplicate_component", ComponentCommands.duplicate_component);
           ("add_via", RoutingCommands.add_via);
           ("delete_trace", RoutingCommands.delete_trace (libm K));
           ("route_differential_pair",
            RoutingCommands.route_differential_pair) ] →
       KiCADInterface.handle_command K (Some b) command params
       = ((body b params).1, Some (body b params).2)).
Proof.
  split_and!.
  - intros command. unfold KiCADInterface.handle_command.
    destruct (pcbnew.assoc command _) as [handler_|] eqn:Hh; [|done].
    destruct (handler_keeps_board K command handler_ b params Hh)
      as [b' Hs].
    destruct (handler_ (Some b) params) as [result self]. simpl in Hs.
    subst. destruct (success result) eqn:Hsucc; cbn [andb]; [|done].
    destruct (String.eqb_spec command "create_project") as [->|];
      [intros Hb; split_and!; [by left|done|done]|].
    destruct (String.eqb_spec command "open_project") as [->|];
      [intros Hb; split_and!; [by right|done|done]|].
    done.
  - intros command H. unfold schematic_commands in H.
    repeat (apply elem_of_cons in H as [->|H];
            [unfold KiCADInterface.handle_command; cbn;
             by destruct (success _)|]).
    by apply elem_of_nil in H.
  - intros command H. unfold KiCADInterface.handle_command. by rewrite H.
  - intros command [-> | ->]; unfold KiCADInterface.handle_command; cbn;
      destruct (success (project K _ params)) eqn:Hs; cbn;
      by rewrite ?Hs.
  - intros command body H.
    repeat (apply elem_of_cons in H as [[= -> ->]|H];
            [unfold KiCADInterface.handle_command; cbn;
             match goal with
             | |- _ = ((?x).1, _) => destruct x
             end; cbn; by rewrite andb_false_r|]).
    by apply elem_of_nil in H.
Qed.


(** ** Moving, rotating, deleting and editing a component *)

Section Editing.
Import pcbnew ComponentCommands.

Lemma try_reply_board {A} msg (block : Py.result (Reply A) * BOARD) :
  (try_reply msg block).2 = block.2.
Proof. by destruct block as [[?|?] ?]. Qed.

Lemma FindFootprintByReference_lookup b ref m :
  FindFootprintByReference b ref = Some m →
  ∃ fp, GetFootprints b !! m = Some fp ∧ GetReference fp = ref.
Proof.
  intros (fp & Hfp & Href)%find_index_Some. exists fp. split; [done|].
  by apply String.eqb_eq.
Qed.

Lemma deref_lookup b m fp : GetFootprints b !! m = Some fp → deref b m = fp.
Proof. unfold deref. by intros ->. Qed.

Lemma lookup_UpdateAt f m b m' :
  GetFootprints (UpdateAt f m b) !! m'
  = if decide (m = m') then f <$> GetFootprints b !! m'
    else GetFootprints b !! m'.
Proof.
  unfold UpdateAt. cbn [GetFootprints with_footprints].
  case_decide as H; [subst; apply list_lookup_alter_eq|].
  by apply list_lookup_alter_ne.
Qed.

Lemma lookup_SetPositionAt m p b m' :
  GetFootprints (SetPositionAt m p b) !! m'
  = if decide (m = m') then SetPosition p <$> GetFootprints b !! m'
    else GetFootprints b !! m'.
Proof. apply (lookup_UpdateAt (SetPosition p)). Qed.

Lemma board_references_UpdateAt f m b :
  (∀ fp, GetReference (f fp) = GetReference fp) →
  board_references (UpdateAt f m b) = board_references b.
Proof.
  intros Hf. unfold board_references, UpdateAt.
  cbn [GetFootprints with_footprints].
  apply list_eq. intros i. rewrite !list_lookup_fmap.
  destruct (decide (m = i)) as [->|Hne].
  - rewrite list_lookup_alter_eq. destruct (GetFootprints b !! i); [|done].
    cbn. by rewrite Hf.
  - by rewrite list_lookup_alter_ne.
Qed.

Lemma board_references_SetPositionAt m p b :
  board_references (SetPositionAt m p b) = board_references b.
Proof. by apply (board_references_UpdateAt (SetPosition p)). Qed.

Lemma UpdateAt_insert f m b old :
  GetFootprints b !! m = Some old →
  UpdateAt f m b = with_footprints (<[m := f old]> (GetFootprints b)) b.
Proof.
  intros Hold. unfold UpdateAt. f_equal. apply list_eq. intros i.
  destruct (decide (m = i)) as [<-|Hne].
  - rewrite list_lookup_alter_eq, Hold, list_lookup_insert_eq; [done|].
    by eapply lookup_lt_Some.
  - by rewrite list_lookup_alter_ne, list_lookup_insert_ne.
Qed.

(** A product by the int 10 never raises. *)
Lemma mul_10 (a : Py.number) : ∃ o, Py.mul a (Py.Int 10) = Py.Return o.
Proof. destruct a; by eexists. Qed.

End Editing.

(** X15: [move_component] refuses, leaving the board as it was, a request
    without a reference or without a position, a reference that no
    component carries and a position that does not convert to internal
    units. When it succeeds, the first component carrying the reference is
    at the requested position in internal units; its orientation is the
    requested rotation times ten when a rotation is given, be it zero, and
    is unchanged otherwise; its other properties and all other components
    are unchanged. It never adds, removes or renames a component, and
    whatever the outcome nothing but the footprints of the board changes:
    tracks, vias, nets, layers and settings are those of the board before. *)
Theorem move_component_effect (b : pcbnew.BOARD) (params : Params) :
  board_references (ComponentCommands.move_component b params).2
  = board_references b
  ∧ (ComponentCommands.move_component b params).2
    = pcbnew.with_footprints
        (pcbnew.GetFootprints (ComponentCommands.move_component b params).2)
        b
  ∧ (Py.truthy Py.truthy_str (reference params) = false
     ∨ position params = None →
     ComponentCommands.move_component b params
     = (Refused "Missing parameters" "reference and position are required",
        b))
  ∧ (∀ reference_ position_,
       reference params = Some reference_ → reference_ ≠ "" →
       position params = Some position_ →
       (pcbnew.FindFootprintByReference b reference_ = None →
        ComponentCommands.move_component b params
        = (Refused "Component not found"
                   ("Could not find component: " +:+ reference_), b))
       ∧ (∀ m e,
            pcbnew.FindFootprintByReference b reference_ = Some m →
            position_to_nm position_ = Py.Raise e →
            ComponentCommands.move_component b params
            = (Refused "Failed to move component" e, b)))
  ∧ (accepted (ComponentCommands.move_component b params).1 = true →
     ∃ reference_ position_ m p old new,
       reference params = Some reference_
       ∧ position params = Some position_
       ∧ pcbnew.FindFootprintByReference b reference_ = Some m
       ∧ position_to_nm position_ = Py.Return p
       ∧ pcbnew.GetFootprints b !! m = Some old
       ∧ pcbnew.GetFootprints
           (ComponentCommands.move_component b params).2 !! m = Some new
       ∧ pcbnew.GetPosition new = p
       ∧ match rotation params with
         | Some rotation_ =>
             Py.mul rotation_ (Py.Int 10)
             = Py.Return (pcbnew.GetOrientation new)
         | None => pcbnew.GetOrientation new = pcbnew.GetOrientation old
         end
       ∧ new = pcbnew.SetOrientation (pcbnew.GetOrientation new)
                 (pcbnew.SetPosition p old)
       ∧ (∀ m', m' ≠ m →
            pcbnew.GetFootprints
              (ComponentCommands.move_component b params).2 !! m'
            = pcbnew.GetFootprints b !! m')
       ∧ (ComponentCommands.move_component b params).2
         = pcbnew.with_footprints
             (<[m := new]> (pcbnew.GetFootprints b)) b).
Proof.
  unfold ComponentCommands.move_component.
  destruct (reference params) as [reference_|];
    cbn [Py.truthy try_reply fst snd accepted];
    [|split_and!; [done|by rewrite with_footprints_id|done|done|done]].
  destruct (position params) as [position_|];
    cbn [try_reply fst snd accepted];
    [|split_and!; [done|by rewrite with_footprints_id|done|done|done]].
  destruct (Py.truthy_str reference_) eqn:Hr;
    cbn [negb try_reply fst snd accepted].
  2: { split_and!; [done|by rewrite with_footprints_id|done| |done].
       intros ?? [= <-] Hne. by rewrite (truthy_str_true _ Hne) in Hr. }
  destruct (pcbnew.FindFootprintByReference b reference_) as [m|] eqn:Hm;
    cbn [try_reply fst snd accepted].
  2: { split_and!;
         [done|by rewrite with_footprints_id|by intros [?|?]| |done].
       intros ?? [= <-] _ [= <-]. split; [done|]. intros m e. by rewrite Hm. }
  destruct (FindFootprintByReference_lookup _ _ _ Hm) as (old & Hold & Href).
  destruct (position_to_nm position_) as [p|e] eqn:Hp;
    cbn [bind_on try_reply fst snd accepted].
  2: { split_and!;
         [done|by rewrite with_footprints_id|by intros [?|?]| |done].
       intros ?? [= <-] _ [= <-]. split; [by rewrite Hm|].
       intros m' e' _ Heq. congruence. }
  split_and!.
  - rewrite try_reply_board.
    destruct (rotation params) as [rotation_|].
    + destruct (Py.mul rotation_ (Py.Int 10)) as [orientation|e];
        cbn [bind_on snd].
      * rewrite board_references_UpdateAt by done.
        apply board_references_SetPositionAt.
      * apply board_references_SetPositionAt.
    + destruct (Py.truediv _ _); cbn [bind_on snd];
        apply board_references_SetPositionAt.
  - rewrite try_reply_board.
    destruct (rotation params) as [rotation_|].
    + by destruct (Py.mul rotation_ (Py.Int 10)) as [orientation|e].
    + by destruct (Py.truediv _ _).
  - by intros [?|?].
  - intros ?? [= <-] _ [= <-]. split; [by rewrite Hm|].
    intros m' e'. congruence.
  - destruct (rotation params) as [rotation_|].
    + destruct (mul_10 rotation_) as [orientation Ho]. rewrite Ho.
      cbn [bind_on try_reply fst snd accepted]. intros _.
      exists reference_, position_, m, p, old,
        (pcbnew.SetOrientation orientation (pcbnew.SetPosition p old)).
      split_and!; try done.
      * rewrite lookup_UpdateAt, lookup_SetPositionAt, !decide_True by done.
        by rewrite Hold.
      * intros m' Hne.
        by rewrite lookup_UpdateAt, lookup_SetPositionAt, !decide_False.
      * rewrite (UpdateAt_insert _ _ _ (pcbnew.SetPosition p old)).
        -- change (pcbnew.SetPositionAt m p b)
             with (pcbnew.UpdateAt (pcbnew.SetPosition p) m b).
           rewrite (UpdateAt_insert _ _ _ old Hold).
           cbn [pcbnew.GetFootprints pcbnew.with_footprints].
           by rewrite list_insert_insert_eq.
        -- rewrite lookup_SetPositionAt, decide_True by done.
           by rewrite Hold.
    + destruct (Py.truediv _ _) as [rotation_|e];
        cbn [bind_on try_reply fst snd accepted]; [|done]. intros _.
      exists reference_, position_, m, p, old, (pcbnew.SetPosition p old).
      split_and!; try done.
      * rewrite lookup_SetPositionAt, decide_True by done. by rewrite Hold.
      * intros m' Hne. by rewrite lookup_SetPositionAt, decide_False.
      * change (pcbnew.SetPositionAt m p b)
          with (pcbnew.UpdateAt (pcbnew.SetPosition p) m b).
        by rewrite (UpdateAt_insert _ _ _ old).
Qed.

(** X16: [rotate_component] sets the orientation of the first component
    carrying the reference to ten times the requested angle and changes
    nothing else on the board. It succeeds whenever the reference is not
    empty and names a component and an angle is given, an angle of zero
    included; otherwise it fails and leaves the board as it was. *)
Theorem rotate_component_effect (b : pcbnew.BOARD) (params : Params)
    (angle : option Py.number) :
  (Py.truthy Py.truthy_str (reference params) = false ∨ angle = None →
   ComponentCommands.rotate_component b params angle
   = (Refused "Missing parameters" "reference and angle are required", b))
  ∧ (∀ reference_ angle_,
       reference params = Some reference_ → reference_ ≠ "" →
       angle = Some angle_ →
       (pcbnew.FindFootprintByReference b reference_ = None →
        ComponentCommands.rotate_component b params angle
        = (Refused "Component not found"
                   ("Could not find component: " +:+ reference_), b))
       ∧ (∀ m,
            pcbnew.FindFootprintByReference b reference_ = Some m →
            ∃ orientation old,
              Py.mul angle_ (Py.Int 10) = Py.Return orientation
              ∧ pcbnew.GetFootprints b !! m = Some old
              ∧ (ComponentCommands.rotate_component b params angle).1
                = Accepted ("Rotated component: " +:+ reference_)
                           (reference_, angle_)
              ∧ pcbnew.GetFootprints
                  (ComponentCommands.rotate_component b params angle).2 !! m
                = Some (pcbnew.SetOrientation orientation old)
              ∧ (∀ m', m' ≠ m →
                   pcbnew.GetFootprints
                     (ComponentCommands.rotate_component b params angle).2
                   !! m'
                   = pcbnew.GetFootprints b !! m')
              ∧ (ComponentCommands.rotate_component b params angle).2
                = pcbnew.with_footprints
                    (pcbnew.GetFootprints
                       (ComponentCommands.rotate_component b params angle).2)
                    b)).
Proof.
  unfold ComponentCommands.rotate_component. split.
  - intros [Hr | ->].
    + destruct (reference params) as [reference_|]; [|done].
      cbn in Hr. rewrite Hr. by destruct angle.
    + by destruct (reference params).
  - intros reference_ angle_ -> Hne ->.
    rewrite (truthy_str_true _ Hne). cbn [negb]. split.
    + by intros ->.
    + intros m Hm. rewrite Hm.
      destruct (mul_10 angle_) as [orientation Ho]. rewrite Ho.
      destruct (FindFootprintByReference_lookup _ _ _ Hm)
        as (old & Hold & Href).
      exists orientation, old. cbn [bind_on try_reply fst snd].
      split_and!; try done.
      * rewrite lookup_UpdateAt, decide_True by done. by rewrite Hold.
      * intros m' Hm'. by rewrite lookup_UpdateAt, decide_False.
Qed.

(** *** Deleting a component *)

Section Deleting.
Import pcbnew ComponentCommands.

Lemma FindFootprintByReference_first b ref m :
  board_references b !! m = Some ref →
  (∀ j, (j < m)%nat → board_references b !! j ≠ Some ref) →
  FindFootprintByReference b ref = Some m.
Proof.
  unfold board_references. rewrite list_lookup_fmap.
  destruct (GetFootprints b !! m) as [fp|] eqn:Hfp; [|done].
  intros [= <-] Hfirst.
  apply (find_index_is_first _ _ m fp); [done|apply String.eqb_refl|].
  intros j fp' Hj Hfp'. apply String.eqb_neq. intros Heq.
  apply (Hfirst j Hj). rewrite list_lookup_fmap, Hfp'. cbn. by rewrite Heq.
Qed.

Lemma board_references_RemoveFootprint m b :
  board_references (RemoveFootprint m b) = delete m (board_references b).
Proof.
  unfold board_references, RemoveFootprint.
  cbn [GetFootprints with_footprints].
  by rewrite !delete_take_drop, fmap_app, fmap_take, fmap_drop.
Qed.

Lemma NoDup_delete_lookup {A} (l : list A) m a :
  NoDup l → l !! m = Some a → NoDup (delete m l) ∧ a ∉ delete m l.
Proof.
  intros Hnd Hm. rewrite delete_take_drop.
  rewrite <-(take_drop_middle l m a Hm) in Hnd.
  apply NoDup_app in Hnd as (H1 & H2 & H3).
  apply NoDup_cons in H3 as [H3 H4]. split.
  - apply NoDup_app. split_and!; [done| |done].
    intros c Hc Hc'. apply (H2 c Hc). by right.
  - intros [Hin|Hin]%elem_of_app; [|done]. apply (H2 a Hin). by left.
Qed.

Lemma find_index_snoc {A} (p : A → bool) l a :
  Forall (λ c, p c = false) l → p a = true →
  find_index p (l ++ [a]) = Some (length l).
Proof.
  intros Hl Ha. apply (find_index_is_first _ _ _ a).
  - by rewrite lookup_app_r, Nat.sub_diag by lia.
  - done.
  - intros j c Hj Hc. rewrite lookup_app_l in Hc by done.
    by eapply Forall_lookup_1 in Hl.
Qed.

End Deleting.

(** X17: [delete_component] removes the first component carrying the
    reference and nothing else: the other components stay in their order.
    It fails, leaving the board as it was, without a reference and for a
    reference that no component carries. On a board whose references are
    pairwise distinct the reference is gone afterwards and the references
    are still distinct. *)
Theorem delete_component_effect (b : pcbnew.BOARD) (params : Params) :
  (Py.truthy Py.truthy_str (reference params) = false →
   ComponentCommands.delete_component b params
   = (Refused "Missing reference" "reference parameter is required", b))
  ∧ (∀ reference_,
       reference params = Some reference_ → reference_ ≠ "" →
       (reference_ ∉ board_references b →
        ComponentCommands.delete_component b params
        = (Refused "Component not found"
                   ("Could not find component: " +:+ reference_), b))
       ∧ (∀ m,
            board_references b !! m = Some reference_ →
            (∀ j, (j < m)%nat → board_references b !! j ≠ Some reference_) →
            ComponentCommands.delete_component b params
            = (Accepted ("Deleted component: " +:+ reference_) tt,
               pcbnew.RemoveFootprint m b)
            ∧ pcbnew.GetFootprints (pcbnew.RemoveFootprint m b)
              = delete m (pcbnew.GetFootprints b)
            ∧ pcbnew.with_footprints (pcbnew.GetFootprints b)
                (pcbnew.RemoveFootprint m b) = b
            ∧ (NoDup (board_references b) →
               (reference_ ∉ board_references (pcbnew.RemoveFootprint m b))
               ∧ NoDup (board_references (pcbnew.RemoveFootprint m b))))).
Proof.
  unfold ComponentCommands.delete_component. split.
  - destruct (reference params) as [reference_|]; [|done].
    cbn. by intros ->.
  - intros reference_ -> Hne. rewrite (truthy_str_true _ Hne). cbn [negb].
    split.
    + intros Hnot.
      destruct (pcbnew.FindFootprintByReference b reference_) as [m|] eqn:Hm;
        [|done].
      destruct Hnot.
      destruct (FindFootprintByReference_lookup _ _ _ Hm)
        as (fp & Hfp & <-).
      apply list_elem_of_fmap. exists fp. split; [done|].
      by eapply list_elem_of_lookup_2.
    + intros m Hm Hfirst.
      rewrite (FindFootprintByReference_first _ _ _ Hm Hfirst).
      split_and!; [done|done|by destruct b|].
      intros Hnd. rewrite board_references_RemoveFootprint.
      destruct (NoDup_delete_lookup _ _ _ Hnd Hm). by split.
Qed.

(** X18: deleting undoes placing. When [place_component] succeeds with a
    non-empty reference that no component of the board carries, a
    [delete_component] request for that reference on the resulting board
    succeeds and gives back the board as it was before the placement. *)
Theorem place_then_delete (b : pcbnew.BOARD) (params request : Params)
    (reference_ : string) :
  reference params = Some reference_ → reference_ ≠ "" →
  reference_ ∉ board_references b →
  success (ComponentCommands.place_component b params).1 = true →
  reference request = Some reference_ →
  ComponentCommands.delete_component
    (ComponentCommands.place_component b params).2 request
  = (Accepted ("Deleted component: " +:+ reference_) tt, b).
Proof.
  intros Hr Hne Hnot Hs Hreq.
  destruct (place_component_success b b params (same_env_refl b) Hs)
    as (info & module & position_ & -> & _ & _ & _ & _ & Href).
  specialize (Href reference_ Hr Hne). cbn [snd].
  unfold ComponentCommands.delete_component.
  rewrite Hreq, (truthy_str_true _ Hne). cbn [negb].
  unfold pcbnew.FindFootprintByReference, pcbnew.AddFootprint.
  cbn [pcbnew.GetFootprints pcbnew.with_footprints].
  rewrite find_index_snoc.
  - cbn [try_reply]. f_equal. unfold pcbnew.RemoveFootprint.
    cbn [pcbnew.GetFootprints pcbnew.with_footprints].
    rewrite delete_take_drop, take_app_length.
    rewrite drop_ge, app_nil_r by (rewrite length_app; simpl; lia).
    by destruct b.
  - apply Forall_forall. intros fp Hfp. apply String.eqb_neq.
    intros Heq. apply Hnot. apply list_elem_of_fmap. exists fp.
    split; [congruence|done].
  - rewrite Href. apply String.eqb_refl.
Qed.

(** [R1] placed on the empty resistor board and deleted again. *)
Lemma place_then_delete_witness :
  ComponentCommands.delete_component one_resistor_board
    (reference_request "R1")
  = (Accepted "Deleted component: R1" tt, resistor_board).
Proof.
  apply (place_then_delete resistor_board (place_R1 0)
           (reference_request "R1") "R1").
  - reflexivity.
  - discriminate.
  - intros H. by apply elem_of_nil in H.
  - reflexivity.
  - reflexivity.
Defined.

(** *** Editing a component *)

Section EditingProperties.
Import pcbnew ComponentCommands.

Lemma set_if_getters set s m :
  (∀ v fp, GetPosition (set v fp) = GetPosition fp
           ∧ GetOrientation (set v fp) = GetOrientation fp
           ∧ GetLayer (set v fp) = GetLayer fp
           ∧ Pads (set v fp) = Pads fp) →
  GetPosition (set_if set s m) = GetPosition m
  ∧ GetOrientation (set_if set s m) = GetOrientation m
  ∧ GetLayer (set_if set s m) = GetLayer m
  ∧ Pads (set_if set s m) = Pads m.
Proof.
  intros Hset. unfold set_if. destruct s as [v|]; [|done].
  destruct (Py.truthy_str v); [apply Hset|done].
Qed.

End EditingProperties.

(** X19: [edit_component] changes the reference, the value and the
    footprint name of the first component carrying the reference, each only
    when the request gives a new one that is not empty, and nothing else:
    position, orientation, layer and pads of that component and all other
    components stay as they are, and the response reports the three
    properties as they are afterwards. It fails, leaving the board as it
    was, without a reference and for a reference that no component carries.
    It makes no check of the new reference: renaming a component to a
    reference that another component carries succeeds and leaves two
    components with the same reference. *)
Theorem edit_component_effect (b : pcbnew.BOARD) (params : Params) :
  (Py.truthy Py.truthy_str (reference params) = false →
   ComponentCommands.edit_component b params
   = (Refused "Missing reference" "reference parameter is required", b))
  ∧ (∀ reference_,
       reference params = Some reference_ → reference_ ≠ "" →
       (reference_ ∉ board_references b →
        ComponentCommands.edit_component b params
        = (Refused "Component not found"
                   ("Could not find component: " +:+ reference_), b))
       ∧ (∀ m,
            pcbnew.FindFootprintByReference b reference_ = Some m →
            ∃ old new,
              pcbnew.GetFootprints b !! m = Some old
              ∧ pcbnew.GetFootprints
                  (ComponentCommands.edit_component b params).2 !! m
                = Some new
              ∧ (ComponentCommands.edit_component b params).1
                = Accepted ("Updated component: " +:+ reference_)
                    {| ComponentCommands.edited_reference :=
                         pcbnew.GetReference new;
                       ComponentCommands.edited_value := pcbnew.GetValue new;
                       ComponentCommands.edited_footprint :=
                         pcbnew.GetFootprintName new |}
              ∧ pcbnew.GetReference new
                = ComponentCommands.or_else (newReference params) reference_
              ∧ pcbnew.GetValue new
                = ComponentCommands.or_else (value params)
                                            (pcbnew.GetValue old)
              ∧ pcbnew.GetFootprintName new
                = ComponentCommands.or_else (footprint params)
                                            (pcbnew.GetFootprintName old)
              ∧ pcbnew.GetPosition new = pcbnew.GetPosition old
              ∧ pcbnew.GetOrientation new = pcbnew.GetOrientation old
              ∧ pcbnew.GetLayer new = pcbnew.GetLayer old
              ∧ pcbnew.Pads new = pcbnew.Pads old
              ∧ (∀ m', m' ≠ m →
                   pcbnew.GetFootprints
                     (ComponentCommands.edit_component b params).2 !! m'
                   = pcbnew.GetFootprints b !! m')
              ∧ (ComponentCommands.edit_component b params).2
                = pcbnew.with_footprints
                    (pcbnew.GetFootprints
                       (ComponentCommands.edit_component b params).2) b
              ∧ (∀ new_reference,
                   newReference params = Some new_reference →
                   new_reference ≠ "" → new_reference ≠ reference_ →
                   new_reference ∈ board_references b →
                   ¬ NoDup (board_references
                              (ComponentCommands.edit_component b params).2)))).
Proof.
  unfold ComponentCommands.edit_component. split.
  - destruct (reference params) as [reference_|]; [|done].
    cbn. by intros ->.
  - intros reference_ -> Hne. rewrite (truthy_str_true _ Hne). cbn [negb].
    split.
    + intros Hnot.
      destruct (pcbnew.FindFootprintByReference b reference_) as [m|] eqn:Hm;
        [|done].
      destruct Hnot.
      destruct (FindFootprintByReference_lookup _ _ _ Hm)
        as (fp & Hfp & <-).
      apply list_elem_of_fmap. exists fp. split; [done|].
      by eapply list_elem_of_lookup_2.
    + intros m Hm. rewrite Hm. cbn [try_reply fst snd].
      destruct (FindFootprintByReference_lookup _ _ _ Hm)
        as (old & Hold & Href).
      set (new := ComponentCommands.set_if pcbnew.SetFootprintName
                    (footprint params)
                    (ComponentCommands.set_if pcbnew.SetValue (value params)
                       (ComponentCommands.set_if pcbnew.SetReference
                          (newReference params) old))).
      assert (∀ m',
                pcbnew.GetFootprints
                  (pcbnew.UpdateAt
                     (ComponentCommands.set_if pcbnew.SetFootprintName
                        (footprint params)) m
                     (pcbnew.UpdateAt
                        (ComponentCommands.set_if pcbnew.SetValue
                           (value params)) m
                        (pcbnew.UpdateAt
                           (ComponentCommands.set_if pcbnew.SetReference
                              (newReference params)) m b))) !! m'
                = if decide (m = m') then Some new
                  else pcbnew.GetFootprints b !! m') as Hlookup.
      { intros m'. rewrite !lookup_UpdateAt.
        case_decide; [subst m'; by rewrite Hold|done]. }
      assert (pcbnew.GetReference new
              = ComponentCommands.or_else (newReference params) reference_)
        as Hnr.
      { unfold new, ComponentCommands.set_if, ComponentCommands.or_else.
        rewrite <-Href.
        destruct (footprint params) as [f|], (value params) as [v|],
          (newReference params) as [r|]; cbn;
          repeat (match goal with
                  | |- context [Py.truthy_str ?s] =>
                      destruct (Py.truthy_str s)
                  end; cbn); done. }
      assert (pcbnew.GetValue new
              = ComponentCommands.or_else (value params)
                                          (pcbnew.GetValue old)) as Hnv.
      { unfold new, ComponentCommands.set_if, ComponentCommands.or_else.
        destruct (footprint params) as [f|], (value params) as [v|],
          (newReference params) as [r|]; cbn;
          repeat (match goal with
                  | |- context [Py.truthy_str ?s] =>
                      destruct (Py.truthy_str s)
                  end; cbn); done. }
      assert (pcbnew.GetFootprintName new
              = ComponentCommands.or_else (footprint params)
                                          (pcbnew.GetFootprintName old))
        as Hnf.
      { unfold new, ComponentCommands.set_if, ComponentCommands.or_else.
        destruct (footprint params) as [f|], (value params) as [v|],
          (newReference params) as [r|]; cbn;
          repeat (match goal with
                  | |- context [Py.truthy_str ?s] =>
                      destruct (Py.truthy_str s)
                  end; cbn); done. }
      assert (pcbnew.GetPosition new = pcbnew.GetPosition old
              ∧ pcbnew.GetOrientation new = pcbnew.GetOrientation old
              ∧ pcbnew.GetLayer new = pcbnew.GetLayer old
              ∧ pcbnew.Pads new = pcbnew.Pads old) as (Hp & Ho & Hl & Hpads).
      { unfold new.
        destruct (set_if_getters pcbnew.SetFootprintName (footprint params)
                    (ComponentCommands.set_if pcbnew.SetValue (value params)
                       (ComponentCommands.set_if pcbnew.SetReference
                          (newReference params) old)))
          as (-> & -> & -> & ->); [done|].
        destruct (set_if_getters pcbnew.SetValue (value params)
                    (ComponentCommands.set_if pcbnew.SetReference
                       (newReference params) old))
          as (-> & -> & -> & ->); [done|].
        by destruct (set_if_getters pcbnew.SetReference
                       (newReference params) old)
          as (-> & -> & -> & ->). }
      exists old, new. split_and!; try done.
      * by rewrite Hlookup, decide_True.
      * f_equal. f_equal.
        -- by rewrite Hnr.
        -- unfold pcbnew.deref. rewrite Hlookup, decide_True by done. cbn.
           rewrite Hnv. unfold ComponentCommands.or_else.
           by destruct (Py.truthy Py.truthy_str (value params)).
        -- unfold pcbnew.deref. rewrite Hlookup, decide_True by done. cbn.
           rewrite Hnf. unfold ComponentCommands.or_else.
           by destruct (Py.truthy Py.truthy_str (footprint params)).
      * intros m' Hm'. by rewrite Hlookup, decide_False.
      * intros new_reference Hnew Hnne Hdiff Hin Hnd.
        apply list_elem_of_lookup in Hin as [k Hk].
        assert (k ≠ m) as Hkm.
        { intros ->. unfold board_references in Hk.
          rewrite list_lookup_fmap, Hold in Hk. cbn in Hk. congruence. }
        apply Hkm.
        apply (NoDup_lookup _ k m new_reference Hnd).
        -- unfold board_references in *. rewrite list_lookup_fmap.
           rewrite Hlookup, decide_False by congruence.
           by rewrite <-list_lookup_fmap.
        -- unfold board_references. rewrite list_lookup_fmap.
           rewrite Hlookup, decide_True by done. cbn. rewrite Hnr, Hnew.
           unfold ComponentCommands.or_else. cbn.
           by rewrite (truthy_str_true _ Hnne).
Qed.


(** ** Routing a trace *)

Section RoutingTraces.
Import pcbnew RoutingCommands.

(** The board [add_via] leaves for the request [route_trace] makes of it:
    whatever [add_via] answers, which [route_trace] does not look at. *)
Lemma add_via_via_at b position_ net_ :
  (add_via b (via_at position_ net_)).2
  = match position_to_nm position_ with
    | Py.Return p =>
        if (GetLayerID b "F.Cu" <? 0) || (GetLayerID b "B.Cu" <? 0) then b
        else AddVia (mkVIA p (GetCurrentViaSize b) (GetCurrentViaDrill b)
                           (GetLayerID b "F.Cu", GetLayerID b "B.Cu")
                           (via_net_of b net_)) b
    | Py.Raise _ => b
    end.
Proof.
  unfold add_via. rewrite try_except_board.
  cbn [position via_at size drill from_layer to_layer net Py.get default
       from_option id Py.truthy].
  destruct (position_to_nm position_) as [p|e]; cbn [bind_on]; [|done].
  destruct (_ || _); [done|].
  destruct (Py.int_truediv (GetCurrentViaSize b) 1000000); cbn [bind_on];
    [|done].
  by destruct (Py.int_truediv (GetCurrentViaDrill b) 1000000).
Qed.

End RoutingTraces.

(** X20: [route_trace] fails without a start or an end point and on a layer
    the board does not have, and then leaves the board as it was. When it
    succeeds it has added exactly one track, from the resolved start to the
    resolved end, on the layer, with the requested width (the board's
    current track width when none or zero is requested) and on the
    requested net if the board has it. It succeeds whenever both points
    resolve, the layer exists, the width converts and the five lengths it
    reports are computed in mm, whether or not a via is asked for and
    whatever [add_via] answers. A via is added only when one is asked for
    together with a net name, and then silently: if the board lacks F.Cu or
    B.Cu, or the position does not convert, the request still succeeds
    without a via, as on a board whose only layer is F.Cu. The via is not
    placed at the track's end point itself but at the end point converted
    to millimeters and back, which can differ: a trace ending at 4.18 mm
    ends at 4179999 internal units and gets its via at 4179998. *)
Theorem route_trace_effect (b : pcbnew.BOARD) (params : Params)
    (start end_ : option point_spec) (via : bool) :
  (start = None ∨ end_ = None →
   RoutingCommands.route_trace b params start end_ via
   = (Refused "Missing parameters" "start and end points are required", b))
  ∧ (is_Some start → is_Some end_ →
     pcbnew.GetLayerID b (Py.get (layer params) "F.Cu") < 0 →
     RoutingCommands.route_trace b params start end_ via
     = (Refused "Invalid layer"
                ("Layer '" +:+ Py.get (layer params) "F.Cu"
                 +:+ "' does not exist"), b))
  ∧ (∀ s e start_point end_point track_width start_x start_y end_x end_y
       width_mm,
       start = Some s → end_ = Some e →
       0 ≤ pcbnew.GetLayerID b (Py.get (layer params) "F.Cu") →
       RoutingCommands._get_point b s = Py.Return start_point →
       RoutingCommands._get_point b e = Py.Return end_point →
       requested_or_current (width params) (pcbnew.GetCurrentTrackWidth b)
       = Py.Return track_width →
       Py.int_truediv (pcbnew.x start_point) 1000000 = Py.Return start_x →
       Py.int_truediv (pcbnew.y start_point) 1000000 = Py.Return start_y →
       Py.int_truediv (pcbnew.x end_point) 1000000 = Py.Return end_x →
       Py.int_truediv (pcbnew.y end_point) 1000000 = Py.Return end_y →
       Py.int_truediv track_width 1000000 = Py.Return width_mm →
       (RoutingCommands.route_trace b params start end_ via).1
       = Accepted "Added trace"
           {| RoutingCommands.trace_start := (start_x, start_y);
              RoutingCommands.trace_end := (end_x, end_y);
              RoutingCommands.trace_layer := Py.get (layer params) "F.Cu";
              RoutingCommands.trace_width := width_mm;
              RoutingCommands.trace_net := net params |}
       ∧ (via && Py.truthy Py.truthy_str (net params) = true →
          pcbnew.GetLayerID b "F.Cu" < 0 ∨ pcbnew.GetLayerID b "B.Cu" < 0 →
          (RoutingCommands.route_trace b params start end_ via).2
          = pcbnew.AddTrack start_point end_point
              (pcbnew.GetLayerID b (Py.get (layer params) "F.Cu"))
              track_width (via_net_of b (net params)) b))
  ∧ (accepted (RoutingCommands.route_trace b params start end_ via).1 = true →
     ∃ s e start_point end_point track_width,
       start = Some s ∧ end_ = Some e
       ∧ RoutingCommands._get_point b s = Py.Return start_point
       ∧ RoutingCommands._get_point b e = Py.Return end_point
       ∧ requested_or_current (width params) (pcbnew.GetCurrentTrackWidth b)
         = Py.Return track_width
       ∧ pcbnew.GetFootprints
           (RoutingCommands.route_trace b params start end_ via).2
         = pcbnew.GetFootprints b
       ∧ pcbnew.Tracks (RoutingCommands.route_trace b params start end_ via).2
         = pcbnew.Tracks b
           ++ [pcbnew.mkTRACK (pcbnew.KIID (pcbnew.kiid_seed b)) start_point
                 end_point (pcbnew.GetLayerID b (Py.get (layer params) "F.Cu"))
                 track_width (via_net_of b (net params))]
       ∧ (via && Py.truthy Py.truthy_str (net params) = false →
          pcbnew.Vias (RoutingCommands.route_trace b params start end_ via).2
          = pcbnew.Vias b)
       ∧ (via && Py.truthy Py.truthy_str (net params) = true →
          ∃ via_x via_y,
            Py.int_truediv (pcbnew.x end_point) 1000000 = Py.Return via_x
            ∧ Py.int_truediv (pcbnew.y end_point) 1000000 = Py.Return via_y
            ∧ (∀ p,
                 position_to_nm (mm (Py.Float via_x) (Py.Float via_y))
                 = Py.Return p →
                 0 ≤ pcbnew.GetLayerID b "F.Cu" →
                 0 ≤ pcbnew.GetLayerID b "B.Cu" →
                 pcbnew.Vias
                   (RoutingCommands.route_trace b params start end_ via).2
                 = pcbnew.Vias b
                   ++ [pcbnew.mkVIA p (pcbnew.GetCurrentViaSize b)
                         (pcbnew.GetCurrentViaDrill b)
                         (pcbnew.GetLayerID b "F.Cu",
                          pcbnew.GetLayerID b "B.Cu")
                         (via_net_of b (net params))])
            ∧ ((∃ err, position_to_nm (mm (Py.Float via_x) (Py.Float via_y))
                       = Py.Raise err)
               ∨ pcbnew.GetLayerID b "F.Cu" < 0
               ∨ pcbnew.GetLayerID b "B.Cu" < 0 →
               pcbnew.Vias
                 (RoutingCommands.route_trace b params start end_ via).2
               = pcbnew.Vias b)))
  ∧ (accepted
       (RoutingCommands.route_trace front_only_board
          (trace_request None None (Some "D+"))
          (Some (Literal (mm (Py.Int 0) (Py.Int 0))))
          (Some (Literal (mm (Py.Int 10) (Py.Int 0)))) true).1 = true
     ∧ length
         (pcbnew.Tracks
            (RoutingCommands.route_trace front_only_board
               (trace_request None None (Some "D+"))
               (Some (Literal (mm (Py.Int 0) (Py.Int 0))))
               (Some (Literal (mm (Py.Int 10) (Py.Int 0)))) true).2) = 1%nat
     ∧ pcbnew.Vias
         (RoutingCommands.route_trace front_only_board
            (trace_request None None (Some "D+"))
            (Some (Literal (mm (Py.Int 0) (Py.Int 0))))
            (Some (Literal (mm (Py.Int 10) (Py.Int 0)))) true).2 = [])
  ∧ pcbnew.GetEnd
      <$> pcbnew.Tracks
            (RoutingCommands.route_trace (empty_board [])
               (trace_request None None (Some "D+"))
               (Some (Literal (mm (Py.Int 0) (Py.Int 0))))
               (Some (Literal (mm (Py.Float 4.18) (Py.Int 0)))) true).2
    = [ {| pcbnew.x := 4179999; pcbnew.y := 0 |} ]
  ∧ pcbnew.via_position
      <$> pcbnew.Vias
            (RoutingCommands.route_trace (empty_board [])
               (trace_request None None (Some "D+"))
               (Some (Literal (mm (Py.Int 0) (Py.Int 0))))
               (Some (Literal (mm (Py.Float 4.18) (Py.Int 0)))) true).2
    = [ {| pcbnew.x := 4179998; pcbnew.y := 0 |} ].
Proof.
  split_and!; [| | | |by vm_compute|by vm_compute|by vm_compute
               |by vm_compute|by vm_compute].
  - unfold RoutingCommands.route_trace. intros [-> | ->]; [done|].
    by destruct start.
  - unfold RoutingCommands.route_trace. intros [s ->] [e ->] Hlayer.
    by replace (_ <? 0) with true by (symmetry; apply Z.ltb_lt; lia).
  - intros s e start_point end_point track_width start_x start_y end_x end_y
      width_mm -> -> Hlayer Hs He Hw Hsx Hsy Hex Hey Hwmm.
    unfold RoutingCommands.route_trace, requested_or_current in *.
    replace (_ <? 0) with false by (symmetry; apply Z.ltb_ge; lia).
    rewrite Hs, He, Hw. cbn [bind_on].
    fold (via_net_of b (net params)).
    destruct (via && _) eqn:Hvia.
    + rewrite Hsx, Hsy, Hex, Hey, Hwmm. cbn [bind_on try_reply fst snd].
      split; [done|]. intros _ Hno. rewrite add_via_via_at.
      destruct (position_to_nm _); [|done].
      replace (_ || _) with true; [done|]. symmetry.
      apply orb_true_iff. cbn [pcbnew.GetLayerID pcbnew.AddTrack] in *.
      destruct Hno as [Hf|Hb]; [left|right]; apply Z.ltb_lt; done.
    + rewrite Hsx, Hsy, Hex, Hey, Hwmm. cbn [bind_on try_reply fst snd].
      split; [done|]. discriminate.
  - unfold RoutingCommands.route_trace, requested_or_current.
    destruct start as [s|]; [|done]. destruct end_ as [e|]; [|done].
    destruct (_ <? 0); [done|].
    destruct (RoutingCommands._get_point b s) as [start_point|err] eqn:Hs;
      cbn [bind_on]; [|done].
    destruct (RoutingCommands._get_point b e) as [end_point|err] eqn:He;
      cbn [bind_on]; [|done].
    destruct (if Py.truthy Py.truthy_number (width params) then _ else _)
      as [track_width|err] eqn:Hw; cbn [bind_on]; [|done].
    fold (via_net_of b (net params)).
    set (b1 := pcbnew.AddTrack start_point end_point _ track_width _ b).
    intros Hacc.
    exists s, e, start_point, end_point, track_width.
    split_and!; try done.
    + rewrite try_reply_board.
      destruct (via && _).
      * destruct (Py.int_truediv (pcbnew.x end_point) 1000000);
          cbn [bind_on]; [|done].
        destruct (Py.int_truediv (pcbnew.y end_point) 1000000);
          cbn [bind_on]; [|done].
        rewrite add_via_via_at.
        repeat (match goal with
                | |- context [bind_on _ ?m _] => destruct m; cbn [bind_on]
                end); try done;
          destruct (position_to_nm _); try done; by destruct (_ || _).
      * repeat (match goal with
                | |- context [bind_on _ ?m _] => destruct m; cbn [bind_on]
                end); done.
    + rewrite try_reply_board.
      destruct (via && _).
      * destruct (Py.int_truediv (pcbnew.x end_point) 1000000);
          cbn [bind_on]; [|done].
        destruct (Py.int_truediv (pcbnew.y end_point) 1000000);
          cbn [bind_on]; [|done].
        rewrite add_via_via_at.
        repeat (match goal with
                | |- context [bind_on _ ?m _] => destruct m; cbn [bind_on]
                end); try done;
          destruct (position_to_nm _); try done; by destruct (_ || _).
      * repeat (match goal with
                | |- context [bind_on _ ?m _] => destruct m; cbn [bind_on]
                end); done.
    + intros Hvia. rewrite try_reply_board, Hvia.
      repeat (match goal with
              | |- context [bind_on _ ?m _] => destruct m; cbn [bind_on]
              end); done.
    + intros Hvia. rewrite Hvia in Hacc |- *.
      destruct (Py.int_truediv (pcbnew.x end_point) 1000000) as [via_x|err];
        cbn [bind_on] in Hacc |- *; [|done].
      destruct (Py.int_truediv (pcbnew.y end_point) 1000000) as [via_y|err];
        cbn [bind_on] in Hacc |- *; [|done].
      exists via_x, via_y. rewrite try_reply_board, add_via_via_at.
      split_and!; [done|done| |].
      * intros p Hp Hf Hb. unfold mm in Hp. rewrite Hp.
        replace (pcbnew.GetLayerID b1 "F.Cu" <? 0) with false
          by (symmetry; apply Z.ltb_ge; exact Hf).
        replace (pcbnew.GetLayerID b1 "B.Cu" <? 0) with false
          by (symmetry; apply Z.ltb_ge; exact Hb).
        cbn [orb].
        repeat (match goal with
                | |- context [bind_on _ ?m _] => destruct m; cbn [bind_on]
                end); done.
      * intros Hno. unfold mm in Hno.
        assert ((match
                   position_to_nm
                     {| px := Py.Float via_x; py := Py.Float via_y;
                        unit := Some "mm" |}
                 with
                 | Py.Return p =>
                     if (pcbnew.GetLayerID b1 "F.Cu" <? 0)
                        || (pcbnew.GetLayerID b1 "B.Cu" <? 0) then b1
                     else
                       pcbnew.AddVia
                         (pcbnew.mkVIA p (pcbnew.GetCurrentViaSize b1)
                            (pcbnew.GetCurrentViaDrill b1)
                            (pcbnew.GetLayerID b1 "F.Cu",
                             pcbnew.GetLayerID b1 "B.Cu")
                            (via_net_of b1 (net params))) b1
                 | Py.Raise _ => b1
                 end) = b1) as ->.
        { destruct Hno as [[err ->]|[Hf|Hb]]; [done| |].
          - destruct (position_to_nm _); [|done].
            by replace (pcbnew.GetLayerID b1 "F.Cu" <? 0) with true
              by (symmetry; apply Z.ltb_lt; exact Hf).
          - destruct (position_to_nm _); [|done].
            replace (pcbnew.GetLayerID b1 "B.Cu" <? 0) with true
              by (symmetry; apply Z.ltb_lt; exact Hb).
            by rewrite orb_true_r. }
        repeat (match goal with
                | |- context [bind_on _ ?m _] => destruct m; cbn [bind_on]
                end); done.
Qed.


(** ** Circular arrays *)

Section Circle.
Import pcbnew ComponentCommands.

(** A successful placement with a reference and a rotation in the request:
    what is reported and what is put on the board. *)
Lemma place_component_placed b0 fps component_id position_ reference_ value_
    rotation_ layer_ :
  reference_ ≠ "" →
  success (place_component b0
             (cell_request component_id position_ reference_ value_ rotation_
                           layer_)).1 = true →
  ∃ info module,
    place_component (with_footprints fps b0)
      (cell_request component_id position_ reference_ value_ rotation_ layer_)
    = (ok ("Placed component: " +:+ component_id) (Component info),
       with_footprints (fps ++ [module]) b0)
    ∧ info_reference info = reference_
    ∧ info_position info = position_
    ∧ info_rotation info = rotation_
    ∧ GetReference module = reference_
    ∧ position_to_nm position_ = Py.Return (GetPosition module)
    ∧ Py.mul rotation_ (Py.Int 10) = Py.Return (GetOrientation module).
Proof.
  intros Hne. unfold place_component, FootprintLoad, GetLayerID.
  cbn [componentId position reference value footprint rotation layer
       cell_request Py.get default from_option id footprint_library
       layer_table with_footprints].
  destruct (Py.truthy_str component_id); cbn [negb]; [|done].
  destruct (assoc component_id (footprint_library b0)) as [template|];
    [|done].
  destruct (position_to_nm position_) as [p|e]; cbn [bind_on]; [|done].
  destruct (Py.mul rotation_ (Py.Int 10)) as [orientation|e];
    cbn [bind_on]; [|done].
  intros _. eexists _, _. split; [reflexivity|].
  cbn [info_reference info_position info_rotation].
  assert (∀ m, GetReference
                 (if 0 <=? default (-1) (assoc layer_ (layer_table b0))
                  then SetLayer (default (-1) (assoc layer_ (layer_table b0)))
                         m
                  else m) = GetReference m) as Hl by (intros; by case_match).
  assert (∀ m, GetPosition
                 (if 0 <=? default (-1) (assoc layer_ (layer_table b0))
                  then SetLayer (default (-1) (assoc layer_ (layer_table b0)))
                         m
                  else m) = GetPosition m) as Hp by (intros; by case_match).
  assert (∀ m, GetOrientation
                 (if 0 <=? default (-1) (assoc layer_ (layer_table b0))
                  then SetLayer (default (-1) (assoc layer_ (layer_table b0)))
                         m
                  else m) = GetOrientation m) as Ho
    by (intros; by case_match).
  rewrite !Hl, !Hp, !Ho. cbn [GetReference GetPosition GetOrientation
                               SetOrientation].
  rewrite !GetReference_set_if by done.
  rewrite GetReference_set_if_SetReference by done.
  rewrite !GetPosition_set_if by done. by split_and!.
Qed.

Section Items.
Context (M : Libm) (b0 : BOARD) (component_id : string) (center_ : Point)
        (radius_ angle_start angle_step : Py.number)
        (reference_prefix : string) (value_ : option string)
        (rotation_offset : Py.number) (layer_ : string).

Let item :=
  circular_cell M component_id center_ radius_ angle_start angle_step
                (Py.get (unit center_) "mm") reference_prefix value_
                rotation_offset layer_.

Lemma circular_cell_request i placed b angle position_ component_rotation :
  circular_angle angle_start angle_step i = Py.Return angle →
  circular_position M center_ radius_ angle = Py.Return position_ →
  Py.add angle rotation_offset = Py.Return component_rotation →
  item i (Py.Return placed, b)
  = (Py.Return
       (append_if_placed placed
          (place_component b
             (circular_request component_id reference_prefix value_ layer_ i
                               position_ component_rotation)).1),
     (place_component b
        (circular_request component_id reference_prefix value_ layer_ i
                          position_ component_rotation)).2).
Proof.
  unfold circular_angle, circular_position, item, circular_cell,
    circular_request, mbind, result_bind.
  destruct (Py.mul (Py.Int i) angle_step) as [da|];
    cbn [Py.bind bind_on]; [|done].
  intros ->. cbn [bind_on].
  destruct (radians angle) as [angle_rad|]; cbn [Py.bind bind_on]; [|done].
  destruct (cos M angle_rad) as [c|]; cbn [Py.bind bind_on]; [|done].
  destruct (Py.mul radius_ (Py.Float c)) as [rc|];
    cbn [Py.bind bind_on]; [|done].
  destruct (Py.add (px center_) rc) as [x|]; cbn [Py.bind bind_on]; [|done].
  destruct (sin M angle_rad) as [s|]; cbn [Py.bind bind_on]; [|done].
  destruct (Py.mul radius_ (Py.Float s)) as [rs|];
    cbn [Py.bind bind_on]; [|done].
  destruct (Py.add (py center_) rs) as [y|]; cbn [Py.bind bind_on]; [|done].
  intros [= <-] ->. cbn [bind_on]. by destruct (place_component _ _).
Qed.

Lemma circular_items_placed (items : list Z) :
  Forall (λ i, item_placed M b0 component_id center_ radius_ angle_start
                 angle_step reference_prefix value_ rotation_offset layer_ i
               = true) items →
  ∀ placed fps,
  ∃ infos modules,
    foldl (λ st i, item i st) (Py.Return placed, with_footprints fps b0) items
    = (Py.Return (placed ++ infos), with_footprints (fps ++ modules) b0)
    ∧ Forall2 (item_info M center_ radius_ angle_start angle_step
                         rotation_offset reference_prefix) items infos
    ∧ Forall3 (λ i info module, item_footprint reference_prefix i info module)
              items infos modules.
Proof.
  induction 1 as [|i items Hi _ IH]; intros placed fps.
  { exists [], []. rewrite !app_nil_r. by repeat constructor. }
  unfold item_placed in Hi.
  destruct (circular_angle angle_start angle_step i) as [angle|] eqn:Hangle;
    [|done].
  destruct (circular_position M center_ radius_ angle) as [position_|]
    eqn:Hposition; [|done].
  destruct (Py.add angle rotation_offset) as [component_rotation|] eqn:Hrot;
    [|done].
  destruct (place_component_placed b0 fps component_id position_
              (reference_prefix +:+ Py.str_int (i + 1)) value_
              component_rotation layer_
              (append_nonempty _ _ (str_int_nonempty _)) Hi)
    as (info & module & Hplace & Href & Hpos & Hr & Hmref & Hmpos & Hmrot).
  destruct (IH (placed ++ [info]) (fps ++ [module]))
    as (infos & modules & Hfold & Hinfos & Hmodules).
  exists (info :: infos), (module :: modules).
  split_and!.
  - cbn [foldl].
    rewrite (circular_cell_request _ _ _ _ _ _ Hangle Hposition Hrot).
    unfold circular_request. rewrite Hplace.
    cbn [fst snd]. unfold append_if_placed. cbn [success ok data].
    rewrite Hfold, <-!(assoc_L (++)). done.
  - constructor; [|done]. split; [done|]. exists angle.
    by rewrite Hpos, Hr.
  - constructor; [|done]. unfold item_footprint. by rewrite Hpos, Hr.
Qed.

End Items.

End Circle.

(** X21: a circular request that [place_component_array] accepts (component
    id and count given, a center, a radius and an angle step that are not
    zero) and all of whose items can be placed succeeds and lists the
    items in order; item [i] (from 0) carries the reference
    [prefix ++ str (i + 1)], lies at
    [center + radius * (cos a, sin a)] for the angle
    [a = angleStart + i * angleStep] in degrees, in the center's unit, and
    is rotated by [a + rotationOffset]; the board gains one footprint per
    item with that reference, at that position in internal units and with
    ten times that rotation as orientation. The cosine and sine are the C
    library's. *)
Theorem circular_placement (M : Libm) (b : pcbnew.BOARD) (params : Params)
    (component_id : string) (center_ : Point) (count_ : Z)
    (radius_ angle_step : Py.number) :
  componentId params = Some component_id → component_id ≠ "" →
  Py.get (pattern params) "grid" = "circular" →
  count params = Some count_ → 0 < count_ →
  center params = Some center_ → radius params = Some radius_ →
  angleStep params = Some angle_step →
  Py.truthy_number radius_ = true → Py.truthy_number angle_step = true →
  (∀ i, 0 ≤ i < count_ →
     item_placed M b component_id center_ radius_
                 (Py.get (angleStart params) (Py.Int 0)) angle_step
                 (Py.get (referencePrefix params) "U") (value params)
                 (Py.get (rotationOffset params) (Py.Int 0))
                 (Py.get (layer params) "F.Cu") i = true) →
  ∃ placed added,
    ComponentCommands.place_component_array M b params
    = (ok ("Placed " +:+ Py.str_int count_
           +:+ " components in circular pattern") (Components placed),
       pcbnew.with_footprints (pcbnew.GetFootprints b ++ added) b)
    ∧ info_reference <$> placed
      = (λ i, Py.get (referencePrefix params) "U" +:+ Py.str_int i)
          <$> seqZ 1 count_
    ∧ pcbnew.GetReference <$> added = info_reference <$> placed
    ∧ ∀ i, 0 ≤ i < count_ →
        ∃ info module,
          placed !! Z.to_nat i = Some info
          ∧ added !! Z.to_nat i = Some module
          ∧ item_info M center_ radius_
                      (Py.get (angleStart params) (Py.Int 0)) angle_step
                      (Py.get (rotationOffset params) (Py.Int 0))
                      (Py.get (referencePrefix params) "U") i info
          ∧ item_footprint (Py.get (referencePrefix params) "U") i info
                           module.
Proof.
  intros Hid Hidne Hpattern Hcount Hpos Hcenter Hradius Hstep Htr Hts Hok.
  destruct (circular_items_placed M b component_id center_ radius_
              (Py.get (angleStart params) (Py.Int 0)) angle_step
              (Py.get (referencePrefix params) "U") (value params)
              (Py.get (rotationOffset params) (Py.Int 0))
              (Py.get (layer params) "F.Cu") (seqZ 0 count_))
    with (placed := @nil component_info) (fps := pcbnew.GetFootprints b)
    as (placed & added & Hfold & Hinfos & Hmods).
  { apply Forall_forall. intros i Hi%elem_of_seqZ. apply Hok. lia. }
  rewrite with_footprints_id in Hfold.
  assert (∀ i, 0 ≤ i < count_ → seqZ 0 count_ !! Z.to_nat i = Some i)
    as Hseq.
  { intros i Hi. rewrite lookup_seqZ_lt by lia. f_equal. lia. }
  exists placed, added. split_and!.
  - unfold ComponentCommands.place_component_array.
    rewrite Hid, Hcount, Hpattern, Hcenter, Hradius, Hstep.
    cbn [Py.truthy Py.get default from_option id].
    rewrite (truthy_str_true _ Hidne), Htr, Hts.
    replace (count_ =? 0) with false by (symmetry; apply Z.eqb_neq; lia).
    cbn [negb orb String.eqb Ascii.eqb Bool.eqb].
    unfold ComponentCommands._place_circular_array. rewrite Hfold.
    reflexivity.
  - replace (seqZ 1 count_) with ((λ i, i + 1) <$> seqZ 0 count_).
    2: { change (seqZ 1 count_) with (seqZ (1 + 0) count_).
         rewrite <-(fmap_add_seqZ 1 0 count_).
         apply list_fmap_ext. intros; lia. }
    rewrite <-list_fmap_compose. symmetry.
    apply list_eq_Forall2, Forall2_fmap.
    eapply Forall2_impl; [exact Hinfos|]. by intros i info [-> _].
  - apply list_eq_Forall2, Forall2_fmap.
    clear -Hinfos Hmods. revert Hinfos.
    induction Hmods as [|i info module items infos modules [Hm _] _ IH];
      inversion 1 as [|???? [Hi _] ?]; simplify_eq; constructor; [|auto].
    congruence.
  - intros i Hi. specialize (Hseq i Hi).
    destruct (Forall2_lookup_l _ _ _ _ _ Hinfos Hseq) as (info & Hinfo & ?).
    assert (∃ module, added !! Z.to_nat i = Some module
                      ∧ item_footprint (Py.get (referencePrefix params) "U")
                                       i info module) as (module & ? & ?).
    { clear -Hmods Hseq Hinfo. revert Hseq Hinfo.
      generalize (Z.to_nat i) as n.
      induction Hmods as [|???????? IH]; intros [|n]; simpl; try done.
      - intros [= ->] [= ->]. eauto.
      - apply IH. }
    by exists info, module.
Qed.

(** Four resistors on a circle of radius 2 mm around (10, 5) mm, a quarter
    turn apart: [R1] to [R4], in this order, at (12, 5), (10, 7), (8, 5) and
    (10, 3) mm, turned by 0, 90, 180 and 270 degrees. *)
Lemma circular_placement_witness :
  ∃ placed added,
    ComponentCommands.place_component_array libm_quarter_turns resistor_board
      (circular_array_request "R_0603" (mm (Py.Int 10) (Py.Int 5)) (Py.Int 2)
                              4 (Py.Int 90) "R")
    = (ok "Placed 4 components in circular pattern" (Components placed),
       pcbnew.with_footprints added resistor_board)
    ∧ info_reference <$> placed = ["R1"; "R2"; "R3"; "R4"]
    ∧ pcbnew.GetReference <$> added = ["R1"; "R2"; "R3"; "R4"]
    ∧ ∀ i position_ orientation,
        [ ({| pcbnew.x := 12000000; pcbnew.y := 5000000 |}, Py.Int 0);
          ({| pcbnew.x := 10000000; pcbnew.y := 7000000 |}, Py.Int 900);
          ({| pcbnew.x := 8000000; pcbnew.y := 5000000 |}, Py.Int 1800);
          ({| pcbnew.x := 10000000; pcbnew.y := 3000000 |}, Py.Int 2700) ]
        !! i = Some (position_, orientation) →
        ∃ module,
          added !! i = Some module
          ∧ pcbnew.GetPosition module = position_
          ∧ pcbnew.GetOrientation module = orientation.
Proof.
  destruct (circular_placement libm_quarter_turns resistor_board
              (circular_array_request "R_0603" (mm (Py.Int 10) (Py.Int 5))
                                      (Py.Int 2) 4 (Py.Int 90) "R")
              "R_0603" (mm (Py.Int 10) (Py.Int 5)) 4 (Py.Int 2) (Py.Int 90))
    as (placed & added & Hcall & Hplaced & Hadded & Hitems).
  - reflexivity.
  - discriminate.
  - reflexivity.
  - reflexivity.
  - lia.
  - reflexivity.
  - reflexivity.
  - reflexivity.
  - reflexivity.
  - reflexivity.
  - intros i Hi.
    assert (i = 0 ∨ i = 1 ∨ i = 2 ∨ i = 3) as [-> | [-> | [-> | ->]]] by lia;
      reflexivity.
  - exists placed, added. split_and!.
    + exact Hcall.
    + exact Hplaced.
    + rewrite Hadded. exact Hplaced.
    + assert (∀ k, 0 ≤ k < 4 →
                ∃ module angle position_,
                  added !! Z.to_nat k = Some module
                  ∧ circular_angle (Py.Int 0) (Py.Int 90) k = Py.Return angle
                  ∧ circular_position libm_quarter_turns
                      (mm (Py.Int 10) (Py.Int 5)) (Py.Int 2) angle
                    = Py.Return position_
                  ∧ position_to_nm position_
                    = Py.Return (pcbnew.GetPosition module)
                  ∧ Py.mul angle (Py.Int 10)
                    = Py.Return (pcbnew.GetOrientation module)) as Hitem.
      { intros k Hk.
        destruct (Hitems k Hk)
          as (info & module & _ & Hm & (_ & angle & Ha & Hp & Hr)
              & (_ & Hn & Ho)).
        exists module, angle, (info_position info).
        split_and!; [exact Hm|exact Ha|exact Hp|exact Hn|].
        cbn in Hr. rewrite <-Ho. f_equal.
        destruct angle as [z|f]; cbn in Hr; [|by injection Hr as <-].
        injection Hr as <-. f_equal. f_equal. lia. }
      intros i position_ orientation Hi.
      destruct i as [|[|[|[|i]]]]; [| | | |done];
        injection Hi as <- <-;
        [destruct (Hitem 0 ltac:(lia))
           as (module & angle & p & Hm & Ha & Hp & Hn & Ho)
        |destruct (Hitem 1 ltac:(lia))
           as (module & angle & p & Hm & Ha & Hp & Hn & Ho)
        |destruct (Hitem 2 ltac:(lia))
           as (module & angle & p & Hm & Ha & Hp & Hn & Ho)
        |destruct (Hitem 3 ltac:(lia))
           as (module & angle & p & Hm & Ha & Hp & Hn & Ho)];
        exists module; (split; [exact Hm|]);
        injection Ha as <-; injection Hp as <-;
        injection Hn as <-; injection Ho as <-; split; reflexivity.
Defined.

(** ** What an array request must give *)

(** X22: [place_component_array] refuses, leaving the board as it was, a
    request without a component id or without a count, a count of zero
    included ("Missing parameters"); a pattern other than grid and circular
    ("Invalid pattern"); a grid without start position, rows, columns or
    spacings, a zero counting as absent ("Missing grid parameters"), or
    whose rows times columns is not the count ("Invalid grid parameters");
    and a circle without center, radius or angle step, a zero counting as
    absent ("Missing circular parameters"). Negative numbers are not
    refused: a grid with a negative number of rows whose rows times columns
    is the count and a circle of negative count succeed, place nothing and
    report the count as placed. *)
Theorem place_component_array_validation (M : Libm) (b : pcbnew.BOARD)
    (params : Params) :
  (Py.truthy Py.truthy_str (componentId params) = false
   ∨ count params = None ∨ count params = Some 0 →
   ComponentCommands.place_component_array M b params
   = (failure "Missing parameters" "componentId and count are required", b))
  ∧ (∀ count_,
       Py.truthy Py.truthy_str (componentId params) = true →
       count params = Some count_ → count_ ≠ 0 →
       (Py.get (pattern params) "grid" ∉ ["grid"; "circular"] →
        ComponentCommands.place_component_array M b params
        = (failure "Invalid pattern" "Pattern must be 'grid' or 'circular'",
           b))
       ∧ (Py.get (pattern params) "grid" = "grid" →
          (startPosition params = None
           ∨ rows params = None ∨ rows params = Some 0
           ∨ columns params = None ∨ columns params = Some 0
           ∨ Py.truthy Py.truthy_number (spacingX params) = false
           ∨ Py.truthy Py.truthy_number (spacingY params) = false →
           ComponentCommands.place_component_array M b params
           = (failure "Missing grid parameters"
                "For grid pattern, startPosition, rows, columns, spacingX, and spacingY are required",
              b))
          ∧ (∀ start_position rows_ columns_,
               startPosition params = Some start_position →
               rows params = Some rows_ → columns params = Some columns_ →
               rows_ ≠ 0 → columns_ ≠ 0 →
               Py.truthy Py.truthy_number (spacingX params) = true →
               Py.truthy Py.truthy_number (spacingY params) = true →
               (rows_ * columns_ ≠ count_ →
                ComponentCommands.place_component_array M b params
                = (failure "Invalid grid parameters"
                           "rows * columns must equal count", b))
               ∧ (rows_ * columns_ = count_ → rows_ < 0 →
                  (∃ nm, to_nm (Py.get (spacingX params) (Py.Int 0))
                           (scale_of (Py.get (unit start_position) "mm"))
                         = Py.Return nm) →
                  (∃ nm, to_nm (Py.get (spacingY params) (Py.Int 0))
                           (scale_of (Py.get (unit start_position) "mm"))
                         = Py.Return nm) →
                  ComponentCommands.place_component_array M b params
                  = (ok ("Placed " +:+ Py.str_int count_
                         +:+ " components in grid pattern") (Components []),
                     b))))
       ∧ (Py.get (pattern params) "grid" = "circular" →
          (center params = None
           ∨ Py.truthy Py.truthy_number (radius params) = false
           ∨ Py.truthy Py.truthy_number (angleStep params) = false →
           ComponentCommands.place_component_array M b params
           = (failure "Missing circular parameters"
                "For circular pattern, center, radius, and angleStep are required",
              b))
          ∧ (is_Some (center params) →
             Py.truthy Py.truthy_number (radius params) = true →
             Py.truthy Py.truthy_number (angleStep params) = true →
             count_ < 0 →
             ComponentCommands.place_component_array M b params
             = (ok ("Placed " +:+ Py.str_int count_
                    +:+ " components in circular pattern") (Components []),
                b)))).
Proof.
  unfold ComponentCommands.place_component_array. split.
  - intros [Hid|[Hc|Hc]].
    + by rewrite Hid.
    + rewrite Hc. cbn [Py.truthy]. by rewrite orb_true_r.
    + rewrite Hc. cbn [Py.truthy Z.eqb negb]. by rewrite orb_true_r.
  - intros count_ Hid Hcount Hne. rewrite Hid, Hcount.
    cbn [Py.truthy Py.get default from_option id].
    replace (count_ =? 0) with false by (symmetry; by apply Z.eqb_neq).
    cbn [negb orb]. split_and!.
    + intros Hother.
      destruct (String.eqb_spec (Py.get (pattern params) "grid") "grid")
        as [Heq|_];
        [destruct Hother; rewrite Heq; apply (bool_decide_unpack _);
         by vm_compute|].
      destruct (String.eqb_spec (Py.get (pattern params) "grid") "circular")
        as [Heq|_];
        [destruct Hother; rewrite Heq; apply (bool_decide_unpack _);
         by vm_compute|].
      done.
    + intros ->. cbn [String.eqb Ascii.eqb Bool.eqb]. split.
      * intros Hmissing.
        destruct (startPosition params) as [start_position|],
          (rows params) as [rows_|], (columns params) as [columns_|],
          (spacingX params) as [spacing_x|],
          (spacingY params) as [spacing_y|]; try done.
        cbn [Py.truthy] in Hmissing.
        destruct Hmissing as [?|[?|[Hr|[?|[Hc|[Hx|Hy]]]]]]; try done.
        -- injection Hr as ->. done.
        -- injection Hc as ->. cbn [Z.eqb]. by rewrite orb_true_r.
        -- rewrite Hx. cbn [negb]. by rewrite orb_true_r.
        -- rewrite Hy. cbn [negb]. by rewrite !orb_true_r.
      * intros start_position rows_ columns_ -> -> -> Hr Hc Hx Hy.
        destruct (spacingX params) as [spacing_x|]; [|done].
        destruct (spacingY params) as [spacing_y|]; [|done].
        cbn [Py.truthy Py.get default from_option id] in *.
        rewrite Hx, Hy.
        replace (rows_ =? 0) with false by (symmetry; by apply Z.eqb_neq).
        replace (columns_ =? 0) with false
          by (symmetry; by apply Z.eqb_neq).
        cbn [negb orb]. split.
        -- intros Hprod.
           by replace (rows_ * columns_ =? count_) with false
             by (symmetry; by apply Z.eqb_neq).
        -- intros <- Hneg [nx Hnx] [ny Hny]. rewrite Z.eqb_refl. cbn [negb].
           unfold ComponentCommands._place_grid_array.
           rewrite Hnx, Hny. cbn [bind_on].
           replace (seqZ 0 rows_) with (@nil Z); [done|].
           unfold seqZ. by replace (Z.to_nat rows_) with 0%nat by lia.
    + intros ->. cbn [String.eqb Ascii.eqb Bool.eqb]. split.
      * intros Hmissing.
        destruct (center params) as [center_|],
          (radius params) as [radius_|],
          (angleStep params) as [angle_step|]; try done;
          cbn [Py.truthy] in Hmissing;
          destruct Hmissing as [?|[Hr|Ha]]; try done.
        -- by rewrite Hr.
        -- rewrite Ha. cbn [negb]. by rewrite orb_true_r.
      * intros [center_ ->] Hr Ha Hneg.
        destruct (radius params) as [radius_|]; [|done].
        destruct (angleStep params) as [angle_step|]; [|done].
        cbn [Py.truthy] in Hr, Ha. rewrite Hr, Ha. cbn [negb orb].
        unfold ComponentCommands._place_circular_array.
        replace (seqZ 0 count_) with (@nil Z); [done|].
        unfold seqZ. by replace (Z.to_nat count_) with 0%nat by lia.
Qed.


(** ** The bill of materials loses nothing *)

Section Counting.
Import ExportCommands.

Lemma add_to_quantity g k comp :
  foldr Z.add 0 (row_quantity <$> (add_to g k comp).*2)
  = foldr Z.add 0 (row_quantity <$> g.*2) + 1.
Proof.
  induction g as [|[k0 r0] g IH]; [done|]. cbn [add_to].
  destruct (String.eqb k0 k); cbn.
  - lia.
  - cbn in IH. rewrite IH. lia.
Qed.

Lemma add_to_references g k comp :
  concat (row_references <$> (add_to g k comp).*2)
  ≡ₚ concat (row_references <$> g.*2) ++ [bom_reference comp].
Proof.
  induction g as [|[k0 r0] g IH]; [done|]. cbn [add_to].
  destruct (String.eqb k0 k); cbn.
  - rewrite <-!(assoc_L (++)). f_equiv. apply Permutation_app_comm.
  - cbn in IH. rewrite IH. by rewrite (assoc_L (++)).
Qed.

Lemma add_to_rows (P : bom_row → Prop) g k comp :
  Forall P g.*2 →
  P {| row_value := bom_value comp; row_footprint := bom_footprint comp;
       row_quantity := 1; row_references := [bom_reference comp] |} →
  (∀ row, P row →
     P {| row_value := row_value row; row_footprint := row_footprint row;
          row_quantity := row_quantity row + 1;
          row_references := row_references row ++ [bom_reference comp] |}) →
  Forall P (add_to g k comp).*2.
Proof.
  intros Hg Hnew Hgrow.
  induction g as [|[k0 r0] g IH]; [by repeat constructor|].
  cbn in Hg. apply Forall_cons in Hg as [H0 Hg]. cbn [add_to].
  destruct (String.eqb k0 k); cbn.
  - constructor; [by apply Hgrow|done].
  - constructor; [done|by apply IH].
Qed.

End Counting.

(** X23: grouping the bill of materials loses no component and counts none
    twice: the quantities of the rows add up to the number of components,
    the references of the rows together are the references of the
    components, each once, and every row has at least one reference and as
    many references as its quantity says. *)
Theorem bom_counts_every_component
    (components : list ExportCommands.bom_component) :
  foldr Z.add 0 (row_quantity <$> ExportCommands.group components)
  = Z.of_nat (length components)
  ∧ concat (row_references <$> ExportCommands.group components)
    ≡ₚ ExportCommands.bom_reference <$> components
  ∧ Forall (λ row, 1 ≤ row_quantity row
                   ∧ row_quantity row
                     = Z.of_nat (length (row_references row)))
           (ExportCommands.group components).
Proof.
  unfold ExportCommands.group.
  change (foldl _ [] components) with (ExportCommands.grouped components).
  induction components as [|comp components (IH1 & IH2 & IH3)] using rev_ind.
  { split_and!; [done|done|constructor]. }
  rewrite grouped_snoc. split_and!.
  - rewrite add_to_quantity, IH1, length_app. simpl. lia.
  - rewrite add_to_references, IH2, fmap_app. done.
  - apply add_to_rows; [done|by cbn|].
    intros row [H1 H2]. cbn. rewrite length_app. simpl. lia.
Qed.


(** ** Exporting the bill of materials *)

Section Exporting.
Import pcbnew ExportCommands.
Context (env : BomEnvironment) (b : BOARD).

(** The loop that collects the components, when it ends without raising,
    has collected the components of the board in order. *)
Lemma collected_parts include_attributes fps components :
  mapM (λ module,
          attrs ← attributes env module include_attributes;
          Py.Return
            (Part {| bom_reference := GetReference module;
                     bom_value := GetValue module;
                     bom_footprint := GetFootprintName module;
                     bom_layer := GetLayerName b (GetLayer module) |}
                  attrs)) fps
  = Py.Return components →
  omap part_of components
  = (λ module,
       {| bom_reference := GetReference module;
          bom_value := GetValue module;
          bom_footprint := GetFootprintName module;
          bom_layer := GetLayerName b (GetLayer module) |}) <$> fps
  ∧ length components = length fps.
Proof.
  revert components. induction fps as [|module fps IH]; intros components.
  { intros [= <-]. done. }
  cbn [mapM]. unfold mbind, result_bind, mret, result_ret.
  destruct (attributes env module include_attributes) as [attrs|];
    cbn [Py.bind]; [|done].
  destruct (mapM _ fps) as [rest|]; cbn [Py.bind]; [|done].
  intros [= <-]. destruct (IH rest eq_refl) as [IH1 IH2].
  cbn. by rewrite IH1, IH2.
Qed.

End Exporting.

(** X24: [export_bom] fails with "Missing output path" without an output
    path. On a board without components an export as CSV, the default
    format, or as HTML always fails, whatever the file system does: both
    writers take their columns from the first entry of the list, which
    raises "list index out of range" (for CSV after the output file has
    been opened). A format other than CSV, XML, HTML and JSON never
    succeeds. When the export succeeds, the component count it reports is
    the number of rows written: with grouping (the default) the number of
    groups, not of components. *)
Theorem export_bom_outcomes (env : ExportCommands.BomEnvironment)
    (b : pcbnew.BOARD) (params : ExportCommands.BomParams) :
  (Py.truthy Py.truthy_str (ExportCommands.outputPath params) = false →
   ExportCommands.export_bom env b params
   = Refused "Missing output path" "outputPath parameter is required")
  ∧ (pcbnew.GetFootprints b = [] →
     Py.truthy Py.truthy_str (ExportCommands.outputPath params) = true →
     Py.get (ExportCommands.format params) "CSV" = "CSV"
     ∨ Py.get (ExportCommands.format params) "CSV" = "HTML" →
     (∃ e, ExportCommands.export_bom env b params
           = Refused "Failed to export BOM" e)
     ∧ (ExportCommands.makedirs env
          (ExportCommands.dirname env
             (ExportCommands.abspath env
                (Py.get (ExportCommands.outputPath params) "")))
        = Py.Return tt →
        (Py.get (ExportCommands.format params) "CSV" = "HTML" →
         ExportCommands.export_bom env b params
         = Refused "Failed to export BOM" "list index out of range")
        ∧ (Py.get (ExportCommands.format params) "CSV" = "CSV" →
           ExportCommands.open_w env
             (ExportCommands.abspath env
                (Py.get (ExportCommands.outputPath params) ""))
           = Py.Return tt →
           ExportCommands.export_bom env b params
           = Refused "Failed to export BOM" "list index out of range")))
  ∧ (Py.get (ExportCommands.format params) "CSV"
     ∉ ["CSV"; "XML"; "HTML"; "JSON"] →
     accepted (ExportCommands.export_bom env b params) = false)
  ∧ (∀ message_ file,
       ExportCommands.export_bom env b params = Accepted message_ file →
       message_
       = "Exported BOM to " +:+ Py.get (ExportCommands.format params) "CSV"
       ∧ ExportCommands.file_format file
         = Py.get (ExportCommands.format params) "CSV"
       ∧ ExportCommands.file_path file
         = ExportCommands.abspath env
             (Py.get (ExportCommands.outputPath params) "")
       ∧ ExportCommands.componentCount file
         = Z.of_nat
             (if Py.get (ExportCommands.groupByValue params) true
              then length (ExportCommands.group (ExportCommands.collect b))
              else length (pcbnew.GetFootprints b))).
Proof.
  unfold ExportCommands.export_bom. split_and!.
  - by intros ->.
  - intros Hempty -> Hformat. cbn [negb]. rewrite Hempty.
    cbn [mapM]. unfold mbind, result_bind, mret, result_ret.
    destruct (ExportCommands.makedirs env _) as [[]|e]; cbn [Py.bind].
    2: { split; [by eexists|done]. }
    assert ((if Py.get (ExportCommands.groupByValue params) true
             then ExportCommands.Row
                    <$> ExportCommands.group
                          (omap ExportCommands.part_of [])
             else []) = []) as -> by (by destruct (Py.get _ true)).
    destruct Hformat as [-> | ->]; cbn [String.eqb Ascii.eqb Bool.eqb].
    + unfold ExportCommands._export_bom_csv, mbind, result_bind.
      destruct (ExportCommands.open_w env _) as [[]|e]; cbn.
      * split; [by eexists|done].
      * split; [by eexists|]. intros _. split; [done|]. by intros _ ?.
    + cbn. split; [by eexists|done].
  - intros Hother.
    destruct (negb _); [done|]. unfold mbind, result_bind.
    destruct (ExportCommands.makedirs env _) as [[]|e]; cbn [Py.bind];
      [|done].
    destruct (mapM _ _) as [components|e]; cbn [Py.bind]; [|done].
    destruct (String.eqb_spec (Py.get (ExportCommands.format params) "CSV")
                              "CSV") as [Heq|_];
      [destruct Hother; rewrite Heq; apply (bool_decide_unpack _);
       by vm_compute|].
    destruct (String.eqb_spec (Py.get (ExportCommands.format params) "CSV")
                              "XML") as [Heq|_];
      [destruct Hother; rewrite Heq; apply (bool_decide_unpack _);
       by vm_compute|].
    destruct (String.eqb_spec (Py.get (ExportCommands.format params) "CSV")
                              "HTML") as [Heq|_];
      [destruct Hother; rewrite Heq; apply (bool_decide_unpack _);
       by vm_compute|].
    destruct (String.eqb_spec (Py.get (ExportCommands.format params) "CSV")
                              "JSON") as [Heq|_];
      [destruct Hother; rewrite Heq; apply (bool_decide_unpack _);
       by vm_compute|].
    done.
  - intros message_ file.
    destruct (negb _); [done|]. unfold mbind, result_bind.
    destruct (ExportCommands.makedirs env _) as [[]|e]; cbn [Py.bind];
      [|done].
    destruct (mapM _ _) as [components|e] eqn:Hparts; cbn [Py.bind];
      [|done].
    destruct (collected_parts env b _ _ _ Hparts) as [Hcollect Hlen].
    assert (length
              (if Py.get (ExportCommands.groupByValue params) true
               then ExportCommands.Row
                      <$> ExportCommands.group
                            (omap ExportCommands.part_of components)
               else components)
            = if Py.get (ExportCommands.groupByValue params) true
              then length (ExportCommands.group (ExportCommands.collect b))
              else length (pcbnew.GetFootprints b)) as Hcount.
    { destruct (Py.get _ true); [|done].
      by rewrite length_fmap, Hcollect. }
    repeat (match goal with
            | |- context [String.eqb ?s ?t] => destruct (String.eqb s t)
            end);
      try (match goal with
           | |- context [Py.bind ?m _] => destruct m as [[]|]; cbn [Py.bind]
           end);
      try done; intros [= <- <-]; cbn; by rewrite Hcount.
Qed.


(** ** A position without a unit *)

(** X25: the handlers that read [position["unit"]] fail on a position that
    has no unit, with the error ['unit'] of the missing key, and leave the
    board as it was: [place_component] (for a component id the library
    knows), [move_component] (for a reference on the board), [add_via] and
    [delete_trace] by position. [_get_point], which [route_trace] and
    [route_differential_pair] use, reads [point.get("unit", "mm")] instead
    and takes such a point as millimeters. *)
Theorem position_without_unit (M : Libm) (b : pcbnew.BOARD) (params : Params)
    (position_ : Point) :
  position params = Some position_ → unit position_ = None →
  (∀ component_id,
     componentId params = Some component_id → component_id ≠ "" →
     is_Some (pcbnew.FootprintLoad b component_id) →
     ComponentCommands.place_component b params
     = (failure "Failed to place component" "'unit'", b))
  ∧ (∀ reference_,
       reference params = Some reference_ → reference_ ≠ "" →
       is_Some (pcbnew.FindFootprintByReference b reference_) →
       ComponentCommands.move_component b params
       = (Refused "Failed to move component" "'unit'", b))
  ∧ RoutingCommands.add_via b params = (failure "Failed to add via" "'unit'", b)
  ∧ (Py.truthy Py.truthy_str (traceUuid params) = false →
     RoutingCommands.delete_trace M b params
     = (failure "Failed to delete trace" "'unit'", b))
  ∧ RoutingCommands._get_point b (Literal position_)
    = RoutingCommands._get_point b
        (Literal {| px := px position_; py := py position_;
                    unit := Some "mm" |}).
Proof.
  intros Hpos Hunit.
  assert (position_to_nm position_ = Py.Raise "'unit'") as Hraise.
  { unfold position_to_nm, getitem_unit. by rewrite Hunit. }
  split_and!.
  - intros component_id Hid Hne [template Hload].
    unfold ComponentCommands.place_component.
    rewrite Hid, Hpos, (truthy_str_true _ Hne), Hload, Hraise. done.
  - intros reference_ Href Hne [m Hm].
    unfold ComponentCommands.move_component.
    rewrite Href, Hpos, (truthy_str_true _ Hne), Hm, Hraise. done.
  - unfold RoutingCommands.add_via. by rewrite Hpos, Hraise.
  - intros Hid. unfold RoutingCommands.delete_trace.
    rewrite Hid, Hpos, Hraise.
    by rewrite bool_decide_eq_true_2 by (by eexists).
  - unfold RoutingCommands._get_point. by rewrite Hunit.
Qed.

(** A position (1, 2) without a unit: [add_via] fails on it, [_get_point]
    takes it as (1, 2) mm. *)
Lemma position_without_unit_witness :
  RoutingCommands.add_via (empty_board [])
    (RoutingCommands.via_at
       {| px := Py.Int 1; py := Py.Int 2; unit := None |} None)
  = (failure "Failed to add via" "'unit'", empty_board [])
  ∧ RoutingCommands._get_point (empty_board [])
      (Literal {| px := Py.Int 1; py := Py.Int 2; unit := None |})
    = Py.Return {| pcbnew.x := 1000000; pcbnew.y := 2000000 |}.
Proof.
  destruct (position_without_unit libm_sqrt (empty_board [])
              (RoutingCommands.via_at
                 {| px := Py.Int 1; py := Py.Int 2; unit := None |} None)
              {| px := Py.Int 1; py := Py.Int 2; unit := None |}
              eq_refl eq_refl) as (_ & _ & Hvia & _ & Hpoint).
  split; [exact Hvia|]. rewrite Hpoint. reflexivity.
Defined.


(** ** Aligning twice *)

Section Idempotence.
Import pcbnew ComponentCommands.

Lemma find_index_ext {A} (p : A → bool) (l k : list A) :
  Forall2 (λ a c, p a = p c) l k → find_index p l = find_index p k.
Proof.
  induction 1 as [|a c l k Hac _ IH]; [done|]. simpl.
  by rewrite Hac, IH.
Qed.

Lemma moved_only_resolve ms b b1 refs :
  moved_only ms b b1 → resolve b1 refs = resolve b refs.
Proof.
  intros (_ & Hfps & _).
  assert (∀ ref, FindFootprintByReference b1 ref
                 = FindFootprintByReference b ref) as Hfind.
  { intros ref. unfold FindFootprintByReference. symmetry.
    apply find_index_ext. eapply Forall2_impl; [exact Hfps|].
    intros fp fp' ->. done. }
  induction refs as [|ref refs IH]; [done|]. simpl. by rewrite Hfind, IH.
Qed.

Lemma SetPositionAt_same b m p :
  ((m < length (GetFootprints b))%nat → GetPosition (deref b m) = p) →
  SetPositionAt m p b = b.
Proof.
  intros Hp. unfold SetPositionAt.
  rewrite <-(with_footprints_id b) at 3. f_equal.
  apply list_eq. intros i. destruct (decide (m = i)) as [->|Hne].
  - rewrite list_lookup_alter_eq.
    destruct (GetFootprints b !! i) as [fp|] eqn:Hfp; [|done]. cbn.
    apply lookup_lt_Some in Hfp as Hlt. specialize (Hp Hlt).
    unfold deref in Hp. rewrite Hfp in Hp. cbn in Hp. subst p.
    by destruct fp.
  - by rewrite list_lookup_alter_ne.
Qed.

Lemma set_all_y_same v l b :
  (∀ m, m ∈ l → (m < length (GetFootprints b))%nat → pos_y b m = v) →
  set_all_y v l b = b.
Proof.
  induction l as [|m l IH]; intros Hv; [done|].
  unfold set_all_y in *. simpl. rewrite SetPositionAt_same.
  - apply IH. intros m' Hm'. apply Hv. by right.
  - intros Hm. unfold pos_x, pos_y in *. rewrite <-(Hv m); [|by left|done].
    by destruct (GetPosition (deref b m)).
Qed.

Lemma set_all_x_same v l b :
  (∀ m, m ∈ l → (m < length (GetFootprints b))%nat → pos_x b m = v) →
  set_all_x v l b = b.
Proof.
  induction l as [|m l IH]; intros Hv; [done|].
  unfold set_all_x in *. simpl. rewrite SetPositionAt_same.
  - apply IH. intros m' Hm'. apply Hv. by right.
  - intros Hm. unfold pos_x, pos_y in *. rewrite <-(Hv m); [|by left|done].
    by destruct (GetPosition (deref b m)).
Qed.

Lemma sum_const (f : nat → Z) v l :
  (∀ m, m ∈ l → f m = v) →
  sum (f <$> l) = Z.of_nat (length l) * v.
Proof.
  unfold sum. intros Hv.
  assert (∀ acc, foldl Z.add acc (f <$> l)
                 = acc + Z.of_nat (length l) * v) as Hgen.
  { induction l as [|m l IH]; intros acc; [simpl; lia|].
    cbn [fmap list_fmap foldl length]. rewrite IH.
    - rewrite (Hv m) by (by left). lia.
    - intros m' Hm'. apply Hv. by right. }
  by rewrite Hgen.
Qed.

(** The board the two axis alignments leave when no distribution runs. *)
Lemma align_horizontally_plain components distribution_ spacing_ b :
  components ≠ [] →
  distribution_ ∉ ["equal"; "spacing"] →
  (_align_components_horizontally components distribution_ spacing_ b).2.2
  = set_all_y (y_avg b components) (sort_by (pos_x b) components) b.
Proof.
  intros Hne Hd. rewrite align_horizontally_eq by done. cbv zeta.
  destruct (String.eqb_spec distribution_ "equal") as [->|_].
  { destruct Hd. apply (bool_decide_unpack _). by vm_compute. }
  destruct (String.eqb_spec distribution_ "spacing") as [->|_].
  { destruct Hd. apply (bool_decide_unpack _). by vm_compute. }
  done.
Qed.

Lemma align_vertically_plain components distribution_ spacing_ b :
  components ≠ [] →
  distribution_ ∉ ["equal"; "spacing"] →
  (_align_components_vertically components distribution_ spacing_ b).2.2
  = set_all_x (x_avg b components) (sort_by (pos_y b) components) b.
Proof.
  intros Hne Hd. rewrite align_vertically_eq by done. cbv zeta.
  destruct (String.eqb_spec distribution_ "equal") as [->|_].
  { destruct Hd. apply (bool_decide_unpack _). by vm_compute. }
  destruct (String.eqb_spec distribution_ "spacing") as [->|_].
  { destruct Hd. apply (bool_decide_unpack _). by vm_compute. }
  done.
Qed.

(** The board [align_components] leaves, whatever it answers. *)
Lemma align_components_board b params :
  (align_components b params).2
  = if (length (Py.get (references params) []) <? 2)%nat then b
    else match resolve b (Py.get (references params) []) with
         | inl _ => b
         | inr components =>
             if String.eqb (Py.get (alignment params) "horizontal")
                           "horizontal" then
               (_align_components_horizontally components
                  (Py.get (distribution params) "none") (spacing params)
                  b).2.2
             else if String.eqb (Py.get (alignment params) "horizontal")
                                "vertical" then
               (_align_components_vertically components
                  (Py.get (distribution params) "none") (spacing params)
                  b).2.2
             else if String.eqb (Py.get (alignment params) "horizontal")
                                "edge" then
               match edge params with
               | Some edge_ =>
                   if Py.truthy_str edge_ then
                     _align_components_to_edge components edge_ b
                   else b
               | None => b
               end
             else b
         end.
Proof.
  unfold align_components. rewrite try_except_board.
  destruct (length _ <? 2)%nat; [done|].
  destruct (resolve b _) as [ref|components]; [done|].
  destruct (String.eqb _ "horizontal").
  { destruct (_align_components_horizontally _ _ _ _) as [[?|?] [??]];
      [apply bind_on_board|done]. }
  destruct (String.eqb _ "vertical").
  { destruct (_align_components_vertically _ _ _ _) as [[?|?] [??]];
      [apply bind_on_board|done]. }
  destruct (String.eqb _ "edge"); [|done].
  destruct (edge params) as [edge_|]; [|done].
  destruct (Py.truthy_str edge_); [|done]. apply bind_on_board.
Qed.

Lemma y_avg_const b components v :
  components ≠ [] → (∀ m, m ∈ components → pos_y b m = v) →
  y_avg b components = v.
Proof.
  intros Hne Hv. unfold y_avg. rewrite (sum_const _ v) by done.
  rewrite Z.mul_comm, Z.div_mul; [done|]. destruct components; [done|].
  simpl. lia.
Qed.

Lemma x_avg_const b components v :
  components ≠ [] → (∀ m, m ∈ components → pos_x b m = v) →
  x_avg b components = v.
Proof.
  intros Hne Hv. unfold x_avg. rewrite (sum_const _ v) by done.
  rewrite Z.mul_comm, Z.div_mul; [done|]. destruct components; [done|].
  simpl. lia.
Qed.

End Idempotence.

(** X26: aligning is idempotent when nothing is distributed: for an edge
    alignment, and for a horizontal or vertical alignment whose distribution
    is neither equal nor spacing, a second identical request leaves the
    board exactly as the first one left it. In particular the floor of the
    mean does not drift. *)
Theorem alignment_is_idempotent (b : pcbnew.BOARD) (params : Params) :
  Py.get (alignment params) "horizontal" = "edge"
  ∨ Py.get (distribution params) "none" ∉ ["equal"; "spacing"] →
  (ComponentCommands.align_components
     (ComponentCommands.align_components b params).2 params).2
  = (ComponentCommands.align_components b params).2.
Proof.
  intros Hplain.
  assert (moved_only (selected b params) b
            (ComponentCommands.align_components b params).2) as Hmoved.
  { unfold selected. rewrite align_components_board.
    destruct (length _ <? 2)%nat; [apply moved_only_refl|].
    destruct (ComponentCommands.resolve b _) as [ref|components];
      [apply moved_only_refl|].
    destruct (String.eqb _ "horizontal"); [apply moved_only_horizontally|].
    destruct (String.eqb _ "vertical"); [apply moved_only_vertically|].
    destruct (String.eqb _ "edge"); [|apply moved_only_refl].
    destruct (edge params) as [edge_|]; [|apply moved_only_refl].
    destruct (Py.truthy_str edge_); [|apply moved_only_refl].
    apply moved_only_to_edge. }
  rewrite (align_components_board (ComponentCommands.align_components b params).2).
  rewrite (moved_only_resolve _ _ _ _ Hmoved).
  rewrite (align_components_board b) in Hmoved |- *.
  destruct (length _ <? 2)%nat; [done|].
  destruct (ComponentCommands.resolve b _) as [ref|components] eqn:Hres;
    [done|].
  destruct (resolve_valid _ _ _ Hres) as (Hl & Hvalid & _).
  destruct (decide (components = [])) as [->|Hne].
  { destruct (String.eqb _ "horizontal"); [done|].
    destruct (String.eqb _ "vertical"); [done|].
    destruct (String.eqb _ "edge"); [|done].
    destruct (edge params) as [edge_|]; [|done].
    destruct (Py.truthy_str edge_); [|done].
    rewrite !align_to_edge_eq. by repeat case_match. }
  assert (∀ m, m ∈ components
               → (m < length (pcbnew.GetFootprints b))%nat) as Hlt.
  { intros m Hm. by eapply Forall_forall in Hvalid. }
  destruct (String.eqb_spec (Py.get (alignment params) "horizontal")
                            "horizontal") as [Ha|_].
  { destruct Hplain as [He|Hd]; [congruence|].
    rewrite !align_horizontally_plain by done.
    set (v := y_avg b components).
    set (b1 := set_all_y v _ b).
    assert (∀ m, m ∈ components → ComponentCommands.pos_y b1 m = v) as Hy.
    { intros m Hm. unfold b1. rewrite pos_y_set_all_y, decide_True; [done|].
      split; [by rewrite sort_by_perm|by apply Hlt]. }
    rewrite (y_avg_const b1 components v) by done.
    apply set_all_y_same. intros m Hm _. apply Hy.
    by rewrite sort_by_perm in Hm. }
  destruct (String.eqb_spec (Py.get (alignment params) "horizontal")
                            "vertical") as [Ha|_].
  { destruct Hplain as [He|Hd]; [congruence|].
    rewrite !align_vertically_plain by done.
    set (v := x_avg b components).
    set (b1 := set_all_x v _ b).
    assert (∀ m, m ∈ components → ComponentCommands.pos_x b1 m = v) as Hx.
    { intros m Hm. unfold b1. rewrite pos_x_set_all_x, decide_True; [done|].
      split; [by rewrite sort_by_perm|by apply Hlt]. }
    rewrite (x_avg_const b1 components v) by done.
    apply set_all_x_same. intros m Hm _. apply Hx.
    by rewrite sort_by_perm in Hm. }
  destruct (String.eqb _ "edge"); [|done].
  destruct (edge params) as [edge_|]; [|done].
  destruct (Py.truthy_str edge_); [|done].
  rewrite !align_to_edge_eq.
  assert (∀ l v, pcbnew.GetBoardEdgesBoundingBox (set_all_x v l b)
                 = pcbnew.GetBoardEdgesBoundingBox b) as Hbx.
  { intros l v. unfold set_all_x. generalize b.
    induction l as [|m l IH]; intros b'; [done|]. simpl. by rewrite IH. }
  assert (∀ l v, pcbnew.GetBoardEdgesBoundingBox (set_all_y v l b)
                 = pcbnew.GetBoardEdgesBoundingBox b) as Hby.
  { intros l v. unfold set_all_y. generalize b.
    induction l as [|m l IH]; intros b'; [done|]. simpl. by rewrite IH. }
  repeat case_match; try done; rewrite ?Hbx, ?Hby.
  - apply set_all_x_same. intros m Hm _.
    rewrite pos_x_set_all_x, decide_True; [done|]. split; [done|by apply Hlt].
  - apply set_all_x_same. intros m Hm _.
    rewrite pos_x_set_all_x, decide_True; [done|]. split; [done|by apply Hlt].
  - apply set_all_y_same. intros m Hm _.
    rewrite pos_y_set_all_y, decide_True; [done|]. split; [done|by apply Hlt].
  - apply set_all_y_same. intros m Hm _.
    rewrite pos_y_set_all_y, decide_True; [done|]. split; [done|by apply Hlt].
Qed.

(** Three parts aligned horizontally, twice. *)
Lemma alignment_is_idempotent_witness :
  (ComponentCommands.align_components
     (ComponentCommands.align_components three_parts_board
        (align_request ["U1"; "U2"; "U3"] "horizontal" "none")).2
     (align_request ["U1"; "U2"; "U3"] "horizontal" "none")).2
  = (ComponentCommands.align_components three_parts_board
       (align_request ["U1"; "U2"; "U3"] "horizontal" "none")).2.
Proof.
  apply alignment_is_idempotent. right.
  apply (bool_decide_unpack _). by vm_compute.
Defined.


(** ** Distributing twice *)

Section DistributingTwice.
Import pcbnew ComponentCommands.

Lemma spread_x_same f lo hi l b :
  (∀ i m, (lo ≤ i < hi)%nat → l !! i = Some m →
          (m < length (GetFootprints b))%nat → pos_x b m = f i) →
  spread_x f lo hi l b = b.
Proof.
  intros Hf. unfold spread_x, for_range.
  assert (∀ is_, (∀ i, i ∈ is_ → (lo ≤ i < hi)%nat) →
            foldl (λ b i, match l !! i with
                          | Some m =>
                              SetPositionAt m {| x := f i; y := pos_y b m |} b
                          | None => b
                          end) b is_ = b) as Hgen.
  { induction is_ as [|i is_ IH]; intros His; [done|]. simpl.
    destruct (l !! i) as [m|] eqn:Hm.
    - rewrite SetPositionAt_same.
      + apply IH. intros j Hj. apply His. by right.
      + intros Hlt. unfold pos_x, pos_y in *.
        rewrite <-(Hf i m); [|apply His; by left|done|done].
        by destruct (GetPosition (deref b m)).
    - apply IH. intros j Hj. apply His. by right. }
  apply Hgen. intros i Hi%elem_of_seq. lia.
Qed.

Lemma align_horizontally_equal_twice components spacing_ b :
  Forall (λ m, (m < length (GetFootprints b))%nat) components →
  NoDup components → (2 ≤ length components)%nat →
  (_align_components_horizontally components "equal" spacing_
     (_align_components_horizontally components "equal" spacing_ b).2.2).2.2
  = (_align_components_horizontally components "equal" spacing_ b).2.2.
Proof.
  intros Hvalid Hnd Hlen.
  assert (components ≠ []) as Hne by (intros ->; simpl in Hlen; lia).
  destruct (align_horizontally_equal components spacing_ b Hvalid Hnd Hlen)
    as (S & first & final & Hperm & Hsorted & Hfirst & Hfinal & Hpos).
  pose proof (moved_only_horizontally components "equal" spacing_ b)
    as (_ & Hfps & _).
  apply Forall2_length in Hfps.
  assert (∀ m, m ∈ components →
            pos_y (_align_components_horizontally components "equal"
                     spacing_ b).2.2 m = y_avg b components) as Hy.
  { intros m Hm. by apply align_horizontally_pos_y. }
  set (b1 := (_align_components_horizontally components "equal" spacing_
                b).2.2) in *.
  assert (length S = length components) as HlS by (by rewrite Hperm).
  set (n := length S) in *.
  set (x0 := pos_x b first) in *. set (xn := pos_x b final) in *.
  set (g := λ i : nat, if decide (i = (n - 1)%nat) then xn
                       else equal_step x0 xn n i).
  assert (x0 ≤ xn) as Hx0n.
  { eapply (sorted_lookup_le _ S 0%nat (n - 1)%nat); [done..|lia]. }
  assert (0 ≤ (xn - x0) `div` (Z.of_nat n - 1)) as Hstep
    by (apply Z.div_pos; lia).
  assert ((Z.of_nat n - 1) * ((xn - x0) `div` (Z.of_nat n - 1)) ≤ xn - x0)
    as Hfit by (apply Z.mul_div_le; lia).
  assert (∀ i j, (i ≤ j < n)%nat → g i ≤ g j) as Hmono.
  { intros i j Hij. unfold g, equal_step.
    repeat case_decide; try lia; nia. }
  assert (∀ a k, (a + k ≤ n)%nat → StronglySorted Z.le (g <$> seq a k))
    as Hgs.
  { intros a k. revert a. induction k as [|k IH]; intros a Hak;
      [constructor|].
    cbn. constructor; [apply IH; lia|].
    apply Forall_fmap, Forall_forall. intros j Hj%elem_of_seq. cbn.
    apply Hmono. lia. }
  assert (pos_x b1 <$> S = g <$> seq 0 n) as HS.
  { apply list_eq. intros i. rewrite !list_lookup_fmap.
    destruct (S !! i) as [m|] eqn:Hi.
    - pose proof (lookup_lt_Some _ _ _ Hi).
      rewrite lookup_seq_lt by done. cbn. f_equal. by rewrite (Hpos i m Hi).
    - apply lookup_ge_None in Hi. by rewrite lookup_seq_ge by done. }
  set (S' := sort_by (pos_x b1) components).
  assert (pos_x b1 <$> S' = g <$> seq 0 n) as HS'.
  { apply (StronglySorted_unique Z.le).
    - apply (StronglySorted_fmap _ (λ a c, pos_x b1 a ≤ pos_x b1 c));
        [done|apply sort_by_sorted].
    - apply Hgs. lia.
    - rewrite <-HS. unfold S'. by rewrite sort_by_perm, Hperm. }
  assert (length S' = n) as HlS'
    by (unfold S'; rewrite sort_by_perm; lia).
  assert (∀ i m, S' !! i = Some m → pos_x b1 m = g i) as Hpos'.
  { intros i m Hi.
    assert ((pos_x b1 <$> S') !! i = Some (pos_x b1 m)) as Hv
      by (by rewrite list_lookup_fmap, Hi).
    rewrite HS', list_lookup_fmap in Hv.
    pose proof (lookup_lt_Some _ _ _ Hi).
    rewrite lookup_seq_lt in Hv by lia. cbn in Hv. by injection Hv as <-. }
  rewrite (align_horizontally_eq components "equal" spacing_ b1) by done.
  cbv zeta. fold S'. cbn [String.eqb Ascii.eqb Bool.eqb andb].
  replace (1 <? length S')%nat with true
    by (symmetry; apply Nat.ltb_lt; lia).
  cbn [fst snd].
  rewrite (y_avg_const b1 components (y_avg b components)) by done.
  rewrite (set_all_y_same _ S' b1).
  2: { intros m Hm _. apply Hy. unfold S' in Hm.
       by rewrite sort_by_perm in Hm. }
  apply spread_x_same. intros i m Hi Him _.
  rewrite head_lookup, last_lookup.
  destruct (S' !! 0%nat) as [first'|] eqn:Hfirst';
    [|apply lookup_ge_None in Hfirst'; lia].
  replace (pred (length S')) with (n - 1)%nat by lia.
  destruct (S' !! (n - 1)%nat) as [final'|] eqn:Hfinal';
    [|apply lookup_ge_None in Hfinal'; lia].
  cbn [default from_option id].
  rewrite (Hpos' _ _ Him), (Hpos' _ _ Hfirst'), (Hpos' _ _ Hfinal'), HlS'.
  unfold g, equal_step. repeat case_decide; try lia.
  change (Z.of_nat 0) with 0. rewrite Z.mul_0_l, Z.add_0_r. done.
Qed.

(** The mirror images for the vertical alignment. *)
Lemma spread_y_same f lo hi l b :
  (∀ i m, (lo ≤ i < hi)%nat → l !! i = Some m →
          (m < length (GetFootprints b))%nat → pos_y b m = f i) →
  spread_y f lo hi l b = b.
Proof.
  intros Hf. unfold spread_y, for_range.
  assert (∀ is_, (∀ i, i ∈ is_ → (lo ≤ i < hi)%nat) →
            foldl (λ b i, match l !! i with
                          | Some m =>
                              SetPositionAt m {| x := pos_x b m; y := f i |} b
                          | None => b
                          end) b is_ = b) as Hgen.
  { induction is_ as [|i is_ IH]; intros His; [done|]. simpl.
    destruct (l !! i) as [m|] eqn:Hm.
    - rewrite SetPositionAt_same.
      + apply IH. intros j Hj. apply His. by right.
      + intros Hlt. unfold pos_y, pos_x in *.
        rewrite <-(Hf i m); [|apply His; by left|done|done].
        by destruct (GetPosition (deref b m)).
    - apply IH. intros j Hj. apply His. by right. }
  apply Hgen. intros i Hi%elem_of_seq. lia.
Qed.

Lemma align_vertically_equal_twice components spacing_ b :
  Forall (λ m, (m < length (GetFootprints b))%nat) components →
  NoDup components → (2 ≤ length components)%nat →
  (_align_components_vertically components "equal" spacing_
     (_align_components_vertically components "equal" spacing_ b).2.2).2.2
  = (_align_components_vertically components "equal" spacing_ b).2.2.
Proof.
  intros Hvalid Hnd Hlen.
  assert (components ≠ []) as Hne by (intros ->; simpl in Hlen; lia).
  destruct (align_vertically_equal components spacing_ b Hvalid Hnd Hlen)
    as (S & first & final & Hperm & Hsorted & Hfirst & Hfinal & Hpos).
  pose proof (moved_only_vertically components "equal" spacing_ b)
    as (_ & Hfps & _).
  apply Forall2_length in Hfps.
  assert (∀ m, m ∈ components →
            pos_x (_align_components_vertically components "equal"
                     spacing_ b).2.2 m = x_avg b components) as Hy.
  { intros m Hm. by apply align_vertically_pos_x. }
  set (b1 := (_align_components_vertically components "equal" spacing_
                b).2.2) in *.
  assert (length S = length components) as HlS by (by rewrite Hperm).
  set (n := length S) in *.
  set (x0 := pos_y b first) in *. set (xn := pos_y b final) in *.
  set (g := λ i : nat, if decide (i = (n - 1)%nat) then xn
                       else equal_step x0 xn n i).
  assert (x0 ≤ xn) as Hx0n.
  { eapply (sorted_lookup_le _ S 0%nat (n - 1)%nat); [done..|lia]. }
  assert (0 ≤ (xn - x0) `div` (Z.of_nat n - 1)) as Hstep
    by (apply Z.div_pos; lia).
  assert ((Z.of_nat n - 1) * ((xn - x0) `div` (Z.of_nat n - 1)) ≤ xn - x0)
    as Hfit by (apply Z.mul_div_le; lia).
  assert (∀ i j, (i ≤ j < n)%nat → g i ≤ g j) as Hmono.
  { intros i j Hij. unfold g, equal_step.
    repeat case_decide; try lia; nia. }
  assert (∀ a k, (a + k ≤ n)%nat → StronglySorted Z.le (g <$> seq a k))
    as Hgs.
  { intros a k. revert a. induction k as [|k IH]; intros a Hak;
      [constructor|].
    cbn. constructor; [apply IH; lia|].
    apply Forall_fmap, Forall_forall. intros j Hj%elem_of_seq. cbn.
    apply Hmono. lia. }
  assert (pos_y b1 <$> S = g <$> seq 0 n) as HS.
  { apply list_eq. intros i. rewrite !list_lookup_fmap.
    destruct (S !! i) as [m|] eqn:Hi.
    - pose proof (lookup_lt_Some _ _ _ Hi).
      rewrite lookup_seq_lt by done. cbn. f_equal. by rewrite (Hpos i m Hi).
    - apply lookup_ge_None in Hi. by rewrite lookup_seq_ge by done. }
  set (S' := sort_by (pos_y b1) components).
  assert (pos_y b1 <$> S' = g <$> seq 0 n) as HS'.
  { apply (StronglySorted_unique Z.le).
    - apply (StronglySorted_fmap _ (λ a c, pos_y b1 a ≤ pos_y b1 c));
        [done|apply sort_by_sorted].
    - apply Hgs. lia.
    - rewrite <-HS. unfold S'. by rewrite sort_by_perm, Hperm. }
  assert (length S' = n) as HlS'
    by (unfold S'; rewrite sort_by_perm; lia).
  assert (∀ i m, S' !! i = Some m → pos_y b1 m = g i) as Hpos'.
  { intros i m Hi.
    assert ((pos_y b1 <$> S') !! i = Some (pos_y b1 m)) as Hv
      by (by rewrite list_lookup_fmap, Hi).
    rewrite HS', list_lookup_fmap in Hv.
    pose proof (lookup_lt_Some _ _ _ Hi).
    rewrite lookup_seq_lt in Hv by lia. cbn in Hv. by injection Hv as <-. }
  rewrite (align_vertically_eq components "equal" spacing_ b1) by done.
  cbv zeta. fold S'. cbn [String.eqb Ascii.eqb Bool.eqb andb].
  replace (1 <? length S')%nat with true
    by (symmetry; apply Nat.ltb_lt; lia).
  cbn [fst snd].
  rewrite (x_avg_const b1 components (x_avg b components)) by done.
  rewrite (set_all_x_same _ S' b1).
  2: { intros m Hm _. apply Hy. unfold S' in Hm.
       by rewrite sort_by_perm in Hm. }
  apply spread_y_same. intros i m Hi Him _.
  rewrite head_lookup, last_lookup.
  destruct (S' !! 0%nat) as [first'|] eqn:Hfirst';
    [|apply lookup_ge_None in Hfirst'; lia].
  replace (pred (length S')) with (n - 1)%nat by lia.
  destruct (S' !! (n - 1)%nat) as [final'|] eqn:Hfinal';
    [|apply lookup_ge_None in Hfinal'; lia].
  cbn [default from_option id].
  rewrite (Hpos' _ _ Him), (Hpos' _ _ Hfirst'), (Hpos' _ _ Hfinal'), HlS'.
  unfold g, equal_step. repeat case_decide; try lia.
  change (Z.of_nat 0) with 0. rewrite Z.mul_0_l, Z.add_0_r. done.
Qed.

End DistributingTwice.

(** X27: distributing equally is idempotent: for a horizontal or a vertical
    alignment with [distribution = equal] and pairwise distinct references,
    a second identical request leaves the board exactly as the first one
    left it, although the step is a floor division and the second request
    sorts the components anew. *)
Theorem equal_distribution_is_idempotent (b : pcbnew.BOARD)
    (params : Params) :
  Py.get (distribution params) "none" = "equal" →
  Py.get (alignment params) "horizontal" = "horizontal"
  ∨ Py.get (alignment params) "horizontal" = "vertical" →
  NoDup (Py.get (references params) []) →
  (ComponentCommands.align_components
     (ComponentCommands.align_components b params).2 params).2
  = (ComponentCommands.align_components b params).2.
Proof.
  intros Hd Ha Hrefs.
  assert (moved_only (selected b params) b
            (ComponentCommands.align_components b params).2) as Hmoved.
  { unfold selected. rewrite align_components_board.
    destruct (length _ <? 2)%nat eqn:Hlen; [apply moved_only_refl|].
    destruct (ComponentCommands.resolve b _) as [ref|components];
      [apply moved_only_refl|].
    destruct Ha as [-> | ->]; cbn [String.eqb Ascii.eqb Bool.eqb].
    - apply moved_only_horizontally.
    - apply moved_only_vertically. }
  rewrite (align_components_board
             (ComponentCommands.align_components b params).2).
  rewrite (moved_only_resolve _ _ _ _ Hmoved).
  rewrite (align_components_board b).
  destruct (length _ <? 2)%nat eqn:Hlen; [done|].
  apply Nat.ltb_ge in Hlen.
  destruct (ComponentCommands.resolve b _) as [ref|components] eqn:Hres;
    [done|].
  destruct (resolve_valid _ _ _ Hres) as (Hl & Hvalid & Hnd).
  rewrite Hd.
  destruct Ha as [-> | ->]; cbn [String.eqb Ascii.eqb Bool.eqb].
  - apply align_horizontally_equal_twice; [done|by apply Hnd|lia].
  - apply align_vertically_equal_twice; [done|by apply Hnd|lia].
Qed.

(** Three parts distributed equally along X, twice. *)
Lemma equal_distribution_is_idempotent_witness :
  (ComponentCommands.align_components
     (ComponentCommands.align_components three_parts_board
        (align_request ["U1"; "U2"; "U3"] "horizontal" "equal")).2
     (align_request ["U1"; "U2"; "U3"] "horizontal" "equal")).2
  = (ComponentCommands.align_components three_parts_board
       (align_request ["U1"; "U2"; "U3"] "horizontal" "equal")).2.
Proof.
  apply equal_distribution_is_idempotent.
  - reflexivity.
  - by left.
  - apply (bool_decide_unpack _). by vm_compute.
Defined.
